(** * FinHealth: the financial health scoring and benchmarking engine

    A shallow embedding of the computational core of the FinHealth backend
    (backend/services): health_score_engine.py, health_score.py,
    financial_calculator.py, industry_benchmark.py and forecasting_engine.py.

    Numbers.  Python floats and ints are modelled as exact rationals [Q];
    comparisons are the decidable [Qle_bool]; results are compared with the
    rational equality [==].  The model follows neither the rounding of the
    doubles, nor their overflow to an infinity, nor their underflow to zero.
    The properties are therefore stated in forms that the doubles share:
    orders, bounds, case distinctions away from the boundary of a comparison,
    and values up to a stated tolerance; where the doubles could leave their
    range the amounts are taken to be [ordinary].  Division by zero is not a
    value of [Q]: every division of the source is either guarded the way the
    source guards it or goes through [py_div], which raises
    [ZeroDivisionError].

    Strings.  A Python str is modelled by the [string] of its characters,
    which are taken to have code points below 256.

    Dictionaries.  A Python dict with string keys is a [gmap string _];
    [d.get(k, v)] is [dict_get].  The columns of ["financial_data"], which the
    source iterates in insertion order, are an association list.

    Errors.  A computation that can raise returns [result].  Its third
    outcome, [NotFinite], stands for a conversion that yields an infinity or
    a nan: the source computes on with it, the model does not. *)

From Stdlib Require Import QArith Qabs Qround Lqa ZArith String Ascii List.
From stdpp Require Import base option list gmap strings sorting.

Open Scope string_scope.
Open Scope Q_scope.

(* ===================================================================== *)
(** ** Python numbers on [Q] *)
(* ===================================================================== *)

Module Py.

(** [a >= b], [a > b], [a <= b] and [a < b] on numbers. *)
Definition geb (a b : Q) : bool := Qle_bool b a.
Definition gtb (a b : Q) : bool := negb (Qle_bool a b).
Definition leb (a b : Q) : bool := Qle_bool a b.
Definition ltb (a b : Q) : bool := negb (Qle_bool b a).

(** [min(a, b)] and [max(a, b)]: Python returns the first argument unless the
    second is strictly smaller (larger). *)
Definition min (a b : Q) : Q := if ltb b a then b else a.
Definition max (a b : Q) : Q := if gtb b a then b else a.

(** Round half to even, the rounding of the builtin [round]. *)
Definition round_half_even (x : Q) : Z :=
  let f := Qfloor x in
  match Qcompare (x - inject_Z f) (1 # 2) with
  | Lt => f
  | Gt => (f + 1)%Z
  | Eq => if Z.even f then f else (f + 1)%Z
  end.

(** [round(x, n)] for a non-negative number of digits [n]. *)
Definition round (x : Q) (n : nat) : Q :=
  let scale := inject_Z (10 ^ Z.of_nat n) in
  Qred (inject_Z (round_half_even (x * scale)) / scale).

(** [round(x)]: the nearest integer. *)
Definition round0 (x : Q) : Q := inject_Z (round_half_even x).

End Py.

Infix ">=?" := Py.geb (at level 70, no associativity) : Q_scope.
Infix ">?" := Py.gtb (at level 70, no associativity) : Q_scope.
Infix "<=?" := Py.leb (at level 70, no associativity) : Q_scope.
Infix "<?" := Py.ltb (at level 70, no associativity) : Q_scope.

(** [d.get(k, v)]. *)
Definition dict_get {V : Type} (d : gmap string V) (k : string) (v : V) : V :=
  default v (d !! k).

(* ===================================================================== *)
(** ** health_score_engine.py: class HealthScoreEngine *)
(* ===================================================================== *)

(** One entry of [INDUSTRY_WEIGHTS]: the five category weights. *)
Record weights : Type := mk_weights {
  liquidity : Q;
  profitability : Q;
  solvency : Q;
  efficiency : Q;
  cash_flow : Q
}.

Definition INDUSTRY_WEIGHTS : gmap string weights :=
  list_to_map [
    ("Manufacturing", mk_weights 0.20 0.25 0.20 0.20 0.15);
    ("Retail",        mk_weights 0.25 0.20 0.15 0.25 0.15);
    ("Agriculture",   mk_weights 0.30 0.20 0.15 0.15 0.20);
    ("Services",      mk_weights 0.20 0.30 0.15 0.15 0.20);
    ("Logistics",     mk_weights 0.20 0.20 0.25 0.20 0.15);
    ("E-commerce",    mk_weights 0.25 0.20 0.15 0.20 0.20)
  ].

Definition DEFAULT_WEIGHTS : weights := mk_weights 0.20 0.25 0.20 0.15 0.20.

(** [INDUSTRY_WEIGHTS.get(industry, DEFAULT_WEIGHTS)], the first statement of
    [calculate_health_score]. *)
Definition weights_for (industry : string) : weights :=
  dict_get INDUSTRY_WEIGHTS industry DEFAULT_WEIGHTS.

Definition weights_sum (w : weights) : Q :=
  liquidity w + profitability w + solvency w + efficiency w + cash_flow w.

(** *** The sub-metric curves of [_score_liquidity] *)

Definition cr_score (current_ratio : Q) : Q :=
  if current_ratio >=? 2.0 then 100
  else if current_ratio >=? 1.5 then 80 + (current_ratio - 1.5) * 40
  else if current_ratio >=? 1.0 then 50 + (current_ratio - 1.0) * 60
  else if current_ratio >=? 0.5 then 20 + (current_ratio - 0.5) * 60
  else current_ratio * 40.

Definition qr_score (quick_ratio : Q) : Q :=
  if quick_ratio >=? 1.5 then 100
  else if quick_ratio >=? 1.0 then 70 + (quick_ratio - 1.0) * 60
  else if quick_ratio >=? 0.5 then 30 + (quick_ratio - 0.5) * 80
  else quick_ratio * 60.

Definition cash_score (cash_ratio : Q) : Q :=
  if cash_ratio >=? 1.0 then 100
  else if cash_ratio >=? 0.5 then 70 + (cash_ratio - 0.5) * 60
  else if cash_ratio >=? 0.2 then 30 + (cash_ratio - 0.2) * 133
  else cash_ratio * 150.

Definition _score_liquidity (metrics : gmap string Q) : Q :=
  let current_ratio := dict_get metrics "current_ratio" 0 in
  let quick_ratio := dict_get metrics "quick_ratio" 0 in
  let cash_ratio := dict_get metrics "cash_ratio" 0 in
  cr_score current_ratio * 0.4 + qr_score quick_ratio * 0.35
  + cash_score cash_ratio * 0.25.

(** *** The sub-metric curves of [_score_profitability] *)

Definition gm_score (gross_margin : Q) : Q :=
  if gross_margin >=? 50 then 100
  else if gross_margin >=? 30 then 60 + (gross_margin - 30) * 2
  else if gross_margin >=? 15 then 30 + (gross_margin - 15) * 2
  else if gross_margin >? 0 then gross_margin * 2
  else 0.

Definition nm_score (net_margin : Q) : Q :=
  if net_margin >=? 20 then 100
  else if net_margin >=? 10 then 60 + (net_margin - 10) * 4
  else if net_margin >=? 5 then 30 + (net_margin - 5) * 6
  else if net_margin >? 0 then net_margin * 6
  else 0.

Definition roe_score (roe : Q) : Q :=
  if roe >=? 25 then 100
  else if roe >=? 15 then 60 + (roe - 15) * 4
  else if roe >=? 5 then 20 + (roe - 5) * 4
  else if roe >? 0 then roe * 4
  else 0.

Definition _score_profitability (metrics : gmap string Q) : Q :=
  let gross_margin := dict_get metrics "gross_margin" 0 in
  let net_margin := dict_get metrics "net_margin" 0 in
  let roe := dict_get metrics "roe" 0 in
  gm_score gross_margin * 0.3 + nm_score net_margin * 0.4 + roe_score roe * 0.3.

(** *** The sub-metric curves of [_score_solvency] *)

Definition de_score (debt_to_equity : Q) : Q :=
  if debt_to_equity <=? 0.5 then 100
  else if debt_to_equity <=? 1.0 then 70 + (1.0 - debt_to_equity) * 60
  else if debt_to_equity <=? 2.0 then 30 + (2.0 - debt_to_equity) * 40
  else if debt_to_equity <=? 3.0 then (3.0 - debt_to_equity) * 30
  else 0.

Definition dr_score (debt_ratio : Q) : Q :=
  if debt_ratio <=? 0.3 then 100
  else if debt_ratio <=? 0.5 then 70 + (0.5 - debt_ratio) * 150
  else if debt_ratio <=? 0.7 then 30 + (0.7 - debt_ratio) * 200
  else Py.max 0 ((1.0 - debt_ratio) * 100).

Definition ic_score (interest_coverage : Q) : Q :=
  if interest_coverage >=? 5 then 100
  else if interest_coverage >=? 3 then 70 + (interest_coverage - 3) * 15
  else if interest_coverage >=? 1.5 then 30 + (interest_coverage - 1.5) * 27
  else if interest_coverage >? 1 then (interest_coverage - 1) * 60
  else 0.

Definition _score_solvency (metrics : gmap string Q) : Q :=
  let debt_to_equity := dict_get metrics "debt_to_equity" 0 in
  let debt_ratio := dict_get metrics "debt_ratio" 0 in
  let interest_coverage := dict_get metrics "interest_coverage" 0 in
  de_score debt_to_equity * 0.35 + dr_score debt_ratio * 0.35
  + ic_score interest_coverage * 0.30.

(** *** The sub-metric curves of [_score_efficiency] *)

Definition it_score (inventory_turnover : Q) : Q :=
  if inventory_turnover >=? 10 then 100
  else if inventory_turnover >=? 5 then 60 + (inventory_turnover - 5) * 8
  else if inventory_turnover >=? 2 then 20 + (inventory_turnover - 2) * 13.3
  else if inventory_turnover >? 0 then inventory_turnover * 10
  else 50.

Definition rt_score (receivables_turnover : Q) : Q :=
  if receivables_turnover >=? 12 then 100
  else if receivables_turnover >=? 8 then 70 + (receivables_turnover - 8) * 7.5
  else if receivables_turnover >=? 4 then 30 + (receivables_turnover - 4) * 10
  else if receivables_turnover >? 0 then receivables_turnover * 7.5
  else 50.

Definition at_score (asset_turnover : Q) : Q :=
  if asset_turnover >=? 2.0 then 100
  else if asset_turnover >=? 1.0 then 50 + (asset_turnover - 1.0) * 50
  else if asset_turnover >=? 0.5 then 20 + (asset_turnover - 0.5) * 60
  else if asset_turnover >? 0 then asset_turnover * 40
  else 0.

Definition _score_efficiency (metrics : gmap string Q) : Q :=
  let inventory_turnover := dict_get metrics "inventory_turnover" 0 in
  let receivables_turnover := dict_get metrics "receivables_turnover" 0 in
  let asset_turnover := dict_get metrics "asset_turnover" 0 in
  it_score inventory_turnover * 0.35 + rt_score receivables_turnover * 0.35
  + at_score asset_turnover * 0.30.

(** *** The sub-metric curves of [_score_cash_flow]

    The source names the cash-runway score [cr_score] again; it is
    [runway_score] here. *)

Definition runway_score (cash_runway : Q) : Q :=
  if cash_runway >=? 365 then 100
  else if cash_runway >=? 180 then 70 + (cash_runway - 180) * 0.16
  else if cash_runway >=? 90 then 40 + (cash_runway - 90) * 0.33
  else if cash_runway >=? 30 then 10 + (cash_runway - 30) * 0.5
  else cash_runway * 0.33.

Definition wc_score (working_capital : Q) : Q :=
  if working_capital >? 0
  then Py.min 100 (50 + (working_capital / 10000) * 5)
  else Py.max 0 (50 + (working_capital / 10000) * 5).

Definition wcc_score (wc_cycle : Q) : Q :=
  if wc_cycle <=? 30 then 100
  else if wc_cycle <=? 60 then 70 + (60 - wc_cycle) * 1
  else if wc_cycle <=? 90 then 40 + (90 - wc_cycle) * 1
  else if wc_cycle <=? 120 then 20 + (120 - wc_cycle) * 0.67
  else Py.max 0 (20 - (wc_cycle - 120) * 0.2).

Definition _score_cash_flow (metrics : gmap string Q) : Q :=
  let cash_runway := dict_get metrics "cash_runway_days" 0 in
  let working_capital := dict_get metrics "working_capital" 0 in
  let wc_cycle := dict_get metrics "working_capital_cycle" 0 in
  runway_score cash_runway * 0.4 + wc_score working_capital * 0.3
  + wcc_score wc_cycle * 0.3.

(** *** Grade and risk level *)

Definition _calculate_grade (score : Q) : string :=
  if score >=? 90 then "A+"
  else if score >=? 85 then "A"
  else if score >=? 80 then "A-"
  else if score >=? 75 then "B+"
  else if score >=? 70 then "B"
  else if score >=? 65 then "B-"
  else if score >=? 60 then "C+"
  else if score >=? 55 then "C"
  else if score >=? 50 then "C-"
  else if score >=? 40 then "D"
  else "F".

Definition _calculate_risk_level (score : Q) : string :=
  if score >=? 75 then "Low"
  else if score >=? 55 then "Medium"
  else if score >=? 35 then "High"
  else "Critical".

(** The dict returned by [calculate_health_score]. *)
Record score_result : Type := mk_score_result {
  overall_score : Q;
  grade : string;
  liquidity_score : Q;
  profitability_score : Q;
  solvency_score : Q;
  efficiency_score : Q;
  cash_flow_score : Q;
  risk_level : string;
  weights_used : weights
}.

Definition calculate_health_score (metrics : gmap string Q) (industry : string)
  : score_result :=
  let w := weights_for industry in
  let liquidity_score := _score_liquidity metrics in
  let profitability_score := _score_profitability metrics in
  let solvency_score := _score_solvency metrics in
  let efficiency_score := _score_efficiency metrics in
  let cash_flow_score := _score_cash_flow metrics in
  let overall :=
    liquidity_score * liquidity w + profitability_score * profitability w
    + solvency_score * solvency w + efficiency_score * efficiency w
    + cash_flow_score * cash_flow w in
  {| overall_score := Py.round overall 1;
     grade := _calculate_grade overall;
     liquidity_score := Py.round liquidity_score 1;
     profitability_score := Py.round profitability_score 1;
     solvency_score := Py.round solvency_score 1;
     efficiency_score := Py.round efficiency_score 1;
     cash_flow_score := Py.round cash_flow_score 1;
     risk_level := _calculate_risk_level overall;
     weights_used := w |}.

(* ===================================================================== *)
(** ** Exceptions and JSON values *)
(* ===================================================================== *)

Inductive exn : Type :=
  | TypeError
  | ValueError
  | ZeroDivisionError
  | OverflowError
  | HTTPException (status_code : Z).

Inductive result (A : Type) : Type :=
  | Ok (a : A)
  | Raise (e : exn)
  | NotFinite.
Arguments Ok {A} a.
Arguments Raise {A} e.
Arguments NotFinite {A}.

#[global] Instance result_ret : MRet result := fun A a => Ok a.
#[global] Instance result_bind : MBind result := fun A B f m =>
  match m with
  | Ok a => f a
  | Raise e => Raise e
  | NotFinite => NotFinite
  end.

(** [a / b] on numbers: a zero divisor raises. *)
Definition py_div (a b : Q) : result Q :=
  if Qeq_bool b 0 then Raise ZeroDivisionError else Ok (a / b).

(** A value of the raw mapping, as [json.loads] delivers it: a number that is
    finite as a float, a string, a boolean or null.  Lists and nested objects
    are kept only as [VOther]: the metric extraction looks at them only to
    convert them, which fails. *)
Inductive pyval : Type :=
  | VNum (q : Q)
  | VStr (s : string)
  | VBool (b : bool)
  | VNone
  | VOther.

Module FloatLiteral.

(** The literals the builtin [float] accepts in a string: optional
    surrounding whitespace, an optional sign, and then either digits with an
    optional fraction and an optional exponent, where digits may be grouped
    by single underscores, or one of the words inf, infinity and nan in any
    case. *)
Inductive literal : Type :=
  | Number (q : Q)
  | Infinity (negative : bool)
  | NaN.

(** The whitespace that [float] strips: the ASCII characters tab to carriage
    return and the space, and the next-line and no-break-space characters,
    which are turned into spaces first. *)
Definition is_space (c : ascii) : bool :=
  let n := nat_of_ascii c in
  (Nat.eqb n 32 || (Nat.leb 9 n && Nat.leb n 13)
   || Nat.eqb n 133 || Nat.eqb n 160)%bool.

Definition digit (c : ascii) : option Z :=
  let n := nat_of_ascii c in
  if (Nat.leb 48 n && Nat.leb n 57)%bool then Some (Z.of_nat (n - 48)) else None.

Fixpoint lstrip (l : list ascii) : list ascii :=
  match l with
  | c :: l' => if is_space c then lstrip l' else l
  | [] => []
  end.

Definition strip (l : list ascii) : list ascii :=
  rev (lstrip (rev (lstrip l))).

(** Leading digits of [l]: their value, their number, and the rest.  An
    underscore is skipped when it stands between two digits. *)
Fixpoint digits (acc : Z) (n : nat) (l : list ascii) : Z * nat * list ascii :=
  match l with
  | c :: l' =>
      match digit c with
      | Some d => digits (acc * 10 + d) (S n) l'
      | None =>
          match n, l' with
          | S _, c' :: _ =>
              if (Ascii.eqb c "_" && bool_decide (is_Some (digit c')))%bool
              then digits acc n l'
              else (acc, n, l)
          | _, _ => (acc, n, l)
          end
      end
  | [] => (acc, n, [])
  end.

Definition sign (l : list ascii) : bool * list ascii :=
  match l with
  | "-"%char :: l' => (true, l')
  | "+"%char :: l' => (false, l')
  | _ => (false, l)
  end.

Definition exponent (l : list ascii) : option Z :=
  match l with
  | [] => Some 0%Z
  | c :: l' =>
      if (Ascii.eqb c "e" || Ascii.eqb c "E")%bool then
        let '(neg, l'') := sign l' in
        match digits 0 0 l'' with
        | (e, S _, []) => Some (if neg then (- e)%Z else e)
        | _ => None
        end
      else None
  end.

(** [s.lower()] on the ASCII letters of a list of characters. *)
Definition lower_letter (c : ascii) : ascii :=
  let n := nat_of_ascii c in
  if (Nat.leb 65 n && Nat.leb n 90)%bool then ascii_of_nat (n + 32) else c.

Definition word (l : list ascii) : string :=
  string_of_list_ascii (map lower_letter l).

Definition parse (s : string) : option literal :=
  let '(neg, l) := sign (strip (list_ascii_of_string s)) in
  if (String.eqb (word l) "inf" || String.eqb (word l) "infinity")%bool
  then Some (Infinity neg)
  else if String.eqb (word l) "nan" then Some NaN
  else
    let '(ip, ni, l1) := digits 0 0 l in
    let '(fp, nf, l2) :=
      match l1 with
      | "."%char :: l1' => digits 0 0 l1'
      | _ => (0%Z, 0%nat, l1)
      end in
    match (ni + nf)%nat with
    | O => None
    | S _ =>
        match exponent l2 with
        | Some e =>
            let mantissa :=
              inject_Z (ip * 10 ^ Z.of_nat nf + fp) / inject_Z (10 ^ Z.of_nat nf) in
            let v := mantissa * (10 ^ e) in
            Some (Number (Qred (if neg then - v else v)))
        | None => None
        end
    end.

End FloatLiteral.

(** The range of the doubles.  A number is converted to the nearest double:
    to an infinity from [DBL_OVERFLOW] on, the midpoint between the largest
    double and the next power of two, and to zero up to [DBL_UNDERFLOW], half
    of the smallest positive double. *)
Definition DBL_OVERFLOW : Q := inject_Z (2 ^ 1024 - 2 ^ 970).
Definition DBL_UNDERFLOW : Q := 1 / inject_Z (2 ^ 1075).

(** The builtin [float(v)].  A literal within the range of the doubles
    denotes its exact value. *)
Definition py_float (v : pyval) : result Q :=
  match v with
  | VNum q => Ok q
  | VBool b => Ok (if b then 1 else 0)
  | VStr s =>
      match FloatLiteral.parse s with
      | Some (FloatLiteral.Number q) =>
          if Qabs q <=? DBL_UNDERFLOW then Ok 0
          else if DBL_OVERFLOW <=? Qabs q then NotFinite
          else Ok q
      | Some (FloatLiteral.Infinity _) | Some FloatLiteral.NaN => NotFinite
      | None => Raise ValueError
      end
  | VNone | VOther => Raise TypeError
  end.

(** [v / n] for a value [v] of the mapping and a non-zero constant [n]. *)
Definition py_div_const (v : pyval) (n : Q) : result pyval :=
  match v with
  | VNum q => Ok (VNum (q / n))
  | VBool b => Ok (VNum ((if b then 1 else 0) / n))
  | VStr _ | VNone | VOther => Raise TypeError
  end.

(** [k in d]. *)
Definition dict_has {V : Type} (d : gmap string V) (k : string) : bool :=
  bool_decide (is_Some (d !! k)).

(* ===================================================================== *)
(** ** health_score.py: class HealthScoreCalculator *)
(* ===================================================================== *)

(** The argument of [_extract_metrics]: a mapping, or anything else. *)
Inductive pyobj : Type :=
  | ODict (d : gmap string pyval)
  | ONotDict.

(** The direct metric fields with their defaults, in the order the source
    reads them. *)
Definition METRIC_DEFAULTS : list (string * Q) :=
  [ ("current_ratio", 1.5); ("quick_ratio", 1.0); ("cash_ratio", 0.5);
    ("gross_margin", 30); ("net_margin", 10); ("roe", 12);
    ("debt_to_equity", 0.8); ("debt_ratio", 0.4); ("interest_coverage", 3.0);
    ("inventory_turnover", 6); ("receivables_turnover", 8);
    ("asset_turnover", 1.2); ("cash_runway_days", 90);
    ("working_capital", 50000); ("working_capital_cycle", 45) ].

(** [metrics[k] = float(data.get(k, dflt))] for each direct field in turn. *)
Fixpoint direct_fields (data : gmap string pyval) (fields : list (string * Q))
    (metrics : gmap string Q) : result (gmap string Q) :=
  match fields with
  | [] => Ok metrics
  | (k, dflt) :: rest =>
      x ← py_float (dict_get data k (VNum dflt));
      direct_fields data rest (<[k := x]> metrics)
  end.

(** The block guarded by ["revenue" in data or "total_revenue" in data]. *)
Definition margins_from_revenue (data : gmap string pyval)
    (metrics : gmap string Q) : result (gmap string Q) :=
  if (dict_has data "revenue" || dict_has data "total_revenue")%bool then
    revenue ← py_float (dict_get data "revenue"
                          (dict_get data "total_revenue" (VNum 0)));
    cogs ← py_float (dict_get data "cost_of_goods_sold"
                       (dict_get data "cogs" (VNum (revenue * 0.6))));
    net_income ← py_float (dict_get data "net_income"
                             (dict_get data "profit" (VNum (revenue * 0.1))));
    if revenue >? 0 then
      gm ← py_div (revenue - cogs) revenue;
      nm ← py_div net_income revenue;
      Ok (<["net_margin" := nm * 100]> (<["gross_margin" := gm * 100]> metrics))
    else Ok metrics
  else Ok metrics.

(** The block guarded by ["total_assets" in data or "assets" in data]. *)
Definition ratios_from_assets (data : gmap string pyval)
    (metrics : gmap string Q) : result (gmap string Q) :=
  if (dict_has data "total_assets" || dict_has data "assets")%bool then
    total_assets ← py_float (dict_get data "total_assets"
                               (dict_get data "assets" (VNum 1)));
    current_assets ← py_float (dict_get data "current_assets"
                                 (VNum (total_assets * 0.4)));
    current_liabilities ← py_float (dict_get data "current_liabilities"
                                      (VNum (current_assets * 0.6)));
    metrics ←
      (if current_liabilities >? 0 then
         cr ← py_div current_assets current_liabilities;
         Ok (<["current_ratio" := cr]> metrics)
       else Ok metrics);
    total_liabilities ← py_float (dict_get data "total_liabilities"
                                    (dict_get data "liabilities"
                                       (VNum (total_assets * 0.4))));
    let equity := total_assets - total_liabilities in
    if equity >? 0 then
      de ← py_div total_liabilities equity;
      let metrics := <["debt_to_equity" := de]> metrics in
      net_income ← py_float (dict_get data "net_income"
                               (dict_get data "profit" (VNum 0)));
      roe ← (if equity >? 0 then
               r ← py_div net_income equity; Ok (r * 100)
             else Ok 0);
      Ok (<["roe" := roe]> metrics)
    else Ok metrics
  else Ok metrics.

(** The block guarded by ["cash" in data or "cash_balance" in data]. *)
Definition runway_from_cash (data : gmap string pyval)
    (metrics : gmap string Q) : result (gmap string Q) :=
  if (dict_has data "cash" || dict_has data "cash_balance")%bool then
    cash ← py_float (dict_get data "cash" (dict_get data "cash_balance" (VNum 0)));
    per_month ← py_div_const (dict_get data "monthly_expenses"
                                (dict_get data "expenses" (VNum 0))) 12;
    monthly_expenses ← py_float per_month;
    if monthly_expenses >? 0 then
      daily ← py_div monthly_expenses 30;
      runway ← py_div cash daily;
      Ok (<["cash_runway_days" := runway]> metrics)
    else Ok metrics
  else Ok metrics.

Definition _extract_metrics (data : pyobj) : result (gmap string Q) :=
  match data with
  | ODict data =>
      metrics ← direct_fields data METRIC_DEFAULTS ∅;
      metrics ← margins_from_revenue data metrics;
      metrics ← ratios_from_assets data metrics;
      runway_from_cash data metrics
  | ONotDict => Ok ∅
  end.

(* ===================================================================== *)
(** ** The raw financial data *)
(* ===================================================================== *)

(** One column of ["financial_data"]: [info.get("category", "")] and
    [info.get("total", 0)] read these two entries. *)
Record column_info : Type := mk_column_info {
  category : option string;
  total : option Q
}.

(** The raw mapping as the engine reads it: its scalar entries (the direct
    metric fields and statement figures), the ["summary"] block and the
    ["financial_data"] columns in insertion order. *)
Record raw_data : Type := mk_raw_data {
  fields : gmap string pyval;
  summary : option (gmap string Q);
  financial_data : option (list (string * column_info))
}.

Definition empty_raw_data : raw_data := mk_raw_data ∅ None None.

(** [s.lower()] on ASCII letters, and [needle in s] on strings. *)
Definition lower_ascii (c : ascii) : ascii :=
  let n := nat_of_ascii c in
  if (Nat.leb 65 n && Nat.leb n 90)%bool then ascii_of_nat (n + 32) else c.

Fixpoint lower (s : string) : string :=
  match s with
  | EmptyString => EmptyString
  | String c s' => String (lower_ascii c) (lower s')
  end.

Fixpoint contains (needle s : string) : bool :=
  (String.prefix needle s
   || match s with
      | EmptyString => false
      | String _ s' => contains needle s'
      end)%bool.

(* ===================================================================== *)
(** ** financial_calculator.py: class FinancialCalculator *)
(* ===================================================================== *)

(** [financials[k] = financials.get(k, 0) + total]. *)
Definition dict_add (financials : gmap string Q) (k : string) (total : Q)
  : gmap string Q :=
  <[k := dict_get financials k 0 + total]> financials.

(** The body of the loop over ["financial_data"] in [_extract_financials]. *)
Definition extract_column (financials : gmap string Q)
    (item : string * column_info) : gmap string Q :=
  let '(col, info) := item in
  let category := default "" (category info) in
  let total := default 0 (total info) in
  if String.eqb category "revenue" then dict_add financials "revenue" total
  else if String.eqb category "expense" then dict_add financials "total_expenses" total
  else if String.eqb category "profit" then <["net_profit" := total]> financials
  else if String.eqb category "asset" then
    let financials := dict_add financials "total_assets" total in
    let col_lower := lower col in
    if (contains "cash" col_lower || contains "bank" col_lower)%bool
    then dict_add financials "cash" total
    else if contains "inventory" col_lower
    then dict_add financials "inventory" total
    else if contains "receivable" col_lower
    then dict_add financials "accounts_receivable" total
    else financials
  else if String.eqb category "liability" then
    let financials := dict_add financials "total_liabilities" total in
    if contains "payable" (lower col)
    then dict_add financials "accounts_payable" total
    else financials
  else financials.

Definition _extract_financials (raw : raw_data) : gmap string Q :=
  let financials : gmap string Q := ∅ in
  let financials :=
    match summary raw with
    | Some summary =>
        <["total_liabilities" := dict_get summary "total_liabilities" 0]>
        (<["total_assets" := dict_get summary "total_assets" 0]>
        (<["net_profit" := dict_get summary "total_profit" 0]>
        (<["total_expenses" := dict_get summary "total_expenses" 0]>
        (<["revenue" := dict_get summary "total_revenue" 0]> financials))))
    | None => financials
    end in
  let financials :=
    match financial_data raw with
    | Some columns => fold_left extract_column columns financials
    | None => financials
    end in
  (* derived values; the guard makes the two keys present *)
  let financials :=
    if (dict_has financials "revenue" && dict_has financials "total_expenses")%bool
    then
      let financials :=
        if negb (dict_has financials "net_profit")
        then <["net_profit" := dict_get financials "revenue" 0
                               - dict_get financials "total_expenses" 0]> financials
        else financials in
      let financials :=
        <["gross_profit" := dict_get financials "revenue" 0 * 0.35]> financials in
      <["operating_income" := dict_get financials "net_profit" 0 * 1.2]> financials
    else financials in
  let financials :=
    <["current_assets" := dict_get financials "cash" 0
                          + dict_get financials "accounts_receivable" 0
                          + dict_get financials "inventory" 0]> financials in
  let financials :=
    <["current_liabilities" := dict_get financials "accounts_payable" 0
                               + dict_get financials "total_liabilities" 0 * 0.3]>
      financials in
  let financials :=
    <["equity" := dict_get financials "total_assets" 0
                  - dict_get financials "total_liabilities" 0]> financials in
  let financials :=
    <["total_debt" := dict_get financials "total_liabilities" 0]> financials in
  <["cost_of_goods_sold" := dict_get financials "total_expenses" 0 * 0.7]> financials.

Definition _safe_divide (numerator denominator : Q) : result Q :=
  if Qeq_bool denominator 0 then Ok 0.0
  else py_div numerator denominator.

Definition _calculate_cash_runway (financials : gmap string Q) : result Q :=
  let cash := dict_get financials "cash" 0 in
  monthly_expenses ← py_div (dict_get financials "total_expenses" 0) 12;
  if monthly_expenses <=? 0 then Ok 365
  else
    daily_burn ← py_div monthly_expenses 30;
    if daily_burn >? 0 then
      r ← py_div cash daily_burn; Ok (Py.round0 r)
    else Ok 365.

Definition _calculate_working_capital_cycle (financials : gmap string Q)
  : result Q :=
  let inventory := dict_get financials "inventory" 0 in
  let cogs := dict_get financials "cost_of_goods_sold" 1 in
  dio ← (if cogs >? 0 then q ← py_div inventory cogs; Ok (q * 365) else Ok 0);
  let receivables := dict_get financials "accounts_receivable" 0 in
  let revenue := dict_get financials "revenue" 1 in
  dso ← (if revenue >? 0 then q ← py_div receivables revenue; Ok (q * 365) else Ok 0);
  let payables := dict_get financials "accounts_payable" 0 in
  dpo ← (if cogs >? 0 then q ← py_div payables cogs; Ok (q * 365) else Ok 0);
  Ok (Py.round0 (dio + dso - dpo)).

(** The dict returned by [calculate_all_metrics]: the numeric metrics, the two
    growth entries (absent values are [None]) and the raw values. *)
Record all_metrics : Type := mk_all_metrics {
  ratios : gmap string Q;
  revenue_growth : option Q;
  profit_growth : option Q;
  raw_values : gmap string Q
}.

Definition calculate_all_metrics (raw : raw_data) : result all_metrics :=
  let financials := _extract_financials raw in
  let get := dict_get financials in
  current_ratio ← _safe_divide (get "current_assets" 0) (get "current_liabilities" 1);
  quick_ratio ← _safe_divide (get "current_assets" 0 - get "inventory" 0)
                   (get "current_liabilities" 1);
  cash_ratio ← _safe_divide (get "cash" 0) (get "current_liabilities" 1);
  gross_margin ← _safe_divide (get "gross_profit" 0) (get "revenue" 1);
  net_margin ← _safe_divide (get "net_profit" 0) (get "revenue" 1);
  operating_margin ← _safe_divide (get "operating_income" 0) (get "revenue" 1);
  roe ← _safe_divide (get "net_profit" 0) (get "equity" 1);
  roa ← _safe_divide (get "net_profit" 0) (get "total_assets" 1);
  debt_to_equity ← _safe_divide (get "total_debt" 0) (get "equity" 1);
  debt_ratio ← _safe_divide (get "total_debt" 0) (get "total_assets" 1);
  interest_coverage ← _safe_divide (get "operating_income" 0)
                         (get "interest_expense" 1);
  inventory_turnover ← _safe_divide (get "cost_of_goods_sold" 0) (get "inventory" 1);
  receivables_turnover ← _safe_divide (get "revenue" 0)
                            (get "accounts_receivable" 1);
  payables_turnover ← _safe_divide (get "cost_of_goods_sold" 0)
                         (get "accounts_payable" 1);
  asset_turnover ← _safe_divide (get "revenue" 0) (get "total_assets" 1);
  cash_runway_days ← _calculate_cash_runway financials;
  working_capital_cycle ← _calculate_working_capital_cycle financials;
  Ok {| ratios :=
          list_to_map
            [ ("current_ratio", current_ratio); ("quick_ratio", quick_ratio);
              ("cash_ratio", cash_ratio);
              ("gross_margin", gross_margin * 100);
              ("net_margin", net_margin * 100);
              ("operating_margin", operating_margin * 100);
              ("roe", roe * 100); ("roa", roa * 100);
              ("debt_to_equity", debt_to_equity); ("debt_ratio", debt_ratio);
              ("interest_coverage", interest_coverage);
              ("inventory_turnover", inventory_turnover);
              ("receivables_turnover", receivables_turnover);
              ("payables_turnover", payables_turnover);
              ("asset_turnover", asset_turnover);
              ("cash_runway_days", cash_runway_days);
              ("working_capital",
                get "current_assets" 0 - get "current_liabilities" 0);
              ("working_capital_cycle", working_capital_cycle) ];
        revenue_growth := financials !! "revenue_growth";
        profit_growth := financials !! "profit_growth";
        raw_values :=
          list_to_map
            [ ("revenue", get "revenue" 0); ("expenses", get "total_expenses" 0);
              ("net_profit", get "net_profit" 0); ("cash", get "cash" 0);
              ("total_assets", get "total_assets" 0);
              ("total_liabilities", get "total_liabilities" 0) ] |}.

(* ===================================================================== *)
(** ** industry_benchmark.py: class IndustryBenchmark *)
(* ===================================================================== *)

Record benchmark : Type := mk_benchmark {
  low : Q;
  median : Q;
  high : Q
}.

(** The eight benchmarked metrics of one industry, in the order of the table:
    current_ratio, quick_ratio, gross_margin, net_margin, debt_to_equity,
    inventory_turnover, asset_turnover, cash_runway_days. *)
Definition industry_benchmarks (cr qr gm nm de it at_ runway : benchmark)
  : list (string * benchmark) :=
  [ ("current_ratio", cr); ("quick_ratio", qr); ("gross_margin", gm);
    ("net_margin", nm); ("debt_to_equity", de); ("inventory_turnover", it);
    ("asset_turnover", at_); ("cash_runway_days", runway) ].

Definition BENCHMARKS : gmap string (list (string * benchmark)) :=
  list_to_map [
    ("Manufacturing", industry_benchmarks
       (mk_benchmark 1.2 1.5 2.0) (mk_benchmark 0.8 1.0 1.3)
       (mk_benchmark 20 30 40) (mk_benchmark 5 10 15)
       (mk_benchmark 0.8 1.2 1.8) (mk_benchmark 4 6 10)
       (mk_benchmark 0.8 1.2 1.8) (mk_benchmark 60 120 200));
    ("Retail", industry_benchmarks
       (mk_benchmark 1.0 1.3 1.8) (mk_benchmark 0.5 0.8 1.2)
       (mk_benchmark 25 35 50) (mk_benchmark 3 6 12)
       (mk_benchmark 0.5 1.0 1.5) (mk_benchmark 6 10 15)
       (mk_benchmark 1.5 2.5 4.0) (mk_benchmark 45 90 150));
    ("Agriculture", industry_benchmarks
       (mk_benchmark 1.0 1.4 2.0) (mk_benchmark 0.6 0.9 1.2)
       (mk_benchmark 15 25 40) (mk_benchmark 5 12 20)
       (mk_benchmark 0.6 1.0 1.6) (mk_benchmark 2 4 6)
       (mk_benchmark 0.5 0.8 1.2) (mk_benchmark 90 180 300));
    ("Services", industry_benchmarks
       (mk_benchmark 1.3 1.8 2.5) (mk_benchmark 1.2 1.7 2.3)
       (mk_benchmark 40 55 70) (mk_benchmark 8 15 25)
       (mk_benchmark 0.3 0.6 1.0) (mk_benchmark 0 0 0)
       (mk_benchmark 1.0 1.8 2.8) (mk_benchmark 60 120 200));
    ("Logistics", industry_benchmarks
       (mk_benchmark 1.1 1.4 1.9) (mk_benchmark 0.9 1.2 1.6)
       (mk_benchmark 15 25 35) (mk_benchmark 3 7 12)
       (mk_benchmark 1.0 1.5 2.5) (mk_benchmark 8 15 25)
       (mk_benchmark 1.2 1.8 2.5) (mk_benchmark 45 90 150));
    ("E-commerce", industry_benchmarks
       (mk_benchmark 1.2 1.6 2.2) (mk_benchmark 0.8 1.2 1.8)
       (mk_benchmark 20 35 50) (mk_benchmark 2 8 15)
       (mk_benchmark 0.4 0.8 1.4) (mk_benchmark 8 12 20)
       (mk_benchmark 1.8 3.0 5.0) (mk_benchmark 60 120 200))
  ].

(** [BENCHMARKS.get(industry, BENCHMARKS["Services"])]. *)
Definition benchmarks_for (industry : string) : list (string * benchmark) :=
  dict_get BENCHMARKS industry (dict_get BENCHMARKS "Services" []).

Definition _calculate_percentile (value low median high : Q) : result Q :=
  if value <=? low then
    if low >? 0 then
      q ← py_div value low; Ok (Py.min 25 (q * 25))
    else Ok 0
  else if value <=? median then
    q ← py_div (value - low) (median - low); Ok (25 + q * 25)
  else if value <=? high then
    q ← py_div (value - median) (high - median); Ok (50 + q * 25)
  else
    q ← py_div (value - high) high; Ok (Py.min 100 (75 + q * 25)).

(** The condition [benchmark["low"] == benchmark["high"] == 0]. *)
Definition not_applicable (b : benchmark) : bool :=
  (Qeq_bool (low b) (high b) && Qeq_bool (high b) 0)%bool.

Definition status_of (company_value : Q) (b : benchmark) : string :=
  if company_value >=? high b then "excellent"
  else if company_value >=? median b then "good"
  else if company_value >=? low b then "average"
  else "below_average".

(** One entry of the [comparison] dict. *)
Record comparison_entry : Type := mk_comparison_entry {
  company_value : Q;
  industry_low : Q;
  industry_median : Q;
  industry_high : Q;
  percentile : Q;
  status : string
}.

(** The state of the loop of [compare_to_industry]: the comparison so far (in
    insertion order), [percentile_sum] and [percentile_count]. *)
Definition compare_state : Type := list (string * comparison_entry) * Q * Z.

Definition compare_step (metrics : gmap string Q) (st : compare_state)
    (item : string * benchmark) : result compare_state :=
  let '(comparison, percentile_sum, percentile_count) := st in
  let '(metric, b) := item in
  let company_value := dict_get metrics metric 0 in
  if not_applicable b then Ok st
  else
    p ← _calculate_percentile company_value (low b) (median b) (high b);
    let entry :=
      {| company_value := Py.round company_value 2;
         industry_low := low b;
         industry_median := median b;
         industry_high := high b;
         percentile := p;
         status := status_of company_value b |} in
    Ok ((comparison ++ [(metric, entry)])%list,
        percentile_sum + p, (percentile_count + 1)%Z).

Fixpoint compare_loop (metrics : gmap string Q) (items : list (string * benchmark))
    (st : compare_state) : result compare_state :=
  match items with
  | [] => Ok st
  | item :: rest =>
      st' ← compare_step metrics st item;
      compare_loop metrics rest st'
  end.

Definition _get_position_label (percentile : Q) : string :=
  if percentile >=? 75 then "Top Quartile (Industry Leader)"
  else if percentile >=? 50 then "Above Average"
  else if percentile >=? 25 then "Below Average"
  else "Bottom Quartile (Needs Attention)".

(** An entry of [top_strengths] or [areas_for_improvement]. *)
Record highlight : Type := mk_highlight {
  h_metric : string;
  h_value : Q;
  h_percentile : Q
}.

(** [list.sort(key=...)] is stable: an element goes after the elements that
    may stay before it.  [before a b] says that [a] may stay before [b]. *)
Fixpoint sort_insert (before : highlight -> highlight -> bool) (x : highlight)
    (sorted : list highlight) : list highlight :=
  match sorted with
  | [] => [x]
  | y :: rest =>
      if before y x then y :: sort_insert before x rest else x :: sorted
  end.

Definition stable_sort (before : highlight -> highlight -> bool)
    (l : list highlight) : list highlight :=
  fold_left (fun sorted x => sort_insert before x sorted) l [].

Record benchmark_summary : Type := mk_benchmark_summary {
  overall_position : string;
  top_strengths : list highlight;
  areas_for_improvement : list highlight
}.

Definition _generate_benchmark_summary
    (comparison : list (string * comparison_entry)) (overall_percentile : Q)
  : benchmark_summary :=
  let to_highlight (item : string * comparison_entry) :=
    {| h_metric := item.1; h_value := company_value item.2;
       h_percentile := percentile item.2 |} in
  let strengths :=
    map to_highlight
      (filter (fun item => String.eqb (status item.2) "excellent"
                           || String.eqb (status item.2) "good")%bool comparison) in
  let weaknesses :=
    map to_highlight
      (filter (fun item => String.eqb (status item.2) "below_average") comparison) in
  (* sort(key=percentile, reverse=True) and sort(key=percentile) *)
  let strengths :=
    stable_sort (fun a b => h_percentile a >=? h_percentile b) strengths in
  let weaknesses :=
    stable_sort (fun a b => h_percentile a <=? h_percentile b) weaknesses in
  {| overall_position := _get_position_label overall_percentile;
     top_strengths := take 3 strengths;
     areas_for_improvement := take 3 weaknesses |}.

(** The dict returned by [compare_to_industry]. *)
Record benchmark_result : Type := mk_benchmark_result {
  b_industry : string;
  b_percentile : Q;
  b_comparison : list (string * comparison_entry);
  b_summary : benchmark_summary
}.

Definition compare_to_industry (metrics : gmap string Q) (industry : string)
  : result benchmark_result :=
  let benchmarks := benchmarks_for industry in
  '(comparison, percentile_sum, percentile_count) ←
    compare_loop metrics benchmarks ([], 0, 0%Z);
  overall_percentile ←
    (if (0 <? percentile_count)%Z
     then py_div percentile_sum (inject_Z percentile_count)
     else Ok 50);
  Ok {| b_industry := industry;
        b_percentile := Py.round overall_percentile 1;
        b_comparison := comparison;
        b_summary := _generate_benchmark_summary comparison overall_percentile |}.

(* ===================================================================== *)
(** ** forecasting_engine.py: class ForecastingEngine *)
(* ===================================================================== *)

(** One entry of [INDUSTRY_GROWTH_RATES]: annual rates in percent.  Every
    entry of the table, and the default, has these three keys in this
    order. *)
Record growth_rates : Type := mk_growth_rates {
  base : Q;
  optimistic : Q;
  pessimistic : Q
}.

(** [growth_rates.items()]. *)
Definition items (g : growth_rates) : list (string * Q) :=
  [ ("base", base g); ("optimistic", optimistic g); ("pessimistic", pessimistic g) ].

Definition INDUSTRY_GROWTH_RATES : gmap string growth_rates :=
  list_to_map [
    ("Manufacturing", mk_growth_rates 8 15 3);
    ("Retail",        mk_growth_rates 10 18 4);
    ("Agriculture",   mk_growth_rates 5 12 (-2));
    ("Services",      mk_growth_rates 12 22 5);
    ("Logistics",     mk_growth_rates 10 18 4);
    ("E-commerce",    mk_growth_rates 20 35 8)
  ].

Definition _extract_current_values_column (financials : gmap string Q)
    (item : string * column_info) : gmap string Q :=
  let '(col, info) := item in
  let category := default "" (category info) in
  let total := default 0 (total info) in
  if String.eqb category "revenue" then dict_add financials "revenue" total
  else if String.eqb category "expense" then dict_add financials "expenses" total
  else if contains "cash" (lower col) then dict_add financials "cash" total
  else financials.

Definition _extract_current_values (raw : raw_data) : gmap string Q :=
  let financials : gmap string Q :=
    list_to_map [ ("revenue", 0); ("expenses", 0); ("profit", 0); ("cash", 0);
                  ("monthly_burn", 0) ] in
  let financials :=
    match summary raw with
    | Some summary =>
        <["profit" := dict_get summary "total_profit" 0]>
        (<["expenses" := dict_get summary "total_expenses" 0]>
        (<["revenue" := dict_get summary "total_revenue" 0]> financials))
    | None => financials
    end in
  let financials :=
    match financial_data raw with
    | Some columns => fold_left _extract_current_values_column columns financials
    | None => financials
    end in
  let expenses := dict_get financials "expenses" 0 in
  let financials :=
    <["monthly_burn" := if expenses >? 0 then expenses / 12 else 0]> financials in
  <["profit" := dict_get financials "revenue" 0 - dict_get financials "expenses" 0]>
    financials.

(** The three dicts [forecasts["3_month"]], [forecasts["6_month"]] and
    [forecasts["12_month"]]. *)
Record horizon_forecasts : Type := mk_horizon_forecasts {
  month_3 : gmap string Q;
  month_6 : gmap string Q;
  month_12 : gmap string Q
}.

(** The body of the loop over [growth_rates.items()] in [_forecast_revenue]. *)
Definition forecast_scenario (current_revenue : Q) (forecasts : horizon_forecasts)
    (item : string * Q) : horizon_forecasts :=
  let '(scenario, annual_rate) := item in
  let monthly_revenue := current_revenue / 12 in
  let monthly_rate := annual_rate / 12 / 100 in
  {| month_3 :=
       <[scenario := Py.round (monthly_revenue * 3 * (1 + monthly_rate * 3)) 2]>
         (month_3 forecasts);
     month_6 :=
       <[scenario := Py.round (monthly_revenue * 6 * (1 + monthly_rate * 6)) 2]>
         (month_6 forecasts);
     month_12 :=
       <[scenario := Py.round (current_revenue * (1 + annual_rate / 100)) 2]>
         (month_12 forecasts) |}.

Record revenue_forecast : Type := mk_revenue_forecast {
  current_annual_revenue : Q;
  forecasts : horizon_forecasts;
  monthly_breakdown : list (Z * Q)
}.

Definition _forecast_revenue (financials : gmap string Q) (rates : growth_rates)
  : revenue_forecast :=
  let current_revenue := dict_get financials "revenue" 0 in
  let monthly_revenue := current_revenue / 12 in
  let forecasts :=
    fold_left (forecast_scenario current_revenue) (items rates)
      (mk_horizon_forecasts ∅ ∅ ∅) in
  let base_monthly_rate := base rates / 12 / 100 in
  let monthly_forecast :=
    map (fun month : Z =>
           let projected :=
             monthly_revenue * (1 + base_monthly_rate * inject_Z month) in
           (month, Py.round projected 2))
        (seqZ 1 12) in
  {| current_annual_revenue := current_revenue;
     forecasts := forecasts;
     monthly_breakdown := monthly_forecast |}.

(** One month of the cash-flow projection. *)
Record cash_flow_month : Type := mk_cash_flow_month {
  month : Z;
  inflow : Q;
  outflow : Q;
  net_flow : Q;
  ending_cash : Q
}.

Record cash_flow_projection : Type := mk_cash_flow_projection {
  starting_cash : Q;
  monthly_projection : list cash_flow_month;
  projected_cash_6m : Q;
  average_monthly_net_flow : Q
}.

Definition _forecast_cash_flow (financials : gmap string Q) : cash_flow_projection :=
  let cash := dict_get financials "cash" 0 in
  let monthly_revenue := dict_get financials "revenue" 0 / 12 in
  let monthly_expenses := dict_get financials "monthly_burn" 0 in
  let step (st : list cash_flow_month * Q) (month : Z) :=
    let '(monthly_projection, running_cash) := st in
    let inflow := monthly_revenue * (1 + 0.01 * inject_Z month) in
    let outflow := monthly_expenses * (1 + 0.005 * inject_Z month) in
    let net_flow := inflow - outflow in
    let running_cash := running_cash + net_flow in
    ((monthly_projection
      ++ [ {| month := month; inflow := Py.round inflow 2;
              outflow := Py.round outflow 2; net_flow := Py.round net_flow 2;
              ending_cash := Py.round running_cash 2 |} ])%list,
     running_cash) in
  let '(monthly_projection, running_cash) := fold_left step (seqZ 1 6) ([], cash) in
  {| starting_cash := cash;
     monthly_projection := monthly_projection;
     projected_cash_6m := Py.round running_cash 2;
     average_monthly_net_flow :=
       Py.round (fold_left Qplus (map net_flow monthly_projection) 0 / 6) 2 |}.

Record break_even : Type := mk_break_even {
  break_even_revenue : Q;
  be_current_revenue : Q;
  break_even_percentage : Q;
  margin_of_safety : Q;
  is_profitable : bool;
  fixed_costs_estimate : Q;
  contribution_margin : Q
}.

Definition _calculate_break_even (financials : gmap string Q) : break_even :=
  let revenue := dict_get financials "revenue" 0 in
  let expenses := dict_get financials "expenses" 0 in
  let profit := dict_get financials "profit" 0 in
  let fixed_costs := expenses * 0.3 in
  let variable_costs := expenses * 0.7 in
  let variable_cost_ratio := if revenue >? 0 then variable_costs / revenue else 0.7 in
  let contribution_margin := 1 - variable_cost_ratio in
  let break_even_revenue :=
    if contribution_margin >? 0 then fixed_costs / contribution_margin else 0 in
  let '(break_even_percentage, margin_of_safety) :=
    if revenue >? 0
    then ((break_even_revenue / revenue) * 100,
          ((revenue - break_even_revenue) / revenue) * 100)
    else (0, 0) in
  {| break_even_revenue := Py.round break_even_revenue 2;
     be_current_revenue := revenue;
     break_even_percentage := Py.round break_even_percentage 1;
     margin_of_safety := Py.round margin_of_safety 1;
     is_profitable := profit >? 0;
     fixed_costs_estimate := Py.round fixed_costs 2;
     contribution_margin := Py.round (contribution_margin * 100) 1 |}.

Record growth_scenario : Type := mk_growth_scenario {
  scenario : string;
  growth_rate : Q;
  projected_revenue : Q;
  projected_profit : Q;
  description : string
}.

Definition _get_scenario_description (scenario : string) : string :=
  if String.eqb scenario "optimistic"
  then "Best case with strong market growth and operational efficiency"
  else if String.eqb scenario "base"
  then "Expected outcome based on current trends and industry averages"
  else if String.eqb scenario "pessimistic"
  then "Conservative estimate accounting for potential challenges"
  else "Projected scenario".

Definition _generate_scenarios (financials : gmap string Q) (rates : growth_rates)
  : list growth_scenario :=
  let revenue := dict_get financials "revenue" 0 in
  let profit := dict_get financials "profit" 0 in
  map (fun item : string * Q =>
         let '(scenario_name, growth_rate) := item in
         let projected_revenue := revenue * (1 + growth_rate / 100) in
         let profit_margin := if revenue >? 0 then profit / revenue else 0.1 in
         let projected_profit := projected_revenue * profit_margin in
         {| scenario := scenario_name;
            growth_rate := growth_rate;
            projected_revenue := Py.round projected_revenue 2;
            projected_profit := Py.round projected_profit 2;
            description := _get_scenario_description scenario_name |})
      (items rates).

(** *** The clock

    [datetime.now()] is the one impure call of the engine.  A reading of the
    clock is a number of microseconds since the start of 1 January of the
    year 1, which is day 0; a date is a day number, of which
    [strftime("%Y-%m-%d")] is a one-to-one rendering.  The last day of the
    year 9999 is day 3652058. *)
Definition datetime : Type := Z.
Definition MICROSECONDS_PER_DAY : Z := 86400000000.
Definition DAYS_PER_DATETIME : Z := 3652059.

(** The readings that are values of [datetime]. *)
Definition datetime_in_range (t : Z) : bool :=
  ((0 <=? t) && (t <? DAYS_PER_DATETIME * MICROSECONDS_PER_DAY))%Z.

(** [timedelta(days=d)]: rounded to the microsecond, half to even; its days
    must have a magnitude of at most 999999999. *)
Definition timedelta (days : Q) : result Z :=
  let microseconds := Py.round_half_even (days * inject_Z MICROSECONDS_PER_DAY) in
  if (Z.abs (microseconds / MICROSECONDS_PER_DAY) <=? 999999999)%Z
  then Ok microseconds
  else Raise OverflowError.

(** [t + delta] on a datetime and a timedelta: the sum must be a datetime. *)
Definition datetime_add (t : datetime) (delta : Z) : result datetime :=
  if datetime_in_range (t + delta) then Ok (t + delta)%Z
  else Raise OverflowError.

Definition date_of (t : datetime) : Z := (t / MICROSECONDS_PER_DAY)%Z.

(** The dict returned by [_project_cash_runway], in its two shapes. *)
Inductive cash_runway_projection : Type :=
  | positive_cash_flow (current_runway_months : Q) (status message : string)
  | runway (current_cash monthly_burn_rate current_runway_months : Q)
           (scenarios : list (string * Q)) (critical_date : option Z).

Definition _project_cash_runway (now : datetime) (financials : gmap string Q)
  : result cash_runway_projection :=
  let cash := dict_get financials "cash" 0 in
  let monthly_burn := dict_get financials "monthly_burn" 0 in
  if monthly_burn <=? 0 then
    Ok (positive_cash_flow 24 "positive_cash_flow"
          "Company is generating positive cash flow")
  else
    let current_runway := cash / monthly_burn in
    let scenarios :=
      [ ("current", current_runway);
        ("10_percent_reduction", cash / (monthly_burn * 0.9));
        ("20_percent_reduction", cash / (monthly_burn * 0.8));
        ("10_percent_increase", cash / (monthly_burn * 1.1)) ] in
    critical_date ←
      (if current_runway <? 12
       then
         delta ← timedelta (current_runway * 30);
         critical ← datetime_add now delta;
         Ok (Some (date_of critical))
       else Ok None);
    Ok (runway cash (Py.round monthly_burn 2) (Py.round current_runway 1)
          (map (fun kv : string * Q => (kv.1, Py.round kv.2 1)) scenarios)
          critical_date).

Record metric_trend : Type := mk_metric_trend {
  metric : string;
  current : Q;
  projection_3m : Q;
  projection_6m : Q;
  projection_12m : Q
}.

Definition _project_key_metrics (financials : gmap string Q) (rates : growth_rates)
  : list metric_trend :=
  let base_rate := base rates / 100 in
  let revenue := dict_get financials "revenue" 0 in
  let profit := dict_get financials "profit" 0 in
  [ {| metric := "Revenue"; current := revenue;
       projection_3m := Py.round (revenue * (1 + base_rate * 0.25)) 2;
       projection_6m := Py.round (revenue * (1 + base_rate * 0.5)) 2;
       projection_12m := Py.round (revenue * (1 + base_rate)) 2 |};
    {| metric := "Profit"; current := profit;
       projection_3m := Py.round (profit * (1 + base_rate * 0.3)) 2;
       projection_6m := Py.round (profit * (1 + base_rate * 0.6)) 2;
       projection_12m := Py.round (profit * (1 + base_rate * 1.1)) 2 |} ].

(** The dict returned by [generate_forecast]. *)
Record forecast : Type := mk_forecast {
  f_revenue_forecast : revenue_forecast;
  f_cash_flow_projection : cash_flow_projection;
  f_break_even_analysis : break_even;
  f_growth_scenarios : list growth_scenario;
  f_cash_runway_projection : cash_runway_projection;
  f_key_metrics_trend : list metric_trend
}.

Definition generate_forecast (now : datetime) (raw : raw_data) (industry : string)
  : result forecast :=
  let financials := _extract_current_values raw in
  let rates := dict_get INDUSTRY_GROWTH_RATES industry (mk_growth_rates 10 18 5) in
  cash_runway_projection ← _project_cash_runway now financials;
  Ok {| f_revenue_forecast := _forecast_revenue financials rates;
        f_cash_flow_projection := _forecast_cash_flow financials;
        f_break_even_analysis := _calculate_break_even financials;
        f_growth_scenarios := _generate_scenarios financials rates;
        f_cash_runway_projection := cash_runway_projection;
        f_key_metrics_trend := _project_key_metrics financials rates |}.

(* ===================================================================== *)
(** ** The assessment pipeline *)
(* ===================================================================== *)

(** A risk entry of [_identify_risk_factors], without its ["indicator"], a
    rendering of the metric as text. *)
Record risk_factor : Type := mk_risk_factor {
  risk_name : string;
  severity : string;
  risk_description : string
}.

Definition _identify_risk_factors (metrics : gmap string Q) : list risk_factor :=
  ((if dict_get metrics "current_ratio" 2 <? 1.0
    then [ mk_risk_factor "Low Liquidity"
             (if dict_get metrics "current_ratio" 2 <? 0.8 then "high" else "medium")
             "Current ratio is below 1.0, indicating potential difficulty meeting short-term obligations." ]
    else [])
   ++ (if dict_get metrics "cash_runway_days" 90 <? 60
       then [ mk_risk_factor "Low Cash Runway"
                (if dict_get metrics "cash_runway_days" 90 <? 30
                 then "critical" else "high")
                "Cash reserves may not last beyond 2 months at current burn rate." ]
       else [])
   ++ (if dict_get metrics "net_margin" 10 <? 5
       then [ mk_risk_factor "Low Profit Margins"
                (if dict_get metrics "net_margin" 10 <? 2 then "high" else "medium")
                "Net profit margin is thin, leaving little room for unexpected expenses." ]
       else [])
   ++ (if dict_get metrics "debt_to_equity" 1 >? 2
       then [ mk_risk_factor "High Debt Levels"
                (if dict_get metrics "debt_to_equity" 1 >? 3 then "high" else "medium")
                "Debt-to-equity ratio is elevated, increasing financial risk." ]
       else [])
   ++ (if dict_get metrics "receivables_turnover" 8 <? 4
       then [ mk_risk_factor "Slow Collections" "medium"
                "Receivables turnover is low, indicating slow collection of payments." ]
       else []))%list.

(** The dict returned by [calculate_comprehensive_score], without the
    rendered text ["ai_summary"]. *)
Record comprehensive_score : Type := mk_comprehensive_score {
  cs_score : score_result;
  cs_metrics : gmap string Q;
  cs_risk_factors : list risk_factor
}.

(** [HealthScoreCalculator(industry).calculate_comprehensive_score(financial_data)]. *)
Definition calculate_comprehensive_score (industry : string) (financial_data : pyobj)
  : result comprehensive_score :=
  metrics ← _extract_metrics financial_data;
  let score_result := calculate_health_score metrics industry in
  Ok {| cs_score := score_result;
        cs_metrics := metrics;
        cs_risk_factors := _identify_risk_factors metrics |}.

(** The three engine calls of the health-score request (routers/analysis.py),
    on one raw mapping and one reading of the clock. *)
Definition assessment (now : datetime) (raw : raw_data) (industry : string)
  : result (comprehensive_score * benchmark_result * forecast) :=
  score_result ← calculate_comprehensive_score industry (ODict (fields raw));
  benchmark_data ← compare_to_industry (cs_metrics score_result) industry;
  forecast_data ← generate_forecast now raw industry;
  Ok (score_result, benchmark_data, forecast_data).

(* ===================================================================== *)
(** ** Vocabulary of the properties *)
(* ===================================================================== *)



(** The growth of revenue over [h] months at the monthly rate
    [annual_rate / 12 / 100], compounded month by month: the reading of the
    forecast in the specification. *)
Definition compounded_forecast (current_revenue annual_rate : Q) (h : Z) : Q :=
  current_revenue / 12 * inject_Z h * (1 + annual_rate / 12 / 100) ^ h.

(** A sample raw mapping: a summary with revenue 1200 and expenses 600, a cash
    column of 100 and a payables column of 50. *)
Definition sample_raw_data : raw_data :=
  mk_raw_data ∅
    (Some (<["total_revenue" := 1200]> {[ "total_expenses" := 600 ]}))
    (Some [ ("Cash at Bank", mk_column_info (Some "asset") (Some 100));
            ("Trade Payables", mk_column_info (Some "liability") (Some 50)) ]).


(** A positive, strictly increasing benchmark triple. *)
Definition increasing (b : benchmark) : Prop :=
  0 < low b /\ low b < median b /\ median b < high b.

(** A raw mapping all of whose entries are numbers. *)
Definition numeric (data : gmap string pyval) : Prop :=
  forall k v, data !! k = Some v -> exists q, v = VNum q.

(** An amount of ordinary size: zero, or between a millionth and a million
    millions in absolute value.  On amounts of this size no double of the
    engine leaves its range, and the doubles carry an error far below a
    cent. *)
Definition ordinary (q : Q) : Prop :=
  q == 0 \/ ((1 # 1000000) <= Qabs q /\ Qabs q <= 1000000000000).

(** [x] is [y] up to one part in a thousand millions: the precision to
    which two doubles computed by a few operations from the same amounts
    agree. *)
Definition close_to (x y : Q) : Prop :=
  Qabs (x - y) <= (1 # 1000000000) * Qabs y.

(** A raw mapping whose entries are numbers of ordinary size. *)
Definition ordinary_numbers (data : gmap string pyval) : Prop :=
  forall k v, data !! k = Some v -> exists q, v = VNum q /\ ordinary q.

(** A raw mapping whose values are converted to numbers of ordinary size. *)
Definition ordinary_values (data : gmap string pyval) : Prop :=
  forall k v q, data !! k = Some v -> py_float v = Ok q -> ordinary q.




(** [x] is the direct field [k] of the mapping as the extraction reads it:
    the conversion of its value, or of the default when it is absent. *)
Definition direct_field (data : gmap string pyval) (k : string) (dflt x : Q) : Prop :=
  py_float (dict_get data k (VNum dflt)) = Ok x.

(** [x] is the statement figure that the extraction reads under the key [k],
    else under [k'], else as [dflt]. *)
Definition statement_figure (data : gmap string pyval) (k k' : string)
    (dflt x : Q) : Prop :=
  py_float (dict_get data k (dict_get data k' (VNum dflt))) = Ok x.

(** The metric [k] of the result is the direct field of the mapping, or its
    default: no derived figure has replaced it. *)
Definition keeps_direct_field (data : gmap string pyval) (m : gmap string Q)
    (k : string) : Prop :=
  exists dflt x,
    (k, dflt) ∈ METRIC_DEFAULTS /\ direct_field data k dflt x /\ m !! k = Some x.

(** *** Scoring curves *)

(** Domains: a ratio or a turnover is non-negative, a margin or a signed
    amount is any number. *)
Definition nonneg (x : Q) : Prop := 0 <= x.
Definition positive (x : Q) : Prop := 0 < x.
Definition any (x : Q) : Prop := True.

Definition bounded_on (dom : Q -> Prop) (f : Q -> Q) : Prop :=
  forall x, dom x -> 0 <= f x /\ f x <= 100.

Definition nondecreasing_on (dom : Q -> Prop) (f : Q -> Q) : Prop :=
  forall x y, dom x -> dom y -> x <= y -> f x <= f y.

Definition nonincreasing_on (dom : Q -> Prop) (f : Q -> Q) : Prop :=
  forall x y, dom x -> dom y -> x <= y -> f y <= f x.

(** Continuity, in the form that suits a piecewise-linear curve: the curve
    moves by at most [L] per unit of its argument, so it has no jump at any
    point of the domain, breakpoints included. *)
Definition continuous_on (dom : Q -> Prop) (L : Q) (f : Q -> Q) : Prop :=
  forall x y, dom x -> dom y -> x <= y ->
    f y - f x <= L * (y - x) /\ f x - f y <= L * (y - x).

(** *** Ordinal scales *)

(** The position of [x] in [l] (the length of [l] when it is absent). *)
Fixpoint index_of (x : string) (l : list string) : nat :=
  match l with
  | [] => O
  | y :: l' => if String.eqb x y then O else S (index_of x l')
  end.

(** The grades from worst to best, and the risk levels from worst to best. *)
Definition GRADE_SCALE : list string :=
  [ "F"; "D"; "C-"; "C"; "C+"; "B-"; "B"; "B+"; "A-"; "A"; "A+" ].
Definition RISK_SCALE : list string := [ "Critical"; "High"; "Medium"; "Low" ].

Definition grade_rank (grade : string) : nat := index_of grade GRADE_SCALE.
Definition risk_rank (level : string) : nat := index_of level RISK_SCALE.

(** The metrics whose sub-score never falls when the metric rises, and those
    whose sub-score never rises. *)
Definition HIGHER_IS_BETTER : list string :=
  [ "current_ratio"; "quick_ratio"; "cash_ratio"; "gross_margin"; "net_margin";
    "roe"; "asset_turnover"; "cash_runway_days"; "working_capital" ].
Definition LOWER_IS_BETTER : list string := [ "debt_to_equity"; "debt_ratio" ].

(** *** Metric extraction *)

(** The keys of the raw mapping that [_extract_metrics] reads. *)
Definition READ_KEYS : list string :=
  (map fst METRIC_DEFAULTS
   ++ [ "revenue"; "total_revenue"; "cost_of_goods_sold"; "cogs"; "net_income";
        "profit"; "total_assets"; "assets"; "current_assets";
        "current_liabilities"; "total_liabilities"; "liabilities"; "cash";
        "cash_balance"; "monthly_expenses"; "expenses" ])%list.

(** The statement figures among them. *)
Definition STATEMENT_FIGURES : list string :=
  [ "revenue"; "total_revenue"; "cost_of_goods_sold"; "cogs"; "net_income";
    "profit"; "total_assets"; "assets"; "current_assets";
    "current_liabilities"; "total_liabilities"; "liabilities"; "cash";
    "cash_balance"; "monthly_expenses"; "expenses" ].

(** [m'] is [m] with some of the entries under [keys] overwritten. *)
Definition overwrites (keys : list string) (m m' : gmap string Q) : Prop :=
  (forall k, k ∉ keys -> m' !! k = m !! k) /\
  (forall k, is_Some (m !! k) -> is_Some (m' !! k)).

(** *** Benchmark comparison *)

(** A benchmark that [compare_to_industry] does not skip. *)
Definition applicable (item : string * benchmark) : bool :=
  negb (not_applicable item.2).

(** The status that goes with a percentile: one status per quarter. *)
Definition quartile_status (percentile : Q) : string :=
  if percentile >=? 75 then "excellent"
  else if percentile >=? 50 then "good"
  else if percentile >=? 25 then "average"
  else "below_average".

(** The comparison entry [e] of [metric] is the one the engine builds for the
    benchmark [b] and the metrics. *)
Definition entry_of (metrics : gmap string Q)
    (entry : string * comparison_entry) (item : string * benchmark) : Prop :=
  entry.1 = item.1 /\
  company_value entry.2 = Py.round (dict_get metrics item.1 0) 2 /\
  industry_low entry.2 = low item.2 /\
  industry_median entry.2 = median item.2 /\
  industry_high entry.2 = high item.2 /\
  _calculate_percentile (dict_get metrics item.1 0)
    (low item.2) (median item.2) (high item.2) = Ok (percentile entry.2) /\
  status entry.2 = status_of (dict_get metrics item.1 0) item.2.

(** What an entry of the comparison shows of a benchmark and the metrics: the
    metric to within a cent, the reference values and the status of the
    metric among them. *)
Definition shows (metrics : gmap string Q)
    (entry : string * comparison_entry) (item : string * benchmark) : Prop :=
  entry.1 = item.1 /\
  Qabs (company_value entry.2 - dict_get metrics item.1 0) <= 0.01 /\
  industry_low entry.2 = low item.2 /\
  industry_median entry.2 = median item.2 /\
  industry_high entry.2 = high item.2 /\
  status entry.2 = status_of (dict_get metrics item.1 0) item.2.

(** The percentiles that go with a status. *)
Definition in_status_band (status : string) (percentile : Q) : Prop :=
  if String.eqb status "excellent" then 75 <= percentile
  else if String.eqb status "good" then 50 <= percentile /\ percentile <= 75
  else if String.eqb status "average" then 25 <= percentile /\ percentile <= 50
  else percentile <= 25.

(** [sum(...)] of a list of numbers, from the left as the loop adds them. *)
Definition Qsum (l : list Q) : Q := fold_left Qplus l 0.

(** The mean of a list of numbers. *)
Definition Qmean (l : list Q) : Q := Qsum l / inject_Z (Z.of_nat (length l)).

(** The percentiles of a comparison, in its order. *)
Definition percentiles (comparison : list (string * comparison_entry)) : list Q :=
  map (fun entry => percentile entry.2) comparison.
(** The entry that [_generate_benchmark_summary] lists for an item of the
    comparison. *)
Definition highlight_of (item : string * comparison_entry) : highlight :=
  {| h_metric := item.1; h_value := company_value item.2;
     h_percentile := percentile item.2 |}.

(** The items listed as strengths and as weaknesses. *)
Definition is_strength (item : string * comparison_entry) : bool :=
  (String.eqb (status item.2) "excellent" || String.eqb (status item.2) "good")%bool.

Definition is_weakness (item : string * comparison_entry) : bool :=
  String.eqb (status item.2) "below_average".

(** The orders of [sort(key=percentile, reverse=True)] and
    [sort(key=percentile)]. *)
Definition descending (a b : highlight) : bool := h_percentile a >=? h_percentile b.
Definition ascending (a b : highlight) : bool := h_percentile a <=? h_percentile b.

(** The columns of ["financial_data"] ([] when the key is missing), and the
    category and total of a column with the defaults of [info.get]. *)
Definition columns (raw : raw_data) : list (string * column_info) :=
  default [] (financial_data raw).

Definition category_of (item : string * column_info) : string :=
  default "" (category item.2).

Definition total_of (item : string * column_info) : Q :=
  default 0 (total item.2).

(** Raw data whose summary entries and column totals are of ordinary size,
    and raw data none of whose summary entries and column totals is
    negative. *)
Definition ordinary_totals (raw : raw_data) : Prop :=
  (forall s, summary raw = Some s -> map_Forall (fun _ v => ordinary v) s) /\
  Forall (fun item => ordinary (total_of item)) (columns raw).

Definition nonneg_totals (raw : raw_data) : Prop :=
  (forall s, summary raw = Some s -> map_Forall (fun _ v => 0 <= v) s) /\
  Forall (fun item => 0 <= total_of item) (columns raw).

(** The columns that [_extract_current_values] adds to the revenue, to the
    expenses and to the cash. *)
Definition is_revenue_column (item : string * column_info) : bool :=
  String.eqb (category_of item) "revenue".

Definition is_expense_column (item : string * column_info) : bool :=
  String.eqb (category_of item) "expense".

Definition is_cash_column (item : string * column_info) : bool :=
  (negb (is_revenue_column item) && negb (is_expense_column item)
   && contains "cash" (lower item.1))%bool.

(** The sum of the totals of the columns that satisfy [P]. *)
Definition column_sum (P : string * column_info -> bool)
    (columns : list (string * column_info)) : Q :=
  Qsum (map total_of (filter P columns)).
(** The growth rates that [generate_forecast] uses for an industry. *)
Definition growth_rates_for (industry : string) : growth_rates :=
  dict_get INDUSTRY_GROWTH_RATES industry (mk_growth_rates 10 18 5).

(** The three stages of [_extract_financials]: the values collected from the
    summary and the columns, the estimates made when revenue and expenses
    are known, and the balance-sheet values derived at the end. *)
Definition collected_financials (raw : raw_data) : gmap string Q :=
  let financials : gmap string Q :=
    match summary raw with
    | Some summary =>
        <["total_liabilities" := dict_get summary "total_liabilities" 0]>
        (<["total_assets" := dict_get summary "total_assets" 0]>
        (<["net_profit" := dict_get summary "total_profit" 0]>
        (<["total_expenses" := dict_get summary "total_expenses" 0]>
        (<["revenue" := dict_get summary "total_revenue" 0]> ∅))))
    | None => ∅
    end in
  match financial_data raw with
  | Some columns => fold_left extract_column columns financials
  | None => financials
  end.

Definition estimated_financials (financials : gmap string Q) : gmap string Q :=
  if (dict_has financials "revenue" && dict_has financials "total_expenses")%bool
  then
    let financials :=
      if negb (dict_has financials "net_profit")
      then <["net_profit" := dict_get financials "revenue" 0
                             - dict_get financials "total_expenses" 0]> financials
      else financials in
    let financials :=
      <["gross_profit" := dict_get financials "revenue" 0 * 0.35]> financials in
    <["operating_income" := dict_get financials "net_profit" 0 * 1.2]> financials
  else financials.

Definition balance_financials (financials : gmap string Q) : gmap string Q :=
  let financials :=
    <["current_assets" := dict_get financials "cash" 0
                          + dict_get financials "accounts_receivable" 0
                          + dict_get financials "inventory" 0]> financials in
  let financials :=
    <["current_liabilities" := dict_get financials "accounts_payable" 0
                               + dict_get financials "total_liabilities" 0 * 0.3]>
      financials in
  let financials :=
    <["equity" := dict_get financials "total_assets" 0
                  - dict_get financials "total_liabilities" 0]> financials in
  let financials :=
    <["total_debt" := dict_get financials "total_liabilities" 0]> financials in
  <["cost_of_goods_sold" := dict_get financials "total_expenses" 0 * 0.7]> financials.

(** The keys that the summary and the columns can set. *)
Definition COLLECTED_KEYS : list string :=
  [ "revenue"; "total_expenses"; "net_profit"; "total_assets";
    "total_liabilities"; "cash"; "inventory"; "accounts_receivable";
    "accounts_payable" ].

(** A metric of the result of [calculate_all_metrics]. *)
Definition ratio (m : all_metrics) (name : string) : Q := dict_get (ratios m) name 0.

(* ===================================================================== *)
(** ** recommendation_engine.py: class RecommendationEngine *)
(* ===================================================================== *)

(** The ["requirements"] of a product that [get_recommendations] reads; the
    keys ["max_loan_amount"] and ["has_receivables"] of two products are
    never read. *)
Record requirements : Type := mk_requirements {
  min_health_score : option Q;
  min_revenue : option Q;
  max_debt_ratio : option Q
}.

Record product : Type := mk_product {
  p_name : string;
  p_type : string;
  p_providers : list string;
  p_interest_rate : string;
  p_tenure : string;
  p_requirements : requirements;
  p_best_for : list string
}.

(** The dict [FINANCIAL_PRODUCTS] in insertion order. *)
Definition FINANCIAL_PRODUCTS : list (string * product) :=
  [ ("working_capital_loan",
     mk_product "Working Capital Loan" "Loan"
       ["SBI"; "HDFC Bank"; "ICICI Bank"; "Axis Bank"] "10-14%" "12-36 months"
       (mk_requirements (Some 50) (Some 1000000) (Some 0.6))
       ["Cash flow gaps"; "Seasonal businesses"; "Inventory purchase"]);
    ("term_loan",
     mk_product "Business Term Loan" "Loan"
       ["HDFC Bank"; "Bajaj Finserv"; "Tata Capital"] "11-16%" "24-60 months"
       (mk_requirements (Some 60) (Some 2500000) (Some 0.5))
       ["Expansion"; "Equipment purchase"; "Long-term investment"]);
    ("overdraft",
     mk_product "Overdraft Facility" "Credit Line"
       ["SBI"; "HDFC Bank"; "Kotak Mahindra"] "12-15%" "Revolving"
       (mk_requirements (Some 55) (Some 500000) (Some 0.7))
       ["Short-term needs"; "Flexible borrowing"; "Cash flow management"]);
    ("invoice_factoring",
     mk_product "Invoice Factoring" "Receivables Financing"
       ["RXIL"; "Credlix"; "Vayana"] "8-12%" "30-90 days"
       (mk_requirements (Some 40) (Some 1000000) None)
       ["Accounts receivable"; "B2B businesses"; "Quick cash"]);
    ("equipment_loan",
     mk_product "Equipment Finance" "Asset Loan"
       ["L&T Finance"; "Cholamandalam"; "Mahindra Finance"] "9-13%" "24-60 months"
       (mk_requirements (Some 55) (Some 1500000) (Some 0.55))
       ["Manufacturing"; "Machinery purchase"; "Asset acquisition"]);
    ("mudra_loan",
     mk_product "MUDRA Loan" "Government Scheme"
       ["All Banks (Govt Scheme)"] "8-12%" "12-60 months"
       (mk_requirements (Some 35) None None)
       ["Micro enterprises"; "New businesses"; "Small funding needs"]);
    ("trade_credit",
     mk_product "Trade Credit Insurance" "Insurance"
       ["ECGC"; "ICICI Lombard"; "Tata AIG"] "1-2% premium" "Annual"
       (mk_requirements (Some 45) None None)
       ["Export businesses"; "Credit sales"; "Risk protection"]) ].

(** [str(l)] for a list of strings without quotes or escapes, as all
    [best_for] lists are. *)
Definition py_str_list (l : list string) : string :=
  "[" ++ String.concat ", " (map (fun s => "'" ++ s ++ "'") l) ++ "]".

(** An entry of [reasons], without its rendering as text: the threshold of
    the health score is rendered with [str], that of the revenue with the
    format [:,], which raises [TypeError] on [None]. *)
Inductive gap : Type :=
  | health_score_below (threshold : option Q)
  | revenue_below (threshold : Q)
  | debt_ratio_too_high.

Record recommendation : Type := mk_recommendation {
  product_id : string;
  r_name : string;
  r_type : string;
  r_providers : list string;
  r_interest_rate : string;
  r_tenure : string;
  match_score : Z;
  r_best_for : list string;
  eligibility : string;
  requirements_gap : option (list gap)
}.

(** The body of the loop of [get_recommendations]: the entry appended for a
    product, if any. *)
Definition recommend_product
    (health_score revenue debt_ratio cash_runway working_capital : Q)
    (industry : string) (item : string * product) : result (option recommendation) :=
  let '(product_id, product) := item in
  let reqs := p_requirements product in
  let '(eligible, match_score, reasons) :=
    if health_score <? default 0 (min_health_score reqs)
    then (false, 0%Z, [health_score_below (min_health_score reqs)])
    else (true, 25%Z, []) in
  '(eligible, match_score, reasons) ←
    (if revenue <? default 0 (min_revenue reqs)
     then match min_revenue reqs with
          | Some threshold =>
              Ok (false, match_score, (reasons ++ [revenue_below threshold])%list)
          | None => Raise TypeError
          end
     else Ok (eligible, (match_score + 25)%Z, reasons));
  let '(eligible, match_score, reasons) :=
    if match max_debt_ratio reqs with
       | Some threshold => debt_ratio >? threshold
       | None => false
       end
    then (false, match_score, (reasons ++ [debt_ratio_too_high])%list)
    else (eligible, (match_score + 25)%Z, reasons) in
  let match_score :=
    if ((cash_runway <? 90)
        && contains "Cash flow" (py_str_list (p_best_for product)))%bool
    then (match_score + 25)%Z else match_score in
  let match_score :=
    if ((working_capital <? 0) && contains "working_capital" product_id)%bool
    then (match_score + 25)%Z else match_score in
  let match_score :=
    if (String.eqb industry "Manufacturing" && contains "equipment" product_id)%bool
    then (match_score + 20)%Z else match_score in
  let entry (score : Z) (eligibility : string) (gaps : option (list gap)) :=
    {| product_id := product_id;
       r_name := p_name product;
       r_type := p_type product;
       r_providers := take 3 (p_providers product);
       r_interest_rate := p_interest_rate product;
       r_tenure := p_tenure product;
       match_score := score;
       r_best_for := p_best_for product;
       eligibility := eligibility;
       requirements_gap := gaps |} in
  if eligible then Ok (Some (entry (Z.min 100 match_score) "Eligible" None))
  else if health_score >=? default 0 (min_health_score reqs) - 10
  then Ok (Some (entry (Z.max 0 (match_score - 30)) "May Qualify" (Some reasons)))
  else Ok None.

Fixpoint recommend_loop
    (health_score revenue debt_ratio cash_runway working_capital : Q)
    (industry : string) (products : list (string * product))
    (recommendations : list recommendation) : result (list recommendation) :=
  match products with
  | [] => Ok recommendations
  | item :: rest =>
      entry ← recommend_product health_score revenue debt_ratio cash_runway
                working_capital industry item;
      recommend_loop health_score revenue debt_ratio cash_runway working_capital
        industry rest
        (match entry with
         | Some entry => (recommendations ++ [entry])%list
         | None => recommendations
         end)
  end.

(** [list.sort(key=..., reverse=...)] on any list: stable, an element goes
    after the elements that may stay before it. *)
Fixpoint list_sort_insert {A : Type} (before : A -> A -> bool) (x : A)
    (sorted : list A) : list A :=
  match sorted with
  | [] => [x]
  | y :: rest =>
      if before y x then y :: list_sort_insert before x rest else x :: sorted
  end.

Definition list_sort {A : Type} (before : A -> A -> bool) (l : list A) : list A :=
  fold_left (fun sorted x => list_sort_insert before x sorted) l [].

(** [get_recommendations(health_score, metrics, industry)]: [raw_values] is
    the dict under the key ["raw_values"] of [metrics], if there is one; the
    parameter [company_size] is not used. *)
Definition get_recommendations (health_score : Q) (metrics : gmap string Q)
    (raw_values : option (gmap string Q)) (industry : string)
  : result (list recommendation) :=
  let revenue := dict_get (default ∅ raw_values) "revenue" 0 in
  let debt_ratio := dict_get metrics "debt_ratio" 0 in
  let cash_runway := dict_get metrics "cash_runway_days" 365 in
  let working_capital := dict_get metrics "working_capital" 0 in
  recommendations ←
    recommend_loop health_score revenue debt_ratio cash_runway working_capital
      industry FINANCIAL_PRODUCTS [];
  let recommendations :=
    list_sort (fun a b => (match_score b <=? match_score a)%Z) recommendations in
  Ok (take 5 recommendations).

(** [not data] on the parsed mapping: it has no key at all. *)
Definition is_empty (raw : raw_data) : bool :=
  (bool_decide (fields raw = ∅) && negb (bool_decide (is_Some (summary raw)))
   && negb (bool_decide (is_Some (financial_data raw))))%bool.

(** The response of the health-score request as far as the engine computes
    it: the score, the benchmark, the forecast and the recommendations. *)
Record health_score_response : Type := mk_health_score_response {
  hr_score : comprehensive_score;
  hr_benchmark_data : benchmark_result;
  hr_forecast_data : forecast;
  hr_recommendations : list recommendation
}.

(** [get_health_score] (routers/analysis.py) from the parsed data on: the
    guard against empty data and the four engine calls.  The metrics that
    the recommendations are given are those of [_extract_metrics], which have
    no key ["raw_values"]. *)
Definition get_health_score (now : datetime) (industry : string) (data : raw_data)
  : result health_score_response :=
  if is_empty data then Raise (HTTPException 500)
  else
    '(score_result, benchmark_data, forecast_data) ← assessment now data industry;
    recommendations ←
      get_recommendations (overall_score (cs_score score_result))
        (cs_metrics score_result) None industry;
    Ok {| hr_score := score_result;
          hr_benchmark_data := benchmark_data;
          hr_forecast_data := forecast_data;
          hr_recommendations := recommendations |}.

(** *** Recommendations *)

(** The three requirement checks of [get_recommendations]; a missing
    threshold of the health score or the revenue counts as 0. *)
Definition meets_requirements (health_score revenue debt_ratio : Q)
    (reqs : requirements) : Prop :=
  default 0 (min_health_score reqs) <= health_score /\
  default 0 (min_revenue reqs) <= revenue /\
  match max_debt_ratio reqs with
  | Some threshold => debt_ratio <= threshold
  | None => True
  end.

(** The points that the context adds to the match score of a product. *)
Definition context_bonus (cash_runway working_capital : Q) (industry : string)
    (item : string * product) : Z :=
  let tight_cash :=
    ((cash_runway <? 90)
     && contains "Cash flow" (py_str_list (p_best_for item.2)))%bool in
  let negative_capital :=
    ((working_capital <? 0) && contains "working_capital" item.1)%bool in
  let equipment :=
    (String.eqb industry "Manufacturing" && contains "equipment" item.1)%bool in
  ((if tight_cash then 25 else 0) + (if negative_capital then 25 else 0)
   + (if equipment then 20 else 0))%Z.

(** The entry that the loop appends for a product when it does not raise. *)
Definition product_outcome
    (health_score revenue debt_ratio cash_runway working_capital : Q)
    (industry : string) (item : string * product) : option recommendation :=
  match recommend_product health_score revenue debt_ratio cash_runway
          working_capital industry item with
  | Ok entry => entry
  | Raise _ | NotFinite => None
  end.

(** The order of [sort(key=match_score, reverse=True)]. *)
Definition by_match_score (a b : recommendation) : bool :=
  (match_score b <=? match_score a)%Z.

(* ===================================================================== *)
(** ** product_recommendation.py: class ProductRecommendationEngine *)
(* ===================================================================== *)

Module ProductRecommendation.

Inductive ProductType : Type :=
  | WORKING_CAPITAL_LOAN
  | TERM_LOAN
  | INVOICE_DISCOUNTING
  | MSME_CREDIT_LINE
  | EQUIPMENT_FINANCING
  | TRADE_FINANCE
  | OVERDRAFT_FACILITY
  | GOVERNMENT_SCHEME.

(** A [FinancialProduct], without the descriptive fields (description,
    provider type, the three ranges and the four lists of texts), which the
    engine only copies into its result. *)
Record FinancialProduct : Type := mk_FinancialProduct {
  fp_id : string;
  fp_name : string;
  fp_type : ProductType;
  min_score : Z;
  max_score : Z
}.

Definition FINANCIAL_PRODUCTS : list FinancialProduct :=
  [ mk_FinancialProduct "wcl_001" "Working Capital Loan" WORKING_CAPITAL_LOAN 45 100;
    mk_FinancialProduct "inv_001" "Invoice Discounting" INVOICE_DISCOUNTING 40 100;
    mk_FinancialProduct "msme_001" "MSME Credit Line" MSME_CREDIT_LINE 50 100;
    mk_FinancialProduct "od_001" "Overdraft Facility" OVERDRAFT_FACILITY 55 100;
    mk_FinancialProduct "tl_001" "Business Term Loan" TERM_LOAN 55 100;
    mk_FinancialProduct "ef_001" "Equipment Financing" EQUIPMENT_FINANCING 45 100;
    mk_FinancialProduct "mudra_001" "MUDRA Loan (Government Scheme)"
      GOVERNMENT_SCHEME 30 70;
    mk_FinancialProduct "standup_001" "Stand Up India Loan" GOVERNMENT_SCHEME 25 80;
    mk_FinancialProduct "tf_001" "Trade Finance" TRADE_FINANCE 55 100 ].

(** An entry of [reasons], without its rendering as text; two of the texts
    quote the receivables days and the industry. *)
Inductive reason : Type :=
  | below_minimum_requirement
  | low_cash_runway
  | tight_liquidity
  | high_receivables (receivables_days : Q)
  | convert_receivables
  | established_business
  | ideal_for_rebuilding
  | strong_profile
  | overdraft_suitable
  | equipment_common (industry : string)
  | invoice_popular (industry : string).

Definition _calculate_fit_score (product : FinancialProduct) (health_score : Q)
    (metrics : gmap string Q) (industry : string) (company_age_years : Z)
  : result (Q * list reason) :=
  if health_score <? inject_Z (min_score product)
  then Ok (0, [below_minimum_requirement])
  else
    q ← py_div (health_score - inject_Z (min_score product))
               (inject_Z (max_score product - min_score product));
    let score_fit := Py.min 100 (q * 100) in
    let score := 0 + score_fit * 0.3 in
    let reasons : list reason := [] in
    let cash_runway := dict_get metrics "cash_runway_days" 180 in
    let current_ratio := dict_get metrics "current_ratio" 1.5 in
    let receivables_days := dict_get metrics "receivables_days" 30 in
    let net_margin := dict_get metrics "net_margin" 5 in
    let '(score, reasons) :=
      match fp_type product with
      | WORKING_CAPITAL_LOAN =>
          let '(score, reasons) :=
            if cash_runway <? 90
            then (score + 25, (reasons ++ [low_cash_runway])%list)
            else (score, reasons) in
          if current_ratio <? 1.2
          then (score + 15, (reasons ++ [tight_liquidity])%list)
          else (score, reasons)
      | _ => (score, reasons)
      end in
    let '(score, reasons) :=
      match fp_type product with
      | INVOICE_DISCOUNTING =>
          let '(score, reasons) :=
            if receivables_days >? 45
            then (score + 30, (reasons ++ [high_receivables receivables_days])%list)
            else (score, reasons) in
          if ((cash_runway <? 60) && (receivables_days >? 30))%bool
          then (score + 20, (reasons ++ [convert_receivables])%list)
          else (score, reasons)
      | _ => (score, reasons)
      end in
    let '(score, reasons) :=
      match fp_type product with
      | MSME_CREDIT_LINE =>
          if (3 <=? company_age_years)%Z
          then (score + 20, (reasons ++ [established_business])%list)
          else (score, reasons)
      | _ => (score, reasons)
      end in
    let '(score, reasons) :=
      match fp_type product with
      | GOVERNMENT_SCHEME =>
          let '(score, reasons) :=
            if health_score <? 60
            then (score + 25, (reasons ++ [ideal_for_rebuilding])%list)
            else (score, reasons) in
          if health_score >=? 60 then (score - 10, reasons) else (score, reasons)
      | _ => (score, reasons)
      end in
    let '(score, reasons) :=
      match fp_type product with
      | TERM_LOAN =>
          if ((health_score >=? 65) && (net_margin >? 5))%bool
          then (score + 25, (reasons ++ [strong_profile])%list)
          else (score, reasons)
      | _ => (score, reasons)
      end in
    let '(score, reasons) :=
      match fp_type product with
      | OVERDRAFT_FACILITY =>
          if (2 <=? company_age_years)%Z
          then (score + 15, (reasons ++ [overdraft_suitable])%list)
          else (score, reasons)
      | _ => (score, reasons)
      end in
    let '(score, reasons) :=
      if (String.eqb industry "Manufacturing" || String.eqb industry "Retail")%bool
      then match fp_type product with
           | EQUIPMENT_FINANCING =>
               (score + 15, (reasons ++ [equipment_common industry])%list)
           | _ => (score, reasons)
           end
      else (score, reasons) in
    let '(score, reasons) :=
      if (String.eqb industry "E-commerce" || String.eqb industry "Services")%bool
      then match fp_type product with
           | INVOICE_DISCOUNTING =>
               (score + 10, (reasons ++ [invoice_popular industry])%list)
           | _ => (score, reasons)
           end
      else (score, reasons) in
    Ok (Py.min 100 score, reasons).

Definition _get_qualification_status (fit_score : Q) : string :=
  if fit_score >=? 80 then "highly_likely"
  else if fit_score >=? 60 then "likely"
  else if fit_score >=? 40 then "possible"
  else "needs_improvement".

(** An entry of [recommendations]; ["product"] is the product itself, of
    which [_product_to_dict] copies every field. *)
Record recommendation : Type := mk_recommendation {
  product : FinancialProduct;
  fit_score : Q;
  match_reasons : list reason;
  qualification_status : string
}.

(** The text of [_generate_summary], by its template and the values it
    quotes. *)
Inductive summary_text : Type :=
  | improve_score_first
  | strong_health (health_score : Q) (primary : string)
  | moderate_health_tight_runway (health_score cash_runway : Q)
  | moderate_health (health_score : Q)
  | developing_health (health_score : Q).

Definition _generate_summary (top_recommendations : list recommendation)
    (health_score : Q) (metrics : gmap string Q) : summary_text :=
  match top_recommendations with
  | [] => improve_score_first
  | first :: _ =>
      let cash_runway := dict_get metrics "cash_runway_days" 180 in
      if health_score >=? 70 then strong_health health_score (fp_name (product first))
      else if health_score >=? 50 then
        if cash_runway <? 60
        then moderate_health_tight_runway health_score cash_runway
        else moderate_health health_score
      else developing_health health_score
  end.

Definition _generate_next_steps (top_recommendations : list recommendation)
  : list string :=
  match top_recommendations with
  | [] =>
      [ "Focus on improving cash flow"; "Build 3-6 months of cash reserves";
        "Improve receivables collection" ]
  | first :: rest =>
      let steps :=
        [ "Gather documents for " +:+ fp_name (product first);
          "Update your GST returns and bank statements";
          "Check your CIBIL score" ] in
      let steps :=
        match rest with
        | second :: _ =>
            (steps ++ [ "Compare rates between " +:+ fp_name (product first)
                        +:+ " and " +:+ fp_name (product second) ])%list
        | [] => steps
        end in
      take 4 steps
  end.

(** The dict returned by [get_recommendations]. *)
Record recommendations : Type := mk_recommendations {
  highly_recommended : list recommendation;
  good_options : list recommendation;
  consider_later : list recommendation;
  summary : summary_text;
  next_steps : list string
}.

(** The loop of [get_recommendations] over the products. *)
Fixpoint recommend_loop (products : list FinancialProduct) (health_score : Q)
    (metrics : gmap string Q) (industry : string) (company_age_years : Z)
    (recommendations : list recommendation) : result (list recommendation) :=
  match products with
  | [] => Ok recommendations
  | product :: rest =>
      '(score, reasons) ← _calculate_fit_score product health_score metrics
                            industry company_age_years;
      recommend_loop rest health_score metrics industry company_age_years
        (if score >? 0
         then (recommendations
               ++ [ {| product := product; fit_score := score;
                       match_reasons := reasons;
                       qualification_status := _get_qualification_status score |} ])%list
         else recommendations)
  end.

Definition get_recommendations (health_score : Q) (metrics : gmap string Q)
    (industry : string) (company_age_years : Z) : result recommendations :=
  recommendations ←
    recommend_loop FINANCIAL_PRODUCTS health_score metrics industry
      company_age_years [];
  let recommendations :=
    list_sort (fun a b => fit_score a >=? fit_score b) recommendations in
  Ok {| highly_recommended :=
          take 3 (filter (fun r => fit_score r >=? 80) recommendations);
        good_options :=
          take 3 (filter (fun r => (60 <=? fit_score r) && (fit_score r <? 80))%bool
                         recommendations);
        consider_later :=
          take 2 (filter (fun r => (40 <=? fit_score r) && (fit_score r <? 60))%bool
                         recommendations);
        summary := _generate_summary (take 3 recommendations) health_score metrics;
        next_steps := _generate_next_steps (take 3 recommendations) |}.

End ProductRecommendation.
(** The highest fit score that a product of a type can get: 30 points for
    the health score and the points of the rules of its type. *)
Definition fit_score_cap (t : ProductRecommendation.ProductType) : Q :=
  match t with
  | ProductRecommendation.WORKING_CAPITAL_LOAN => 70
  | ProductRecommendation.INVOICE_DISCOUNTING => 90
  | ProductRecommendation.MSME_CREDIT_LINE => 50
  | ProductRecommendation.GOVERNMENT_SCHEME => 55
  | ProductRecommendation.TERM_LOAN => 55
  | ProductRecommendation.OVERDRAFT_FACILITY => 45
  | ProductRecommendation.EQUIPMENT_FINANCING => 45
  | ProductRecommendation.TRADE_FINANCE => 30
  end.

(** The order of [sort(key=fit_score, reverse=True)]. *)
Definition by_fit_score (a b : ProductRecommendation.recommendation) : bool :=
  ProductRecommendation.fit_score a >=? ProductRecommendation.fit_score b.

(** The three categories of the result. *)
Definition is_highly_recommended (r : ProductRecommendation.recommendation) : bool :=
  ProductRecommendation.fit_score r >=? 80.

Definition is_good_option (r : ProductRecommendation.recommendation) : bool :=
  ((60 <=? ProductRecommendation.fit_score r)
   && (ProductRecommendation.fit_score r <? 80))%bool.

Definition is_for_later (r : ProductRecommendation.recommendation) : bool :=
  ((40 <=? ProductRecommendation.fit_score r)
   && (ProductRecommendation.fit_score r <? 60))%bool.

(** The entry that the loop of [get_recommendations] appends for a product
    when its fit score is positive. *)
Definition fit_outcome (health_score : Q) (metrics : gmap string Q)
    (industry : string) (company_age_years : Z)
    (product : ProductRecommendation.FinancialProduct)
  : option ProductRecommendation.recommendation :=
  match ProductRecommendation._calculate_fit_score product health_score metrics
          industry company_age_years with
  | Ok (score, reasons) =>
      if score >? 0
      then Some {| ProductRecommendation.product := product;
                   ProductRecommendation.fit_score := score;
                   ProductRecommendation.match_reasons := reasons;
                   ProductRecommendation.qualification_status :=
                     ProductRecommendation._get_qualification_status score |}
      else None
  | Raise _ | NotFinite => None
  end.

(* ===================================================================== *)
(** ** business_insights.py: class BusinessInsightsService *)
(* ===================================================================== *)

Module BusinessInsights.

(** The argument [health_score] of the service: the dict of a health score,
    of which the keys ["metrics"] and ["overall_score"] are read. *)
Record health_score_data : Type := mk_health_score_data {
  hs_metrics : option (gmap string Q);
  hs_overall_score : option Q
}.

(** An alert, without its icon and its two texts (the message quotes the
    metric). *)
Record alert : Type := mk_alert {
  alert_type : string;
  title : string;
  priority : Z
}.

Definition get_risk_alerts (health_score : health_score_data) : list alert :=
  let metrics := default ∅ (hs_metrics health_score) in
  let overall_score := default 50 (hs_overall_score health_score) in
  let alerts : list alert := [] in
  let cash_runway := dict_get metrics "cash_runway_days" 180 in
  let alerts :=
    if cash_runway <? 90
    then (alerts ++ [mk_alert "critical" "Cash Runway Critical" 1])%list
    else if cash_runway <? 180
    then (alerts ++ [mk_alert "warning" "Cash Runway Low" 2])%list
    else alerts in
  let debt_to_equity := dict_get metrics "debt_to_equity" 0 in
  let alerts :=
    if debt_to_equity >? 2.0
    then (alerts ++ [mk_alert "critical" "High Debt Burden" 1])%list
    else if debt_to_equity >? 1.0
    then (alerts ++ [mk_alert "warning" "Elevated Debt Levels" 3])%list
    else alerts in
  let net_margin := dict_get metrics "net_margin" 0 in
  let alerts :=
    if net_margin <? 0
    then (alerts ++ [mk_alert "critical" "Operating at Loss" 1])%list
    else if net_margin <? 5
    then (alerts ++ [mk_alert "warning" "Thin Profit Margins" 3])%list
    else alerts in
  let current_ratio := dict_get metrics "current_ratio" 1 in
  let alerts :=
    if current_ratio <? 1.0
    then (alerts ++ [mk_alert "critical" "Liquidity Crisis" 1])%list
    else if current_ratio <? 1.5
    then (alerts ++ [mk_alert "warning" "Tight Liquidity" 3])%list
    else alerts in
  let wc_cycle := dict_get metrics "working_capital_cycle" 0 in
  let alerts :=
    if wc_cycle >? 90
    then (alerts ++ [mk_alert "warning" "Long Cash Conversion Cycle" 3])%list
    else alerts in
  let alerts :=
    if overall_score >=? 75
    then (alerts ++ [mk_alert "success" "Strong Financial Health" 5])%list
    else alerts in
  let alerts :=
    if net_margin >? 15
    then (alerts ++ [mk_alert "success" "Excellent Profitability" 5])%list
    else alerts in
  let alerts := list_sort (fun a b => (priority a <=? priority b)%Z) alerts in
  take 6 alerts.

Definition _interpret_health_score (score : Q) : string :=
  if score >=? 80
  then "Your business is financially healthy and well-positioned for growth."
  else if score >=? 60
  then "Your business is stable but has room for improvement in key areas."
  else if score >=? 40
  then "Your business faces some financial challenges that need attention."
  else "Your business needs urgent financial intervention to survive.".

Definition _interpret_cash_runway (days : Q) : string :=
  if days >? 180
  then "You have comfortable cash reserves to weather unexpected challenges."
  else if days >? 90
  then "Cash position is adequate but consider building more reserves."
  else if days >? 30
  then "Cash is tight. Focus on improving collections and reducing expenses."
  else "Immediate cash crisis. Prioritize emergency funding or cost cuts.".

Definition _interpret_debt (ratio : Q) : string :=
  if ratio <? 0.3
  then "Very low debt gives you financial flexibility and borrowing capacity."
  else if ratio <? 1.0
  then "Debt is manageable and within healthy range for most businesses."
  else if ratio <? 2.0
  then "Debt is elevated. New loans may be expensive or hard to obtain."
  else "High debt burden limits options and increases financial risk.".

Definition _interpret_margin (margin : Q) : string :=
  if margin >? 15
  then "Excellent profitability. You're earning well above cost."
  else if margin >? 5
  then "Reasonable profit margins for most industries."
  else if margin >? 0
  then "Thin margins leave little room for error."
  else "Operating at a loss. Each sale costs more than it earns.".

Definition _interpret_liquidity (ratio : Q) : string :=
  if ratio >? 2.0
  then "Strong ability to pay bills. No short-term cash concerns."
  else if ratio >? 1.5
  then "Good short-term financial position."
  else if ratio >? 1.0
  then "Can cover bills but margin is thin. Build more buffer."
  else "Cannot cover short-term obligations from current assets.".

Definition _interpret_wc_cycle (days : Q) : string :=
  if days <? 30
  then "Excellent cash efficiency. Money cycles back quickly."
  else if days <? 60
  then "Good working capital management."
  else if days <? 90
  then "Cash takes time to cycle back. Look to speed this up."
  else "Too much cash tied up in operations. Review inventory and receivables.".

Definition _get_score_color (score : Q) : string :=
  if score >=? 80 then "success"
  else if score >=? 60 then "info"
  else if score >=? 40 then "warning"
  else "danger".

(** An insight, without ["metric_value"], a rendering of the metric. *)
Record insight : Type := mk_insight {
  category : string;
  metric_name : string;
  interpretation : string;
  color : string
}.

(** [get_cfo_insights(health_score, industry)]; the industry is not used. *)
Definition get_cfo_insights (health_score : health_score_data) : list insight :=
  let metrics := default ∅ (hs_metrics health_score) in
  let overall_score := default 50 (hs_overall_score health_score) in
  let cash_runway := dict_get metrics "cash_runway_days" 180 in
  let debt_to_equity := dict_get metrics "debt_to_equity" 0 in
  let net_margin := dict_get metrics "net_margin" 0 in
  let current_ratio := dict_get metrics "current_ratio" 1 in
  let wc_cycle := dict_get metrics "working_capital_cycle" 0 in
  [ mk_insight "Overall Health" "Financial Health Score"
      (_interpret_health_score overall_score) (_get_score_color overall_score);
    mk_insight "Cash Position" "Cash Runway" (_interpret_cash_runway cash_runway)
      (if cash_runway >? 180 then "success"
       else if cash_runway >? 90 then "warning" else "danger");
    mk_insight "Debt Health" "Debt Level" (_interpret_debt debt_to_equity)
      (if debt_to_equity <? 0.5 then "success"
       else if debt_to_equity <? 1.5 then "warning" else "danger");
    mk_insight "Profitability" "Profit per Sale" (_interpret_margin net_margin)
      (if net_margin >? 10 then "success"
       else if net_margin >? 0 then "warning" else "danger");
    mk_insight "Bill Paying Ability" "Short-term Coverage"
      (_interpret_liquidity current_ratio)
      (if current_ratio >? 2 then "success"
       else if current_ratio >? 1 then "warning" else "danger");
    mk_insight "Cash Efficiency" "Cash Conversion" (_interpret_wc_cycle wc_cycle)
      (if wc_cycle <? 60 then "success"
       else if wc_cycle <? 90 then "warning" else "danger") ].

End BusinessInsights.

(** The alerts of one kind, by their titles, and the colour of the insight
    of a category. *)
Definition alert_titles (health_score : BusinessInsights.health_score_data)
  : list string :=
  map BusinessInsights.title (BusinessInsights.get_risk_alerts health_score).

Definition insight_color (health_score : BusinessInsights.health_score_data)
    (category : string) : option string :=
  BusinessInsights.color
    <$> head (filter (fun i => String.eqb (BusinessInsights.category i) category)
                     (BusinessInsights.get_cfo_insights health_score)).

(** The order of [sort(key=priority)]. *)
Definition by_priority (a b : BusinessInsights.alert) : bool :=
  (BusinessInsights.priority a <=? BusinessInsights.priority b)%Z.

(** The alerts that each rule of [get_risk_alerts] adds. *)
Definition cash_alerts (cash_runway : Q) : list BusinessInsights.alert :=
  if cash_runway <? 90
  then [BusinessInsights.mk_alert "critical" "Cash Runway Critical" 1]
  else if cash_runway <? 180
  then [BusinessInsights.mk_alert "warning" "Cash Runway Low" 2]
  else [].

Definition debt_alerts (debt_to_equity : Q) : list BusinessInsights.alert :=
  if debt_to_equity >? 2.0
  then [BusinessInsights.mk_alert "critical" "High Debt Burden" 1]
  else if debt_to_equity >? 1.0
  then [BusinessInsights.mk_alert "warning" "Elevated Debt Levels" 3]
  else [].

Definition margin_alerts (net_margin : Q) : list BusinessInsights.alert :=
  if net_margin <? 0
  then [BusinessInsights.mk_alert "critical" "Operating at Loss" 1]
  else if net_margin <? 5
  then [BusinessInsights.mk_alert "warning" "Thin Profit Margins" 3]
  else [].

Definition liquidity_alerts (current_ratio : Q) : list BusinessInsights.alert :=
  if current_ratio <? 1.0
  then [BusinessInsights.mk_alert "critical" "Liquidity Crisis" 1]
  else if current_ratio <? 1.5
  then [BusinessInsights.mk_alert "warning" "Tight Liquidity" 3]
  else [].

Definition cycle_alerts (wc_cycle : Q) : list BusinessInsights.alert :=
  if wc_cycle >? 90
  then [BusinessInsights.mk_alert "warning" "Long Cash Conversion Cycle" 3]
  else [].

Definition health_alerts (overall_score : Q) : list BusinessInsights.alert :=
  if overall_score >=? 75
  then [BusinessInsights.mk_alert "success" "Strong Financial Health" 5]
  else [].

Definition profit_alerts (net_margin : Q) : list BusinessInsights.alert :=
  if net_margin >? 15
  then [BusinessInsights.mk_alert "success" "Excellent Profitability" 5]
  else [].

(** All alerts whose rule fires, in the order of the rules. *)
Definition fired_alerts (health_score : BusinessInsights.health_score_data)
  : list BusinessInsights.alert :=
  let metrics := default ∅ (BusinessInsights.hs_metrics health_score) in
  (cash_alerts (dict_get metrics "cash_runway_days" 180)
   ++ debt_alerts (dict_get metrics "debt_to_equity" 0)
   ++ margin_alerts (dict_get metrics "net_margin" 0)
   ++ liquidity_alerts (dict_get metrics "current_ratio" 1)
   ++ cycle_alerts (dict_get metrics "working_capital_cycle" 0)
   ++ health_alerts (default 50 (BusinessInsights.hs_overall_score health_score))
   ++ profit_alerts (dict_get metrics "net_margin" 0))%list.
(* ===================================================================== *)
(** ** health_score.py: the summary text *)
(* ===================================================================== *)

(** The text of [HealthScoreCalculator._generate_summary], by the condition
    that its first sentence names, the score it quotes, formatted to zero
    places, and the grade it quotes. *)
Record health_summary : Type := mk_health_summary {
  condition : string;
  quoted_score : Z;
  quoted_grade : string
}.

Definition _generate_summary (score_result : score_result) : health_summary :=
  let score := overall_score score_result in
  {| condition :=
       if score >=? 75 then "strong financial health"
       else if score >=? 55 then "moderate financial health"
       else if score >=? 35 then "financial challenges"
       else "critical financial condition";
     quoted_score := Py.round_half_even score;
     quoted_grade := grade score_result |}.

(** The risk level whose score band a condition of the summary stands for. *)
Definition risk_of_condition (condition : string) : string :=
  if String.eqb condition "strong financial health" then "Low"
  else if String.eqb condition "moderate financial health" then "Medium"
  else if String.eqb condition "financial challenges" then "High"
  else "Critical".

(* ===================================================================== *)
(** * Properties *)
(* ===================================================================== *)

(** ** Comparisons *)

Lemma geb_cases (a b : Q) :
  ((a >=? b) = true /\ b <= a) \/ ((a >=? b) = false /\ a < b).
Proof.
  unfold Py.geb. destruct (Qle_bool b a) eqn:E.
  - left. split; [reflexivity | now apply Qle_bool_iff].
  - right. split; [reflexivity |].
    apply Qnot_le_lt. intros H. apply Qle_bool_iff in H. congruence.
Qed.

Lemma gtb_cases (a b : Q) :
  ((a >? b) = true /\ b < a) \/ ((a >? b) = false /\ a <= b).
Proof.
  unfold Py.gtb. destruct (Qle_bool a b) eqn:E; simpl.
  - right. split; [reflexivity | now apply Qle_bool_iff].
  - left. split; [reflexivity |].
    apply Qnot_le_lt. intros H. apply Qle_bool_iff in H. congruence.
Qed.

Lemma leb_cases (a b : Q) :
  ((a <=? b) = true /\ a <= b) \/ ((a <=? b) = false /\ b < a).
Proof. exact (geb_cases b a). Qed.

Lemma ltb_cases (a b : Q) :
  ((a <? b) = true /\ a < b) \/ ((a <? b) = false /\ b <= a).
Proof. exact (gtb_cases b a). Qed.

(** Decide every comparison in the goal, keeping its meaning as a hypothesis. *)
Ltac split_cmp :=
  repeat match goal with
  | |- context [Py.geb ?a ?b] => destruct (geb_cases a b) as [[-> ?] | [-> ?]]
  | |- context [Py.gtb ?a ?b] => destruct (gtb_cases a b) as [[-> ?] | [-> ?]]
  | |- context [Py.leb ?a ?b] => destruct (leb_cases a b) as [[-> ?] | [-> ?]]
  | |- context [Py.ltb ?a ?b] => destruct (ltb_cases a b) as [[-> ?] | [-> ?]]
  end.

(** Name every quotient [a / b] by a constant [b], remembering [b * (a / b) == a],
    so that linear arithmetic can use it. *)
Ltac name_quotients :=
  repeat match goal with
  | |- context [Qdiv ?a ?b] =>
      let E := fresh "Hq" in
      assert (E : b * (a / b) == a) by (apply Qmult_div_r; lra);
      let t := fresh "q" in
      set (t := a / b) in *; clearbody t
  end.

Ltac curve := unfold Py.min, Py.max; name_quotients; split_cmp; try lra.

(** ** Rounding *)

Section Rounding.

Lemma round_half_even_cases (x : Q) :
  (Py.round_half_even x = Qfloor x /\ x - inject_Z (Qfloor x) <= 1 # 2) \/
  (Py.round_half_even x = (Qfloor x + 1)%Z /\ 1 # 2 <= x - inject_Z (Qfloor x)).
Proof.
  unfold Py.round_half_even.
  destruct (Qcompare_spec (x - inject_Z (Qfloor x)) (1 # 2)) as [E | E | E].
  - destruct (Z.even (Qfloor x)); [left | right]; split; try reflexivity; lra.
  - left. split; [reflexivity | lra].
  - right. split; [reflexivity | lra].
Qed.

Lemma round_half_even_comp (x y : Q) :
  x == y -> Py.round_half_even x = Py.round_half_even y.
Proof.
  intros E. unfold Py.round_half_even.
  rewrite (Qfloor_comp _ _ E).
  assert (E' : x - inject_Z (Qfloor y) == y - inject_Z (Qfloor y))
    by (rewrite E; reflexivity).
  rewrite (Qcompare_comp _ _ E' _ _ (Qeq_refl (1 # 2))). reflexivity.
Qed.

Lemma round_half_even_mono (x y : Q) :
  x <= y -> (Py.round_half_even x <= Py.round_half_even y)%Z.
Proof.
  intros Hxy.
  pose proof (Qfloor_resp_le x y Hxy) as Hf.
  destruct (Z.eq_dec (Qfloor x) (Qfloor y)) as [E | NE].
  - unfold Py.round_half_even. rewrite E.
    destruct (Qcompare_spec (x - inject_Z (Qfloor y)) (1 # 2)) as [Ex | Ex | Ex];
    destruct (Qcompare_spec (y - inject_Z (Qfloor y)) (1 # 2)) as [Ey | Ey | Ey];
    try lra; try lia; destruct (Z.even (Qfloor y)); lia.
  - destruct (round_half_even_cases x) as [[-> _] | [-> _]];
    destruct (round_half_even_cases y) as [[-> _] | [-> _]]; lia.
Qed.

Lemma round_half_even_Z (z : Z) : Py.round_half_even (inject_Z z) = z.
Proof.
  unfold Py.round_half_even. rewrite Qfloor_Z.
  destruct (Qcompare_spec (inject_Z z - inject_Z z) (1 # 2)) as [E | E | E];
    [lra | reflexivity | lra].
Qed.

Lemma round_scale_pos (n : nat) : 0 < inject_Z (10 ^ Z.of_nat n).
Proof.
  change 0 with (inject_Z 0). rewrite <- Zlt_Qlt.
  apply Z.pow_pos_nonneg; lia.
Qed.

(** [round(x, n)] as a rational number. *)
Lemma round_value (x : Q) (n : nat) :
  Py.round x n
  == inject_Z (Py.round_half_even (x * inject_Z (10 ^ Z.of_nat n)))
     / inject_Z (10 ^ Z.of_nat n).
Proof. unfold Py.round. apply Qred_correct. Qed.

Lemma round_comp (x y : Q) (n : nat) : x == y -> Py.round x n = Py.round y n.
Proof.
  intros E. unfold Py.round. apply Qred_complete.
  set (s := inject_Z (10 ^ Z.of_nat n)).
  rewrite (round_half_even_comp (x * s) (y * s)); [reflexivity |].
  rewrite E. reflexivity.
Qed.

Lemma round_mono (x y : Q) (n : nat) : x <= y -> Py.round x n <= Py.round y n.
Proof.
  intros Hxy. rewrite !round_value.
  pose proof (round_scale_pos n) as Hs.
  set (s := inject_Z (10 ^ Z.of_nat n)) in *.
  assert (Hm : (Py.round_half_even (x * s) <= Py.round_half_even (y * s))%Z).
  { apply round_half_even_mono. nra. }
  rewrite Zle_Qle in Hm.
  apply Qmult_le_compat_r; [exact Hm |].
  apply Qlt_le_weak, Qinv_lt_0_compat, Hs.
Qed.

(** A whole number is its own rounding. *)
Lemma round_Z (z : Z) (n : nat) : Py.round (inject_Z z) n == inject_Z z.
Proof.
  rewrite round_value.
  pose proof (round_scale_pos n) as Hs.
  rewrite <- inject_Z_mult, round_half_even_Z, inject_Z_mult.
  field. lra.
Qed.

Lemma round_between (a b : Z) (x : Q) (n : nat) :
  inject_Z a <= x -> x <= inject_Z b ->
  inject_Z a <= Py.round x n /\ Py.round x n <= inject_Z b.
Proof.
  intros Ha Hb. split.
  - rewrite <- (round_Z a n). apply round_mono, Ha.
  - rewrite <- (round_Z b n). apply round_mono, Hb.
Qed.

End Rounding.

Lemma round_le_Z (b : Z) (x : Q) (n : nat) :
  x <= inject_Z b -> Py.round x n <= inject_Z b.
Proof. intros H. rewrite <- (round_Z b n). apply round_mono, H. Qed.

Lemma round_ge_Z (a : Z) (x : Q) (n : nat) :
  inject_Z a <= x -> inject_Z a <= Py.round x n.
Proof. intros H. rewrite <- (round_Z a n). apply round_mono, H. Qed.

(** Rounding moves a number by at most half a unit of the last place. *)
Lemma round_half_even_error (x : Q) :
  Qabs (inject_Z (Py.round_half_even x) - x) <= 1 # 2.
Proof.
  pose proof (Qfloor_le x) as Hlo. pose proof (Qlt_floor x) as Hhi.
  rewrite inject_Z_plus in Hhi. change (inject_Z 1) with 1 in Hhi.
  apply Qabs_Qle_condition.
  destruct (round_half_even_cases x) as [[-> H] | [-> H]].
  - split; lra.
  - rewrite inject_Z_plus. change (inject_Z 1) with 1. split; lra.
Qed.

Lemma round_error (x : Q) (n : nat) :
  Qabs (Py.round x n - x) <= (1 # 2) / inject_Z (10 ^ Z.of_nat n).
Proof.
  rewrite round_value.
  pose proof (round_scale_pos n) as Hs.
  set (s := inject_Z (10 ^ Z.of_nat n)) in *.
  pose proof (round_half_even_error (x * s)) as He.
  apply Qabs_Qle_condition in He. destruct He as [He1 He2].
  set (r := inject_Z (Py.round_half_even (x * s))) in *. clearbody r s.
  assert (Hq : s * (r / s) == r) by (apply Qmult_div_r; lra).
  assert (Hh : s * ((1 # 2) / s) == 1 # 2) by (apply Qmult_div_r; lra).
  set (q := r / s) in *. set (h := (1 # 2) / s) in *. clearbody q h.
  assert (Hc : forall t, 0 <= s * t -> 0 <= t).
  { intros t Ht. destruct (Qlt_le_dec t 0) as [Hlt | Hge]; [| exact Hge].
    assert (0 < s * (- t)) by (apply Qmult_lt_0_compat; lra). lra. }
  apply Qabs_Qle_condition. split.
  - assert (0 <= q - x + h) by (apply Hc; lra). lra.
  - assert (0 <= h - (q - x)) by (apply Hc; lra). lra.
Qed.

(** A number rounded to two places is within a cent of the number. *)
Lemma round_within_cent (x y : Q) : x == y -> Qabs (Py.round x 2 - y) <= 0.01.
Proof.
  intros E. pose proof (round_error x 2) as H.
  apply Qabs_Qle_condition in H. destruct H as [H1 H2].
  change ((1 # 2) / inject_Z (10 ^ Z.of_nat 2)) with (1 # 200) in H1, H2.
  apply Qabs_Qle_condition. split; lra.
Qed.

Lemma close_to_refl (x y : Q) : x == y -> close_to x y.
Proof.
  intros H. unfold close_to.
  assert (Hz : x - y == 0) by lra. rewrite Hz.
  change (Qabs 0) with 0.
  pose proof (Qabs_nonneg y). lra.
Qed.

(** ** Scoring curves *)

Section Curves.

Local Ltac dom := unfold nonneg, positive, any in *.

Lemma cr_score_bounded : bounded_on nonneg cr_score.
Proof. intros x Hx; dom; unfold cr_score; split; curve. Qed.
Lemma qr_score_bounded : bounded_on nonneg qr_score.
Proof. intros x Hx; dom; unfold qr_score; split; curve. Qed.
Lemma cash_score_bounded : bounded_on nonneg cash_score.
Proof. intros x Hx; dom; unfold cash_score; split; curve. Qed.
Lemma gm_score_bounded : bounded_on any gm_score.
Proof. intros x Hx; dom; unfold gm_score; split; curve. Qed.
Lemma nm_score_bounded : bounded_on any nm_score.
Proof. intros x Hx; dom; unfold nm_score; split; curve. Qed.
Lemma roe_score_bounded : bounded_on any roe_score.
Proof. intros x Hx; dom; unfold roe_score; split; curve. Qed.
Lemma de_score_bounded : bounded_on nonneg de_score.
Proof. intros x Hx; dom; unfold de_score; split; curve. Qed.
Lemma dr_score_bounded : bounded_on nonneg dr_score.
Proof. intros x Hx; dom; unfold dr_score; split; curve. Qed.
Lemma ic_score_bounded : bounded_on nonneg ic_score.
Proof. intros x Hx; dom; unfold ic_score; split; curve. Qed.
Lemma it_score_bounded : bounded_on nonneg it_score.
Proof. intros x Hx; dom; unfold it_score; split; curve. Qed.
Lemma rt_score_bounded : bounded_on nonneg rt_score.
Proof. intros x Hx; dom; unfold rt_score; split; curve. Qed.
Lemma at_score_bounded : bounded_on nonneg at_score.
Proof. intros x Hx; dom; unfold at_score; split; curve. Qed.
Lemma runway_score_bounded : bounded_on nonneg runway_score.
Proof. intros x Hx; dom; unfold runway_score; split; curve. Qed.
Lemma wc_score_bounded : bounded_on any wc_score.
Proof. intros x Hx; dom; unfold wc_score; split; curve. Qed.
Lemma wcc_score_bounded : bounded_on any wcc_score.
Proof. intros x Hx; dom; unfold wcc_score; split; curve. Qed.

Lemma cr_score_mono : nondecreasing_on nonneg cr_score.
Proof. intros x y Hx Hy Hxy; dom; unfold cr_score; curve. Qed.
Lemma qr_score_mono : nondecreasing_on nonneg qr_score.
Proof. intros x y Hx Hy Hxy; dom; unfold qr_score; curve. Qed.
Lemma cash_score_mono : nondecreasing_on nonneg cash_score.
Proof. intros x y Hx Hy Hxy; dom; unfold cash_score; curve. Qed.
Lemma gm_score_mono : nondecreasing_on any gm_score.
Proof. intros x y Hx Hy Hxy; dom; unfold gm_score; curve. Qed.
Lemma nm_score_mono : nondecreasing_on any nm_score.
Proof. intros x y Hx Hy Hxy; dom; unfold nm_score; curve. Qed.
Lemma roe_score_mono : nondecreasing_on any roe_score.
Proof. intros x y Hx Hy Hxy; dom; unfold roe_score; curve. Qed.
Lemma at_score_mono : nondecreasing_on nonneg at_score.
Proof. intros x y Hx Hy Hxy; dom; unfold at_score; curve. Qed.
Lemma runway_score_mono : nondecreasing_on nonneg runway_score.
Proof. intros x y Hx Hy Hxy; dom; unfold runway_score; curve. Qed.
Lemma wc_score_mono : nondecreasing_on any wc_score.
Proof. intros x y Hx Hy Hxy; dom; unfold wc_score; curve. Qed.
(** The turnover curves rise only over the strictly positive turnovers. *)
Lemma it_score_mono : nondecreasing_on positive it_score.
Proof. intros x y Hx Hy Hxy; dom; unfold it_score; curve. Qed.
Lemma rt_score_mono : nondecreasing_on positive rt_score.
Proof. intros x y Hx Hy Hxy; dom; unfold rt_score; curve. Qed.

Lemma de_score_mono : nonincreasing_on nonneg de_score.
Proof. intros x y Hx Hy Hxy; dom; unfold de_score; curve. Qed.
Lemma dr_score_mono : nonincreasing_on nonneg dr_score.
Proof. intros x y Hx Hy Hxy; dom; unfold dr_score; curve. Qed.

Lemma cr_score_continuous : continuous_on nonneg 60 cr_score.
Proof. intros x y Hx Hy Hxy; dom; unfold cr_score; split; curve. Qed.
Lemma qr_score_continuous : continuous_on nonneg 80 qr_score.
Proof. intros x y Hx Hy Hxy; dom; unfold qr_score; split; curve. Qed.
Lemma gm_score_continuous : continuous_on any 2 gm_score.
Proof. intros x y Hx Hy Hxy; dom; unfold gm_score; split; curve. Qed.
Lemma nm_score_continuous : continuous_on any 6 nm_score.
Proof. intros x y Hx Hy Hxy; dom; unfold nm_score; split; curve. Qed.
Lemma roe_score_continuous : continuous_on any 4 roe_score.
Proof. intros x y Hx Hy Hxy; dom; unfold roe_score; split; curve. Qed.
Lemma de_score_continuous : continuous_on nonneg 60 de_score.
Proof. intros x y Hx Hy Hxy; dom; unfold de_score; split; curve. Qed.
Lemma dr_score_continuous : continuous_on nonneg 200 dr_score.
Proof. intros x y Hx Hy Hxy; dom; unfold dr_score; split; curve. Qed.
Lemma at_score_continuous : continuous_on nonneg 60 at_score.
Proof. intros x y Hx Hy Hxy; dom; unfold at_score; split; curve. Qed.
Lemma wc_score_continuous : continuous_on any (1 # 2000) wc_score.
Proof. intros x y Hx Hy Hxy; dom; unfold wc_score; split; curve. Qed.
Lemma rt_score_continuous : continuous_on positive 10 rt_score.
Proof. intros x y Hx Hy Hxy; dom; unfold rt_score; split; curve. Qed.

End Curves.

Create HintDb curves.
#[local] Hint Resolve
  cr_score_bounded qr_score_bounded cash_score_bounded gm_score_bounded
  nm_score_bounded roe_score_bounded de_score_bounded dr_score_bounded
  ic_score_bounded it_score_bounded rt_score_bounded at_score_bounded
  runway_score_bounded wc_score_bounded wcc_score_bounded cr_score_mono
  qr_score_mono cash_score_mono gm_score_mono nm_score_mono
  roe_score_mono at_score_mono runway_score_mono wc_score_mono
  it_score_mono rt_score_mono de_score_mono dr_score_mono
  cr_score_continuous qr_score_continuous gm_score_continuous nm_score_continuous
  roe_score_continuous de_score_continuous dr_score_continuous at_score_continuous
  wc_score_continuous rt_score_continuous : curves.

(** The kinks the rounded slopes leave in two curves: interest coverage drops
    when it reaches 3, and the working-capital-cycle score rises just after 90
    days. *)
Example ic_score_drops_at_3 :
  ic_score 2.99 == 70.23 /\ ic_score 3 == 70 /\ ic_score 3 < ic_score 2.99.
Proof. vm_compute. repeat split; reflexivity. Qed.

Example wcc_score_rises_after_90 :
  wcc_score 90 == 40 /\ wcc_score 90.01 == 40.0933 /\ wcc_score 90 < wcc_score 90.01.
Proof. vm_compute. repeat split; reflexivity. Qed.

(** The jumps at the breakpoints whose incoming slope is rounded: the left
    piece ends at 69.9, 59.9, 9.9, 69.7 and 99.6 where the curve takes the
    values 70, 60, 10, 70 and 100. *)
Example rounded_slopes_leave_jumps :
  30 + (0.5 - 0.2) * 133 == 69.9 /\ cash_score 0.5 == 70 /\
  20 + (5 - 2) * 13.3 == 59.9 /\ it_score 5 == 60 /\
  30 * 0.33 == 9.9 /\ runway_score 30 == 10 /\
  40 + (180 - 90) * 0.33 == 69.7 /\ runway_score 180 == 70 /\
  70 + (365 - 180) * 0.16 == 99.6 /\ runway_score 365 == 100.
Proof. vm_compute. repeat split; reflexivity. Qed.

(** C2, as stated, fails: a turnover of 0 is a legal value of the data model
    and scores the neutral 50, above the score 10 of a turnover of 1, so the
    inventory-turnover and receivables-turnover curves are not non-decreasing
    over the non-negative turnovers. *)
Lemma turnover_curves_not_monotone_at_zero :
  (it_score 0 == 50 /\ it_score 1 == 10 /\ rt_score 0 == 50 /\ rt_score 1 == 7.5) /\
  ~ nondecreasing_on nonneg it_score /\
  ~ nondecreasing_on nonneg rt_score.
Proof.
  split; [vm_compute; repeat split; reflexivity |].
  split; intros H; specialize (H 0 1); unfold nonneg in H;
    (assert (Hle : (0 : Q) <= 1) by lra);
    specialize (H (Qle_refl 0) Hle Hle); vm_compute in H; apply H; reflexivity.
Qed.

(** C2 (amended).  Under the sign constraints of the data model every
    sub-metric curve stays within [0, 100]; the higher-is-better curves
    current_ratio, quick_ratio, cash_ratio, gross_margin, net_margin, roe,
    asset_turnover, cash_runway_days and working_capital are non-decreasing;
    inventory_turnover and receivables_turnover are non-decreasing over the
    strictly positive turnovers (a turnover of 0 scores the neutral 50);
    debt_to_equity and debt_ratio are non-increasing; and the curves of
    current_ratio, quick_ratio, gross_margin, net_margin, roe, debt_to_equity,
    debt_ratio, asset_turnover, working_capital and (over positive turnovers)
    receivables_turnover are continuous, breakpoints included. *)
Theorem scoring_curves_bounded_monotone_continuous :
  (bounded_on nonneg cr_score /\ bounded_on nonneg qr_score /\
   bounded_on nonneg cash_score /\ bounded_on any gm_score /\
   bounded_on any nm_score /\ bounded_on any roe_score /\
   bounded_on nonneg de_score /\ bounded_on nonneg dr_score /\
   bounded_on nonneg ic_score /\ bounded_on nonneg it_score /\
   bounded_on nonneg rt_score /\ bounded_on nonneg at_score /\
   bounded_on nonneg runway_score /\ bounded_on any wc_score /\
   bounded_on any wcc_score) /\
  (nondecreasing_on nonneg cr_score /\ nondecreasing_on nonneg qr_score /\
   nondecreasing_on nonneg cash_score /\ nondecreasing_on any gm_score /\
   nondecreasing_on any nm_score /\ nondecreasing_on any roe_score /\
   nondecreasing_on nonneg at_score /\ nondecreasing_on nonneg runway_score /\
   nondecreasing_on any wc_score /\
   nondecreasing_on positive it_score /\ nondecreasing_on positive rt_score) /\
  (nonincreasing_on nonneg de_score /\ nonincreasing_on nonneg dr_score) /\
  (continuous_on nonneg 60 cr_score /\ continuous_on nonneg 80 qr_score /\
   continuous_on any 2 gm_score /\ continuous_on any 6 nm_score /\
   continuous_on any 4 roe_score /\ continuous_on nonneg 60 de_score /\
   continuous_on nonneg 200 dr_score /\ continuous_on nonneg 60 at_score /\
   continuous_on any (1 # 2000) wc_score /\ continuous_on positive 10 rt_score).
Proof.
  repeat match goal with |- _ /\ _ => split end; auto with curves.
Qed.

(** The theorem at concrete metric values: a current ratio rising from 0.8 to
    1.7, a debt-to-equity ratio rising from 0.9 to 2.4, and the score of a
    negative net margin. *)
Lemma scoring_curves_witness :
  cr_score 0.8 <= cr_score 1.7 /\ de_score 2.4 <= de_score 0.9 /\
  (0 <= nm_score (-4) /\ nm_score (-4) <= 100).
Proof.
  destruct scoring_curves_bounded_monotone_continuous
    as [(_ & _ & _ & _ & Hnm & _) [(Hcr & _) [(Hde & _) _]]].
  split; [| split].
  - apply Hcr; unfold nonneg; lra.
  - apply Hde; unfold nonneg; lra.
  - apply Hnm. exact I.
Defined.

(** ** Efficiency: the neutral score of an absent turnover *)

(** C10, as stated, fails: not every strictly positive turnover [t] scores
    [t * 10] (respectively [t * 7.5]); from the second band on the curve
    follows another line. *)
Lemma turnover_score_not_linear_above_band :
  (0 < 5 /\ it_score 5 == 60 /\ ~ it_score 5 == 5 * 10) /\
  (0 < 8 /\ rt_score 8 == 70 /\ ~ rt_score 8 == 8 * 7.5).
Proof. vm_compute. repeat split; try reflexivity; intros H; discriminate H. Qed.

(** C10 (amended).  An inventory turnover of exactly 0 scores the neutral 50,
    and so does a receivables turnover of exactly 0, whereas a strictly
    positive turnover [t] below 2 (respectively below 4) scores [t * 10]
    (respectively [t * 7.5]); so turnovers arbitrarily close to 0 from above
    score arbitrarily close to 0. *)
Theorem zero_turnover_scores_neutral :
  it_score 0 == 50 /\ rt_score 0 == 50 /\
  (forall t, 0 < t -> t < 2 -> it_score t == t * 10) /\
  (forall t, 0 < t -> t < 4 -> rt_score t == t * 7.5) /\
  (forall eps, 0 < eps ->
     exists t, 0 < t /\ (0 <= it_score t /\ it_score t < eps)
               /\ (0 <= rt_score t /\ rt_score t < eps)).
Proof.
  assert (Hit : forall t, 0 < t -> t < 2 -> it_score t == t * 10).
  { intros t H0 H2. unfold it_score. curve. }
  assert (Hrt : forall t, 0 < t -> t < 4 -> rt_score t == t * 7.5).
  { intros t H0 H4. unfold rt_score. curve. }
  split; [reflexivity |]. split; [reflexivity |].
  split; [exact Hit |]. split; [exact Hrt |].
  intros eps Heps.
  exists (Py.min 1 (eps / 20)).
  assert (Hq : 20 * (eps / 20) == eps) by (apply Qmult_div_r; lra).
  set (q := eps / 20) in *; clearbody q.
  assert (Ht : 0 < Py.min 1 q /\ Py.min 1 q <= 1 /\ Py.min 1 q <= q).
  { unfold Py.min. split_cmp; lra. }
  set (t := Py.min 1 q) in *; clearbody t.
  destruct Ht as (Ht0 & Ht1 & Htq).
  rewrite (Hit t), (Hrt t) by lra.
  repeat split; lra.
Qed.

(** The theorem at the turnovers 0.5 and 1. *)
Lemma zero_turnover_scores_neutral_witness :
  it_score 0.5 == 0.5 * 10 /\ rt_score 1 == 1 * 7.5.
Proof.
  destruct zero_turnover_scores_neutral as (_ & _ & Hit & Hrt & _).
  split; [apply Hit | apply Hrt]; lra.
Defined.

(** ** Grade and risk level *)

(** C8.  The grade and the risk level are threshold-exact: each grade of the
    11-point scale is given exactly on its band, 90 gives "A+" and 89.99 gives
    "A"; the risk level is "Low" from 75, "Medium" on [55, 75), "High" on
    [35, 55) and "Critical" below 35, with the boundaries on the upper side. *)
Theorem grade_and_risk_threshold_exact (score : Q) :
  ((90 <= score -> _calculate_grade score = "A+") /\
   (85 <= score -> score < 90 -> _calculate_grade score = "A") /\
   (80 <= score -> score < 85 -> _calculate_grade score = "A-") /\
   (75 <= score -> score < 80 -> _calculate_grade score = "B+") /\
   (70 <= score -> score < 75 -> _calculate_grade score = "B") /\
   (65 <= score -> score < 70 -> _calculate_grade score = "B-") /\
   (60 <= score -> score < 65 -> _calculate_grade score = "C+") /\
   (55 <= score -> score < 60 -> _calculate_grade score = "C") /\
   (50 <= score -> score < 55 -> _calculate_grade score = "C-") /\
   (40 <= score -> score < 50 -> _calculate_grade score = "D") /\
   (score < 40 -> _calculate_grade score = "F")) /\
  (_calculate_grade 90 = "A+" /\ _calculate_grade 89.99 = "A" /\
   _calculate_grade 40 = "D" /\ _calculate_grade 39.99 = "F") /\
  ((75 <= score -> _calculate_risk_level score = "Low") /\
   (55 <= score -> score < 75 -> _calculate_risk_level score = "Medium") /\
   (35 <= score -> score < 55 -> _calculate_risk_level score = "High") /\
   (score < 35 -> _calculate_risk_level score = "Critical")) /\
  (_calculate_risk_level 75 = "Low" /\ _calculate_risk_level 74.99 = "Medium" /\
   _calculate_risk_level 55 = "Medium" /\ _calculate_risk_level 54.99 = "High" /\
   _calculate_risk_level 35 = "High" /\ _calculate_risk_level 34.99 = "Critical").
Proof.
  repeat match goal with |- _ /\ _ => split end;
    try reflexivity; intros;
    unfold _calculate_grade, _calculate_risk_level;
    split_cmp; first [reflexivity | lra].
Qed.

(** The theorem at the scores 87.5 and 60. *)
Lemma grade_and_risk_witness :
  _calculate_grade 87.5 = "A" /\ _calculate_risk_level 60 = "Medium".
Proof.
  split.
  - apply (grade_and_risk_threshold_exact 87.5); lra.
  - apply (grade_and_risk_threshold_exact 60); lra.
Defined.

(** ** Industry weights *)

Lemma INDUSTRY_WEIGHTS_sum :
  map_Forall (fun _ w => weights_sum w == 1) INDUSTRY_WEIGHTS.
Proof.
  intros industry w E. unfold INDUSTRY_WEIGHTS in E.
  apply elem_of_list_to_map_2 in E.
  repeat (apply elem_of_cons in E as [E | E];
          [injection E as -> ->; reflexivity |]).
  inversion E.
Qed.

(** C9.  The five category weights sum to 1 for each of the six industries of
    the weight table, for the default weight set, and hence for the weights
    selected for any industry tag, known or not. *)
Theorem industry_weights_sum_to_one :
(dom INDUSTRY_WEIGHTS : gset string)
    = list_to_set ["Manufacturing"; "Retail"; "Agriculture"; "Services";
                   "Logistics"; "E-commerce"] /\
  map_Forall (fun _ w => weights_sum w == 1) INDUSTRY_WEIGHTS /\
  weights_sum DEFAULT_WEIGHTS == 1 /\
  forall industry : string, weights_sum (weights_for industry) == 1.
Proof.
  split; [| split; [| split]].
  - reflexivity.
  - exact INDUSTRY_WEIGHTS_sum.
  - reflexivity.
  - intros industry. unfold weights_for, dict_get.
    destruct (INDUSTRY_WEIGHTS !! industry) as [w |] eqn:E; simpl.
    + exact (INDUSTRY_WEIGHTS_sum industry w E).
    + reflexivity.
Qed.

(** ** Metric extraction *)

Lemma bind_Ok {A B : Type} (m : result A) (f : A -> result B) (b : B) :
  m ≫= f = Ok b -> exists a, m = Ok a /\ f a = Ok b.
Proof. destruct m as [a | e |]; simpl; [eauto | discriminate | discriminate]. Qed.

Lemma Ok_inj {A : Type} (a b : A) : Ok a = Ok b -> a = b.
Proof. intros H. injection H as ->. reflexivity. Qed.

Lemma bind_Raise {A B : Type} (m : result A) (f : A -> result B) (e : exn) :
  m ≫= f = Raise e -> m = Raise e \/ exists a, m = Ok a /\ f a = Raise e.
Proof.
  destruct m as [a | e' |]; cbn [mbind result_bind]; intros H;
    [right; eauto | left; injection H as ->; reflexivity | discriminate H].
Qed.

(** [float] raises nothing but [ValueError] and [TypeError]. *)
Lemma py_float_raises (v : pyval) (e : exn) :
  py_float v = Raise e -> e = ValueError \/ e = TypeError.
Proof.
  destruct v as [q | s | b | |]; simpl; try discriminate.
  - destruct (FloatLiteral.parse s) as [[q | neg |] |]; try discriminate.
    + destruct (_ <=? _); [discriminate |]. destruct (_ <=? _); discriminate.
    + intros H. injection H as <-. left. reflexivity.
  - intros H. injection H as <-. right. reflexivity.
  - intros H. injection H as <-. right. reflexivity.
Qed.

Lemma py_float_not_zero_division (v : pyval) :
  py_float v <> Raise ZeroDivisionError.
Proof.
  intros H. destruct (py_float_raises v _ H); discriminate.
Qed.

Lemma py_div_pos (a b : Q) : 0 < b -> py_div a b = Ok (a / b).
Proof.
  intros Hb. unfold py_div.
  destruct (Qeq_bool b 0) eqn:E; [| reflexivity].
  apply Qeq_bool_iff in E. lra.
Qed.

Section DirectFields.

Variable data : gmap string pyval.

(** The reading of the direct fields raises nothing but what [float]
    raises. *)
Lemma direct_fields_raises fields metrics e :
  direct_fields data fields metrics = Raise e -> e = ValueError \/ e = TypeError.
Proof.
  revert metrics. induction fields as [| [k0 d0] rest IH]; intros metrics; simpl.
  - discriminate.
  - intros H. apply bind_Raise in H as [H | (x & _ & H)].
    + exact (py_float_raises _ _ H).
    + exact (IH _ H).
Qed.


(** What a successful reading leaves in [metrics]: the fields read, each
    with the conversion of its value or default, and nothing else changed. *)
Lemma direct_fields_lookup fields :
  NoDup fields.*1 ->
  forall metrics m, direct_fields data fields metrics = Ok m ->
  forall k,
    (k ∉ fields.*1 -> m !! k = metrics !! k) /\
    (forall dflt, (k, dflt) ∈ fields ->
       exists x, py_float (dict_get data k (VNum dflt)) = Ok x /\ m !! k = Some x).
Proof.
  induction fields as [| [k0 d0] rest IH]; intros Hnd metrics m Hm k.
  - simpl in Hm. injection Hm as <-. split; [reflexivity |].
    intros dflt Hin. inversion Hin.
  - simpl in Hm. apply bind_Ok in Hm as (x & Hx & Hm).
    simpl in Hnd. apply NoDup_cons in Hnd as [Hk0 Hnd].
    destruct (IH Hnd _ _ Hm k) as [Hout Hin]. split.
    + intros Hk. simpl in Hk. apply not_elem_of_cons in Hk as [Hne Hk].
      rewrite (Hout Hk). apply lookup_insert_ne. congruence.
    + intros dflt Hel. apply elem_of_cons in Hel as [Heq | Hel].
      * injection Heq as -> ->. exists x. split; [exact Hx |].
        destruct (IH Hnd _ _ Hm k0) as [Hout0 _].
        rewrite (Hout0 Hk0). apply lookup_insert_eq.
      * exact (Hin dflt Hel).
Qed.


Lemma direct_fields_not_zero_division fields metrics :
  direct_fields data fields metrics <> Raise ZeroDivisionError.
Proof.
  intros H. destruct (direct_fields_raises _ _ _ H); discriminate.
Qed.

End DirectFields.

Lemma METRIC_DEFAULTS_NoDup : NoDup METRIC_DEFAULTS.*1.
Proof. apply NoDup_ListNoDup. vm_compute. repeat constructor; simpl; intuition discriminate. Qed.

Section Overwrites.

Lemma overwrites_refl (keys : list string) (m : gmap string Q) :
  overwrites keys m m.
Proof. split; auto. Qed.

Lemma overwrites_insert (keys : list string) (m m' : gmap string Q)
    (k : string) (v : Q) :
  k ∈ keys -> overwrites keys m m' -> overwrites keys m (<[k := v]> m').
Proof.
  intros Hk [Hout Hin]. split.
  - intros k' Hk'. rewrite lookup_insert_ne by (intros ->; exact (Hk' Hk)).
    exact (Hout k' Hk').
  - intros k' Hs. destruct (decide (k = k')) as [-> | Hne].
    + rewrite lookup_insert_eq. eauto.
    + rewrite lookup_insert_ne by exact Hne. exact (Hin k' Hs).
Qed.

Lemma overwrites_weaken (keys keys' : list string) (m m' : gmap string Q) :
  (forall k, k ∈ keys -> k ∈ keys') ->
  overwrites keys m m' -> overwrites keys' m m'.
Proof.
  intros Hsub [Hout Hin]. split; [| exact Hin].
  intros k Hk. apply Hout. intros H. exact (Hk (Hsub k H)).
Qed.

Lemma overwrites_trans (keys : list string) (m1 m2 m3 : gmap string Q) :
  overwrites keys m1 m2 -> overwrites keys m2 m3 -> overwrites keys m1 m3.
Proof.
  intros [Ho1 Hi1] [Ho2 Hi2]. split.
  - intros k Hk. rewrite (Ho2 k Hk). exact (Ho1 k Hk).
  - intros k Hs. exact (Hi2 k (Hi1 k Hs)).
Qed.

Variables (data : gmap string pyval) (metrics m' : gmap string Q).

Local Ltac step H :=
  let x := fresh "x" in
  apply bind_Ok in H as (x & _ & H); cbv beta zeta in H.

Local Ltac done_with H :=
  apply Ok_inj in H; subst m';
  repeat first
    [ apply overwrites_refl
    | apply overwrites_insert; [apply list_elem_of_In; simpl; tauto |] ].

Lemma margins_from_revenue_overwrites :
  margins_from_revenue data metrics = Ok m' ->
  overwrites ["gross_margin"; "net_margin"] metrics m'.
Proof.
  unfold margins_from_revenue.
  destruct (_ || _)%bool; [| intros H; done_with H].
  intros H. step H. step H. step H.
  destruct (_ >? 0) in H; [| done_with H].
  step H. step H. done_with H.
Qed.

Lemma ratios_from_assets_overwrites :
  ratios_from_assets data metrics = Ok m' ->
  overwrites ["current_ratio"; "debt_to_equity"; "roe"] metrics m'.
Proof.
  unfold ratios_from_assets.
  destruct (_ || _)%bool; [| intros H; done_with H].
  intros H. step H. step H. step H.
  apply bind_Ok in H as (m1 & Hm1 & H); cbv beta zeta in H.
  assert (H1 : overwrites ["current_ratio"; "debt_to_equity"; "roe"] metrics m1).
  { destruct (_ >? 0) in Hm1.
    - apply bind_Ok in Hm1 as (cr & _ & Hm1); cbv beta in Hm1.
      apply Ok_inj in Hm1. subst m1.
      apply overwrites_insert; [left | apply overwrites_refl].
    - apply Ok_inj in Hm1. subst m1. apply overwrites_refl. }
  step H.
  apply (overwrites_trans _ _ m1 _ H1).
  destruct (_ >? 0) in H; [| done_with H].
  step H. step H. step H. done_with H.
Qed.

Lemma runway_from_cash_overwrites :
  runway_from_cash data metrics = Ok m' ->
  overwrites ["cash_runway_days"] metrics m'.
Proof.
  unfold runway_from_cash.
  destruct (_ || _)%bool; [| intros H; done_with H].
  intros H. step H. step H. step H.
  destruct (_ >? 0) in H; [| done_with H].
  step H. step H. done_with H.
Qed.

End Overwrites.

Lemma direct_fields_keys (data : gmap string pyval) (m : gmap string Q) :
  direct_fields data METRIC_DEFAULTS ∅ = Ok m ->
  forall k, is_Some (m !! k) <-> k ∈ map fst METRIC_DEFAULTS.
Proof.
  intros Hm k.
  destruct (direct_fields_lookup data _ METRIC_DEFAULTS_NoDup _ _ Hm k)
    as [Hout Hin].
  split.
  - intros Hs. destruct (decide (k ∈ map fst METRIC_DEFAULTS)) as [H | H];
      [exact H |].
    rewrite (Hout H), lookup_empty in Hs. destruct Hs as [? Hs]. discriminate Hs.
  - intros Hk. apply list_elem_of_fmap in Hk as ([k' d] & -> & Hkd).
    destruct (Hin d Hkd) as (x & _ & Hx). simpl. eauto.
Qed.

(** The four steps of a successful extraction. *)
Lemma _extract_metrics_steps (data : gmap string pyval) (m : gmap string Q) :
  _extract_metrics (ODict data) = Ok m ->
  exists m0 m1 m2,
    direct_fields data METRIC_DEFAULTS ∅ = Ok m0 /\
    margins_from_revenue data m0 = Ok m1 /\
    ratios_from_assets data m1 = Ok m2 /\
    runway_from_cash data m2 = Ok m.
Proof.
  unfold _extract_metrics. intros H.
  apply bind_Ok in H as (m0 & H0 & H); cbv beta in H.
  apply bind_Ok in H as (m1 & H1 & H); cbv beta in H.
  apply bind_Ok in H as (m2 & H2 & H); cbv beta in H.
  exists m0, m1, m2. auto.
Qed.

(** C5.  On the empty mapping the extraction does not raise and returns the
    fifteen metrics, each at its documented default. *)
Theorem extract_metrics_empty_defaults :
  _extract_metrics (ODict ∅)
  = Ok (list_to_map
          [ ("current_ratio", 1.5); ("quick_ratio", 1.0); ("cash_ratio", 0.5);
            ("gross_margin", 30); ("net_margin", 10); ("roe", 12);
            ("debt_to_equity", 0.8); ("debt_ratio", 0.4);
            ("interest_coverage", 3.0); ("inventory_turnover", 6);
            ("receivables_turnover", 8); ("asset_turnover", 1.2);
            ("cash_runway_days", 90); ("working_capital", 50000);
            ("working_capital_cycle", 45) ]).
Proof. reflexivity. Qed.





(** ** Revenue forecast *)

(** The forecast is the five projections that do not read the clock and the
    cash-runway projection, which alone can raise. *)
Lemma generate_forecast_Ok (now : datetime) (raw : raw_data) (industry : string)
    (f : forecast) :
  generate_forecast now raw industry = Ok f ->
  let financials := _extract_current_values raw in
  let rates := growth_rates_for industry in
  f_revenue_forecast f = _forecast_revenue financials rates /\
  f_cash_flow_projection f = _forecast_cash_flow financials /\
  f_break_even_analysis f = _calculate_break_even financials /\
  f_growth_scenarios f = _generate_scenarios financials rates /\
  _project_cash_runway now financials = Ok (f_cash_runway_projection f) /\
  f_key_metrics_trend f = _project_key_metrics financials rates.
Proof.
  unfold generate_forecast. intros H.
  apply bind_Ok in H as (p & Hp & H). apply Ok_inj in H. subst f.
  cbv zeta. cbn [f_revenue_forecast f_cash_flow_projection f_break_even_analysis
                 f_growth_scenarios f_cash_runway_projection f_key_metrics_trend].
  repeat split; try reflexivity. exact Hp.
Qed.

Lemma generate_forecast_of_runway (now : datetime) (raw : raw_data)
    (industry : string) (p : cash_runway_projection) :
  _project_cash_runway now (_extract_current_values raw) = Ok p ->
  exists f, generate_forecast now raw industry = Ok f /\
            f_cash_runway_projection f = p.
Proof.
  intros Hp. unfold generate_forecast. rewrite Hp. cbn [mbind result_bind].
  eexists. split; reflexivity.
Qed.

(** C7, as stated, fails: the 3- and 6-month forecasts are not compounded.
    For a revenue of 1200 and the base rate 12 of "Services" (1 percent a
    month) the code gives 309 and 636, the compounded projections round to
    309.09 and 636.91; nor is the quarterly factor 1.03 the fourth root of the
    annual factor 1.12. *)
Lemma revenue_forecast_not_compounded :
  (exists f, generate_forecast 0%Z sample_raw_data "Services" = Ok f /\
     month_3 (forecasts (f_revenue_forecast f)) !! "base" = Some 309 /\
     month_6 (forecasts (f_revenue_forecast f)) !! "base" = Some 636) /\
  (Py.round (compounded_forecast 1200 12 3) 2 = 309.09 /\
   Py.round (compounded_forecast 1200 12 6) 2 = 636.91) /\
  ~ (309 / 300) ^ 4 == 1 + 12 / 100.
Proof.
  split.
  - assert (Hp : exists p, _project_cash_runway 0%Z
                             (_extract_current_values sample_raw_data) = Ok p)
      by (vm_compute; eexists; reflexivity).
    destruct Hp as [p Hp].
    destruct (generate_forecast_of_runway 0%Z sample_raw_data "Services" p Hp)
      as (f & Hf & _).
    exists f. split; [exact Hf |].
    destruct (generate_forecast_Ok _ _ _ _ Hf) as (-> & _).
    split; reflexivity.
  - split; [split; reflexivity |].
    intros H. vm_compute in H. discriminate H.
Qed.

(** C7 (amended).  For every current revenue of at most a million millions in
    absolute value, every growth-rate triple of rates of at most 100 percent
    and every scenario of it, the 3- and 6-month forecasts are, to within a
    cent, the revenue of that many months at the current monthly run rate,
    raised by the monthly rate [annual_rate / 12 / 100] times the number of
    months (simple growth, not compounded), and the 12-month forecast is, to
    within a cent, [current_revenue * (1 + annual_rate / 100)].  The cent
    covers the rounding to two places and the error of the doubles. *)
Theorem revenue_forecast_simple_growth
    (financials : gmap string Q) (rates : growth_rates)
    (scenario : string) (annual_rate : Q) :
  (scenario, annual_rate) ∈ items rates ->
  Qabs (dict_get financials "revenue" 0) <= 1000000000000 ->
  Qabs annual_rate <= 100 ->
  let current_revenue := dict_get financials "revenue" 0 in
  let monthly_rate := annual_rate / 12 / 100 in
  let f := forecasts (_forecast_revenue financials rates) in
  exists forecast_3 forecast_6 forecast_12,
    month_3 f !! scenario = Some forecast_3 /\
    month_6 f !! scenario = Some forecast_6 /\
    month_12 f !! scenario = Some forecast_12 /\
    Qabs (forecast_3 - current_revenue / 12 * 3 * (1 + monthly_rate * 3)) <= 0.01 /\
    Qabs (forecast_6 - current_revenue / 12 * 6 * (1 + monthly_rate * 6)) <= 0.01 /\
    Qabs (forecast_12 - current_revenue * (1 + annual_rate / 100)) <= 0.01.
Proof.
  intros Hin _ _. cbv zeta. unfold items in Hin.
  repeat (apply elem_of_cons in Hin as [Hin | Hin];
          [injection Hin as -> ->; eexists _, _, _;
           split; [reflexivity |]; split; [reflexivity |]; split; [reflexivity |];
           repeat split; apply round_within_cent; reflexivity |]).
  inversion Hin.
Qed.

(** The theorem at a revenue of 1200 and the optimistic rate of "Retail": the
    forecast at three months is within a cent of 313.5. *)
Lemma revenue_forecast_simple_growth_witness :
  exists forecast_3,
    month_3 (forecasts (_forecast_revenue {[ "revenue" := 1200 ]}
                          (mk_growth_rates 10 18 4))) !! "optimistic"
    = Some forecast_3 /\
    Qabs (forecast_3 - 1200 / 12 * 3 * (1 + 18 / 12 / 100 * 3)) <= 0.01.
Proof.
  assert (Hin : ("optimistic", 18) ∈ items (mk_growth_rates 10 18 4))
    by (right; left).
  assert (Hrev : Qabs (dict_get ({[ "revenue" := 1200 ]} : gmap string Q) "revenue" 0)
                 <= 1000000000000) by (vm_compute; discriminate).
  assert (Hrate : Qabs 18 <= 100) by (vm_compute; discriminate).
  destruct (revenue_forecast_simple_growth {[ "revenue" := 1200 ]}
              (mk_growth_rates 10 18 4) "optimistic" 18 Hin Hrev Hrate)
    as (f3 & f6 & f12 & H3 & _ & _ & E3 & _).
  exists f3. split; [exact H3 | exact E3].
Defined.

(** ** Benchmark percentile *)

(** The triples of the benchmark table that the engine uses (it skips a triple
    whose low and high are 0) are positive and strictly increasing. *)
Lemma BENCHMARKS_increasing :
  map_Forall (fun _ bs =>
    Forall (fun item : string * benchmark =>
              not_applicable item.2 = false -> increasing item.2) bs) BENCHMARKS.
Proof.
  intros industry bs E. unfold BENCHMARKS in E.
  apply elem_of_list_to_map_2 in E.
  repeat (apply elem_of_cons in E as [E | E];
          [injection E as -> ->;
           repeat constructor; simpl; try lra; try discriminate |]).
  inversion E.
Qed.

(** For a positive, strictly increasing triple the percentile is computed
    without error, is at most 100, is non-negative for a non-negative value,
    lies in the quarter of its band, and is exact at the three reference
    points. *)
Lemma percentile_bands (value lo med hi : Q) :
  0 < lo -> lo < med -> med < hi ->
  exists p, _calculate_percentile value lo med hi = Ok p /\
    p <= 100 /\ (0 <= value -> 0 <= p) /\
    (value <= lo -> p == value / lo * 25 /\ p <= 25) /\
    (lo < value -> value <= med ->
       p == 25 + (value - lo) / (med - lo) * 25 /\ 25 < p /\ p <= 50) /\
    (med < value -> value <= hi ->
       p == 50 + (value - med) / (hi - med) * 25 /\ 50 < p /\ p <= 75) /\
    (hi < value -> p == Py.min 100 (75 + (value - hi) / hi * 25) /\ 75 < p) /\
    (value == lo -> p == 25) /\ (value == med -> p == 50) /\
    (value == hi -> p == 75).
Proof.
  intros Hlo Hmed Hhi. unfold _calculate_percentile.
  destruct (leb_cases value lo) as [[-> H1] | [-> H1]].
  - destruct (gtb_cases lo 0) as [[-> _] | [-> ?]]; [| lra].
    rewrite py_div_pos by lra. simpl. eexists. split; [reflexivity |].
    assert (Hq : lo * (value / lo) == value) by (apply Qmult_div_r; lra).
    set (q := value / lo) in *; clearbody q.
    assert (q <= 1) by nra.
    unfold Py.min. split_cmp; repeat split; intros; try lra; try nra.
  - destruct (leb_cases value med) as [[-> H2] | [-> H2]].
    + rewrite py_div_pos by lra. simpl. eexists. split; [reflexivity |].
      assert (Hq : (med - lo) * ((value - lo) / (med - lo)) == value - lo)
        by (apply Qmult_div_r; lra).
      set (q := (value - lo) / (med - lo)) in *; clearbody q.
      assert (0 < q /\ q <= 1) as [? ?] by (split; nra).
      repeat split; intros; try lra; try nra.
    + destruct (leb_cases value hi) as [[-> H3] | [-> H3]].
      * rewrite py_div_pos by lra. simpl. eexists. split; [reflexivity |].
        assert (Hq : (hi - med) * ((value - med) / (hi - med)) == value - med)
          by (apply Qmult_div_r; lra).
        set (q := (value - med) / (hi - med)) in *; clearbody q.
        assert (0 < q /\ q <= 1) as [? ?] by (split; nra).
        repeat split; intros; try lra; try nra.
      * rewrite py_div_pos by lra. simpl. eexists. split; [reflexivity |].
        assert (Hq : hi * ((value - hi) / hi) == value - hi)
          by (apply Qmult_div_r; lra).
        set (q := (value - hi) / hi) in *; clearbody q.
        assert (0 < q) by nra.
        unfold Py.min. split_cmp; repeat split; intros; try lra; try nra.
Qed.

(** Every triple the engine compares against, for a known industry or for the
    fallback, is positive and strictly increasing. *)
Lemma benchmarks_for_increasing (industry metric : string) (b : benchmark) :
  (metric, b) ∈ benchmarks_for industry -> not_applicable b = false ->
  increasing b.
Proof.
  intros Hin Hna. unfold benchmarks_for, dict_get in Hin.
  assert (Hall : forall bs, BENCHMARKS !! industry = Some bs \/
                            BENCHMARKS !! "Services" = Some bs ->
                            (metric, b) ∈ bs -> increasing b).
  { intros bs [E | E] Hel;
      pose proof (BENCHMARKS_increasing _ _ E) as HF;
      rewrite Forall_forall in HF; exact (HF _ Hel Hna). }
  destruct (BENCHMARKS !! industry) as [bs |] eqn:E; simpl in Hin.
  - exact (Hall bs (or_introl eq_refl) Hin).
  - destruct (BENCHMARKS !! "Services") as [bs |] eqn:E'; simpl in Hin.
    + exact (Hall bs (or_intror eq_refl) Hin).
    + inversion Hin.
Qed.

(** For a non-negative metric value and any triple the engine compares
    against, the percentile is computed without error, lies in [0, 100], and
    is exactly 25, 50 and 75 at the low, median and high reference points. *)
Theorem percentile_of_nonnegative_value
    (industry metric : string) (b : benchmark) (value : Q) :
  (metric, b) ∈ benchmarks_for industry -> not_applicable b = false ->
  0 <= value ->
  exists p, _calculate_percentile value (low b) (median b) (high b) = Ok p /\
    (0 <= p /\ p <= 100) /\
    (value == low b -> p == 25) /\
    (value == median b -> p == 50) /\
    (value == high b -> p == 75).
Proof.
  intros Hin Hna Hv.
  destruct (benchmarks_for_increasing industry metric b Hin Hna)
    as (Hlo & Hmed & Hhi).
  destruct (percentile_bands value (low b) (median b) (high b) Hlo Hmed Hhi)
    as (p & Hp & Hle & Hge & _ & _ & _ & _ & H25 & H50 & H75).
  exists p. repeat split; auto.
Qed.

(** The theorem at the gross margin 35 of a "Retail" company, the median of
    its industry. *)
Lemma percentile_of_nonnegative_value_witness :
  exists p, _calculate_percentile 35 25 35 50 = Ok p /\
    (0 <= p /\ p <= 100) /\
    (35 == 25 -> p == 25) /\ (35 == 35 -> p == 50) /\ (35 == 50 -> p == 75).
Proof.
  apply (percentile_of_nonnegative_value "Retail" "gross_margin"
           (mk_benchmark 25 35 50) 35).
  - right; right; left.
  - reflexivity.
  - lra.
Defined.

(** C6.  The percentile of a negative metric value is negative: a net margin
    of -10 against the "Manufacturing" triple (5, 10, 15) gets -50, and the
    comparison of the engine reports it. *)
Theorem percentile_negative_below_low :
  (exists p, _calculate_percentile (-10) 5 10 15 = Ok p /\ p == -50 /\ p < 0) /\
  (exists r e,
     compare_to_industry {[ "net_margin" := -10 ]} "Manufacturing" = Ok r /\
     (b_comparison r : list (string * comparison_entry)) !! 3%nat
       = Some ("net_margin", e) /\
     percentile e == -50).
Proof.
  split.
  - eexists. split; [reflexivity |]. split; [reflexivity |]. reflexivity.
  - eexists. eexists. split; [reflexivity |]. split; reflexivity.
Qed.

(** ** Division by zero *)

Lemma bind_not_zero_division {A B : Type} (m : result A) (f : A -> result B) :
  m <> Raise ZeroDivisionError ->
  (forall a, m = Ok a -> f a <> Raise ZeroDivisionError) ->
  m ≫= f <> Raise ZeroDivisionError.
Proof.
  intros Hm Hf. destruct m as [a | e |]; simpl.
  - apply Hf. reflexivity.
  - intros H. apply Hm. injection H as ->. reflexivity.
  - discriminate.
Qed.

Lemma py_div_const_not_zero_division (v : pyval) (n : Q) :
  py_div_const v n <> Raise ZeroDivisionError.
Proof. destruct v; discriminate. Qed.

Lemma _safe_divide_total (n d : Q) :
  _safe_divide n d = Ok (if Qeq_bool d 0 then 0.0 else n / d).
Proof.
  unfold _safe_divide, py_div. destruct (Qeq_bool d 0); reflexivity.
Qed.

Lemma _calculate_cash_runway_total (financials : gmap string Q) :
  exists days, _calculate_cash_runway financials = Ok days.
Proof.
  unfold _calculate_cash_runway.
  rewrite (py_div_pos _ 12) by lra. simpl.
  destruct (leb_cases (dict_get financials "total_expenses" 0 / 12) 0)
    as [[-> H] | [-> H]]; [eauto |].
  set (monthly := dict_get financials "total_expenses" 0 / 12) in *.
  destruct (gtb_cases (monthly / 30) 0) as [[-> H'] | [-> H']]; [| eauto].
  rewrite py_div_pos by exact H'. simpl. eauto.
Qed.

Lemma _calculate_working_capital_cycle_total (financials : gmap string Q) :
  exists days, _calculate_working_capital_cycle financials = Ok days.
Proof.
  unfold _calculate_working_capital_cycle.
  destruct (gtb_cases (dict_get financials "cost_of_goods_sold" 1) 0)
    as [[-> H] | [-> H]];
  destruct (gtb_cases (dict_get financials "revenue" 1) 0)
    as [[-> H'] | [-> H']];
  rewrite ?py_div_pos by assumption; simpl; eauto.
Qed.

(** [calculate_all_metrics] never raises. *)
Lemma calculate_all_metrics_total (raw : raw_data) :
  exists m, calculate_all_metrics raw = Ok m.
Proof.
  unfold calculate_all_metrics.
  destruct (_calculate_cash_runway_total (_extract_financials raw)) as [days Hd].
  destruct (_calculate_working_capital_cycle_total (_extract_financials raw))
    as [cycle Hc].
  rewrite !_safe_divide_total, Hd, Hc. cbn [mbind result_bind]. eauto.
Qed.

(** The liquidity ratios of [calculate_all_metrics] when the current
    liabilities it extracted are zero. *)
Lemma calculate_all_metrics_zero_liabilities (raw : raw_data) (m : all_metrics) :
  calculate_all_metrics raw = Ok m ->
  dict_get (_extract_financials raw) "current_liabilities" 1 == 0 ->
  ratios m !! "current_ratio" = Some 0.0 /\
  ratios m !! "quick_ratio" = Some 0.0 /\
  ratios m !! "cash_ratio" = Some 0.0.
Proof.
  unfold calculate_all_metrics.
  destruct (_calculate_cash_runway_total (_extract_financials raw)) as [days Hd].
  destruct (_calculate_working_capital_cycle_total (_extract_financials raw))
    as [cycle Hc].
  rewrite !_safe_divide_total, Hd, Hc. cbn [mbind result_bind].
  intros Hm Hz. apply Ok_inj in Hm. subst m. cbn [ratios].
  apply Qeq_bool_iff in Hz. rewrite Hz. repeat split; reflexivity.
Qed.

Section ExtractMetricsDivisions.

Variables (data : gmap string pyval) (metrics : gmap string Q).

Local Ltac no_zd :=
  repeat first
    [ discriminate
    | match goal with
      | H : py_div ?a ?b = Ok ?c |- _ =>
          rewrite py_div_pos in H by first [assumption | lra];
          apply Ok_inj in H; subst c
      end
    | apply bind_not_zero_division;
        [ first [ apply py_float_not_zero_division
                | apply py_div_const_not_zero_division
                | idtac ]
        | intros ? ? ]
    | rewrite py_div_pos by first [assumption | (apply Qlt_shift_div_l; lra)]
    | match goal with
      | |- context [Py.gtb ?a ?b] =>
          destruct (gtb_cases a b) as [[-> ?] | [-> ?]]
      | |- context [if ?c then _ else _] => destruct c
      end ].

Lemma margins_from_revenue_not_zero_division :
  margins_from_revenue data metrics <> Raise ZeroDivisionError.
Proof. unfold margins_from_revenue. no_zd. Qed.

Lemma ratios_from_assets_not_zero_division :
  ratios_from_assets data metrics <> Raise ZeroDivisionError.
Proof. unfold ratios_from_assets. no_zd. Qed.

Lemma runway_from_cash_not_zero_division :
  runway_from_cash data metrics <> Raise ZeroDivisionError.
Proof. unfold runway_from_cash. no_zd. Qed.

(** A derived ratio whose denominator is not positive is skipped. *)
Lemma margins_from_revenue_skipped (revenue : Q) (m' : gmap string Q) :
  statement_figure data "revenue" "total_revenue" 0 revenue -> revenue <= 0 ->
  margins_from_revenue data metrics = Ok m' -> m' = metrics.
Proof.
  unfold statement_figure. intros Hr Hle. unfold margins_from_revenue.
  destruct (_ || _)%bool;
    [| intros H; apply Ok_inj in H; subst m'; reflexivity].
  intros H.
  apply bind_Ok in H as (r & Hr' & H); cbv beta in H.
  rewrite Hr in Hr'. apply Ok_inj in Hr'. subst r.
  apply bind_Ok in H as (cogs & _ & H); cbv beta in H.
  apply bind_Ok in H as (net_income & _ & H); cbv beta in H.
  destruct (gtb_cases revenue 0) as [[E ?] | [E ?]]; [lra |].
  rewrite E in H. apply Ok_inj in H. symmetry. exact H.
Qed.

Lemma ratios_from_assets_skipped
    (total_assets current_assets current_liabilities : Q) (m' : gmap string Q) :
  statement_figure data "total_assets" "assets" 1 total_assets ->
  direct_field data "current_assets" (total_assets * 0.4) current_assets ->
  direct_field data "current_liabilities" (current_assets * 0.6)
    current_liabilities ->
  current_liabilities <= 0 ->
  ratios_from_assets data metrics = Ok m' ->
  m' !! "current_ratio" = metrics !! "current_ratio".
Proof.
  unfold statement_figure, direct_field. intros Hta Hca Hcl Hle.
  unfold ratios_from_assets.
  destruct (_ || _)%bool;
    [| intros H; apply Ok_inj in H; subst m'; reflexivity].
  intros H.
  apply bind_Ok in H as (ta & Hta' & H); cbv beta in H.
  rewrite Hta in Hta'. apply Ok_inj in Hta'. subst ta.
  apply bind_Ok in H as (ca & Hca' & H); cbv beta in H.
  rewrite Hca in Hca'. apply Ok_inj in Hca'. subst ca.
  apply bind_Ok in H as (cl & Hcl' & H); cbv beta in H.
  rewrite Hcl in Hcl'. apply Ok_inj in Hcl'. subst cl.
  destruct (gtb_cases current_liabilities 0) as [[E ?] | [E ?]]; [lra |].
  rewrite E in H. cbn [mbind result_bind] in H.
  apply bind_Ok in H as (total_liabilities & _ & H); cbv beta zeta in H.
  destruct (gtb_cases (total_assets - total_liabilities) 0)
    as [[E' ?] | [E' ?]]; rewrite E' in H;
    [| apply Ok_inj in H; subst m'; reflexivity].
  apply bind_Ok in H as (de & _ & H); cbv beta in H.
  apply bind_Ok in H as (net_income & _ & H); cbv beta in H.
  apply bind_Ok in H as (roe & _ & H); cbv beta in H.
  apply Ok_inj in H. subst m'.
  rewrite !lookup_insert_ne by discriminate. reflexivity.
Qed.

Lemma ratios_from_assets_equity_skipped
    (total_assets total_liabilities : Q) (m' : gmap string Q) :
  statement_figure data "total_assets" "assets" 1 total_assets ->
  statement_figure data "total_liabilities" "liabilities" (total_assets * 0.4)
    total_liabilities ->
  total_assets - total_liabilities <= 0 ->
  ratios_from_assets data metrics = Ok m' ->
  m' !! "debt_to_equity" = metrics !! "debt_to_equity" /\
  m' !! "roe" = metrics !! "roe".
Proof.
  unfold statement_figure. intros Hta Htl Hle. unfold ratios_from_assets.
  destruct (_ || _)%bool;
    [| intros H; apply Ok_inj in H; subst m'; split; reflexivity].
  intros H.
  apply bind_Ok in H as (ta & Hta' & H); cbv beta in H.
  rewrite Hta in Hta'. apply Ok_inj in Hta'. subst ta.
  apply bind_Ok in H as (current_assets & _ & H); cbv beta in H.
  apply bind_Ok in H as (current_liabilities & _ & H); cbv beta in H.
  apply bind_Ok in H as (m1 & Hm1 & H); cbv beta in H.
  apply bind_Ok in H as (tl & Htl' & H); cbv beta zeta in H.
  rewrite Htl in Htl'. apply Ok_inj in Htl'. subst tl.
  destruct (gtb_cases (total_assets - total_liabilities) 0)
    as [[E ?] | [E ?]]; [lra |].
  rewrite E in H. apply Ok_inj in H. subst m'.
  destruct (current_liabilities >? 0).
  - apply bind_Ok in Hm1 as (cr & _ & Hm1); cbv beta in Hm1.
    apply Ok_inj in Hm1. subst m1.
    rewrite !lookup_insert_ne by discriminate. split; reflexivity.
  - apply Ok_inj in Hm1. subst m1. split; reflexivity.
Qed.

Lemma runway_from_cash_skipped (expenses : Q) (m' : gmap string Q) :
  statement_figure data "monthly_expenses" "expenses" 0 expenses ->
  expenses <= 0 ->
  runway_from_cash data metrics = Ok m' -> m' = metrics.
Proof.
  unfold statement_figure. intros He Hle. unfold runway_from_cash.
  destruct (_ || _)%bool;
    [| intros H; apply Ok_inj in H; subst m'; reflexivity].
  intros H.
  apply bind_Ok in H as (cash & _ & H); cbv beta in H.
  apply bind_Ok in H as (per_month & Hp & H); cbv beta in H.
  apply bind_Ok in H as (monthly & Hm & H); cbv beta in H.
  assert (Hmonthly : monthly = expenses / 12).
  { destruct (dict_get data "monthly_expenses" _) as [q | s | b | |];
      try discriminate Hp; simpl in Hp, He;
      apply Ok_inj in Hp; subst per_month; simpl in Hm;
      apply Ok_inj in Hm; apply Ok_inj in He; subst; reflexivity. }
  subst monthly.
  assert (Hq : 12 * (expenses / 12) == expenses) by (apply Qmult_div_r; lra).
  destruct (gtb_cases (expenses / 12) 0) as [[E ?] | [E ?]]; [lra |].
  rewrite E in H. apply Ok_inj in H. symmetry. exact H.
Qed.

End ExtractMetricsDivisions.

Lemma _extract_metrics_not_zero_division (data : pyobj) :
  _extract_metrics data <> Raise ZeroDivisionError.
Proof.
  destruct data as [data |]; unfold _extract_metrics; [| discriminate].
  apply bind_not_zero_division; [apply direct_fields_not_zero_division |].
  intros m0 _.
  apply bind_not_zero_division; [apply margins_from_revenue_not_zero_division |].
  intros m1 _.
  apply bind_not_zero_division; [apply ratios_from_assets_not_zero_division |].
  intros m2 _. apply runway_from_cash_not_zero_division.
Qed.

Section NumericData.

Variable data : gmap string pyval.
Hypothesis Hnum : numeric data.

Lemma numeric_get (k : string) (dflt : Q) :
  exists q, dict_get data k (VNum dflt) = VNum q.
Proof.
  unfold dict_get. destruct (data !! k) as [v |] eqn:E; simpl.
  - exact (Hnum k v E).
  - eauto.
Qed.

Local Ltac read_numbers :=
  repeat match goal with
  | |- context [dict_get data ?k (VNum ?d)] =>
      let q := fresh "q" in let E := fresh "E" in
      destruct (numeric_get k d) as [q E]; rewrite E; clear E
  end.

Local Ltac run :=
  repeat first
    [ progress read_numbers
    | progress simpl
    | rewrite py_div_pos by first [assumption | (apply Qlt_shift_div_l; lra)]
    | match goal with
      | |- context [Py.gtb ?a ?b] =>
          destruct (gtb_cases a b) as [[-> ?] | [-> ?]]
      | |- context [if ?c then _ else _] => destruct c
      end ];
  eauto.

Lemma direct_fields_numeric fields metrics :
  exists m, direct_fields data fields metrics = Ok m.
Proof.
  revert metrics. induction fields as [| [k d] rest IH]; intros metrics; simpl.
  - eauto.
  - destruct (numeric_get k d) as [q ->]. simpl. apply IH.
Qed.

Lemma margins_from_revenue_numeric metrics :
  exists m, margins_from_revenue data metrics = Ok m.
Proof. unfold margins_from_revenue. run. Qed.

Lemma ratios_from_assets_numeric metrics :
  exists m, ratios_from_assets data metrics = Ok m.
Proof. unfold ratios_from_assets. run. Qed.

Lemma runway_from_cash_numeric metrics :
  exists m, runway_from_cash data metrics = Ok m.
Proof. unfold runway_from_cash. run. Qed.

(** On numeric data the extraction returns metrics. *)
Lemma _extract_metrics_numeric :
  exists m, _extract_metrics (ODict data) = Ok m.
Proof.
  unfold _extract_metrics.
  destruct (direct_fields_numeric METRIC_DEFAULTS ∅) as [m0 ->].
  cbn [mbind result_bind].
  destruct (margins_from_revenue_numeric m0) as [m1 ->].
  cbn [mbind result_bind].
  destruct (ratios_from_assets_numeric m1) as [m2 ->].
  cbn [mbind result_bind].
  apply runway_from_cash_numeric.
Qed.

End NumericData.

(** A metric that the derivations leave alone is the direct field. *)
Lemma keeps_direct_field_intro (data : gmap string pyval) (m0 m : gmap string Q)
    (k : string) (dflt : Q) :
  (k, dflt) ∈ METRIC_DEFAULTS ->
  direct_fields data METRIC_DEFAULTS ∅ = Ok m0 ->
  m !! k = m0 !! k ->
  keeps_direct_field data m k.
Proof.
  intros Hin H0 Hsame.
  destruct (direct_fields_lookup data _ METRIC_DEFAULTS_NoDup _ _ H0 k) as [_ Hl].
  destruct (Hl dflt Hin) as (x & Hx & Hmk).
  exists dflt, x. split; [exact Hin |]. split; [exact Hx |]. congruence.
Qed.

(** The derived ratios of a successful extraction whose denominators are not
    positive. *)
Lemma _extract_metrics_skips (data : gmap string pyval) (m : gmap string Q) :
  _extract_metrics (ODict data) = Ok m ->
  (forall revenue,
     statement_figure data "revenue" "total_revenue" 0 revenue -> revenue <= 0 ->
     keeps_direct_field data m "gross_margin" /\
     keeps_direct_field data m "net_margin") /\
  (forall total_assets current_assets current_liabilities,
     statement_figure data "total_assets" "assets" 1 total_assets ->
     direct_field data "current_assets" (total_assets * 0.4) current_assets ->
     direct_field data "current_liabilities" (current_assets * 0.6)
       current_liabilities ->
     current_liabilities <= 0 ->
     keeps_direct_field data m "current_ratio") /\
  (forall total_assets total_liabilities,
     statement_figure data "total_assets" "assets" 1 total_assets ->
     statement_figure data "total_liabilities" "liabilities" (total_assets * 0.4)
       total_liabilities ->
     total_assets - total_liabilities <= 0 ->
     keeps_direct_field data m "debt_to_equity" /\
     keeps_direct_field data m "roe") /\
  (forall expenses,
     statement_figure data "monthly_expenses" "expenses" 0 expenses ->
     expenses <= 0 ->
     keeps_direct_field data m "cash_runway_days").
Proof.
  intros Hm.
  destruct (_extract_metrics_steps data m Hm) as (m0 & m1 & m2 & H0 & H1 & H2 & H3).
  destruct (margins_from_revenue_overwrites data m0 m1 H1) as [Ho1 _].
  destruct (ratios_from_assets_overwrites data m1 m2 H2) as [Ho2 _].
  destruct (runway_from_cash_overwrites data m2 m H3) as [Ho3 _].
  assert (Hnotin : forall (k : string) (l : list string),
            (fun k l => negb (bool_decide (k ∈ l))) k l = true -> k ∉ l).
  { intros k l H. apply negb_true_iff, bool_decide_eq_false in H. exact H. }
  split; [| split; [| split]].
  - intros revenue Hr Hle.
    pose proof (margins_from_revenue_skipped data m0 revenue m1 Hr Hle H1) as ->.
    split.
    + apply (keeps_direct_field_intro data m0 m _ 30 ltac:(do 3 right; left) H0).
      rewrite Ho3, Ho2 by (apply Hnotin; reflexivity). reflexivity.
    + apply (keeps_direct_field_intro data m0 m _ 10 ltac:(do 4 right; left) H0).
      rewrite Ho3, Ho2 by (apply Hnotin; reflexivity). reflexivity.
  - intros ta ca cl Hta Hca Hcl Hle.
    apply (keeps_direct_field_intro data m0 m _ 1.5 ltac:(left) H0).
    rewrite Ho3 by (apply Hnotin; reflexivity).
    rewrite (ratios_from_assets_skipped data m1 ta ca cl m2 Hta Hca Hcl Hle H2).
    apply Ho1. apply Hnotin. reflexivity.
  - intros ta tl Hta Htl Hle.
    destruct (ratios_from_assets_equity_skipped data m1 ta tl m2 Hta Htl Hle H2)
      as [Hde Hroe].
    split.
    + apply (keeps_direct_field_intro data m0 m _ 0.8 ltac:(do 6 right; left) H0).
      rewrite Ho3 by (apply Hnotin; reflexivity). rewrite Hde.
      apply Ho1. apply Hnotin. reflexivity.
    + apply (keeps_direct_field_intro data m0 m _ 12 ltac:(do 5 right; left) H0).
      rewrite Ho3 by (apply Hnotin; reflexivity). rewrite Hroe.
      apply Ho1. apply Hnotin. reflexivity.
  - intros expenses He Hle.
    pose proof (runway_from_cash_skipped data m2 expenses m He Hle H3) as ->.
    apply (keeps_direct_field_intro data m0 m2 _ 90 ltac:(do 12 right; left) H0).
    rewrite Ho2, Ho1 by (apply Hnotin; reflexivity). reflexivity.
Qed.

Lemma ordinary_numbers_numeric (data : gmap string pyval) :
  ordinary_numbers data -> numeric data.
Proof. intros H k v Hk. destruct (H k v Hk) as (q & -> & _). eauto. Qed.

(** C3, as stated, fails: in [calculate_all_metrics] a ratio with a zero
    denominator is 0.0, not the documented default.  On the empty raw data the
    current liabilities are 0 and the current ratio is 0.0, not 1.5. *)
Lemma zero_denominator_gives_zero_not_default :
  dict_get (_extract_financials empty_raw_data) "current_liabilities" 1 == 0 /\
  (exists m, calculate_all_metrics empty_raw_data = Ok m /\
     ratios m !! "current_ratio" = Some 0.0) /\
  ~ 0.0 == 1.5.
Proof.
  split; [reflexivity |]. split.
  - eexists. split; reflexivity.
  - intros H. discriminate H.
Qed.

(** C3 (amended).  A ratio whose denominator is zero, or not positive, is
    not computed by a division.  In [calculate_all_metrics] a ratio whose
    denominator is zero is 0.0 ([_safe_divide]), not the documented default:
    so are the three liquidity ratios when no amount is negative and the
    current liabilities are zero.  In [_extract_metrics] a derived ratio whose
    denominator is not positive (revenue, current liabilities, equity,
    expenses) is skipped, which leaves the metric at its direct field or
    default.  On amounts of ordinary size neither computation raises:
    [calculate_all_metrics] returns metrics, [_extract_metrics] returns metrics
    on a mapping of numbers and never raises [ZeroDivisionError]. *)
Theorem division_by_zero_policy :
  (forall n d, d == 0 -> _safe_divide n d = Ok 0.0) /\
  (forall raw, ordinary_totals raw -> exists m, calculate_all_metrics raw = Ok m) /\
  (forall raw m,
     ordinary_totals raw -> nonneg_totals raw ->
     calculate_all_metrics raw = Ok m ->
     dict_get (_extract_financials raw) "current_liabilities" 1 == 0 ->
     ratios m !! "current_ratio" = Some 0.0 /\
     ratios m !! "quick_ratio" = Some 0.0 /\
     ratios m !! "cash_ratio" = Some 0.0) /\
  (forall data, ordinary_values data ->
     _extract_metrics (ODict data) <> Raise ZeroDivisionError) /\
  (forall data, ordinary_numbers data ->
     exists m, _extract_metrics (ODict data) = Ok m) /\
  (forall data m,
     _extract_metrics (ODict data) = Ok m ->
     (forall revenue,
        statement_figure data "revenue" "total_revenue" 0 revenue ->
        revenue <= 0 ->
        keeps_direct_field data m "gross_margin" /\
        keeps_direct_field data m "net_margin") /\
     (forall total_assets current_assets current_liabilities,
        statement_figure data "total_assets" "assets" 1 total_assets ->
        direct_field data "current_assets" (total_assets * 0.4) current_assets ->
        direct_field data "current_liabilities" (current_assets * 0.6)
          current_liabilities ->
        current_liabilities <= 0 ->
        keeps_direct_field data m "current_ratio") /\
     (forall total_assets total_liabilities,
        statement_figure data "total_assets" "assets" 1 total_assets ->
        statement_figure data "total_liabilities" "liabilities"
          (total_assets * 0.4) total_liabilities ->
        total_assets - total_liabilities <= 0 ->
        keeps_direct_field data m "debt_to_equity" /\
        keeps_direct_field data m "roe") /\
     (forall expenses,
        statement_figure data "monthly_expenses" "expenses" 0 expenses ->
        expenses <= 0 ->
        keeps_direct_field data m "cash_runway_days")).
Proof.
  split.
  { intros n d Hd. rewrite _safe_divide_total.
    apply Qeq_bool_iff in Hd. rewrite Hd. reflexivity. }
  split; [intros raw _; apply calculate_all_metrics_total |].
  split; [intros raw m _ _; apply calculate_all_metrics_zero_liabilities |].
  split; [intros data _; apply _extract_metrics_not_zero_division |].
  split.
  { intros data Hord. apply _extract_metrics_numeric.
    apply ordinary_numbers_numeric, Hord. }
  exact _extract_metrics_skips.
Qed.

(** The theorem at a zero denominator of [_safe_divide], and at a mapping with
    assets of 1000 and current liabilities of 0, whose current ratio stays at
    the default 1.5. *)
Lemma division_by_zero_policy_witness :
  _safe_divide 7 0 = Ok 0.0 /\
  (exists m,
     _extract_metrics
       (ODict (<["total_assets" := VNum 1000]> {[ "current_liabilities" := VNum 0 ]}))
     = Ok m /\ m !! "current_ratio" = Some 1.5).
Proof.
  destruct division_by_zero_policy as (Hsafe & _ & _ & _ & Hnum & Hskip).
  split.
  - apply Hsafe. reflexivity.
  - set (data := (<["total_assets" := VNum 1000]>
                    {[ "current_liabilities" := VNum 0 ]} : gmap string pyval)).
    assert (Hord : ordinary_numbers data).
    { intros k v Hk. unfold data in Hk.
      apply lookup_insert_Some in Hk as [[_ <-] | [_ Hk]].
      - exists 1000. split; [reflexivity |]. right. split; vm_compute; discriminate.
      - apply lookup_singleton_Some in Hk as [_ <-].
        exists 0. split; [reflexivity |]. left. reflexivity. }
    destruct (Hnum data Hord) as [m Hm]. exists m. split; [exact Hm |].
    destruct (Hskip data m Hm) as (_ & Hcl & _).
    assert (Hta : statement_figure data "total_assets" "assets" 1 1000)
      by reflexivity.
    assert (Hca : direct_field data "current_assets" (1000 * 0.4) (1000 * 0.4))
      by reflexivity.
    assert (Hc : direct_field data "current_liabilities" (1000 * 0.4 * 0.6) 0)
      by reflexivity.
    assert (Hle : 0 <= 0) by lra.
    destruct (Hcl 1000 (1000 * 0.4) 0 Hta Hca Hc Hle) as (dflt & x & Hin & Hx & Hmx).
    assert (Hd : dflt = 1.5).
    { apply list_elem_of_In in Hin. simpl in Hin.
      repeat (destruct Hin as [Hin | Hin];
              [first [discriminate Hin | injection Hin as <-; reflexivity] |]).
      destruct Hin. }
    subst dflt. unfold direct_field in Hx.
    change (Ok 1.5 = Ok x) in Hx. apply Ok_inj in Hx. subst x. exact Hmx.
Defined.

(* ===================================================================== *)
(** * Further properties of the engine *)
(* ===================================================================== *)


(** ** The composite score *)

Lemma weights_for_nonneg (industry : string) :
  0 <= liquidity (weights_for industry) /\
  0 <= profitability (weights_for industry) /\
  0 <= solvency (weights_for industry) /\
  0 <= efficiency (weights_for industry) /\
  0 <= cash_flow (weights_for industry).
Proof.
  unfold weights_for, dict_get.
  destruct (INDUSTRY_WEIGHTS !! industry) as [w |] eqn:E; simpl.
  - unfold INDUSTRY_WEIGHTS in E. apply elem_of_list_to_map_2 in E.
    repeat (apply elem_of_cons in E as [E | E];
            [injection E as -> ->; simpl; repeat split; lra |]).
    inversion E.
  - repeat split; lra.
Qed.

Lemma weights_for_sum (industry : string) :
  liquidity (weights_for industry) + profitability (weights_for industry)
  + solvency (weights_for industry) + efficiency (weights_for industry)
  + cash_flow (weights_for industry) == 1.
Proof.
  unfold weights_for, dict_get.
  destruct (INDUSTRY_WEIGHTS !! industry) as [w |] eqn:E; simpl.
  - exact (INDUSTRY_WEIGHTS_sum industry w E).
  - reflexivity.
Qed.

(** A weighted mean of five numbers of [lo, hi] lies in [lo, hi]. *)
Lemma weighted_mean_between (lo hi s1 s2 s3 s4 s5 w1 w2 w3 w4 w5 : Q) :
  0 <= w1 -> 0 <= w2 -> 0 <= w3 -> 0 <= w4 -> 0 <= w5 ->
  w1 + w2 + w3 + w4 + w5 == 1 ->
  (lo <= s1 /\ s1 <= hi) -> (lo <= s2 /\ s2 <= hi) -> (lo <= s3 /\ s3 <= hi) ->
  (lo <= s4 /\ s4 <= hi) -> (lo <= s5 /\ s5 <= hi) ->
  lo <= s1 * w1 + s2 * w2 + s3 * w3 + s4 * w4 + s5 * w5 /\
  s1 * w1 + s2 * w2 + s3 * w3 + s4 * w4 + s5 * w5 <= hi.
Proof.
  intros H1 H2 H3 H4 H5 Hs [? ?] [? ?] [? ?] [? ?] [? ?].
  assert (lo * w1 <= s1 * w1 /\ s1 * w1 <= hi * w1) as [? ?] by (split; nra).
  assert (lo * w2 <= s2 * w2 /\ s2 * w2 <= hi * w2) as [? ?] by (split; nra).
  assert (lo * w3 <= s3 * w3 /\ s3 * w3 <= hi * w3) as [? ?] by (split; nra).
  assert (lo * w4 <= s4 * w4 /\ s4 * w4 <= hi * w4) as [? ?] by (split; nra).
  assert (lo * w5 <= s5 * w5 /\ s5 * w5 <= hi * w5) as [? ?] by (split; nra).
  assert (lo * (w1 + w2 + w3 + w4 + w5) == lo) by (rewrite Hs; ring).
  assert (hi * (w1 + w2 + w3 + w4 + w5) == hi) by (rewrite Hs; ring).
  split; lra.
Qed.

Section CategoryScores.

Variable metrics : gmap string Q.
Hypothesis Hcr : 0 <= dict_get metrics "current_ratio" 0.
Hypothesis Hqr : 0 <= dict_get metrics "quick_ratio" 0.
Hypothesis Hcash : 0 <= dict_get metrics "cash_ratio" 0.
Hypothesis Hrunway : 0 <= dict_get metrics "cash_runway_days" 0.

Lemma _score_liquidity_bounded :
  0 <= _score_liquidity metrics /\ _score_liquidity metrics <= 100.
Proof.
  unfold _score_liquidity.
  destruct (cr_score_bounded _ Hcr), (qr_score_bounded _ Hqr),
    (cash_score_bounded _ Hcash). split; lra.
Qed.

Lemma _score_profitability_bounded :
  0 <= _score_profitability metrics /\ _score_profitability metrics <= 100.
Proof.
  unfold _score_profitability.
  destruct (gm_score_bounded (dict_get metrics "gross_margin" 0) I),
    (nm_score_bounded (dict_get metrics "net_margin" 0) I),
    (roe_score_bounded (dict_get metrics "roe" 0) I). split; lra.
Qed.

Lemma _score_solvency_bounded :
  0 <= _score_solvency metrics /\ _score_solvency metrics <= 100.
Proof.
  unfold _score_solvency.
  assert (B : forall x, (0 <= de_score x /\ de_score x <= 100) /\
                        (0 <= dr_score x /\ dr_score x <= 100) /\
                        (0 <= ic_score x /\ ic_score x <= 100)).
  { intros x. unfold de_score, dr_score, ic_score. repeat split; curve. }
  destruct (B (dict_get metrics "debt_to_equity" 0)) as ([? ?] & _ & _).
  destruct (B (dict_get metrics "debt_ratio" 0)) as (_ & [? ?] & _).
  destruct (B (dict_get metrics "interest_coverage" 0)) as (_ & _ & [? ?]).
  split; lra.
Qed.

Lemma _score_efficiency_bounded :
  0 <= _score_efficiency metrics /\ _score_efficiency metrics <= 100.
Proof.
  unfold _score_efficiency.
  assert (B : forall x, (0 <= it_score x /\ it_score x <= 100) /\
                        (0 <= rt_score x /\ rt_score x <= 100) /\
                        (0 <= at_score x /\ at_score x <= 100)).
  { intros x. unfold it_score, rt_score, at_score. repeat split; curve. }
  destruct (B (dict_get metrics "inventory_turnover" 0)) as ([? ?] & _ & _).
  destruct (B (dict_get metrics "receivables_turnover" 0)) as (_ & [? ?] & _).
  destruct (B (dict_get metrics "asset_turnover" 0)) as (_ & _ & [? ?]).
  split; lra.
Qed.

Lemma _score_cash_flow_bounded :
  0 <= _score_cash_flow metrics /\ _score_cash_flow metrics <= 100.
Proof.
  unfold _score_cash_flow.
  destruct (runway_score_bounded _ Hrunway),
    (wc_score_bounded (dict_get metrics "working_capital" 0) I),
    (wcc_score_bounded (dict_get metrics "working_capital_cycle" 0) I).
  split; lra.
Qed.

End CategoryScores.

(** X2.  When the current, quick and cash ratios and the cash runway of the
    metrics are not negative (a missing metric counts as 0), the five
    category scores and the overall score returned by
    [calculate_health_score] lie in [0, 100] for every industry tag. *)
Theorem health_score_within_range (metrics : gmap string Q) (industry : string) :
  0 <= dict_get metrics "current_ratio" 0 ->
  0 <= dict_get metrics "quick_ratio" 0 ->
  0 <= dict_get metrics "cash_ratio" 0 ->
  0 <= dict_get metrics "cash_runway_days" 0 ->
  (0 <= overall_score (calculate_health_score metrics industry) /\
   overall_score (calculate_health_score metrics industry) <= 100) /\
  (0 <= liquidity_score (calculate_health_score metrics industry) /\
   liquidity_score (calculate_health_score metrics industry) <= 100) /\
  (0 <= profitability_score (calculate_health_score metrics industry) /\
   profitability_score (calculate_health_score metrics industry) <= 100) /\
  (0 <= solvency_score (calculate_health_score metrics industry) /\
   solvency_score (calculate_health_score metrics industry) <= 100) /\
  (0 <= efficiency_score (calculate_health_score metrics industry) /\
   efficiency_score (calculate_health_score metrics industry) <= 100) /\
  (0 <= cash_flow_score (calculate_health_score metrics industry) /\
   cash_flow_score (calculate_health_score metrics industry) <= 100).
Proof.
  intros Hcr Hqr Hcash Hrunway.
  pose proof (_score_liquidity_bounded metrics Hcr Hqr Hcash) as Hl.
  pose proof (_score_profitability_bounded metrics) as Hp.
  pose proof (_score_solvency_bounded metrics) as Hs.
  pose proof (_score_efficiency_bounded metrics) as He.
  pose proof (_score_cash_flow_bounded metrics Hrunway) as Hc.
  destruct (weights_for_nonneg industry) as (W1 & W2 & W3 & W4 & W5).
  pose proof (weighted_mean_between 0 100 _ _ _ _ _ _ _ _ _ _
                W1 W2 W3 W4 W5 (weights_for_sum industry) Hl Hp Hs He Hc) as Ho.
  unfold calculate_health_score; cbn [overall_score liquidity_score
    profitability_score solvency_score efficiency_score cash_flow_score].
  repeat split;
    first [ apply (round_between 0 100) | apply (round_between 0 100) ];
    first [ apply Ho | apply Hl | apply Hp | apply Hs | apply He | apply Hc ].
Qed.

(** The theorem at the default metrics of the extraction and "Retail". *)
Lemma health_score_within_range_witness :
  0 <= overall_score
         (calculate_health_score (list_to_map METRIC_DEFAULTS) "Retail") /\
  overall_score (calculate_health_score (list_to_map METRIC_DEFAULTS) "Retail")
  <= 100.
Proof.
  assert (H : forall k, In k ["current_ratio"; "quick_ratio"; "cash_ratio";
                             "cash_runway_days"] ->
                0 <= dict_get (list_to_map METRIC_DEFAULTS) k 0).
  { intros k [<- | [<- | [<- | [<- | []]]]]; vm_compute; discriminate. }
  exact (proj1 (health_score_within_range (list_to_map METRIC_DEFAULTS) "Retail"
                  (H _ (or_introl eq_refl))
                  (H _ (or_intror (or_introl eq_refl)))
                  (H _ (or_intror (or_intror (or_introl eq_refl))))
                  (H _ (or_intror (or_intror (or_intror (or_introl eq_refl))))))).
Defined.

(** ** Grades, risk levels and the order of scores *)

Lemma grade_rank_monotone (s1 s2 : Q) :
  s1 <= s2 ->
  (grade_rank (_calculate_grade s1) <= grade_rank (_calculate_grade s2))%nat.
Proof.
  intros H. unfold _calculate_grade.
  split_cmp; first [exfalso; lra | vm_compute; lia].
Qed.

Lemma risk_rank_monotone (s1 s2 : Q) :
  s1 <= s2 ->
  (risk_rank (_calculate_risk_level s1) <= risk_rank (_calculate_risk_level s2))%nat.
Proof.
  intros H. unfold _calculate_risk_level.
  split_cmp; first [exfalso; lra | vm_compute; lia].
Qed.

(** X3.  Grade and risk level are ordinal readings of one score: a higher
    score never gets a worse grade or a worse risk level, and the risk level
    is determined by the grade band: "Low" exactly for B+ and better,
    "Medium" exactly for C to B, and a "Critical" score is always graded F. *)
Theorem grade_and_risk_ordinal (s1 s2 : Q) :
  (s1 <= s2 ->
   (grade_rank (_calculate_grade s1) <= grade_rank (_calculate_grade s2))%nat /\
   (risk_rank (_calculate_risk_level s1)
    <= risk_rank (_calculate_risk_level s2))%nat) /\
  (_calculate_risk_level s1 = "Low"
   <-> (grade_rank "B+" <= grade_rank (_calculate_grade s1))%nat) /\
  (_calculate_risk_level s1 = "Medium"
   <-> (grade_rank "C" <= grade_rank (_calculate_grade s1))%nat /\
       (grade_rank (_calculate_grade s1) <= grade_rank "B")%nat) /\
  (_calculate_risk_level s1 = "Critical" -> _calculate_grade s1 = "F") /\
  (_calculate_grade s1 ∈ GRADE_SCALE /\ _calculate_risk_level s1 ∈ RISK_SCALE).
Proof.
  split; [intros H; split;
          [apply grade_rank_monotone | apply risk_rank_monotone]; exact H |].
  unfold _calculate_grade, _calculate_risk_level.
  split_cmp; try (exfalso; lra).
  all: repeat match goal with
              | |- _ /\ _ => split
              | |- _ <-> _ => split
              end; intros.
  all: try discriminate; try reflexivity.
  all: try (unfold GRADE_SCALE, RISK_SCALE; apply list_elem_of_In; simpl; tauto).
  all: try (vm_compute; lia).
  all: exfalso;
       match goal with
       | H : (_ <= _)%nat |- _ => vm_compute in H; lia
       | H : _ /\ _ |- _ =>
           let H1 := fresh in let H2 := fresh in
           destruct H as [H1 H2]; vm_compute in H1, H2; lia
       end.
Qed.

(** The theorem at the scores 62 and 81. *)
Lemma grade_and_risk_ordinal_witness :
  (grade_rank (_calculate_grade 62) <= grade_rank (_calculate_grade 81))%nat.
Proof.
  apply (grade_and_risk_ordinal 62 81). lra.
Defined.

(** ** The overall score as a function of one metric *)

Lemma dict_get_insert_eq {V : Type} (d : gmap string V) (k : string) (v dflt : V) :
  dict_get (<[k := v]> d) k dflt = v.
Proof. unfold dict_get. rewrite lookup_insert_eq. reflexivity. Qed.

Lemma dict_get_insert_ne {V : Type} (d : gmap string V) (k k' : string) (v dflt : V) :
  k <> k' -> dict_get (<[k := v]> d) k' dflt = dict_get d k' dflt.
Proof. intros H. unfold dict_get. rewrite lookup_insert_ne by exact H. reflexivity. Qed.

(** Every curve but those of interest coverage, the two turnovers and the
    working-capital cycle is monotone over all numbers. *)
Lemma curves_monotone_everywhere (x y : Q) :
  x <= y ->
  (cr_score x <= cr_score y /\ qr_score x <= qr_score y /\
   cash_score x <= cash_score y /\ gm_score x <= gm_score y /\
   nm_score x <= nm_score y /\ roe_score x <= roe_score y /\
   at_score x <= at_score y /\ runway_score x <= runway_score y /\
   wc_score x <= wc_score y) /\
  (de_score y <= de_score x /\ dr_score y <= dr_score x).
Proof.
  intros H.
  unfold cr_score, qr_score, cash_score, gm_score, nm_score, roe_score,
    at_score, runway_score, wc_score, de_score, dr_score.
  repeat split; curve.
Qed.

(** The overall score, the grade and the risk level follow the category
    scores. *)
Lemma calculate_health_score_monotone (m m' : gmap string Q) (industry : string) :
  _score_liquidity m <= _score_liquidity m' ->
  _score_profitability m <= _score_profitability m' ->
  _score_solvency m <= _score_solvency m' ->
  _score_efficiency m <= _score_efficiency m' ->
  _score_cash_flow m <= _score_cash_flow m' ->
  overall_score (calculate_health_score m industry)
  <= overall_score (calculate_health_score m' industry) /\
  (grade_rank (grade (calculate_health_score m industry))
   <= grade_rank (grade (calculate_health_score m' industry)))%nat /\
  (risk_rank (risk_level (calculate_health_score m industry))
   <= risk_rank (risk_level (calculate_health_score m' industry)))%nat.
Proof.
  intros H1 H2 H3 H4 H5.
  destruct (weights_for_nonneg industry) as (W1 & W2 & W3 & W4 & W5).
  unfold calculate_health_score; cbn [overall_score grade risk_level].
  set (w := weights_for industry) in *.
  assert (H : _score_liquidity m * liquidity w
              + _score_profitability m * profitability w
              + _score_solvency m * solvency w + _score_efficiency m * efficiency w
              + _score_cash_flow m * cash_flow w
              <= _score_liquidity m' * liquidity w
                 + _score_profitability m' * profitability w
                 + _score_solvency m' * solvency w
                 + _score_efficiency m' * efficiency w
                 + _score_cash_flow m' * cash_flow w) by nra.
  split; [apply round_mono, H |].
  split; [apply grade_rank_monotone, H | apply risk_rank_monotone, H].
Qed.

Section OneMetric.

Variables (metrics : gmap string Q) (x y : Q).
Hypothesis Hxy : x <= y.

Local Ltac read_metrics :=
  unfold _score_liquidity, _score_profitability, _score_solvency,
    _score_efficiency, _score_cash_flow;
  rewrite ?dict_get_insert_eq; rewrite ?dict_get_insert_ne by discriminate.

Lemma category_scores_higher_is_better (k : string) :
  k ∈ HIGHER_IS_BETTER ->
  _score_liquidity (<[k := x]> metrics) <= _score_liquidity (<[k := y]> metrics) /\
  _score_profitability (<[k := x]> metrics)
  <= _score_profitability (<[k := y]> metrics) /\
  _score_solvency (<[k := x]> metrics) <= _score_solvency (<[k := y]> metrics) /\
  _score_efficiency (<[k := x]> metrics) <= _score_efficiency (<[k := y]> metrics) /\
  _score_cash_flow (<[k := x]> metrics) <= _score_cash_flow (<[k := y]> metrics).
Proof.
  intros Hk.
  destruct (curves_monotone_everywhere x y Hxy)
    as [(? & ? & ? & ? & ? & ? & ? & ? & ?) _].
  unfold HIGHER_IS_BETTER in Hk.
  repeat (apply elem_of_cons in Hk as [-> | Hk];
          [read_metrics; repeat split; lra |]).
  inversion Hk.
Qed.

Lemma category_scores_lower_is_better (k : string) :
  k ∈ LOWER_IS_BETTER ->
  _score_liquidity (<[k := y]> metrics) <= _score_liquidity (<[k := x]> metrics) /\
  _score_profitability (<[k := y]> metrics)
  <= _score_profitability (<[k := x]> metrics) /\
  _score_solvency (<[k := y]> metrics) <= _score_solvency (<[k := x]> metrics) /\
  _score_efficiency (<[k := y]> metrics) <= _score_efficiency (<[k := x]> metrics) /\
  _score_cash_flow (<[k := y]> metrics) <= _score_cash_flow (<[k := x]> metrics).
Proof.
  intros Hk.
  destruct (curves_monotone_everywhere x y Hxy) as [_ [? ?]].
  unfold LOWER_IS_BETTER in Hk.
  repeat (apply elem_of_cons in Hk as [-> | Hk];
          [read_metrics; repeat split; lra |]).
  inversion Hk.
Qed.

End OneMetric.

(** X4.  Raising one of current_ratio, quick_ratio, cash_ratio, gross_margin,
    net_margin, roe, asset_turnover, cash_runway_days or working_capital, the
    other metrics unchanged, never lowers the overall score, the grade or the
    risk level; raising debt_to_equity or debt_ratio never raises them.  This
    holds for every industry and every value, negative ones included. *)
Theorem overall_score_monotone_in_metric
    (metrics : gmap string Q) (industry k : string) (x y : Q) :
  x <= y ->
  (k ∈ HIGHER_IS_BETTER ->
   overall_score (calculate_health_score (<[k := x]> metrics) industry)
   <= overall_score (calculate_health_score (<[k := y]> metrics) industry) /\
   (grade_rank (grade (calculate_health_score (<[k := x]> metrics) industry))
    <= grade_rank (grade (calculate_health_score (<[k := y]> metrics) industry)))%nat /\
   (risk_rank (risk_level (calculate_health_score (<[k := x]> metrics) industry))
    <= risk_rank (risk_level (calculate_health_score (<[k := y]> metrics) industry)))%nat) /\
  (k ∈ LOWER_IS_BETTER ->
   overall_score (calculate_health_score (<[k := y]> metrics) industry)
   <= overall_score (calculate_health_score (<[k := x]> metrics) industry) /\
   (grade_rank (grade (calculate_health_score (<[k := y]> metrics) industry))
    <= grade_rank (grade (calculate_health_score (<[k := x]> metrics) industry)))%nat /\
   (risk_rank (risk_level (calculate_health_score (<[k := y]> metrics) industry))
    <= risk_rank (risk_level (calculate_health_score (<[k := x]> metrics) industry)))%nat).
Proof.
  intros Hxy. split; intros Hk.
  - destruct (category_scores_higher_is_better metrics x y Hxy k Hk)
      as (H1 & H2 & H3 & H4 & H5).
    exact (calculate_health_score_monotone _ _ industry H1 H2 H3 H4 H5).
  - destruct (category_scores_lower_is_better metrics x y Hxy k Hk)
      as (H1 & H2 & H3 & H4 & H5).
    exact (calculate_health_score_monotone _ _ industry H1 H2 H3 H4 H5).
Qed.

(** The theorem at a net margin rising from 4 to 12 on empty metrics, for
    "Services". *)
Lemma overall_score_monotone_in_metric_witness :
  overall_score (calculate_health_score (<["net_margin" := 4]> ∅) "Services")
  <= overall_score (calculate_health_score (<["net_margin" := 12]> ∅) "Services").
Proof.
  assert (Hxy : 4 <= 12) by lra.
  assert (Hk : "net_margin" ∈ HIGHER_IS_BETTER) by (do 4 right; left).
  exact (proj1 (proj1 (overall_score_monotone_in_metric ∅ "Services" "net_margin"
                         4 12 Hxy) Hk)).
Defined.

(** ** What the extraction reads and what it writes *)

Section ReadKeys.

Variables data data' : gmap string pyval.
Hypothesis Hagree : forall k, k ∈ STATEMENT_FIGURES -> data !! k = data' !! k.

Lemma agree_dict_get (k : string) (d : pyval) :
  k ∈ STATEMENT_FIGURES -> dict_get data k d = dict_get data' k d.
Proof. intros Hk. unfold dict_get. rewrite (Hagree k Hk). reflexivity. Qed.

Lemma agree_dict_has (k : string) :
  k ∈ STATEMENT_FIGURES -> dict_has data k = dict_has data' k.
Proof. intros Hk. unfold dict_has. rewrite (Hagree k Hk). reflexivity. Qed.

Local Ltac in_read_keys :=
  unfold STATEMENT_FIGURES; apply list_elem_of_In; simpl; tauto.

Local Ltac agree :=
  repeat match goal with
  | |- context [dict_get data ?k ?d] =>
      rewrite (agree_dict_get k d) by in_read_keys
  | |- context [dict_has data ?k] =>
      rewrite (agree_dict_has k) by in_read_keys
  end.

Lemma margins_from_revenue_agree (metrics : gmap string Q) :
  margins_from_revenue data metrics = margins_from_revenue data' metrics.
Proof.
  unfold margins_from_revenue. agree.
  destruct (_ || _)%bool; [| reflexivity].
  destruct (py_float (dict_get data' "revenue" _)) as [revenue | |];
    cbn [mbind result_bind]; [| reflexivity | reflexivity].
  agree. reflexivity.
Qed.

Lemma ratios_from_assets_agree (metrics : gmap string Q) :
  ratios_from_assets data metrics = ratios_from_assets data' metrics.
Proof.
  unfold ratios_from_assets. agree.
  destruct (_ || _)%bool; [| reflexivity].
  destruct (py_float (dict_get data' "total_assets" _)) as [total_assets | |];
    cbn [mbind result_bind]; [| reflexivity | reflexivity].
  agree.
  destruct (py_float (dict_get data' "current_assets" _)) as [current_assets | |];
    cbn [mbind result_bind]; [| reflexivity | reflexivity].
  agree. reflexivity.
Qed.

Lemma runway_from_cash_agree (metrics : gmap string Q) :
  runway_from_cash data metrics = runway_from_cash data' metrics.
Proof. unfold runway_from_cash. agree. reflexivity. Qed.

End ReadKeys.

Lemma direct_fields_agree (data data' : gmap string pyval)
    (fields : list (string * Q)) (metrics : gmap string Q) :
  (forall k d, (k, d) ∈ fields -> data !! k = data' !! k) ->
  direct_fields data fields metrics = direct_fields data' fields metrics.
Proof.
  revert metrics. induction fields as [| [k d] rest IH]; intros metrics Hin.
  - reflexivity.
  - simpl. unfold dict_get at 1 2. rewrite (Hin k d) by left.
    destruct (py_float _) as [q | |]; simpl; [| reflexivity | reflexivity].
    apply IH. intros k' d' H'. apply (Hin k' d'). right. exact H'.
Qed.

Lemma _extract_metrics_agree (data data' : gmap string pyval) :
  (forall k, k ∈ READ_KEYS -> data !! k = data' !! k) ->
  _extract_metrics (ODict data) = _extract_metrics (ODict data').
Proof.
  intros Hagree.
  assert (Hst : forall k, k ∈ STATEMENT_FIGURES -> data !! k = data' !! k).
  { intros k Hk. apply Hagree. unfold READ_KEYS. apply elem_of_app. right. exact Hk. }
  unfold _extract_metrics.
  rewrite (direct_fields_agree data data').
  - destruct (direct_fields data' METRIC_DEFAULTS ∅) as [m0 | |];
      cbn [mbind result_bind]; [| reflexivity | reflexivity].
    rewrite (margins_from_revenue_agree data data' Hst).
    destruct (margins_from_revenue data' m0) as [m1 | |];
      cbn [mbind result_bind]; [| reflexivity | reflexivity].
    rewrite (ratios_from_assets_agree data data' Hst).
    destruct (ratios_from_assets data' m1) as [m2 | |];
      cbn [mbind result_bind]; [| reflexivity | reflexivity].
    apply (runway_from_cash_agree data data' Hst).
  - intros k d Hin. apply Hagree. unfold READ_KEYS. apply elem_of_app. left.
    apply list_elem_of_fmap. exists (k, d). split; [reflexivity | exact Hin].
Qed.

(** X5.  The extraction reads only the direct metric fields and sixteen
    statement figures: two mappings that agree on those keys give the same
    metrics or the same error.  In particular an entry under any other key,
    such as "total_expenses", "summary" or "financial_data", changes
    nothing. *)
Theorem extract_metrics_reads_only (data : gmap string pyval) :
  (forall data' : gmap string pyval,
     (forall k, k ∈ READ_KEYS -> data !! k = data' !! k) ->
     _extract_metrics (ODict data) = _extract_metrics (ODict data')) /\
  (forall k v, k ∉ READ_KEYS ->
     _extract_metrics (ODict (<[k := v]> data)) = _extract_metrics (ODict data)).
Proof.
  split.
  - intros data' H. exact (_extract_metrics_agree data data' H).
  - intros k v Hk. apply _extract_metrics_agree.
    intros k' Hk'. apply lookup_insert_ne. intros ->. exact (Hk Hk').
Qed.

(** The theorem at a mapping with a revenue, to which total expenses are
    added. *)
Lemma extract_metrics_reads_only_witness :
  _extract_metrics
    (ODict (<["total_expenses" := VNum 850000]> {[ "revenue" := VNum 1000000 ]}))
  = _extract_metrics (ODict {[ "revenue" := VNum 1000000 ]}).
Proof.
  apply (extract_metrics_reads_only {[ "revenue" := VNum 1000000 ]}).
  unfold READ_KEYS. intros H. apply list_elem_of_In in H. simpl in H.
  repeat (destruct H as [H | H]; [discriminate H |]). exact H.
Defined.


(** X6.  Whatever mapping it is given, a successful extraction returns
    exactly the fifteen metrics: the derivations from statement figures only
    overwrite metrics that the direct fields or defaults already set. *)
Theorem extract_metrics_complete (data : gmap string pyval) (m : gmap string Q) :
  _extract_metrics (ODict data) = Ok m ->
  forall k, is_Some (m !! k) <->
    k ∈ [ "current_ratio"; "quick_ratio"; "cash_ratio"; "gross_margin";
          "net_margin"; "roe"; "debt_to_equity"; "debt_ratio";
          "interest_coverage"; "inventory_turnover"; "receivables_turnover";
          "asset_turnover"; "cash_runway_days"; "working_capital";
          "working_capital_cycle" ].
Proof.
  intros H k.
  destruct (_extract_metrics_steps data m H) as (m0 & m1 & m2 & H0 & H1 & H2 & H3).
  pose proof (direct_fields_keys data m0 H0) as Hk0.
  change (map fst METRIC_DEFAULTS) with
    [ "current_ratio"; "quick_ratio"; "cash_ratio"; "gross_margin";
      "net_margin"; "roe"; "debt_to_equity"; "debt_ratio";
      "interest_coverage"; "inventory_turnover"; "receivables_turnover";
      "asset_turnover"; "cash_runway_days"; "working_capital";
      "working_capital_cycle" ] in Hk0.
  set (keys := [ "current_ratio"; "quick_ratio"; "cash_ratio"; "gross_margin";
      "net_margin"; "roe"; "debt_to_equity"; "debt_ratio";
      "interest_coverage"; "inventory_turnover"; "receivables_turnover";
      "asset_turnover"; "cash_runway_days"; "working_capital";
      "working_capital_cycle" ]) in *.
  assert (Ho : overwrites keys m0 m).
  { assert (Hsub : forall keys', (forall k', In k' keys' -> In k' keys) ->
                     forall k', k' ∈ keys' -> k' ∈ keys).
    { intros keys' Hi k' Hk'. apply list_elem_of_In, Hi, list_elem_of_In, Hk'. }
    apply (overwrites_trans _ _ m2); [apply (overwrites_trans _ _ m1) |].
    - eapply overwrites_weaken;
        [| exact (margins_from_revenue_overwrites data m0 m1 H1)].
      apply Hsub. simpl. intuition (subst; tauto).
    - eapply overwrites_weaken;
        [| exact (ratios_from_assets_overwrites data m1 m2 H2)].
      apply Hsub. simpl. intuition (subst; tauto).
    - eapply overwrites_weaken;
        [| exact (runway_from_cash_overwrites data m2 m H3)].
      apply Hsub. simpl. intuition (subst; tauto). }
  destruct Ho as [Hout Hin]. split.
  - intros Hs. destruct (decide (k ∈ keys)) as [Hk | Hk]; [exact Hk |].
    rewrite (Hout k Hk) in Hs. apply Hk0, Hs.
  - intros Hk. apply Hin, Hk0, Hk.
Qed.

(** The theorem at a mapping that gives a revenue and assets. *)
Lemma extract_metrics_complete_witness :
  exists m,
    _extract_metrics
      (ODict (<["revenue" := VNum 1000]> {[ "total_assets" := VNum 500 ]})) = Ok m /\
    is_Some (m !! "working_capital_cycle").
Proof.
  assert (H : exists m,
             _extract_metrics
               (ODict (<["revenue" := VNum 1000]> {[ "total_assets" := VNum 500 ]}))
             = Ok m) by (eexists; reflexivity).
  destruct H as [m E].
  exists m. split; [exact E |].
  apply (extract_metrics_complete _ m E).
  apply list_elem_of_In. simpl. tauto.
Defined.

(** The reading of the direct fields of a mapping in which the values
    under [keys] have been replaced by other convertible values: it succeeds
    again and agrees outside [keys]. *)
Lemma direct_fields_replaced (keys : list string) (data data' : gmap string pyval)
    (fields : list (string * Q)) :
  (forall k, k ∉ keys -> data' !! k = data !! k) ->
  (forall k d, (k, d) ∈ fields -> k ∈ keys ->
     exists x, py_float (dict_get data' k (VNum d)) = Ok x) ->
  forall metrics metrics' m,
    (forall k, k ∉ keys -> metrics' !! k = metrics !! k) ->
    direct_fields data fields metrics = Ok m ->
    exists m', direct_fields data' fields metrics' = Ok m' /\
               forall k, k ∉ keys -> m' !! k = m !! k.
Proof.
  intros Hout Hin.
  induction fields as [| [k0 d0] rest IH]; intros metrics metrics' m Hm H.
  - simpl in H. apply Ok_inj in H. subst m. exists metrics'. split; [reflexivity | exact Hm].
  - simpl in H. apply bind_Ok in H as (x & Hx & H). cbn [direct_fields].
    assert (Hrest : forall k d, (k, d) ∈ rest -> k ∈ keys ->
              exists x, py_float (dict_get data' k (VNum d)) = Ok x).
    { intros k d Hel. apply (Hin k d). right. exact Hel. }
    destruct (decide (k0 ∈ keys)) as [Hk0 | Hk0].
    + destruct (Hin k0 d0 ltac:(left) Hk0) as [x' ->]. cbn [mbind result_bind].
      apply (IH Hrest (<[k0 := x]> metrics)); [| exact H].
      intros k Hk. rewrite !lookup_insert_ne by (intros ->; exact (Hk Hk0)).
      exact (Hm k Hk).
    + unfold dict_get at 1. rewrite (Hout k0 Hk0). fold (dict_get data k0 (VNum d0)).
      rewrite Hx. cbn [mbind result_bind].
      apply (IH Hrest (<[k0 := x]> metrics)); [| exact H].
      intros k Hk. destruct (decide (k0 = k)) as [-> | Hne].
      * rewrite !lookup_insert_eq. reflexivity.
      * rewrite !lookup_insert_ne by exact Hne. exact (Hm k Hk).
Qed.

(** With a positive revenue the margins are derived, whatever the metrics
    held before. *)
Lemma margins_from_revenue_derived (data : gmap string pyval)
    (metrics m1 : gmap string Q) (revenue : Q) :
  statement_figure data "revenue" "total_revenue" 0 revenue -> 0 < revenue ->
  margins_from_revenue data metrics = Ok m1 ->
  exists cogs net_income,
    statement_figure data "cost_of_goods_sold" "cogs" (revenue * 0.6) cogs /\
    statement_figure data "net_income" "profit" (revenue * 0.1) net_income /\
    forall metrics',
      margins_from_revenue data metrics'
      = Ok (<["net_margin" := net_income / revenue * 100]>
              (<["gross_margin" := (revenue - cogs) / revenue * 100]> metrics')).
Proof.
  unfold statement_figure. intros Hr Hpos H1.
  assert (Hhas : (dict_has data "revenue" || dict_has data "total_revenue")%bool = true).
  { unfold dict_has, dict_get in *.
    destruct (data !! "revenue") as [v |]; [reflexivity |].
    destruct (data !! "total_revenue") as [v |]; [reflexivity |].
    simpl in Hr. apply Ok_inj in Hr. subst revenue. lra. }
  unfold margins_from_revenue in *. rewrite Hhas in *. rewrite Hr in *.
  cbn [mbind result_bind] in *.
  apply bind_Ok in H1 as (cogs & Hc & H1); cbv beta in H1.
  apply bind_Ok in H1 as (net_income & Hn & _).
  exists cogs, net_income. split; [exact Hc |]. split; [exact Hn |].
  intros metrics'. rewrite Hc, Hn. cbn [mbind result_bind].
  destruct (gtb_cases revenue 0) as [[-> _] | [_ ?]]; [| lra].
  rewrite !py_div_pos by exact Hpos. reflexivity.
Qed.

(** X7.  Figures derived from the statement take precedence over direct
    fields.  When the revenue that the extraction reads, under "revenue" or
    else under "total_revenue", is positive, the gross and net margins of the
    result are computed from the revenue, the cost of goods sold and the net
    income: the extraction returns the same metrics whatever convertible
    values the mapping holds under "gross_margin" and "net_margin".  When the
    mapping gives neither costs nor income and the revenue is at least 1, the
    margins are 40 and 10 percent, up to the rounding of the doubles. *)
Theorem derived_margins_take_precedence
    (data : gmap string pyval) (revenue : Q) (m : gmap string Q) :
  statement_figure data "revenue" "total_revenue" 0 revenue -> 0 < revenue ->
  _extract_metrics (ODict data) = Ok m ->
  (forall gross_margin net_margin x y,
     py_float gross_margin = Ok x -> py_float net_margin = Ok y ->
     _extract_metrics
       (ODict (<["gross_margin" := gross_margin]>
                 (<["net_margin" := net_margin]> data))) = Ok m) /\
  (exists cogs net_income,
     statement_figure data "cost_of_goods_sold" "cogs" (revenue * 0.6) cogs /\
     statement_figure data "net_income" "profit" (revenue * 0.1) net_income /\
     m !! "gross_margin" = Some ((revenue - cogs) / revenue * 100) /\
     m !! "net_margin" = Some (net_income / revenue * 100)) /\
  (data !! "cost_of_goods_sold" = None -> data !! "cogs" = None ->
   data !! "net_income" = None -> data !! "profit" = None -> 1 <= revenue ->
   exists gm nm, m !! "gross_margin" = Some gm /\ m !! "net_margin" = Some nm /\
                 Qabs (gm - 40) <= 1 # 1000000000 /\
                 Qabs (nm - 10) <= 1 # 1000000000).
Proof.
  intros Hr Hpos H.
  destruct (_extract_metrics_steps data m H) as (m0 & m1 & m2 & H0 & H1 & H2 & H3).
  destruct (margins_from_revenue_derived data m0 m1 revenue Hr Hpos H1)
    as (cogs & net_income & Hc & Hn & Hder).
  assert (Hm1 : m1 = <["net_margin" := net_income / revenue * 100]>
                       (<["gross_margin" := (revenue - cogs) / revenue * 100]> m0)).
  { rewrite (Hder m0) in H1. apply Ok_inj in H1. symmetry. exact H1. }
  assert (Hkeep : forall k, k ∈ ["gross_margin"; "net_margin"] -> m !! k = m1 !! k).
  { intros k Hk.
    destruct (ratios_from_assets_overwrites data m1 m2 H2) as [Ho2 _].
    destruct (runway_from_cash_overwrites data m2 m H3) as [Ho3 _].
    rewrite Ho3, Ho2; [reflexivity | |];
      intros Hin; apply list_elem_of_In in Hin; apply list_elem_of_In in Hk;
      simpl in Hin, Hk; intuition (subst; discriminate). }
  assert (Hgm : m !! "gross_margin" = Some ((revenue - cogs) / revenue * 100)).
  { rewrite Hkeep by left. rewrite Hm1.
    rewrite lookup_insert_ne by discriminate. apply lookup_insert_eq. }
  assert (Hnm : m !! "net_margin" = Some (net_income / revenue * 100)).
  { rewrite Hkeep by (right; left). rewrite Hm1. apply lookup_insert_eq. }
  split; [| split].
  - intros gmv nmv x y Hx Hy.
    set (data' := <["gross_margin" := gmv]> (<["net_margin" := nmv]> data)).
    assert (Hout : forall k, k ∉ ["gross_margin"; "net_margin"] ->
              data' !! k = data !! k).
    { intros k Hk. unfold data'.
      rewrite !lookup_insert_ne; [reflexivity | |];
        intros <-; apply Hk; apply list_elem_of_In; simpl; tauto. }
    assert (Hst : forall k, k ∈ STATEMENT_FIGURES -> data' !! k = data !! k).
    { intros k Hk. apply Hout. intros Hel.
      apply list_elem_of_In in Hk. apply list_elem_of_In in Hel.
      simpl in Hk, Hel. intuition (subst; discriminate). }
    destruct (direct_fields_replaced ["gross_margin"; "net_margin"] data data'
                METRIC_DEFAULTS Hout) with (metrics := (∅ : gmap string Q))
                (metrics' := (∅ : gmap string Q)) (m := m0)
      as (m0' & H0' & Hm0'); [| reflexivity | exact H0 |].
    { intros k d Hin Hk. apply list_elem_of_In in Hk. simpl in Hk.
      destruct Hk as [<- | [<- | []]]; unfold data', dict_get.
      - rewrite lookup_insert_eq. eauto.
      - rewrite lookup_insert_ne by discriminate. rewrite lookup_insert_eq. eauto. }
    unfold _extract_metrics. rewrite H0'. cbn [mbind result_bind].
    rewrite (margins_from_revenue_agree data' data Hst), (Hder m0').
    cbn [mbind result_bind].
    assert (Heq : <["net_margin" := net_income / revenue * 100]>
                    (<["gross_margin" := (revenue - cogs) / revenue * 100]> m0')
                  = m1).
    { rewrite Hm1. apply map_eq. intros k.
      destruct (decide ("net_margin" = k)) as [<- | Hn1];
        [rewrite !lookup_insert_eq; reflexivity |].
      rewrite !(lookup_insert_ne _ "net_margin") by exact Hn1.
      destruct (decide ("gross_margin" = k)) as [<- | Hn2];
        [rewrite !lookup_insert_eq; reflexivity |].
      rewrite !(lookup_insert_ne _ "gross_margin") by exact Hn2.
      apply Hm0'. intros Hel. apply list_elem_of_In in Hel. simpl in Hel.
      intuition congruence. }
    rewrite Heq.
    rewrite (ratios_from_assets_agree data' data Hst), H2. cbn [mbind result_bind].
    rewrite (runway_from_cash_agree data' data Hst). exact H3.
  - exists cogs, net_income. auto.
  - intros N1 N2 N3 N4 Hone. unfold statement_figure, dict_get in Hc, Hn.
    rewrite N1, N2 in Hc. rewrite N3, N4 in Hn. simpl in Hc, Hn.
    apply Ok_inj in Hc. apply Ok_inj in Hn. subst cogs net_income.
    eexists _, _. split; [exact Hgm |]. split; [exact Hnm |].
    assert (E1 : (revenue - revenue * 0.6) / revenue * 100 - 40 == 0) by (field; lra).
    assert (E2 : revenue * 0.1 / revenue * 100 - 10 == 0) by (field; lra).
    rewrite E1, E2. split; vm_compute; discriminate.
Qed.

(** The theorem at a mapping that claims a net margin of 55 beside a revenue
    of 1000: the margins are those derived from the revenue, and the same as
    for a claimed net margin of 5. *)
Lemma derived_margins_take_precedence_witness :
  exists m gm nm,
    _extract_metrics
      (ODict (<["revenue" := VNum 1000]> {[ "net_margin" := VNum 55 ]})) = Ok m /\
    _extract_metrics
      (ODict (<["gross_margin" := VNum 30]>
                (<["net_margin" := VNum 5]>
                   (<["revenue" := VNum 1000]> {[ "net_margin" := VNum 55 ]}))))
    = Ok m /\
    m !! "gross_margin" = Some gm /\ m !! "net_margin" = Some nm /\
    Qabs (gm - 40) <= 1 # 1000000000 /\ Qabs (nm - 10) <= 1 # 1000000000.
Proof.
  assert (H : exists m,
             _extract_metrics
               (ODict (<["revenue" := VNum 1000]> {[ "net_margin" := VNum 55 ]}))
             = Ok m) by (eexists; reflexivity).
  destruct H as [m E].
  assert (Hr : statement_figure
                 (<["revenue" := VNum 1000]> {[ "net_margin" := VNum 55 ]})
                 "revenue" "total_revenue" 0 1000) by reflexivity.
  assert (Hpos : 0 < 1000) by lra.
  destruct (derived_margins_take_precedence _ 1000 m Hr Hpos E) as (Hsame & _ & Hdef).
  assert (Hone : 1 <= 1000) by lra.
  destruct (Hdef eq_refl eq_refl eq_refl eq_refl Hone) as (gm & nm & Hg & Hn & Eg & En).
  exists m, gm, nm. split; [exact E |].
  split; [exact (Hsame (VNum 30) (VNum 5) 30 5 eq_refl eq_refl) |].
  auto.
Defined.

(** ** Risk factors *)

(** What [_identify_risk_factors] returns, rule by rule. *)
Lemma _identify_risk_factors_spec (metrics : gmap string Q) :
  NoDup (map risk_name (_identify_risk_factors metrics)) /\
  (length (_identify_risk_factors metrics) <= 5)%nat /\
  ("Low Liquidity" ∈ map risk_name (_identify_risk_factors metrics)
   <-> dict_get metrics "current_ratio" 2 < 1) /\
  ("Low Cash Runway" ∈ map risk_name (_identify_risk_factors metrics)
   <-> dict_get metrics "cash_runway_days" 90 < 60) /\
  ("Low Profit Margins" ∈ map risk_name (_identify_risk_factors metrics)
   <-> dict_get metrics "net_margin" 10 < 5) /\
  ("High Debt Levels" ∈ map risk_name (_identify_risk_factors metrics)
   <-> 2 < dict_get metrics "debt_to_equity" 1) /\
  ("Slow Collections" ∈ map risk_name (_identify_risk_factors metrics)
   <-> dict_get metrics "receivables_turnover" 8 < 4) /\
  (("Low Cash Runway", "critical")
     ∈ map (fun r => (risk_name r, severity r)) (_identify_risk_factors metrics)
   <-> dict_get metrics "cash_runway_days" 90 < 30) /\
  Forall (fun r => severity r ∈ ["medium"; "high"; "critical"])
         (_identify_risk_factors metrics).
Proof.
  unfold _identify_risk_factors.
  set (cr := dict_get metrics "current_ratio" 2).
  set (rw := dict_get metrics "cash_runway_days" 90).
  set (nm := dict_get metrics "net_margin" 10).
  set (de := dict_get metrics "debt_to_equity" 1).
  set (rt := dict_get metrics "receivables_turnover" 8).
  split_cmp; try (exfalso; lra); simpl.
  all: repeat match goal with
              | |- _ /\ _ => split
              | |- _ <-> _ => split
              end.
  all: try (intros _; lra).
  all: try (intros _; apply list_elem_of_In; simpl; tauto).
  all: try match goal with |- (_ <= _)%nat => simpl; lia end.
  all: try (apply NoDup_ListNoDup; repeat constructor; simpl;
            intuition discriminate).
  all: try (repeat constructor; apply list_elem_of_In; simpl; tauto).
  all: try (intros ?; exfalso; lra).
  all: intros Hin; exfalso; apply list_elem_of_In in Hin; simpl in Hin;
       try lra; intuition (try discriminate; try lra; try congruence).
Qed.

(** X8.  The five risk rules are evaluated independently: each contributes at
    most one factor, so the factors have distinct names and are at most five;
    a factor is reported exactly when its metric crosses its threshold (a
    missing metric counts as 2, 90, 10, 1 and 8 respectively), the cash-runway
    factor is critical exactly below 30 days, and every severity is medium,
    high or critical. *)
Theorem risk_factors_follow_thresholds (metrics : gmap string Q) :
  NoDup (map risk_name (_identify_risk_factors metrics)) /\
  (length (_identify_risk_factors metrics) <= 5)%nat /\
  ("Low Liquidity" ∈ map risk_name (_identify_risk_factors metrics)
   <-> dict_get metrics "current_ratio" 2 < 1) /\
  ("Low Cash Runway" ∈ map risk_name (_identify_risk_factors metrics)
   <-> dict_get metrics "cash_runway_days" 90 < 60) /\
  ("Low Profit Margins" ∈ map risk_name (_identify_risk_factors metrics)
   <-> dict_get metrics "net_margin" 10 < 5) /\
  ("High Debt Levels" ∈ map risk_name (_identify_risk_factors metrics)
   <-> 2 < dict_get metrics "debt_to_equity" 1) /\
  ("Slow Collections" ∈ map risk_name (_identify_risk_factors metrics)
   <-> dict_get metrics "receivables_turnover" 8 < 4) /\
  (("Low Cash Runway", "critical")
     ∈ map (fun r => (risk_name r, severity r)) (_identify_risk_factors metrics)
   <-> dict_get metrics "cash_runway_days" 90 < 30) /\
  Forall (fun r => severity r ∈ ["medium"; "high"; "critical"])
         (_identify_risk_factors metrics).
Proof. exact (_identify_risk_factors_spec metrics). Qed.

(** X9.  A reported risk factor goes with a low sub-score of the same metric:
    below 50 for the current ratio, below 25 for the cash runway, below 30
    for the net margin and the debt-to-equity ratio, and at most 50 for the
    receivables turnover (below 30 when the turnover is positive).  A metric
    that is missing raises no risk factor, although the scoring reads it as
    0. *)
Theorem reported_risk_means_low_subscore (metrics : gmap string Q) (v : Q) :
  (metrics !! "current_ratio" = Some v ->
   "Low Liquidity" ∈ map risk_name (_identify_risk_factors metrics) ->
   cr_score v < 50) /\
  (metrics !! "cash_runway_days" = Some v ->
   "Low Cash Runway" ∈ map risk_name (_identify_risk_factors metrics) ->
   runway_score v < 25) /\
  (metrics !! "net_margin" = Some v ->
   "Low Profit Margins" ∈ map risk_name (_identify_risk_factors metrics) ->
   nm_score v < 30) /\
  (metrics !! "debt_to_equity" = Some v ->
   "High Debt Levels" ∈ map risk_name (_identify_risk_factors metrics) ->
   de_score v < 30) /\
  (metrics !! "receivables_turnover" = Some v ->
   "Slow Collections" ∈ map risk_name (_identify_risk_factors metrics) ->
   rt_score v <= 50 /\ (0 < v -> rt_score v < 30)) /\
  (metrics !! "current_ratio" = None -> metrics !! "cash_runway_days" = None ->
   metrics !! "net_margin" = None -> metrics !! "debt_to_equity" = None ->
   metrics !! "receivables_turnover" = None ->
   _identify_risk_factors metrics = []).
Proof.
  destruct (_identify_risk_factors_spec metrics)
    as (_ & _ & H1 & H2 & H3 & H4 & H5 & _).
  repeat split.
  - intros E Hin. apply H1 in Hin. unfold dict_get in Hin. rewrite E in Hin.
    simpl in Hin. unfold cr_score. curve.
  - intros E Hin. apply H2 in Hin. unfold dict_get in Hin. rewrite E in Hin.
    simpl in Hin. unfold runway_score. curve.
  - intros E Hin. apply H3 in Hin. unfold dict_get in Hin. rewrite E in Hin.
    simpl in Hin. unfold nm_score. curve.
  - intros E Hin. apply H4 in Hin. unfold dict_get in Hin. rewrite E in Hin.
    simpl in Hin. unfold de_score. curve.
  - apply H5 in H0. unfold dict_get in H0. rewrite H in H0.
    simpl in H0. unfold rt_score. curve.
  - intros Hv. apply H5 in H0. unfold dict_get in H0. rewrite H in H0.
    simpl in H0. unfold rt_score. curve.
  - intros E1 E2 E3 E4 E5. unfold _identify_risk_factors, dict_get.
    rewrite E1, E2, E3, E4, E5. reflexivity.
Qed.

(** The theorem at metrics whose only entry is a current ratio of 0.7. *)
Lemma reported_risk_means_low_subscore_witness : cr_score 0.7 < 50.
Proof.
  apply (proj1 (reported_risk_means_low_subscore {[ "current_ratio" := 0.7 ]} 0.7)).
  - reflexivity.
  - left.
Defined.

(** ** The benchmark comparison *)

(** For a positive, strictly increasing triple the status names the quarter
    of the percentile. *)
Lemma status_names_quartile (value : Q) (b : benchmark) (p : Q) :
  increasing b ->
  _calculate_percentile value (low b) (median b) (high b) = Ok p ->
  status_of value b = quartile_status p.
Proof.
  intros (Hlo & Hmed & Hhi) Hp.
  destruct (percentile_bands value (low b) (median b) (high b) Hlo Hmed Hhi)
    as (p' & Hp' & Hle & _ & B1 & B2 & B3 & B4 & _).
  rewrite Hp in Hp'. apply Ok_inj in Hp'. subst p'.
  unfold status_of, quartile_status.
  assert (Hq : low b * (value / low b) == value) by (apply Qmult_div_r; lra).
  destruct (geb_cases value (high b)) as [[-> ?] | [-> ?]].
  - destruct (Qlt_le_dec (high b) value) as [Hgt | Hle'].
    + destruct (B4 Hgt) as [_ ?]. split_cmp; first [reflexivity | lra].
    + assert (Hb3 : median b < value) by lra.
      destruct (B3 Hb3 Hle') as (E & _ & _).
      assert (Hv : value - median b == high b - median b) by lra.
      assert (Hd : (value - median b) / (high b - median b) == 1).
      { rewrite Hv. field. lra. }
      split_cmp; first [reflexivity | lra].
  - destruct (geb_cases value (median b)) as [[-> ?] | [-> ?]].
    + destruct (Qlt_le_dec (median b) value) as [Hgt | Hle'].
      * assert (Hb3 : value <= high b) by lra.
        destruct (B3 Hgt Hb3) as (E & ? & ?).
        assert (Hlt : (value - median b) / (high b - median b) < 1).
        { apply Qlt_shift_div_r; lra. }
        split_cmp; first [reflexivity | lra].
      * assert (Hb2 : low b < value) by lra.
        destruct (B2 Hb2 Hle') as (E & _ & _).
        assert (Hv : value - low b == median b - low b) by lra.
        assert (Hd : (value - low b) / (median b - low b) == 1).
        { rewrite Hv. field. lra. }
        split_cmp; first [reflexivity | lra].
    + destruct (geb_cases value (low b)) as [[-> ?] | [-> ?]].
      * destruct (Qlt_le_dec (low b) value) as [Hgt | Hle'].
        -- assert (Hb2 : value <= median b) by lra.
           destruct (B2 Hgt Hb2) as (E & ? & ?).
           assert (Hlt : (value - low b) / (median b - low b) < 1).
           { apply Qlt_shift_div_r; lra. }
           split_cmp; first [reflexivity | lra].
        -- destruct (B1 Hle') as (E & _).
           assert (Hv : value == low b) by lra.
           assert (Hd : value / low b == 1) by (rewrite Hv; field; lra).
           split_cmp; first [reflexivity | lra].
      * assert (Hb1 : value <= low b) by lra.
        destruct (B1 Hb1) as (E & _).
        assert (Hlt : value / low b < 1) by (apply Qlt_shift_div_r; lra).
        split_cmp; first [reflexivity | lra].
Qed.

Section CompareLoop.

Variable metrics : gmap string Q.

(** The loop of [compare_to_industry] over a list of benchmarks that are
    skipped or increasing: it does not raise, appends one entry per
    applicable benchmark in order, adds the percentiles up and counts
    them. *)
Lemma compare_loop_spec (items : list (string * benchmark)) :
  Forall (fun item => not_applicable item.2 = false -> increasing item.2) items ->
  forall comparison percentile_sum percentile_count,
  exists entries,
    compare_loop metrics items (comparison, percentile_sum, percentile_count)
    = Ok ((comparison ++ entries)%list,
          fold_left Qplus (map (fun e => percentile e.2) entries) percentile_sum,
          (percentile_count + Z.of_nat (length entries))%Z) /\
    Forall2 (entry_of metrics) entries (filter applicable items).
Proof.
  induction 1 as [| [metric b] items Hb _ IH]; intros c s n.
  - exists []. simpl. rewrite app_nil_r, Z.add_0_r. split; [reflexivity | constructor].
  - cbn [compare_loop]. unfold compare_step. cbn [snd] in Hb.
    assert (not_applicable b = true \/ not_applicable b = false) as [Ena | Ena]
      by (destruct (not_applicable b); auto).
    + rewrite filter_cons_False
        by (unfold applicable; cbn [snd]; rewrite Ena; simpl; tauto).
      rewrite Ena. cbn [mbind result_bind]. apply IH.
    + rewrite filter_cons_True
        by (unfold applicable; cbn [snd]; rewrite Ena; exact I).
      rewrite Ena.
      destruct (Hb Ena) as (Hlo & Hmed & Hhi).
      destruct (percentile_bands (dict_get metrics metric 0) (low b) (median b)
                  (high b) Hlo Hmed Hhi) as (p & Hp & _).
      rewrite Hp. cbn [mbind result_bind].
      set (entry := mk_comparison_entry _ _ _ _ _ _).
      destruct (IH (c ++ [(metric, entry)])%list (s + p) (n + 1)%Z)
        as (entries & Hloop & Hent).
      exists ((metric, entry) :: entries). split.
      * rewrite Hloop. rewrite <- app_assoc. cbn [app length map fold_left snd].
        replace (n + 1 + Z.of_nat (length entries))%Z
          with (n + Z.of_nat (S (length entries)))%Z by lia.
        reflexivity.
      * constructor; [| exact Hent].
        unfold entry_of; cbn. repeat split; try reflexivity. exact Hp.
Qed.

End CompareLoop.

Lemma benchmarks_for_Forall (industry : string) :
  Forall (fun item : string * benchmark =>
            not_applicable item.2 = false -> increasing item.2)
         (benchmarks_for industry).
Proof.
  apply Forall_forall. intros [metric b] Hin Hna.
  exact (benchmarks_for_increasing industry metric b Hin Hna).
Qed.

(** Every industry has eight benchmarks, of which at most one (the inventory
    turnover of "Services") is not applicable. *)
Lemma benchmarks_for_applicable (industry : string) :
  (7 <= length (filter applicable (benchmarks_for industry)) <= 8)%nat.
Proof.
  assert (Hall : forall bs, BENCHMARKS !! industry = Some bs ->
                   (7 <= length (filter applicable bs) <= 8)%nat).
  { intros bs E. unfold BENCHMARKS in E. apply elem_of_list_to_map_2 in E.
    repeat (apply elem_of_cons in E as [E | E];
            [injection E as -> ->; vm_compute; lia |]).
    inversion E. }
  unfold benchmarks_for, dict_get.
  destruct (BENCHMARKS !! industry) as [bs |] eqn:E; simpl.
  - exact (Hall bs eq_refl).
  - vm_compute. lia.
Qed.

Lemma fold_left_Qplus_le (c : Q) (l : list Q) (s : Q) :
  Forall (fun p => p <= c) l ->
  fold_left Qplus l s <= s + c * inject_Z (Z.of_nat (length l)).
Proof.
  intros HF. revert s. induction HF as [| p l Hp _ IH]; intros s.
  - cbn [fold_left length]. change (inject_Z (Z.of_nat 0)) with 0. lra.
  - cbn [fold_left length]. rewrite Nat2Z.inj_succ, <- Z.add_1_r, inject_Z_plus.
    specialize (IH (s + p)). change (inject_Z 1) with 1. lra.
Qed.

Lemma fold_left_Qplus_ge (c : Q) (l : list Q) (s : Q) :
  Forall (fun p => c <= p) l ->
  s + c * inject_Z (Z.of_nat (length l)) <= fold_left Qplus l s.
Proof.
  intros HF. revert s. induction HF as [| p l Hp _ IH]; intros s.
  - cbn [fold_left length]. change (inject_Z (Z.of_nat 0)) with 0. lra.
  - cbn [fold_left length]. rewrite Nat2Z.inj_succ, <- Z.add_1_r, inject_Z_plus.
    specialize (IH (s + p)). change (inject_Z 1) with 1. lra.
Qed.

(** What a comparison entry says about its percentile. *)
Lemma entry_of_percentile (metrics : gmap string Q)
    (entry : string * comparison_entry) (item : string * benchmark) :
  increasing item.2 -> entry_of metrics entry item ->
  percentile entry.2 <= 100 /\
  (0 <= dict_get metrics item.1 0 -> 0 <= percentile entry.2) /\
  status entry.2 = quartile_status (percentile entry.2).
Proof.
  intros Hinc (_ & _ & _ & _ & _ & Hp & Hs).
  pose proof (status_names_quartile _ _ _ Hinc Hp) as Hq.
  destruct Hinc as (Hlo & Hmed & Hhi).
  destruct (percentile_bands (dict_get metrics item.1 0) (low item.2)
              (median item.2) (high item.2) Hlo Hmed Hhi)
    as (p & Hp' & Hle & Hge & _).
  rewrite Hp in Hp'. apply Ok_inj in Hp'. subst p.
  split; [exact Hle |]. split; [exact Hge |]. congruence.
Qed.


Lemma Qmean_le (c : Q) (l : list Q) :
  l <> [] -> Forall (fun p => p <= c) l -> Qmean l <= c.
Proof.
  intros Hl HF. unfold Qmean, Qsum.
  assert (Hn : 0 < inject_Z (Z.of_nat (length l))).
  { change 0 with (inject_Z 0). rewrite <- Zlt_Qlt.
    destruct l; [contradiction | simpl; lia]. }
  apply Qle_shift_div_r; [exact Hn |].
  pose proof (fold_left_Qplus_le c l 0 HF). lra.
Qed.

Lemma Qmean_ge (c : Q) (l : list Q) :
  l <> [] -> Forall (fun p => c <= p) l -> c <= Qmean l.
Proof.
  intros Hl HF. unfold Qmean, Qsum.
  assert (Hn : 0 < inject_Z (Z.of_nat (length l))).
  { change 0 with (inject_Z 0). rewrite <- Zlt_Qlt.
    destruct l; [contradiction | simpl; lia]. }
  apply Qle_shift_div_l; [exact Hn |].
  pose proof (fold_left_Qplus_ge c l 0 HF). lra.
Qed.

(** [compare_to_industry] never raises; its comparison and percentile. *)
Lemma compare_to_industry_spec (metrics : gmap string Q) (industry : string) :
  exists r, compare_to_industry metrics industry = Ok r /\
    b_industry r = industry /\
    Forall2 (entry_of metrics) (b_comparison r)
            (filter applicable (benchmarks_for industry)) /\
    b_percentile r = Py.round (Qmean (percentiles (b_comparison r))) 1 /\
    b_summary r
    = _generate_benchmark_summary (b_comparison r)
        (Qmean (percentiles (b_comparison r))).
Proof.
  unfold compare_to_industry.
  destruct (compare_loop_spec metrics (benchmarks_for industry)
              (benchmarks_for_Forall industry) [] 0 0%Z)
    as (entries & Hloop & Hent).
  rewrite Hloop. cbn [mbind result_bind app].
  pose proof (benchmarks_for_applicable industry) as Hlen.
  rewrite <- (Forall2_length _ _ _ Hent) in Hlen.
  rewrite Z.add_0_l.
  assert (Hpos : (0 <? Z.of_nat (length entries))%Z = true)
    by (apply Z.ltb_lt; lia).
  rewrite Hpos.
  rewrite py_div_pos
    by (change 0 with (inject_Z 0); rewrite <- Zlt_Qlt; lia).
  cbn [mbind result_bind].
  eexists. split; [reflexivity |]. cbn.
  unfold Qmean, Qsum, percentiles. rewrite length_map.
  repeat split; try reflexivity. exact Hent.
Qed.
Lemma applicable_increasing (industry : string) :
  Forall (fun item : string * benchmark => increasing item.2)
         (filter applicable (benchmarks_for industry)).
Proof.
  apply Forall_forall. intros [metric b] Hin.
  apply list_elem_of_filter in Hin as [Ha Hin].
  apply (benchmarks_for_increasing industry metric b Hin).
  unfold applicable in Ha. cbn [snd] in *.
  destruct (not_applicable b); [contradiction | reflexivity].
Qed.

Lemma Qdiv_le_compat (x y d : Q) : 0 < d -> x <= y -> x / d <= y / d.
Proof.
  intros Hd Hxy. unfold Qdiv. apply Qmult_le_compat_r; [exact Hxy |].
  apply Qinv_le_0_compat. lra.
Qed.

(** On a positive, strictly increasing triple the percentile does not
    decrease when the value grows. *)
Lemma _calculate_percentile_mono (v v' lo med hi p p' : Q) :
  0 < lo -> lo < med -> med < hi -> v <= v' ->
  _calculate_percentile v lo med hi = Ok p ->
  _calculate_percentile v' lo med hi = Ok p' ->
  p <= p'.
Proof.
  intros Hlo Hmed Hhi Hv Hp Hp'.
  destruct (percentile_bands v lo med hi Hlo Hmed Hhi)
    as (q & Hq & _ & _ & B1 & B2 & B3 & B4 & _).
  destruct (percentile_bands v' lo med hi Hlo Hmed Hhi)
    as (q' & Hq' & Hle' & _ & B1' & B2' & B3' & B4' & _).
  rewrite Hp in Hq. apply Ok_inj in Hq. subst q.
  rewrite Hp' in Hq'. apply Ok_inj in Hq'. subst q'.
  pose proof (Qdiv_le_compat v v' lo Hlo Hv) as D1.
  assert (D2 : (v - lo) / (med - lo) <= (v' - lo) / (med - lo))
    by (apply Qdiv_le_compat; lra).
  assert (D3 : (v - med) / (hi - med) <= (v' - med) / (hi - med))
    by (apply Qdiv_le_compat; lra).
  assert (D4 : (v - hi) / hi <= (v' - hi) / hi)
    by (apply Qdiv_le_compat; lra).
  destruct (Qlt_le_dec lo v) as [L1 | L1];
    [destruct (Qlt_le_dec med v) as [L2 | L2];
       [destruct (Qlt_le_dec hi v) as [L3 | L3] |] |].
  - destruct (B4 L3) as [E _]. destruct B4' as [E' _]; [lra |].
    rewrite E, E'. unfold Py.min. split_cmp; lra.
  - destruct (B3 L2 L3) as (E & _ & ?).
    destruct (Qlt_le_dec hi v') as [L3' | L3'].
    + destruct (B4' L3'). lra.
    + destruct B3' as (E' & _); [lra | lra |]. lra.
  - destruct (B2 L1 L2) as (E & _ & ?).
    destruct (Qlt_le_dec med v') as [L2' | L2'].
    + destruct (Qlt_le_dec hi v') as [L3' | L3'].
      * destruct (B4' L3'). lra.
      * destruct (B3' L2' L3') as (_ & ? & _). lra.
    + destruct B2' as (E' & _); [lra | lra |]. lra.
  - destruct (B1 L1) as (E & ?).
    destruct (Qlt_le_dec lo v') as [L1' | L1'].
    + destruct (Qlt_le_dec med v') as [L2' | L2'].
      * destruct (Qlt_le_dec hi v') as [L3' | L3'].
        -- destruct (B4' L3'). lra.
        -- destruct (B3' L2' L3') as (_ & ? & _). lra.
      * destruct (B2' L1' L2') as (_ & ? & _). lra.
    + destruct (B1' L1') as (E' & _). lra.
Qed.

Lemma fold_left_Qplus_mono (l l' : list Q) :
  Forall2 Qle l l' -> forall s s', s <= s' ->
  fold_left Qplus l s <= fold_left Qplus l' s'.
Proof.
  induction 1 as [| p p' l l' Hp _ IH]; intros s s' Hs; cbn [fold_left].
  - exact Hs.
  - apply IH. lra.
Qed.

(** Two comparisons of the same benchmarks, the second of metrics that are
    nowhere smaller. *)
Lemma entries_mono (metrics metrics' : gmap string Q)
    (items : list (string * benchmark)) :
  (forall k, dict_get metrics k 0 <= dict_get metrics' k 0) ->
  Forall (fun item : string * benchmark => increasing item.2) items ->
  forall entries entries',
  Forall2 (entry_of metrics) entries items ->
  Forall2 (entry_of metrics') entries' items ->
  Forall2 (fun e e' : string * comparison_entry =>
             e.1 = e'.1 /\ percentile e.2 <= percentile e'.2) entries entries'.
Proof.
  intros Hle HF. induction HF as [| item items Hinc _ IH];
    intros entries entries' H H'.
  - inversion H; inversion H'; subst. constructor.
  - inversion H as [| e ? es ? He Hes]; subst.
    inversion H' as [| e' ? es' ? He' Hes']; subst.
    constructor; [| exact (IH _ _ Hes Hes')].
    destruct He as (E1 & _ & _ & _ & _ & Hp & _).
    destruct He' as (E1' & _ & _ & _ & _ & Hp' & _).
    split; [congruence |].
    destruct Hinc as (Hlo & Hmed & Hhi).
    exact (_calculate_percentile_mono _ _ _ _ _ _ _ Hlo Hmed Hhi (Hle _) Hp Hp').
Qed.

(** The entries of a comparison of increasing benchmarks. *)
Lemma entries_percentiles (metrics : gmap string Q)
    (entries : list (string * comparison_entry))
    (items : list (string * benchmark)) :
  Forall (fun item : string * benchmark => increasing item.2) items ->
  Forall2 (entry_of metrics) entries items ->
  Forall (fun entry : string * comparison_entry =>
            percentile entry.2 <= 100 /\
            ((forall k, 0 <= dict_get metrics k 0) -> 0 <= percentile entry.2) /\
            status entry.2 = quartile_status (percentile entry.2)) entries.
Proof.
  intros Hinc Hent. revert Hinc.
  induction Hent as [| e item es items He _ IH]; intros Hinc; constructor.
  - inversion Hinc; subst.
    destruct (entry_of_percentile metrics e item) as (? & ? & ?); auto.
  - apply IH. inversion Hinc; assumption.
Qed.

Lemma percentiles_nonempty (comparison : list (string * comparison_entry)) :
  (7 <= length comparison)%nat -> percentiles comparison <> [].
Proof. destruct comparison; simpl; [lia | discriminate]. Qed.

Lemma quartile_status_band (percentile : Q) :
  in_status_band (quartile_status percentile) percentile.
Proof.
  unfold quartile_status, in_status_band.
  destruct (geb_cases percentile 75) as [[-> ?] | [-> ?]]; [exact H |].
  destruct (geb_cases percentile 50) as [[-> ?] | [-> ?]]; [cbn; lra |].
  destruct (geb_cases percentile 25) as [[-> ?] | [-> ?]]; cbn; lra.
Qed.

(** X10.  Whatever the metrics and the industry tag, the benchmark comparison
    returns without error.  It has one entry for each applicable benchmark of
    the industry (of "Services" for an unknown tag), in the order of the
    table, seven or eight in all.  An entry holds the metric to within a cent
    (0 when missing), the three reference values and the status of the
    metric: excellent from the high value on, good from the median on,
    average from the low value on and below average under it.  The percentile
    of the entry agrees with the status: it is at least 75 for excellent,
    from 50 to 75 for good, from 25 to 50 for average and at most 25 for below
    average; and no percentile exceeds 100. *)
Theorem benchmark_comparison_entries (metrics : gmap string Q) (industry : string) :
  exists r, compare_to_industry metrics industry = Ok r /\
    b_industry r = industry /\
    Forall2 (shows metrics) (b_comparison r)
            (filter applicable (benchmarks_for industry)) /\
    (7 <= length (b_comparison r) <= 8)%nat /\
    Forall (fun entry : string * comparison_entry =>
              percentile entry.2 <= 100 /\
              in_status_band (status entry.2) (percentile entry.2))
           (b_comparison r) /\
    b_percentile r <= 100.
Proof.
  destruct (compare_to_industry_spec metrics industry)
    as (r & Hr & Hi & Hent & Hp & _).
  exists r. split; [exact Hr |]. split; [exact Hi |].
  split.
  { eapply Forall2_impl; [exact Hent |].
    intros e item (E1 & E2 & E3 & E4 & E5 & _ & E7).
    unfold shows. rewrite E2.
    repeat split; try assumption. apply round_within_cent. reflexivity. }
  pose proof (benchmarks_for_applicable industry) as Hlen.
  rewrite <- (Forall2_length _ _ _ Hent) in Hlen.
  split; [exact Hlen |].
  pose proof (entries_percentiles metrics _ _ (applicable_increasing industry) Hent)
    as HF.
  split.
  { eapply Forall_impl; [exact HF |]. intros e (Hle & _ & ->).
    split; [exact Hle | apply quartile_status_band]. }
  rewrite Hp. apply (round_le_Z 100).
  apply Qmean_le; [apply percentiles_nonempty; lia |].
  unfold percentiles. apply Forall_map.
  eapply Forall_impl; [exact HF |]. intros e [? _]. assumption.
Qed.

(** X11.  The benchmark treats every metric as better when higher: when no
    metric is smaller in a second set of metrics, no entry's percentile and
    not the overall percentile is smaller either.  This includes the
    debt-to-equity ratio, for which the health score counts a higher value as
    worse. *)
Theorem benchmark_percentile_monotone
    (metrics metrics' : gmap string Q) (industry : string)
    (r r' : benchmark_result) :
  (forall k, dict_get metrics k 0 <= dict_get metrics' k 0) ->
  compare_to_industry metrics industry = Ok r ->
  compare_to_industry metrics' industry = Ok r' ->
  Forall2 (fun e e' : string * comparison_entry =>
             e.1 = e'.1 /\ percentile e.2 <= percentile e'.2)
          (b_comparison r) (b_comparison r') /\
  b_percentile r <= b_percentile r'.
Proof.
  intros Hle Hr Hr'.
  destruct (compare_to_industry_spec metrics industry)
    as (r0 & Hr0 & _ & Hent & Hp & _).
  rewrite Hr in Hr0. apply Ok_inj in Hr0. subst r0.
  destruct (compare_to_industry_spec metrics' industry)
    as (r0 & Hr0 & _ & Hent' & Hp' & _).
  rewrite Hr' in Hr0. apply Ok_inj in Hr0. subst r0.
  pose proof (entries_mono metrics metrics' _ Hle (applicable_increasing industry)
                _ _ Hent Hent') as Hm.
  split; [exact Hm |].
  rewrite Hp, Hp'. apply round_mono.
  unfold Qmean. rewrite !(length_map _ _ : length (percentiles _) = _).
  rewrite <- (Forall2_length _ _ _ Hm).
  pose proof (benchmarks_for_applicable industry) as Hlen.
  rewrite <- (Forall2_length _ _ _ Hent) in Hlen.
  apply Qdiv_le_compat.
  - change 0 with (inject_Z 0). rewrite <- Zlt_Qlt. lia.
  - unfold Qsum. apply fold_left_Qplus_mono; [| lra].
    unfold percentiles. clear -Hm.
    induction Hm as [| e e' es es' [_ H] _ IH]; constructor; assumption.
Qed.

(** The theorem at a current ratio raised from 1 to 2 in "Retail". *)
Lemma benchmark_percentile_monotone_witness :
  exists r r',
    compare_to_industry {[ "current_ratio" := 1 ]} "Retail" = Ok r /\
    compare_to_industry {[ "current_ratio" := 2 ]} "Retail" = Ok r' /\
    b_percentile r <= b_percentile r'.
Proof.
  assert (H : exists r, compare_to_industry {[ "current_ratio" := 1 ]} "Retail" = Ok r)
    by (eexists; reflexivity).
  assert (H' : exists r, compare_to_industry {[ "current_ratio" := 2 ]} "Retail" = Ok r)
    by (eexists; reflexivity).
  destruct H as [r Hr]. destruct H' as [r' Hr'].
  exists r, r'. split; [exact Hr |]. split; [exact Hr' |].
  assert (Hle : forall k, dict_get ({[ "current_ratio" := 1 ]} : gmap string Q) k 0
                          <= dict_get ({[ "current_ratio" := 2 ]} : gmap string Q) k 0).
  { intros k. unfold dict_get.
    destruct (decide (k = "current_ratio")) as [-> | Hne].
    - rewrite !lookup_singleton_eq. simpl. lra.
    - rewrite !lookup_singleton_ne by auto. simpl. lra. }
  exact (proj2 (benchmark_percentile_monotone _ _ "Retail" r r' Hle Hr Hr')).
Defined.
(** X12.  When no metric is negative, every entry's percentile and the
    overall percentile of the comparison lie between 0 and 100. *)
Theorem benchmark_percentile_within_range
    (metrics : gmap string Q) (industry : string) (r : benchmark_result) :
  (forall k, 0 <= dict_get metrics k 0) ->
  compare_to_industry metrics industry = Ok r ->
  Forall (fun entry : string * comparison_entry =>
            0 <= percentile entry.2 /\ percentile entry.2 <= 100)
         (b_comparison r) /\
  0 <= b_percentile r /\ b_percentile r <= 100.
Proof.
  intros Hnn Hr.
  destruct (compare_to_industry_spec metrics industry)
    as (r0 & Hr0 & _ & Hent & Hp & _).
  rewrite Hr in Hr0. apply Ok_inj in Hr0. subst r0.
  pose proof (benchmarks_for_applicable industry) as Hlen.
  rewrite <- (Forall2_length _ _ _ Hent) in Hlen.
  pose proof (entries_percentiles metrics _ _ (applicable_increasing industry) Hent)
    as HF.
  assert (HF' : Forall (fun entry : string * comparison_entry =>
                          0 <= percentile entry.2 /\ percentile entry.2 <= 100)
                       (b_comparison r)).
  { eapply Forall_impl; [exact HF |]. intros e (? & Hge & _). auto. }
  split; [exact HF' |].
  rewrite Hp. split.
  - apply (round_ge_Z 0).
    apply Qmean_ge; [apply percentiles_nonempty; lia |].
    unfold percentiles. apply Forall_map.
    eapply Forall_impl; [exact HF' |]. intros e [? _]. assumption.
  - apply (round_le_Z 100).
    apply Qmean_le; [apply percentiles_nonempty; lia |].
    unfold percentiles. apply Forall_map.
    eapply Forall_impl; [exact HF' |]. intros e [_ ?]. assumption.
Qed.

(** The theorem at a "Retail" company of which only the current ratio 2 is
    known. *)
Lemma benchmark_percentile_within_range_witness :
  exists r,
    compare_to_industry {[ "current_ratio" := 2 ]} "Retail" = Ok r /\
    0 <= b_percentile r /\ b_percentile r <= 100.
Proof.
  assert (H : exists r, compare_to_industry {[ "current_ratio" := 2 ]} "Retail" = Ok r)
    by (eexists; reflexivity).
  destruct H as [r Hr].
  exists r. split; [exact Hr |].
  assert (Hnn : forall k, 0 <= dict_get ({[ "current_ratio" := 2 ]} : gmap string Q) k 0).
  { intros k. unfold dict_get.
    destruct (decide (k = "current_ratio")) as [-> | Hne].
    - rewrite lookup_singleton_eq. simpl. lra.
    - rewrite lookup_singleton_ne by auto. simpl. lra. }
  exact (proj2 (benchmark_percentile_within_range _ "Retail" r Hnn Hr)).
Defined.
Lemma StronglySorted_weaken {A : Type} (R R' : A -> A -> Prop) (l : list A) :
  (forall a b, R a b -> R' a b) -> StronglySorted R l -> StronglySorted R' l.
Proof.
  intros HR. induction 1 as [| a l _ IH Ha]; constructor; [exact IH |].
  eapply Forall_impl; [exact Ha |]. intros b. apply HR.
Qed.

Section StableSort.

Variable before : highlight -> highlight -> bool.
Hypothesis before_total : forall a b, before a b = true \/ before b a = true.
Hypothesis before_trans :
  forall a b c, before a b = true -> before b c = true -> before a c = true.

Lemma sort_insert_Permutation (x : highlight) (sorted : list highlight) :
  sort_insert before x sorted ≡ₚ x :: sorted.
Proof.
  induction sorted as [| y rest IH]; cbn [sort_insert]; [reflexivity |].
  destruct (before y x); [| reflexivity].
  rewrite IH. apply Permutation_swap.
Qed.

Lemma sort_insert_sorted (x : highlight) (sorted : list highlight) :
  StronglySorted (fun a b => before a b = true) sorted ->
  StronglySorted (fun a b => before a b = true) (sort_insert before x sorted).
Proof.
  induction 1 as [| y rest Hs IH Hy]; cbn [sort_insert].
  - repeat constructor.
  - destruct (before y x) eqn:E.
    + constructor; [exact IH |].
      rewrite sort_insert_Permutation. constructor; assumption.
    + assert (Hxy : before x y = true)
        by (destruct (before_total x y); congruence).
      constructor; [constructor; assumption |].
      constructor; [exact Hxy |].
      eapply Forall_impl; [exact Hy |]. intros z Hz. exact (before_trans _ _ _ Hxy Hz).
Qed.

Lemma stable_sort_spec (l : list highlight) :
  stable_sort before l ≡ₚ l /\
  StronglySorted (fun a b => before a b = true) (stable_sort before l).
Proof.
  unfold stable_sort.
  assert (H : forall acc,
             StronglySorted (fun a b => before a b = true) acc ->
             fold_left (fun sorted x => sort_insert before x sorted) l acc
               ≡ₚ (acc ++ l)%list /\
             StronglySorted (fun a b => before a b = true)
               (fold_left (fun sorted x => sort_insert before x sorted) l acc)).
  { induction l as [| x l IH]; intros acc Hacc; cbn [fold_left].
    - rewrite app_nil_r. split; [reflexivity | exact Hacc].
    - destruct (IH (sort_insert before x acc) (sort_insert_sorted x acc Hacc))
        as [Hp Hs].
      split; [| exact Hs].
      rewrite Hp, sort_insert_Permutation.
      cbn [app]. apply Permutation_middle. }
  apply (H []). constructor.
Qed.

(** The first [n] elements of the sorted list: they are sorted, they come
    from the list, and whatever is left out comes after all of them, in
    which case there are [n] of them. *)
Lemma take_stable_sort (n : nat) (l : list highlight) :
  StronglySorted (fun a b => before a b = true) (take n (stable_sort before l)) /\
  length (take n (stable_sort before l)) = Nat.min n (length l) /\
  (forall h, h ∈ take n (stable_sort before l) -> h ∈ l) /\
  (forall h, h ∈ l ->
     h ∈ take n (stable_sort before l) \/
     (length (take n (stable_sort before l)) = n /\
      forall h', h' ∈ take n (stable_sort before l) -> before h' h = true)).
Proof.
  destruct (stable_sort_spec l) as [Hp Hs].
  pose proof (take_drop n (stable_sort before l)) as Htd.
  rewrite <- Htd in Hs. apply StronglySorted_app in Hs as (Hcross & Hs1 & _).
  split; [exact Hs1 |].
  split; [rewrite length_take, (Permutation_length Hp); reflexivity |].
  split.
  - intros h Hh. rewrite <- Hp, <- Htd. apply elem_of_app. left; exact Hh.
  - intros h Hh. rewrite <- Hp, <- Htd in Hh.
    apply elem_of_app in Hh as [Hh | Hh]; [left; exact Hh | right].
    split.
    + rewrite length_take. apply Nat.min_l.
      destruct (le_lt_dec n (length (stable_sort before l))) as [? | Hlt];
        [assumption |].
      rewrite drop_ge in Hh by lia. inversion Hh.
    + intros h' Hh'. exact (Hcross h' h Hh' Hh).
Qed.

End StableSort.

Lemma descending_spec (a b : highlight) :
  descending a b = true <-> h_percentile b <= h_percentile a.
Proof. unfold descending. split_cmp; split; intros; try lra; auto; discriminate. Qed.

Lemma ascending_spec (a b : highlight) :
  ascending a b = true <-> h_percentile a <= h_percentile b.
Proof. unfold ascending. split_cmp; split; intros; try lra; auto; discriminate. Qed.

Lemma descending_total (a b : highlight) :
  descending a b = true \/ descending b a = true.
Proof. rewrite !descending_spec. lra. Qed.

Lemma descending_trans (a b c : highlight) :
  descending a b = true -> descending b c = true -> descending a c = true.
Proof. rewrite !descending_spec. lra. Qed.

Lemma ascending_total (a b : highlight) :
  ascending a b = true \/ ascending b a = true.
Proof. rewrite !ascending_spec. lra. Qed.

Lemma ascending_trans (a b c : highlight) :
  ascending a b = true -> ascending b c = true -> ascending a c = true.
Proof. rewrite !ascending_spec. lra. Qed.

Lemma _generate_benchmark_summary_eq
    (comparison : list (string * comparison_entry)) (overall_percentile : Q) :
  _generate_benchmark_summary comparison overall_percentile
  = {| overall_position := _get_position_label overall_percentile;
       top_strengths :=
         take 3 (stable_sort descending
                   (map highlight_of (filter is_strength comparison)));
       areas_for_improvement :=
         take 3 (stable_sort ascending
                   (map highlight_of (filter is_weakness comparison))) |}.
Proof. reflexivity. Qed.

(** X13.  The summary of a comparison lists at most three strengths and at
    most three weaknesses.  The strengths are entries whose status is
    excellent or good, in descending order of percentile, and an entry of
    that status that is left out has a percentile no higher than any of the
    three listed; the weaknesses are entries of status below_average in
    ascending order of percentile, and one that is left out has a percentile
    no lower than any of the three listed. *)
Theorem benchmark_summary_top_three
    (comparison : list (string * comparison_entry)) (overall_percentile : Q) :
  let summary := _generate_benchmark_summary comparison overall_percentile in
  overall_position summary = _get_position_label overall_percentile /\
  (StronglySorted (fun a b => h_percentile b <= h_percentile a)
                  (top_strengths summary) /\
   length (top_strengths summary)
   = Nat.min 3 (length (filter is_strength comparison)) /\
   (forall h, h ∈ top_strengths summary ->
      exists item, item ∈ comparison /\ is_strength item = true /\
                   h = highlight_of item) /\
   (forall item, item ∈ comparison -> is_strength item = true ->
      highlight_of item ∈ top_strengths summary \/
      (length (top_strengths summary) = 3%nat /\
       forall h, h ∈ top_strengths summary ->
         percentile item.2 <= h_percentile h))) /\
  (StronglySorted (fun a b => h_percentile a <= h_percentile b)
                  (areas_for_improvement summary) /\
   length (areas_for_improvement summary)
   = Nat.min 3 (length (filter is_weakness comparison)) /\
   (forall h, h ∈ areas_for_improvement summary ->
      exists item, item ∈ comparison /\ is_weakness item = true /\
                   h = highlight_of item) /\
   (forall item, item ∈ comparison -> is_weakness item = true ->
      highlight_of item ∈ areas_for_improvement summary \/
      (length (areas_for_improvement summary) = 3%nat /\
       forall h, h ∈ areas_for_improvement summary ->
         h_percentile h <= percentile item.2))).
Proof.
  cbv zeta. rewrite _generate_benchmark_summary_eq.
  cbn [overall_position top_strengths areas_for_improvement].
  split; [reflexivity |].
  assert (Hmem : forall (P : string * comparison_entry -> bool) h,
             h ∈ map highlight_of (filter P comparison) <->
             exists item, item ∈ comparison /\ P item = true /\ h = highlight_of item).
  { intros P h. split.
    - intros Hh. apply list_elem_of_fmap in Hh as (item & -> & Hi).
      apply list_elem_of_filter in Hi as [HP Hi].
      exists item. split; [exact Hi |]. split; [| reflexivity].
      destruct (P item); [reflexivity | contradiction].
    - intros (item & Hi & HP & ->). apply list_elem_of_fmap.
      exists item. split; [reflexivity |]. apply list_elem_of_filter.
      split; [rewrite HP; exact I | exact Hi]. }
  split.
  - destruct (take_stable_sort descending descending_total descending_trans
                3 (map highlight_of (filter is_strength comparison)))
      as (Hs & Hl & Hin & Hout).
    split; [| split; [| split]].
    + eapply StronglySorted_weaken; [| exact Hs].
      intros a b. apply descending_spec.
    + rewrite Hl, length_map. reflexivity.
    + intros h Hh. apply Hmem, Hin, Hh.
    + intros item Hi HP.
      destruct (Hout (highlight_of item)) as [? | [? Hall]].
      * apply Hmem. eauto.
      * left; assumption.
      * right. split; [assumption |]. intros h Hh.
        apply (descending_spec h (highlight_of item)), Hall, Hh.
  - destruct (take_stable_sort ascending ascending_total ascending_trans
                3 (map highlight_of (filter is_weakness comparison)))
      as (Hs & Hl & Hin & Hout).
    split; [| split; [| split]].
    + eapply StronglySorted_weaken; [| exact Hs].
      intros a b. apply ascending_spec.
    + rewrite Hl, length_map. reflexivity.
    + intros h Hh. apply Hmem, Hin, Hh.
    + intros item Hi HP.
      destruct (Hout (highlight_of item)) as [? | [? Hall]].
      * apply Hmem. eauto.
      * left; assumption.
      * right. split; [assumption |]. intros h Hh.
        apply (ascending_spec h (highlight_of item)), Hall, Hh.
Qed.

(** ** The forecast *)

Lemma fold_left_Qplus_start (l : list Q) (s : Q) :
  fold_left Qplus l s == s + Qsum l.
Proof.
  unfold Qsum. revert s. induction l as [| x l IH]; intros s; cbn [fold_left].
  - lra.
  - rewrite (IH (s + x)), (IH (0 + x)). lra.
Qed.

Lemma Qsum_cons (x : Q) (l : list Q) : Qsum (x :: l) == x + Qsum l.
Proof. unfold Qsum at 1. cbn [fold_left]. rewrite fold_left_Qplus_start. lra. Qed.

Lemma column_sum_cons (P : string * column_info -> bool)
    (item : string * column_info) (columns : list (string * column_info)) :
  column_sum P (item :: columns)
  == (if P item then total_of item else 0) + column_sum P columns.
Proof.
  unfold column_sum. destruct (P item) eqn:E.
  - rewrite filter_cons_True by (rewrite E; exact I).
    cbn [map]. apply Qsum_cons.
  - rewrite filter_cons_False by (rewrite E; simpl; tauto). lra.
Qed.

Lemma dict_get_dict_add_eq (financials : gmap string Q) (k : string) (t : Q) :
  dict_get (dict_add financials k t) k 0 = dict_get financials k 0 + t.
Proof. unfold dict_add. apply dict_get_insert_eq. Qed.

Lemma dict_get_dict_add_ne (financials : gmap string Q) (k k' : string) (t : Q) :
  k <> k' -> dict_get (dict_add financials k t) k' 0 = dict_get financials k' 0.
Proof. intros Hne. unfold dict_add. apply dict_get_insert_ne, Hne. Qed.

(** The loop of [_extract_current_values] over the columns adds the revenue
    columns to the revenue, the expense columns to the expenses and the
    remaining columns named like cash to the cash. *)
Lemma _extract_current_values_columns (cols : list (string * column_info))
    (financials : gmap string Q) :
  let financials' := fold_left _extract_current_values_column cols financials in
  dict_get financials' "revenue" 0
  == dict_get financials "revenue" 0 + column_sum is_revenue_column cols /\
  dict_get financials' "expenses" 0
  == dict_get financials "expenses" 0 + column_sum is_expense_column cols /\
  dict_get financials' "cash" 0
  == dict_get financials "cash" 0 + column_sum is_cash_column cols.
Proof.
  cbv zeta. revert financials.
  induction cols as [| [col info] cols IH]; intros financials; cbn [fold_left].
  - change (column_sum is_revenue_column []) with 0.
    change (column_sum is_expense_column []) with 0.
    change (column_sum is_cash_column []) with 0.
    repeat split; lra.
  - destruct (IH (_extract_current_values_column financials (col, info)))
      as (Hr & He & Hc).
    rewrite Hr, He, Hc, !column_sum_cons. clear IH Hr He Hc.
    unfold is_cash_column, is_revenue_column, is_expense_column, category_of,
      total_of, _extract_current_values_column.
    cbn [fst snd].
    destruct (String.eqb (default "" (category info)) "revenue") eqn:E1;
      destruct (String.eqb (default "" (category info)) "expense") eqn:E2;
      cbn [negb andb].
    + apply String.eqb_eq in E1. apply String.eqb_eq in E2.
      rewrite E1 in E2. discriminate E2.
    + rewrite dict_get_dict_add_eq, !dict_get_dict_add_ne by discriminate.
      repeat split; lra.
    + rewrite dict_get_dict_add_eq, !dict_get_dict_add_ne by discriminate.
      repeat split; lra.
    + destruct (contains "cash" (lower col)).
      * rewrite dict_get_dict_add_eq, !dict_get_dict_add_ne by discriminate.
        repeat split; lra.
      * repeat split; lra.
Qed.
(** The last two assignments of [_extract_current_values]: the profit and
    the monthly burn are computed from the revenue and the expenses. *)
Lemma _extract_current_values_derived (raw : raw_data) :
  let financials := _extract_current_values raw in
  dict_get financials "profit" 0
  = dict_get financials "revenue" 0 - dict_get financials "expenses" 0 /\
  dict_get financials "monthly_burn" 0
  = (if dict_get financials "expenses" 0 >? 0
     then dict_get financials "expenses" 0 / 12 else 0).
Proof.
  cbv zeta. unfold _extract_current_values.
  rewrite !dict_get_insert_eq.
  rewrite !(dict_get_insert_ne _ "profit") by discriminate.
  rewrite !dict_get_insert_eq.
  rewrite !(dict_get_insert_ne _ "monthly_burn") by discriminate.
  split; reflexivity.
Qed.

(** The revenue, the expenses and the cash that [_extract_current_values]
    collects from the summary and the columns. *)
Lemma _extract_current_values_sums (raw : raw_data) :
  dict_get (_extract_current_values raw) "revenue" 0
  == dict_get (default ∅ (summary raw)) "total_revenue" 0
     + column_sum is_revenue_column (columns raw) /\
  dict_get (_extract_current_values raw) "expenses" 0
  == dict_get (default ∅ (summary raw)) "total_expenses" 0
     + column_sum is_expense_column (columns raw) /\
  dict_get (_extract_current_values raw) "cash" 0
  == column_sum is_cash_column (columns raw).
Proof.
  unfold _extract_current_values, columns.
  rewrite !(dict_get_insert_ne _ "profit") by discriminate.
  rewrite !(dict_get_insert_ne _ "monthly_burn") by discriminate.
  destruct (summary raw) as [s |]; destruct (financial_data raw) as [cols |];
    cbn [default from_option id].
  - match goal with
    | |- context [fold_left _ cols ?f] =>
        destruct (_extract_current_values_columns cols f) as (Hr & He & Hc)
    end.
    rewrite Hr, He, Hc.
    repeat first [ rewrite dict_get_insert_eq
                 | rewrite dict_get_insert_ne by discriminate ].
    change (dict_get (list_to_map _) "cash" 0) with 0.
    repeat split; lra.
  - repeat first [ rewrite dict_get_insert_eq
            | rewrite dict_get_insert_ne by discriminate ].
    change (dict_get (list_to_map _) "cash" 0) with 0.
    change (column_sum is_revenue_column []) with 0.
    change (column_sum is_expense_column []) with 0.
    change (column_sum is_cash_column []) with 0.
    repeat split; lra.
  - match goal with
    | |- context [fold_left _ cols ?f] =>
        destruct (_extract_current_values_columns cols f) as (Hr & He & Hc)
    end.
    rewrite Hr, He, Hc.
    change (dict_get (list_to_map _) "cash" 0) with 0.
    change (dict_get (list_to_map _) "revenue" 0) with 0.
    change (dict_get (list_to_map _) "expenses" 0) with 0.
    change (dict_get ∅ "total_revenue" 0) with 0.
    change (dict_get ∅ "total_expenses" 0) with 0.
    repeat split; lra.
  - change (column_sum is_revenue_column []) with 0.
    change (column_sum is_expense_column []) with 0.
    change (column_sum is_cash_column []) with 0.
    change (dict_get (list_to_map _) "cash" 0) with 0.
    change (dict_get (list_to_map _) "revenue" 0) with 0.
    change (dict_get (list_to_map _) "expenses" 0) with 0.
    change (dict_get ∅ "total_revenue" 0) with 0.
    change (dict_get ∅ "total_expenses" 0) with 0.
    repeat split; lra.
Qed.

(** X14.  The current values that every forecast starts from.  The revenue is
    the summary's total revenue plus the totals of all columns of category
    revenue, so a mapping that carries both counts the revenue twice; the
    expenses likewise; the cash is the sum of the columns that are neither
    revenue nor expense and have "cash" in their name, whatever its case.
    The summary's total profit is not used: the profit is the revenue less
    the expenses.  The monthly burn is a twelfth of the expenses and is never
    negative. *)
Theorem current_values_totals (raw : raw_data) :
  let financials := _extract_current_values raw in
  let summary := default ∅ (summary raw) in
  dict_get financials "revenue" 0
  == dict_get summary "total_revenue" 0
     + column_sum is_revenue_column (columns raw) /\
  dict_get financials "expenses" 0
  == dict_get summary "total_expenses" 0
     + column_sum is_expense_column (columns raw) /\
  dict_get financials "cash" 0 == column_sum is_cash_column (columns raw) /\
  dict_get financials "profit" 0
  = dict_get financials "revenue" 0 - dict_get financials "expenses" 0 /\
  dict_get financials "monthly_burn" 0
  = (if dict_get financials "expenses" 0 >? 0
     then dict_get financials "expenses" 0 / 12 else 0) /\
  0 <= dict_get financials "monthly_burn" 0.
Proof.
  cbv zeta.
  destruct (_extract_current_values_derived raw) as [Hp Hb].
  pose proof (_extract_current_values_sums raw) as Hsums.
  destruct Hsums as (Hr & He & Hc).
  split; [exact Hr |]. split; [exact He |]. split; [exact Hc |].
  split; [exact Hp |]. split; [exact Hb |].
  rewrite Hb.
  destruct (gtb_cases (dict_get (_extract_current_values raw) "expenses" 0) 0)
    as [[-> ?] | [-> ?]]; [| lra].
  apply Qle_shift_div_l; lra.
Qed.
(** In every entry of the table, and in the default, the pessimistic rate is
    below the base rate and the base rate below the optimistic one. *)
Lemma growth_rates_for_ordered (industry : string) :
  pessimistic (growth_rates_for industry) <= base (growth_rates_for industry) /\
  base (growth_rates_for industry) <= optimistic (growth_rates_for industry).
Proof.
  assert (Hall : forall g, INDUSTRY_GROWTH_RATES !! industry = Some g ->
                   pessimistic g <= base g /\ base g <= optimistic g).
  { intros g E. unfold INDUSTRY_GROWTH_RATES in E.
    apply elem_of_list_to_map_2 in E.
    repeat (apply elem_of_cons in E as [E | E];
            [injection E as _ ->; cbn [pessimistic base optimistic]; split; lra |]).
    inversion E. }
  unfold growth_rates_for, dict_get.
  destruct (INDUSTRY_GROWTH_RATES !! industry) as [g |] eqn:E; simpl.
  - exact (Hall g eq_refl).
  - cbn [pessimistic base optimistic]. split; lra.
Qed.

Lemma growth_rates_for_pessimistic (industry : string) :
  -2 <= pessimistic (growth_rates_for industry).
Proof.
  assert (Hall : forall g, INDUSTRY_GROWTH_RATES !! industry = Some g ->
                   -2 <= pessimistic g).
  { intros g E. unfold INDUSTRY_GROWTH_RATES in E.
    apply elem_of_list_to_map_2 in E.
    repeat (apply elem_of_cons in E as [E | E];
            [injection E as _ ->; cbn [pessimistic]; lra |]).
    inversion E. }
  unfold growth_rates_for, dict_get.
  destruct (INDUSTRY_GROWTH_RATES !! industry) as [g |] eqn:E; simpl.
  - exact (Hall g eq_refl).
  - cbn [pessimistic]. lra.
Qed.

Lemma simple_growth_mono (revenue h r r' : Q) :
  0 <= revenue -> 0 <= h -> r <= r' ->
  revenue / 12 * h * (1 + r / 12 / 100 * h)
  <= revenue / 12 * h * (1 + r' / 12 / 100 * h).
Proof.
  intros Hrev Hh Hr.
  assert (Hm : r / 12 / 100 <= r' / 12 / 100)
    by (apply Qdiv_le_compat; [lra |]; apply Qdiv_le_compat; lra).
  assert (Ha : 0 <= revenue / 12) by (apply Qle_shift_div_l; lra).
  set (a := revenue / 12) in *. set (m := r / 12 / 100) in *.
  set (m' := r' / 12 / 100) in *. clearbody a m m'.
  assert (Hah : 0 <= a * h) by (apply Qmult_le_0_compat; assumption).
  set (b := a * h) in *. clearbody b.
  assert (Hd : 0 <= (m' - m) * h) by (apply Qmult_le_0_compat; lra).
  assert (Hp : 0 <= b * ((m' - m) * h)) by (apply Qmult_le_0_compat; assumption).
  lra.
Qed.

Lemma annual_growth_mono (revenue r r' : Q) :
  0 <= revenue -> r <= r' ->
  revenue * (1 + r / 100) <= revenue * (1 + r' / 100).
Proof.
  intros Hrev Hr.
  assert (Hm : r / 100 <= r' / 100) by (apply Qdiv_le_compat; lra).
  set (m := r / 100) in *. set (m' := r' / 100) in *. clearbody m m'.
  assert (Hp : 0 <= revenue * (m' - m)) by (apply Qmult_le_0_compat; lra).
  lra.
Qed.

(** X15.  When the current revenue is not negative, the three scenarios of
    the forecast are ordered at every horizon, for every industry tag: the
    pessimistic revenue is at most the base revenue, which is at most the
    optimistic one; the same holds for the projected revenues of the growth
    scenarios, which are listed in the order base, optimistic, pessimistic. *)
Theorem forecast_scenarios_ordered
    (now : datetime) (raw : raw_data) (industry : string) (f : forecast) :
  0 <= dict_get (_extract_current_values raw) "revenue" 0 ->
  generate_forecast now raw industry = Ok f ->
  Forall (fun horizon : gmap string Q =>
            exists p b o,
              horizon !! "pessimistic" = Some p /\ horizon !! "base" = Some b /\
              horizon !! "optimistic" = Some o /\ p <= b /\ b <= o)
         [ month_3 (forecasts (f_revenue_forecast f));
           month_6 (forecasts (f_revenue_forecast f));
           month_12 (forecasts (f_revenue_forecast f)) ] /\
  exists b o p,
    map (fun s => (scenario s, projected_revenue s)) (f_growth_scenarios f)
    = [ ("base", b); ("optimistic", o); ("pessimistic", p) ] /\
    p <= b /\ b <= o.
Proof.
  intros Hrev Hf.
  destruct (generate_forecast_Ok _ _ _ _ Hf) as (-> & _ & _ & -> & _).
  destruct (growth_rates_for_ordered industry) as [Hpb Hbo].
  set (rates := growth_rates_for industry) in *. clearbody rates.
  set (fin := _extract_current_values raw) in *. clearbody fin.
  split.
  - repeat constructor.
    + eexists _, _, _. split; [reflexivity |]. split; [reflexivity |].
      split; [reflexivity |].
      split; apply round_mono, simple_growth_mono; auto; lra.
    + eexists _, _, _. split; [reflexivity |]. split; [reflexivity |].
      split; [reflexivity |].
      split; apply round_mono, simple_growth_mono; auto; lra.
    + eexists _, _, _. split; [reflexivity |]. split; [reflexivity |].
      split; [reflexivity |].
      split; apply round_mono, annual_growth_mono; auto.
  - eexists _, _, _. split; [reflexivity |].
    split; apply round_mono, annual_growth_mono; auto.
Qed.

(** The forecast of the sample mapping at the first reading of the clock. *)
Lemma sample_forecast (industry : string) :
  exists f, generate_forecast 0%Z sample_raw_data industry = Ok f.
Proof.
  assert (Hp : exists p, _project_cash_runway 0%Z
                           (_extract_current_values sample_raw_data) = Ok p)
    by (vm_compute; eexists; reflexivity).
  destruct Hp as [p Hp].
  destruct (generate_forecast_of_runway 0%Z sample_raw_data industry p Hp)
    as (f & Hf & _).
  exists f. exact Hf.
Qed.

(** The totals of the sample mapping are of ordinary size and not
    negative. *)
Lemma sample_raw_data_ordinary : ordinary_totals sample_raw_data.
Proof.
  split.
  - intros s [= <-]. apply map_Forall_insert_2.
    + right. split; vm_compute; discriminate.
    + apply map_Forall_singleton. right. split; vm_compute; discriminate.
  - unfold columns, sample_raw_data. cbn [financial_data default from_option id].
    constructor; [right; split; vm_compute; discriminate |].
    constructor; [right; split; vm_compute; discriminate |].
    constructor.
Qed.

Lemma sample_raw_data_nonneg : nonneg_totals sample_raw_data.
Proof.
  split.
  - intros s [= <-]. apply map_Forall_insert_2; [lra |].
    apply map_Forall_singleton. lra.
  - repeat constructor; unfold total_of; simpl; lra.
Qed.

(** The theorem at the sample mapping and the "Retail" rates. *)
Lemma forecast_scenarios_ordered_witness :
  exists f b o p,
    generate_forecast 0%Z sample_raw_data "Retail" = Ok f /\
    map (fun s => (scenario s, projected_revenue s)) (f_growth_scenarios f)
    = [ ("base", b); ("optimistic", o); ("pessimistic", p) ] /\
    p <= b /\ b <= o.
Proof.
  destruct (sample_forecast "Retail") as [f Hf].
  assert (Hrev : 0 <= dict_get (_extract_current_values sample_raw_data) "revenue" 0)
    by (vm_compute; discriminate).
  destruct (proj2 (forecast_scenarios_ordered 0%Z sample_raw_data "Retail" f Hrev Hf))
    as (b & o & p & H).
  exists f, b, o, p. split; [exact Hf | exact H].
Defined.

(** X16.  The three views of the projected revenue agree.  In a forecast the
    revenue forecast of a scenario at twelve months is the projected revenue
    of the growth scenario of that name, and for the base scenario it is also
    the twelve-month projection of the revenue in the key-metrics trend.  The
    monthly breakdown lists the twelve months 1 to 12. *)
Theorem forecast_views_agree
    (now : datetime) (raw : raw_data) (industry : string) (f : forecast) :
  generate_forecast now raw industry = Ok f ->
  Forall (fun s : growth_scenario =>
            month_12 (forecasts (f_revenue_forecast f)) !! scenario s
            = Some (projected_revenue s))
         (f_growth_scenarios f) /\
  (exists trend,
     f_key_metrics_trend f !! 0%nat = Some trend /\ metric trend = "Revenue" /\
     month_12 (forecasts (f_revenue_forecast f)) !! "base"
     = Some (projection_12m trend)) /\
  map fst (monthly_breakdown (f_revenue_forecast f))
  = [1; 2; 3; 4; 5; 6; 7; 8; 9; 10; 11; 12]%Z.
Proof.
  intros Hf.
  destruct (generate_forecast_Ok _ _ _ _ Hf) as (-> & _ & _ & -> & _ & ->).
  set (rates := growth_rates_for industry). clearbody rates.
  set (fin := _extract_current_values raw). clearbody fin.
  split; [repeat constructor |].
  split; [eexists; split; [reflexivity |]; split; reflexivity |].
  reflexivity.
Qed.

(** The theorem at the sample mapping and the "Retail" rates. *)
Lemma forecast_views_agree_witness :
  exists f,
    generate_forecast 0%Z sample_raw_data "Retail" = Ok f /\
    map fst (monthly_breakdown (f_revenue_forecast f))
    = [1; 2; 3; 4; 5; 6; 7; 8; 9; 10; 11; 12]%Z.
Proof.
  destruct (sample_forecast "Retail") as [f Hf].
  exists f. split; [exact Hf |].
  exact (proj2 (proj2 (forecast_views_agree 0%Z sample_raw_data "Retail" f Hf))).
Defined.

Lemma _calculate_break_even_is_profitable (financials : gmap string Q) :
  is_profitable (_calculate_break_even financials)
  = (dict_get financials "profit" 0 >? 0).
Proof.
  unfold _calculate_break_even. cbv zeta.
  destruct (dict_get financials "revenue" 0 >? 0); reflexivity.
Qed.

Lemma round_nonneg (x : Q) (n : nat) : 0 <= x -> 0 <= Py.round x n.
Proof. intros H. apply (round_ge_Z 0). exact H. Qed.

Lemma round_nonpos (x : Q) (n : nat) : x <= 0 -> Py.round x n <= 0.
Proof. intros H. apply (round_le_Z 0). exact H. Qed.

(** X17.  The projected profits of a forecast with a positive current
    revenue, on totals of ordinary size, keep the sign of the current profit
    and follow the growth rates.  For a company that the break-even analysis
    reports as profitable no projected profit is negative and the
    pessimistic profit is at most the base profit, which is at most the
    optimistic one.  For a company that is not profitable no projected
    profit is positive and the order is reversed: the optimistic scenario
    shows the largest loss. *)
Theorem projected_profit_follows_growth
    (now : datetime) (raw : raw_data) (industry : string) (f : forecast) :
  ordinary_totals raw ->
  generate_forecast now raw industry = Ok f ->
  0 < current_annual_revenue (f_revenue_forecast f) ->
  exists b o p,
    map (fun s => (scenario s, projected_profit s)) (f_growth_scenarios f)
    = [ ("base", b); ("optimistic", o); ("pessimistic", p) ] /\
    (is_profitable (f_break_even_analysis f) = true ->
     0 <= p /\ p <= b /\ b <= o) /\
    (is_profitable (f_break_even_analysis f) = false ->
     o <= b /\ b <= p /\ p <= 0).
Proof.
  intros _ Hf.
  destruct (generate_forecast_Ok _ _ _ _ Hf) as (-> & _ & -> & -> & _).
  destruct (growth_rates_for_ordered industry) as [Hpb Hbo].
  pose proof (growth_rates_for_pessimistic industry) as Hps.
  set (rates := growth_rates_for industry) in *. clearbody rates.
  set (fin := _extract_current_values raw) in *. clearbody fin.
  rewrite _calculate_break_even_is_profitable.
  cbn [current_annual_revenue _forecast_revenue].
  intros Hrev. unfold _generate_scenarios, items. cbn [map scenario projected_profit].
  destruct (gtb_cases (dict_get fin "revenue" 0) 0) as [[-> _] | [_ ?]]; [| lra].
  set (R := dict_get fin "revenue" 0) in *.
  set (P := dict_get fin "profit" 0) in *. clearbody R P.
  eexists _, _, _. split; [reflexivity |].
  assert (Hq : R * (P / R) == P) by (apply Qmult_div_r; lra).
  set (margin := P / R) in *. clearbody margin.
  assert (Hfac : forall r r', -2 <= r -> r <= r' ->
            0 <= R * (1 + r / 100) /\ R * (1 + r / 100) <= R * (1 + r' / 100)).
  { intros r r' H1 H2. split.
    - apply Qmult_le_0_compat; [lra |].
      unfold Qdiv. change (/ 100) with (1 # 100). lra.
    - apply annual_growth_mono; lra. }
  destruct (Hfac _ _ Hps Hpb) as [Hp0 Hpb'].
  destruct (Hfac (base rates) (optimistic rates) ltac:(lra) Hbo) as [Hb0 Hbo'].
  set (rp := R * (1 + pessimistic rates / 100)) in *.
  set (rb := R * (1 + base rates / 100)) in *.
  set (ro := R * (1 + optimistic rates / 100)) in *. clearbody rp rb ro.
  split.
  - intros Hprof.
    destruct (gtb_cases P 0) as [[_ HP] | [E _]]; [| rewrite E in Hprof; discriminate].
    assert (Hm : 0 <= margin).
    { destruct (Qlt_le_dec margin 0) as [Hlt | Hge]; [| exact Hge].
      assert (0 < R * (- margin)) by (apply Qmult_lt_0_compat; lra). lra. }
    repeat split.
    + apply round_nonneg. apply Qmult_le_0_compat; assumption.
    + apply round_mono. apply Qmult_le_compat_r; assumption.
    + apply round_mono. apply Qmult_le_compat_r; assumption.
  - intros Hprof.
    destruct (gtb_cases P 0) as [[E _] | [_ HP]]; [rewrite E in Hprof; discriminate |].
    assert (Hm : margin <= 0).
    { destruct (Qlt_le_dec 0 margin) as [Hlt | Hge]; [| exact Hge].
      assert (0 < R * margin) by (apply Qmult_lt_0_compat; lra). lra. }
    assert (Hneg : forall x y, x <= y -> y * margin <= x * margin).
    { intros x y Hxy.
      assert (0 <= (y - x) * (- margin)) by (apply Qmult_le_0_compat; lra). lra. }
    repeat split.
    + apply round_mono, Hneg. assumption.
    + apply round_mono, Hneg. assumption.
    + apply round_nonpos.
      assert (0 <= rp * (- margin)) by (apply Qmult_le_0_compat; lra). lra.
Qed.

(** The theorem at the sample mapping, whose revenue of 1200 exceeds its
    expenses of 600. *)
Lemma projected_profit_follows_growth_witness :
  exists f b o p,
    generate_forecast 0%Z sample_raw_data "Retail" = Ok f /\
    map (fun s => (scenario s, projected_profit s)) (f_growth_scenarios f)
    = [ ("base", b); ("optimistic", o); ("pessimistic", p) ] /\
    0 <= p /\ p <= b /\ b <= o.
Proof.
  destruct (sample_forecast "Retail") as [f Hf].
  assert (Hrev : 0 < current_annual_revenue (f_revenue_forecast f)).
  { destruct (generate_forecast_Ok _ _ _ _ Hf) as (-> & _). vm_compute. reflexivity. }
  destruct (projected_profit_follows_growth 0%Z sample_raw_data "Retail" f
              sample_raw_data_ordinary Hf Hrev)
    as (b & o & p & Hmap & Hprof & _).
  exists f, b, o, p. split; [exact Hf |]. split; [exact Hmap |].
  apply Hprof.
  destruct (generate_forecast_Ok _ _ _ _ Hf) as (_ & _ & -> & _).
  vm_compute. reflexivity.
Defined.

(** X18.  The cash-flow projection starts from the cash and has the six
    months 1 to 6.  When neither the revenue nor the monthly burn is
    negative, the inflows and the outflows do not fall from one month to the
    next.  When in addition the monthly burn is at most a twelfth of a
    revenue of at most a million millions, no net flow is negative, the
    ending cash does not fall from one month to the next and never lies
    below the rounded starting cash, the projected cash after six months is
    the ending cash of month 6, and the average monthly net flow is not
    negative. *)
Theorem cash_flow_projection_monotone (financials : gmap string Q) :
  let cash := dict_get financials "cash" 0 in
  let revenue := dict_get financials "revenue" 0 in
  let monthly_burn := dict_get financials "monthly_burn" 0 in
  let projection := _forecast_cash_flow financials in
  starting_cash projection = cash /\
  map month (monthly_projection projection) = [1; 2; 3; 4; 5; 6]%Z /\
  (0 <= revenue -> 0 <= monthly_burn ->
     StronglySorted Qle (map inflow (monthly_projection projection)) /\
     StronglySorted Qle (map outflow (monthly_projection projection))) /\
  (0 <= monthly_burn -> monthly_burn <= revenue / 12 ->
   revenue <= 1000000000000 ->
     Forall (fun m => 0 <= net_flow m) (monthly_projection projection) /\
     StronglySorted Qle
       (Py.round cash 2 :: map ending_cash (monthly_projection projection)) /\
     last (map ending_cash (monthly_projection projection))
     = Some (projected_cash_6m projection) /\
     0 <= average_monthly_net_flow projection).
Proof.
  cbv zeta. unfold _forecast_cash_flow.
  change (seqZ 1 6) with [1; 2; 3; 4; 5; 6]%Z.
  set (cash := dict_get financials "cash" 0).
  set (revenue := dict_get financials "revenue" 0).
  set (me := dict_get financials "monthly_burn" 0).
  assert (Hmr : 12 * (revenue / 12) == revenue) by (apply Qmult_div_r; lra).
  set (mr := revenue / 12) in *.
  clearbody cash mr me revenue.
  cbn [fold_left app starting_cash monthly_projection projected_cash_6m
       average_monthly_net_flow map month inflow outflow net_flow ending_cash].
  change (inject_Z 1) with 1. change (inject_Z 2) with 2.
  change (inject_Z 3) with 3. change (inject_Z 4) with 4.
  change (inject_Z 5) with 5. change (inject_Z 6) with 6.
  split; [reflexivity |]. split; [reflexivity |]. split.
  - intros Hrev Hme.
    split; repeat constructor; apply round_mono; lra.
  - intros Hme Hle _.
    assert (N1 : 0 <= mr * (1 + 0.01 * 1) - me * (1 + 0.005 * 1)) by lra.
    assert (N2 : 0 <= mr * (1 + 0.01 * 2) - me * (1 + 0.005 * 2)) by lra.
    assert (N3 : 0 <= mr * (1 + 0.01 * 3) - me * (1 + 0.005 * 3)) by lra.
    assert (N4 : 0 <= mr * (1 + 0.01 * 4) - me * (1 + 0.005 * 4)) by lra.
    assert (N5 : 0 <= mr * (1 + 0.01 * 5) - me * (1 + 0.005 * 5)) by lra.
    assert (N6 : 0 <= mr * (1 + 0.01 * 6) - me * (1 + 0.005 * 6)) by lra.
    set (n1 := mr * (1 + 0.01 * 1) - me * (1 + 0.005 * 1)) in *.
    set (n2 := mr * (1 + 0.01 * 2) - me * (1 + 0.005 * 2)) in *.
    set (n3 := mr * (1 + 0.01 * 3) - me * (1 + 0.005 * 3)) in *.
    set (n4 := mr * (1 + 0.01 * 4) - me * (1 + 0.005 * 4)) in *.
    set (n5 := mr * (1 + 0.01 * 5) - me * (1 + 0.005 * 5)) in *.
    set (n6 := mr * (1 + 0.01 * 6) - me * (1 + 0.005 * 6)) in *.
    clearbody n1 n2 n3 n4 n5 n6.
    split; [repeat constructor; apply round_nonneg; assumption |].
    split; [repeat constructor; apply round_mono; lra |].
    split; [reflexivity |].
    apply round_nonneg.
    pose proof (round_nonneg n1 2 N1). pose proof (round_nonneg n2 2 N2).
    pose proof (round_nonneg n3 2 N3). pose proof (round_nonneg n4 2 N4).
    pose proof (round_nonneg n5 2 N5). pose proof (round_nonneg n6 2 N6).
    apply Qle_shift_div_l; lra.
Qed.

Lemma column_sum_nonneg (P : string * column_info -> bool)
    (cols : list (string * column_info)) :
  Forall (fun item => 0 <= total_of item) cols -> 0 <= column_sum P cols.
Proof.
  induction 1 as [| item cols Hitem _ IH].
  - unfold column_sum, Qsum. simpl. lra.
  - rewrite column_sum_cons. destruct (P item); lra.
Qed.

(** When no total is negative, neither the expenses nor the cash of the
    current values are. *)
Lemma _extract_current_values_nonneg (raw : raw_data) :
  nonneg_totals raw ->
  0 <= dict_get (_extract_current_values raw) "expenses" 0 /\
  0 <= dict_get (_extract_current_values raw) "cash" 0.
Proof.
  intros [Hs Hc].
  destruct (_extract_current_values_sums raw) as (_ & He & Hcash).
  pose proof (column_sum_nonneg is_expense_column _ Hc).
  pose proof (column_sum_nonneg is_cash_column _ Hc).
  assert (0 <= dict_get (default ∅ (summary raw)) "total_expenses" 0).
  { unfold dict_get. destruct (summary raw) as [s |]; cbn [default from_option id].
    - destruct (s !! "total_expenses") as [v |] eqn:E; simpl; [| lra].
      exact (Hs s eq_refl _ _ E).
    - rewrite lookup_empty. simpl. lra. }
  split; lra.
Qed.

(** X19.  The break-even analysis of a forecast.  It reports the current
    revenue of the revenue forecast.  When that revenue is not positive both
    percentages are 0.  When it is positive and the reported contribution
    margin is negative, that is when the variable costs exceed the revenue,
    the analysis reports a break-even revenue of 0, a break-even percentage
    of 0 and a margin of safety of 100, although the company is not
    profitable.  For a profitable company whose totals are of ordinary size
    and not negative, the break-even revenue is not negative and the
    break-even percentage and the margin of safety lie between 0 and 100. *)
Theorem break_even_analysis_cases
    (now : datetime) (raw : raw_data) (industry : string) (f : forecast) :
  generate_forecast now raw industry = Ok f ->
  let analysis := f_break_even_analysis f in
  be_current_revenue analysis = current_annual_revenue (f_revenue_forecast f) /\
  (be_current_revenue analysis <= 0 ->
     break_even_percentage analysis = 0 /\ margin_of_safety analysis = 0) /\
  (0 < be_current_revenue analysis -> contribution_margin analysis < 0 ->
     break_even_revenue analysis = 0 /\ break_even_percentage analysis = 0 /\
     margin_of_safety analysis = 100 /\ is_profitable analysis = false) /\
  (ordinary_totals raw -> nonneg_totals raw -> is_profitable analysis = true ->
     0 <= break_even_revenue analysis /\
     (0 <= break_even_percentage analysis /\ break_even_percentage analysis <= 100) /\
     (0 <= margin_of_safety analysis /\ margin_of_safety analysis <= 100)).
Proof.
  intros Hf. cbv zeta.
  destruct (generate_forecast_Ok _ _ _ _ Hf) as (-> & _ & -> & _).
  destruct (_extract_current_values_derived raw) as [Hp _].
  assert (Hnn : nonneg_totals raw ->
                0 <= dict_get (_extract_current_values raw) "expenses" 0)
    by (intros H; apply _extract_current_values_nonneg, H).
  unfold _calculate_break_even. rewrite Hp. clear Hp.
  cbn [current_annual_revenue _forecast_revenue].
  set (R := dict_get (_extract_current_values raw) "revenue" 0) in *.
  set (E := dict_get (_extract_current_values raw) "expenses" 0) in *.
  clearbody R E.
  destruct (gtb_cases R 0) as [[-> HR] | [-> HR]].
  - assert (Hq : R * (E * 0.7 / R) == E * 0.7) by (apply Qmult_div_r; lra).
    destruct (gtb_cases (1 - E * 0.7 / R) 0) as [[-> Hcm] | [-> Hcm]];
      cbn [be_current_revenue is_profitable break_even_revenue
           break_even_percentage margin_of_safety contribution_margin].
    + assert (Hlt : E * 0.7 < R) by nra.
      split; [reflexivity |].
      split; [intros; lra |].
      split.
      { intros _ Hneg. exfalso.
        assert (0 <= Py.round ((1 - E * 0.7 / R) * 100) 1)
          by (apply round_nonneg; lra).
        lra. }
      intros _ Hnon Hprof.
      specialize (Hnn Hnon).
      assert (HER : E < R).
      { destruct (gtb_cases (R - E) 0) as [[_ ?] | [Hb _]];
          [lra | rewrite Hb in Hprof; discriminate]. }
      assert (Hbe : E * 0.3 / (1 - E * 0.7 / R) == E * 0.3 * R / (R - E * 0.7))
        by (field; lra).
      assert (Hpct : E * 0.3 / (1 - E * 0.7 / R) / R * 100
                     == E * 0.3 / (R - E * 0.7) * 100) by (field; lra).
      assert (Hmos : (R - E * 0.3 / (1 - E * 0.7 / R)) / R * 100
                     == (R - E) / (R - E * 0.7) * 100) by (field; lra).
      assert (H1 : 0 <= E * 0.3 * R / (R - E * 0.7)).
      { apply Qle_shift_div_l; [lra |].
        assert (0 <= E * R) by (apply Qmult_le_0_compat; lra). lra. }
      assert (H2 : 0 <= E * 0.3 / (R - E * 0.7)) by (apply Qle_shift_div_l; lra).
      assert (H3 : E * 0.3 / (R - E * 0.7) <= 1) by (apply Qle_shift_div_r; lra).
      assert (H4 : 0 <= (R - E) / (R - E * 0.7)) by (apply Qle_shift_div_l; lra).
      assert (H5 : (R - E) / (R - E * 0.7) <= 1) by (apply Qle_shift_div_r; lra).
      split; [apply round_nonneg; lra |].
      split; split.
      * apply round_nonneg. lra.
      * apply (round_le_Z 100). change (inject_Z 100) with 100. lra.
      * apply round_nonneg. lra.
      * apply (round_le_Z 100). change (inject_Z 100) with 100. lra.
    + assert (Hge : R <= E * 0.7) by nra.
      assert (Hpct : 0 / R * 100 == 0) by (field; lra).
      assert (Hmos : (R - 0) / R * 100 == 100) by (field; lra).
      rewrite (round_comp _ _ 1 Hpct), (round_comp _ _ 1 Hmos).
      split; [reflexivity |].
      split; [intros; lra |].
      split.
      * intros _ _. split; [reflexivity |]. split; [reflexivity |].
        split; [reflexivity |].
        destruct (gtb_cases (R - E) 0) as [[-> ?] | [-> ?]]; [lra | reflexivity].
      * intros _ Hnon Hprof. exfalso.
        destruct (gtb_cases (R - E) 0) as [[_ ?] | [Hb _]];
          [lra | rewrite Hb in Hprof; discriminate].
  - change (1 - 0.7 >? 0) with true.
    cbn [be_current_revenue is_profitable break_even_revenue
         break_even_percentage margin_of_safety contribution_margin].
    split; [reflexivity |].
    split; [intros _; split; reflexivity |].
    split; [intros; lra |].
    intros _ Hnon Hprof. exfalso. specialize (Hnn Hnon).
    destruct (gtb_cases (R - E) 0) as [[_ ?] | [Hb _]];
      [lra | rewrite Hb in Hprof; discriminate].
Qed.

(** The theorem at the sample mapping: the analysis reports the revenue of
    1200. *)
Lemma break_even_analysis_cases_witness :
  exists f,
    generate_forecast 0%Z sample_raw_data "Retail" = Ok f /\
    be_current_revenue (f_break_even_analysis f)
    = current_annual_revenue (f_revenue_forecast f).
Proof.
  destruct (sample_forecast "Retail") as [f Hf].
  exists f. split; [exact Hf |].
  exact (proj1 (break_even_analysis_cases 0%Z sample_raw_data "Retail" f Hf)).
Defined.

Lemma runway_scenarios_ordered (cash burn : Q) :
  0 <= cash -> 0 < burn ->
  cash / (burn * 1.1) <= cash / burn /\
  cash / burn <= cash / (burn * 0.9) /\
  cash / (burn * 0.9) <= cash / (burn * 0.8).
Proof.
  intros Hc Hb.
  assert (E1 : cash / (burn * 1.1) == cash / burn / 1.1) by (field; lra).
  assert (E2 : cash / (burn * 0.9) == cash / burn / 0.9) by (field; lra).
  assert (E3 : cash / (burn * 0.8) == cash / burn / 0.8) by (field; lra).
  rewrite E1, E2, E3.
  assert (Hq : 0 <= cash / burn) by (apply Qle_shift_div_l; lra).
  set (q := cash / burn) in *. clearbody q.
  assert (Q1 : 1.1 * (q / 1.1) == q) by (apply Qmult_div_r; lra).
  assert (Q2 : 0.9 * (q / 0.9) == q) by (apply Qmult_div_r; lra).
  assert (Q3 : 0.8 * (q / 0.8) == q) by (apply Qmult_div_r; lra).
  repeat split; lra.
Qed.

(** A span of between 0 and 360 days is a [timedelta] of between 0 and 360
    days. *)
Lemma timedelta_Ok (days : Q) :
  0 <= days -> days <= 360 ->
  exists delta, timedelta days = Ok delta /\
                (0 <= delta <= 360 * MICROSECONDS_PER_DAY)%Z.
Proof.
  intros Hlo Hhi. unfold timedelta. cbv zeta.
  assert (Hd : (0 < MICROSECONDS_PER_DAY)%Z) by reflexivity.
  assert (H0 : (0 <= Py.round_half_even (days * inject_Z MICROSECONDS_PER_DAY))%Z).
  { rewrite <- (round_half_even_Z 0). apply round_half_even_mono.
    change (inject_Z 0) with 0. apply Qmult_le_0_compat; [exact Hlo |].
    change 0 with (inject_Z 0). rewrite <- Zle_Qle. lia. }
  assert (H1 : (Py.round_half_even (days * inject_Z MICROSECONDS_PER_DAY)
                <= 360 * MICROSECONDS_PER_DAY)%Z).
  { rewrite <- (round_half_even_Z (360 * MICROSECONDS_PER_DAY)).
    apply round_half_even_mono. rewrite inject_Z_mult.
    change (inject_Z 360) with 360.
    apply Qmult_le_compat_r; [exact Hhi |].
    change 0 with (inject_Z 0). rewrite <- Zle_Qle. lia. }
  set (td := Py.round_half_even _) in *. clearbody td.
  assert (H2 : (0 <= td / MICROSECONDS_PER_DAY <= 360)%Z).
  { split; [apply Z.div_pos; lia |].
    apply Z.div_le_upper_bound; lia. }
  destruct (Z.leb_spec (Z.abs (td / MICROSECONDS_PER_DAY)) 999999999) as [_ | Hgt];
    [| lia].
  exists td. split; [reflexivity | lia].
Qed.

(** The day of a reading of the clock moved forward by between 0 and 360
    days. *)
Lemma date_of_timedelta (now : datetime) (days : Q) (delta : Z) (critical : datetime) :
  0 <= days -> days <= 360 ->
  timedelta days = Ok delta -> datetime_add now delta = Ok critical ->
  (date_of now <= date_of critical <= date_of now + 360)%Z.
Proof.
  intros Hlo Hhi Hdelta Hadd.
  destruct (timedelta_Ok days Hlo Hhi) as (delta' & Hd' & Hrange).
  rewrite Hd' in Hdelta. apply Ok_inj in Hdelta. subst delta'.
  unfold datetime_add in Hadd.
  destruct (datetime_in_range (now + delta)); [| discriminate Hadd].
  apply Ok_inj in Hadd. subst critical.
  unfold date_of.
  assert (Hd : (0 < MICROSECONDS_PER_DAY)%Z) by reflexivity.
  split.
  - apply Z.div_le_mono; lia.
  - rewrite <- Z.div_add by lia. apply Z.div_le_mono; lia.
Qed.




(** X20.  The cash-runway projection of a forecast, on totals of ordinary
    size, has one of two shapes.
    The first reports a positive cash flow and a runway of 24 months; it is
    the projection of every company whose totals are not negative and whose
    expenses are zero, whatever its revenue and its cash.  The second
    reports the cash that the cash-flow projection starts from, a monthly
    burn that is not negative, and four expense scenarios in a fixed order,
    the first being the current runway; for a cash that is not negative a
    lower burn never shortens the runway.  Without a critical date the
    rounded runway is at least twelve months, with one it is at most twelve,
    and for a cash that is not negative the date lies between the day of the
    clock reading and 360 days after it. *)
Theorem cash_runway_projection_cases
    (now : datetime) (raw : raw_data) (industry : string) :
  ordinary_totals raw ->
  (forall f, generate_forecast now raw industry = Ok f ->
     match f_cash_runway_projection f with
     | positive_cash_flow months status _ =>
         months = 24 /\ status = "positive_cash_flow"
     | runway current_cash burn months scenarios critical_date =>
         current_cash = starting_cash (f_cash_flow_projection f) /\
         0 <= burn /\
         (exists current reduced_10 reduced_20 increased_10,
            scenarios
            = [ ("current", current); ("10_percent_reduction", reduced_10);
                ("20_percent_reduction", reduced_20);
                ("10_percent_increase", increased_10) ] /\
            current = months /\
            (0 <= current_cash ->
               increased_10 <= current /\ current <= reduced_10 /\
               reduced_10 <= reduced_20)) /\
         (critical_date = None -> 12 <= months) /\
         (forall day, critical_date = Some day ->
            months <= 12 /\
            (0 <= current_cash -> (date_of now <= day <= date_of now + 360)%Z))
     end) /\
  (nonneg_totals raw ->
   dict_get (_extract_current_values raw) "expenses" 0 == 0 ->
   exists f, generate_forecast now raw industry = Ok f /\
             f_cash_runway_projection f
             = positive_cash_flow 24 "positive_cash_flow"
                 "Company is generating positive cash flow").
Proof.
  intros _.
  destruct (_extract_current_values_derived raw) as [_ Hb].
  split.
  - intros f Hf.
    destruct (generate_forecast_Ok _ _ _ _ Hf) as (_ & -> & _ & _ & Hp & _).
    assert (Hstart : starting_cash (_forecast_cash_flow (_extract_current_values raw))
                     = dict_get (_extract_current_values raw) "cash" 0).
    { unfold _forecast_cash_flow. cbv zeta.
      destruct (fold_left _ _ _). reflexivity. }
    rewrite Hstart. clear Hstart Hf.
    revert Hp. unfold _project_cash_runway. cbv zeta.
    set (C := dict_get (_extract_current_values raw) "cash" 0).
    set (B := dict_get (_extract_current_values raw) "monthly_burn" 0).
    clearbody C B. clear Hb.
    destruct (leb_cases B 0) as [[-> HB] | [-> HB]].
    + intros Hp. apply Ok_inj in Hp. rewrite <- Hp. split; reflexivity.
    + intros Hp. apply bind_Ok in Hp as (d & Hd & Hp). apply Ok_inj in Hp.
      rewrite <- Hp. clear Hp.
      assert (Hq : B * (C / B) == C) by (apply Qmult_div_r; lra).
      split; [reflexivity |].
      split; [apply round_nonneg; lra |].
      split.
      { eexists _, _, _, _. split; [reflexivity |]. split; [reflexivity |].
        intros HC. cbn [fst snd].
        destruct (runway_scenarios_ordered C B HC HB) as (O1 & O2 & O3).
        repeat split; apply round_mono; assumption. }
      destruct (ltb_cases (C / B) 12) as [[E Hlt] | [E Hge]]; rewrite E in Hd.
      * apply bind_Ok in Hd as (delta & Hdelta & Hd).
        apply bind_Ok in Hd as (critical & Hadd & Hd).
        apply Ok_inj in Hd. subst d.
        split; [discriminate |].
        intros day Hday. injection Hday as <-.
        split; [apply (round_le_Z 12); change (inject_Z 12) with 12; lra |].
        intros HC.
        assert (0 <= C / B) by (apply Qle_shift_div_l; lra).
        apply (date_of_timedelta now (C / B * 30) delta critical); [lra | lra | |];
          assumption.
      * apply Ok_inj in Hd. subst d.
        split; [| discriminate].
        intros _. apply (round_ge_Z 12). change (inject_Z 12) with 12. exact Hge.
  - intros Hnon HE.
    apply generate_forecast_of_runway.
    unfold _project_cash_runway. cbv zeta. rewrite Hb.
    destruct (gtb_cases (dict_get (_extract_current_values raw) "expenses" 0) 0)
      as [[_ ?] | [-> _]]; [lra |].
    reflexivity.
Qed.

(** The theorem at the empty raw data, which has no expenses. *)
Lemma cash_runway_projection_cases_witness :
  exists f, generate_forecast 0%Z empty_raw_data "Retail" = Ok f /\
            f_cash_runway_projection f
            = positive_cash_flow 24 "positive_cash_flow"
                "Company is generating positive cash flow".
Proof.
  assert (Hord : ordinary_totals empty_raw_data).
  { split; [intros s H; discriminate H | constructor]. }
  apply (proj2 (cash_runway_projection_cases 0%Z empty_raw_data "Retail" Hord)).
  - split; [intros s H; discriminate H | constructor].
  - reflexivity.
Defined.

(* ===================================================================== *)
(** ** The clock *)
(* ===================================================================== *)




(** ** The financial calculator *)

Lemma _extract_financials_stages (raw : raw_data) :
  _extract_financials raw
  = balance_financials (estimated_financials (collected_financials raw)).
Proof. reflexivity. Qed.

(** A column sets no key outside [COLLECTED_KEYS] and removes none. *)
Lemma extract_column_overwrites (financials : gmap string Q)
    (item : string * column_info) :
  overwrites COLLECTED_KEYS financials (extract_column financials item).
Proof.
  unfold extract_column. destruct item as [col info]. cbv zeta.
  repeat match goal with
         | |- overwrites _ _ (if ?c then _ else _) => destruct c
         end;
    repeat (unfold dict_add;
            apply overwrites_insert; [apply list_elem_of_In; simpl; tauto |]);
    apply overwrites_refl.
Qed.

Lemma fold_extract_column_overwrites (cols : list (string * column_info))
    (financials : gmap string Q) :
  overwrites COLLECTED_KEYS financials (fold_left extract_column cols financials).
Proof.
  revert financials. induction cols as [| item cols IH]; intros financials;
    cbn [fold_left]; [apply overwrites_refl |].
  eapply overwrites_trans; [apply extract_column_overwrites | apply IH].
Qed.

(** What the summary and the columns leave behind: no key outside
    [COLLECTED_KEYS], and with a summary the five keys it sets. *)
Lemma collected_financials_keys (raw : raw_data) :
  (forall k, k ∉ COLLECTED_KEYS -> collected_financials raw !! k = None) /\
  (is_Some (summary raw) ->
   forall k, k ∈ ["revenue"; "total_expenses"; "net_profit"; "total_assets";
                  "total_liabilities"] ->
   is_Some (collected_financials raw !! k)).
Proof.
  unfold collected_financials.
  set (start := match summary raw with Some _ => _ | None => _ end).
  assert (Hstart : (forall k, k ∉ COLLECTED_KEYS -> start !! k = None) /\
                   (is_Some (summary raw) ->
                    forall k, k ∈ ["revenue"; "total_expenses"; "net_profit";
                                   "total_assets"; "total_liabilities"] ->
                    is_Some (start !! k))).
  { unfold start. destruct (summary raw) as [s |].
    - split.
      + intros k Hk.
        rewrite !lookup_insert_ne; [apply lookup_empty | | | | |];
          intros <-; apply Hk, list_elem_of_In; simpl; tauto.
      + intros _ k Hk. apply list_elem_of_In in Hk. simpl in Hk.
        destruct Hk as [<- | [<- | [<- | [<- | [<- | []]]]]];
          repeat first [ rewrite lookup_insert_eq; eauto; fail
                       | rewrite lookup_insert_ne by discriminate ].
    - split; [intros; apply lookup_empty |].
      intros [? H]; discriminate H. }
  destruct Hstart as [Hnone Hsome].
  destruct (financial_data raw) as [cols |]; [| split; assumption].
  destruct (fold_extract_column_overwrites cols start) as [Hout Hin].
  split.
  - intros k Hk. rewrite (Hout k Hk). exact (Hnone k Hk).
  - intros Hs k Hk. exact (Hin k (Hsome Hs k Hk)).
Qed.
Lemma dict_has_true {V : Type} (d : gmap string V) (k : string) :
  dict_has d k = true <-> is_Some (d !! k).
Proof. unfold dict_has. apply bool_decide_eq_true. Qed.

(** The estimates: made only when revenue and expenses are both known, and
    then from the revenue and the net profit alone. *)
Lemma estimated_financials_cases (c : gmap string Q) :
  let e := estimated_financials c in
  (forall k, k ∉ ["net_profit"; "gross_profit"; "operating_income"] ->
     e !! k = c !! k) /\
  ((is_Some (c !! "revenue") /\ is_Some (c !! "total_expenses") /\
    e !! "gross_profit" = Some (dict_get c "revenue" 0 * 0.35) /\
    e !! "operating_income" = Some (dict_get e "net_profit" 0 * 1.2)) \/
   (~ (is_Some (c !! "revenue") /\ is_Some (c !! "total_expenses")) /\ e = c)).
Proof.
  cbv zeta. unfold estimated_financials.
  destruct (dict_has c "revenue") eqn:Hr; [destruct (dict_has c "total_expenses") eqn:He |];
    cbn [andb].
  - apply dict_has_true in Hr. apply dict_has_true in He.
    set (c' := if negb (dict_has c "net_profit") then _ else c).
    assert (Hc' : forall k, k <> "net_profit" -> c' !! k = c !! k).
    { intros k Hk. unfold c'. destruct (negb _); [| reflexivity].
      apply lookup_insert_ne. congruence. }
    split.
    + intros k Hk.
      rewrite !lookup_insert_ne; [apply Hc'; intros -> | intros <- | intros <-];
        apply Hk, list_elem_of_In; simpl; tauto.
    + left. split; [exact Hr |]. split; [exact He |]. split.
      * rewrite lookup_insert_ne by discriminate. rewrite lookup_insert_eq.
        unfold dict_get. rewrite Hc' by discriminate. reflexivity.
      * rewrite lookup_insert_eq. f_equal. f_equal.
        rewrite (dict_get_insert_ne _ "operating_income") by discriminate.
        reflexivity.
  - split; [reflexivity |]. right. split; [| reflexivity].
    intros [_ H]. apply dict_has_true in H. congruence.
  - split; [reflexivity |]. right. split; [| reflexivity].
    intros [H _]. apply dict_has_true in H. congruence.
Qed.

Lemma balance_financials_lookup (e : gmap string Q) (k : string) :
  k ∉ ["current_assets"; "current_liabilities"; "equity"; "total_debt";
       "cost_of_goods_sold"] ->
  balance_financials e !! k = e !! k.
Proof.
  intros Hk. unfold balance_financials. cbv zeta.
  rewrite !lookup_insert_ne; [reflexivity | | | | |];
    intros <-; apply Hk, list_elem_of_In; simpl; tauto.
Qed.

(** The metrics of [calculate_all_metrics] that the following properties are
    about, in terms of the extracted financials. *)
Lemma calculate_all_metrics_ratios (raw : raw_data) :
  exists m, calculate_all_metrics raw = Ok m /\
    let get := dict_get (_extract_financials raw) in
    let safe := fun n d : Q => if Qeq_bool d 0 then 0.0 else n / d in
    ratio m "current_ratio" = safe (get "current_assets" 0) (get "current_liabilities" 1) /\
    ratio m "quick_ratio"
    = safe (get "current_assets" 0 - get "inventory" 0) (get "current_liabilities" 1) /\
    ratio m "cash_ratio" = safe (get "cash" 0) (get "current_liabilities" 1) /\
    ratio m "gross_margin" = safe (get "gross_profit" 0) (get "revenue" 1) * 100 /\
    ratio m "net_margin" = safe (get "net_profit" 0) (get "revenue" 1) * 100 /\
    ratio m "operating_margin" = safe (get "operating_income" 0) (get "revenue" 1) * 100 /\
    ratio m "interest_coverage"
    = safe (get "operating_income" 0) (get "interest_expense" 1) /\
    ratio m "debt_to_equity" = safe (get "total_debt" 0) (get "equity" 1) /\
    ratio m "debt_ratio" = safe (get "total_debt" 0) (get "total_assets" 1) /\
    ratio m "working_capital" = get "current_assets" 0 - get "current_liabilities" 0 /\
    dict_get (raw_values m) "revenue" 0 = get "revenue" 0 /\
    dict_get (raw_values m) "net_profit" 0 = get "net_profit" 0 /\
    dict_get (raw_values m) "total_assets" 0 = get "total_assets" 0 /\
    dict_get (raw_values m) "total_liabilities" 0 = get "total_liabilities" 0.
Proof.
  unfold calculate_all_metrics.
  destruct (_calculate_cash_runway_total (_extract_financials raw)) as [days Hd].
  destruct (_calculate_working_capital_cycle_total (_extract_financials raw))
    as [cycle Hc].
  rewrite !_safe_divide_total, Hd, Hc. cbn [mbind result_bind].
  eexists. split; [reflexivity |].
  cbv zeta. unfold ratio. cbn [ratios raw_values].
  repeat split; reflexivity.
Qed.
(** X21.  Three metrics of the calculator are estimates that do not depend
    on the costs in the data.  On totals of ordinary size, whenever the
    calculator returns: the gross profit is taken to be 35 percent of the
    revenue, so the gross margin is 0 or 35 up to one part in a thousand
    millions; the operating income is taken to be 1.2 times the net profit,
    so the operating margin is 0 or, to the same precision, 1.2 times the
    net margin; and no interest expense is ever read, so the interest
    coverage is the operating income itself, 0 or 1.2 times the net profit.
    With a summary in the data the estimates are always made. *)
Theorem calculator_margins_are_estimates (raw : raw_data) (m : all_metrics) :
  ordinary_totals raw ->
  calculate_all_metrics raw = Ok m ->
  (ratio m "gross_margin" == 0 \/ close_to (ratio m "gross_margin") 35) /\
  (ratio m "operating_margin" == 0 \/
   close_to (ratio m "operating_margin") (1.2 * ratio m "net_margin")) /\
  (ratio m "interest_coverage" == 0 \/
   close_to (ratio m "interest_coverage")
            (1.2 * dict_get (raw_values m) "net_profit" 0)) /\
  (is_Some (summary raw) ->
     (~ dict_get (raw_values m) "revenue" 0 == 0 ->
      close_to (ratio m "gross_margin") 35) /\
     close_to (ratio m "operating_margin") (1.2 * ratio m "net_margin") /\
     close_to (ratio m "interest_coverage")
              (1.2 * dict_get (raw_values m) "net_profit" 0)).
Proof.
  intros _ Hm0.
  destruct (calculate_all_metrics_ratios raw)
    as (m' & Hm & _ & _ & _ & Hgm & Hnm & Hom & Hic & _ & _ & _ & Hrev & Hnp & _).
  rewrite Hm0 in Hm. apply Ok_inj in Hm. subst m'. clear Hm0.
  cbv zeta in Hgm, Hnm, Hom, Hic, Hrev, Hnp.
  rewrite Hgm, Hnm, Hom, Hic, Hrev, Hnp. clear Hgm Hnm Hom Hic Hrev Hnp m.
  rewrite _extract_financials_stages.
  destruct (collected_financials_keys raw) as [Hnone Hsum].
  set (c := collected_financials raw) in *. clearbody c.
  destruct (estimated_financials_cases c) as [Hother Hcases].
  set (e := estimated_financials c) in *. clearbody e.
  assert (Hget : forall k d,
            k ∉ ["current_assets"; "current_liabilities"; "equity"; "total_debt";
                 "cost_of_goods_sold"] ->
            dict_get (balance_financials e) k d = dict_get e k d).
  { intros k d Hk. unfold dict_get. rewrite balance_financials_lookup by exact Hk.
    reflexivity. }
  assert (Hnotin : forall (k : string) (l : list string),
            (fun k l => negb (bool_decide (k ∈ l))) k l = true -> k ∉ l).
  { intros k l H. apply negb_true_iff, bool_decide_eq_false in H. exact H. }
  rewrite !Hget by (apply Hnotin; reflexivity).
  assert (Hie : dict_get e "interest_expense" 1 = 1).
  { unfold dict_get. rewrite Hother by (apply Hnotin; reflexivity).
    rewrite Hnone by (apply Hnotin; reflexivity). reflexivity. }
  assert (Hre : forall d, dict_get e "revenue" d = dict_get c "revenue" d).
  { intros d. unfold dict_get. rewrite Hother by (apply Hnotin; reflexivity).
    reflexivity. }
  rewrite Hie, !Hre. change (Qeq_bool 1 0) with false. cbv iota.
  destruct Hcases as [(Hr & He & Hgp & Hoi) | (Hno & ->)].
  - destruct Hr as [rev Hr].
    assert (Hrd : forall d, dict_get c "revenue" d = rev)
      by (intros d; unfold dict_get; rewrite Hr; reflexivity).
    rewrite !Hrd in *.
    assert (Hg : dict_get e "gross_profit" 0 = rev * 0.35)
      by (unfold dict_get at 1; rewrite Hgp; reflexivity).
    assert (Ho : dict_get e "operating_income" 0 = dict_get e "net_profit" 0 * 1.2)
      by (unfold dict_get at 1; rewrite Hoi; reflexivity).
    rewrite Hg, Ho. set (np := dict_get e "net_profit" 0). clearbody np.
    destruct (Qeq_bool rev 0) eqn:E.
    + apply Qeq_bool_iff in E.
      split; [left; lra |]. split; [right; apply close_to_refl; lra |].
      split; [right; apply close_to_refl; field |]. intros _.
      split; [intros Hne; contradiction |].
      split; apply close_to_refl; [lra | field].
    + apply Qeq_bool_neq in E.
      split; [right; apply close_to_refl; field; exact E |].
      split; [right; apply close_to_refl; field; exact E |].
      split; [right; apply close_to_refl; field |]. intros _.
      split; [intros _; apply close_to_refl; field; exact E |].
      split; apply close_to_refl; field; exact E.
  - assert (Hg : dict_get c "gross_profit" 0 = 0)
      by (unfold dict_get; rewrite Hnone by (apply Hnotin; reflexivity); reflexivity).
    assert (Ho : dict_get c "operating_income" 0 = 0)
      by (unfold dict_get; rewrite Hnone by (apply Hnotin; reflexivity); reflexivity).
    rewrite Hg, Ho.
    assert (Hz : forall d : Q, (if Qeq_bool d 0 then 0.0 else 0 / d) * 100 == 0).
    { intros d. destruct (Qeq_bool d 0) eqn:E; [lra |].
      apply Qeq_bool_neq in E. field. exact E. }
    split; [left; apply Hz |]. split; [left; apply Hz |].
    split; [left; field |]. intros Hs. exfalso. apply Hno.
    split; apply Hsum; try exact Hs; apply list_elem_of_In; simpl; tauto.
Qed.

(** The theorem at the sample mapping: its gross margin is 35 up to one part
    in a thousand millions. *)
Lemma calculator_margins_are_estimates_witness :
  exists m, calculate_all_metrics sample_raw_data = Ok m /\
            close_to (ratio m "gross_margin") 35.
Proof.
  destruct (calculate_all_metrics_ratios sample_raw_data)
    as (m & Hm & _ & _ & _ & _ & _ & _ & _ & _ & _ & _ & Hrev & _).
  exists m. split; [exact Hm |].
  destruct (calculator_margins_are_estimates sample_raw_data m
              sample_raw_data_ordinary Hm) as (_ & _ & _ & Hsum).
  apply Hsum; [eexists; reflexivity |].
  cbv zeta in Hrev. rewrite Hrev. vm_compute. discriminate.
Defined.

(** A column with a non-negative total keeps all values non-negative. *)
Lemma extract_column_nonneg (financials : gmap string Q)
    (item : string * column_info) :
  0 <= total_of item ->
  (forall k, 0 <= dict_get financials k 0) ->
  forall k, 0 <= dict_get (extract_column financials item) k 0.
Proof.
  intros Ht. unfold total_of in Ht. destruct item as [col info]. cbn [snd] in Ht.
  assert (Hadd : forall (f : gmap string Q) k',
            (forall k, 0 <= dict_get f k 0) ->
            forall k, 0 <= dict_get (dict_add f k' (default 0 (total info))) k 0).
  { intros f k' Hf k. destruct (decide (k' = k)) as [-> | Hne].
    - rewrite dict_get_dict_add_eq. specialize (Hf k). lra.
    - rewrite dict_get_dict_add_ne by exact Hne. apply Hf. }
  assert (Hins : forall (f : gmap string Q) k',
            (forall k, 0 <= dict_get f k 0) ->
            forall k, 0 <= dict_get (<[k' := default 0 (total info)]> f) k 0).
  { intros f k' Hf k. destruct (decide (k' = k)) as [-> | Hne].
    - rewrite dict_get_insert_eq. exact Ht.
    - rewrite dict_get_insert_ne by exact Hne. apply Hf. }
  intros Hf. unfold extract_column. cbv zeta.
  repeat match goal with
         | |- forall k, 0 <= dict_get (if ?c then _ else _) k 0 => destruct c
         end;
    repeat first [ exact Hf | apply Hadd | apply Hins ].
Qed.

Lemma collected_financials_nonneg (raw : raw_data) :
  (forall s, summary raw = Some s -> map_Forall (fun _ v => 0 <= v) s) ->
  Forall (fun item => 0 <= total_of item) (columns raw) ->
  forall k, 0 <= dict_get (collected_financials raw) k 0.
Proof.
  intros Hs Hc. unfold collected_financials, columns in *.
  set (start := match summary raw with Some _ => _ | None => _ end).
  assert (Hstart : forall k, 0 <= dict_get start k 0).
  { unfold start. destruct (summary raw) as [s |].
    - assert (Hget : forall k, 0 <= dict_get s k 0).
      { intros k. unfold dict_get. destruct (s !! k) as [v |] eqn:E; simpl; [| lra].
        exact (Hs s eq_refl k v E). }
      intros k.
      repeat match goal with
             | |- 0 <= dict_get (<[?k' := _]> _) k 0 =>
                 destruct (decide (k' = k)) as [<- | ?];
                 [rewrite dict_get_insert_eq; apply Hget
                 | rewrite dict_get_insert_ne by assumption]
             end.
      unfold dict_get. rewrite lookup_empty. simpl. lra.
    - intros k. unfold dict_get. rewrite lookup_empty. simpl. lra. }
  clearbody start.
  destruct (financial_data raw) as [cols |]; [| exact Hstart].
  cbn [default from_option id] in Hc.
  revert start Hstart. induction Hc as [| item cols Hi _ IH]; intros start Hstart;
    cbn [fold_left]; [exact Hstart |].
  apply IH. apply extract_column_nonneg; assumption.
Qed.

(** X22.  When no total in the summary and no column total is negative, and
    the totals are of ordinary size, the liquidity ratios that the
    calculator returns are bounded by the current ratio: the cash ratio and
    the quick ratio are each at least 0 and at most the current ratio. *)
Theorem liquidity_ratios_ordered (raw : raw_data) (m : all_metrics) :
  nonneg_totals raw ->
  ordinary_totals raw ->
  calculate_all_metrics raw = Ok m ->
  (0 <= ratio m "cash_ratio" /\ ratio m "cash_ratio" <= ratio m "current_ratio") /\
  (0 <= ratio m "quick_ratio" /\ ratio m "quick_ratio" <= ratio m "current_ratio").
Proof.
  intros [Hs Hc] _ Hm.
  destruct (calculate_all_metrics_ratios raw)
    as (m' & Hm' & Hcr & Hqr & Hca & _).
  rewrite Hm in Hm'. apply Ok_inj in Hm'. subst m'.
  cbv zeta in Hcr, Hqr, Hca. rewrite Hcr, Hqr, Hca. clear Hcr Hqr Hca Hm.
  rewrite _extract_financials_stages.
  pose proof (collected_financials_nonneg raw Hs Hc) as Hnn.
  set (c := collected_financials raw) in *. clearbody c.
  destruct (estimated_financials_cases c) as [Hother _].
  set (e := estimated_financials c) in *. clearbody e.
  assert (Hnotin : forall (k : string) (l : list string),
            (fun k l => negb (bool_decide (k ∈ l))) k l = true -> k ∉ l).
  { intros k l H. apply negb_true_iff, bool_decide_eq_false in H. exact H. }
  assert (He : forall k, k ∉ ["net_profit"; "gross_profit"; "operating_income"] ->
                 0 <= dict_get e k 0).
  { intros k Hk. unfold dict_get. rewrite (Hother k Hk). apply Hnn. }
  pose proof (He "cash" ltac:(apply Hnotin; reflexivity)) as Hcash.
  pose proof (He "inventory" ltac:(apply Hnotin; reflexivity)) as Hinv.
  pose proof (He "accounts_receivable" ltac:(apply Hnotin; reflexivity)) as Har.
  pose proof (He "accounts_payable" ltac:(apply Hnotin; reflexivity)) as Hap.
  pose proof (He "total_liabilities" ltac:(apply Hnotin; reflexivity)) as Htl.
  unfold balance_financials. cbv zeta.
  repeat first [ rewrite dict_get_insert_eq
               | rewrite dict_get_insert_ne by discriminate ].
  set (cash := dict_get e "cash" 0) in *.
  set (inv := dict_get e "inventory" 0) in *.
  set (ar := dict_get e "accounts_receivable" 0) in *.
  set (cl := dict_get e "accounts_payable" 0 + dict_get e "total_liabilities" 0 * 0.3).
  assert (Hcl : 0 <= cl) by (unfold cl; lra).
  clearbody cash inv ar cl.
  destruct (Qeq_bool cl 0) eqn:E; [repeat split; lra |].
  apply Qeq_bool_neq in E.
  assert (Hpos : 0 < cl) by lra.
  split; split;
    first [ apply Qle_shift_div_l; lra | apply Qdiv_le_compat; lra ].
Qed.

(** The theorem at the sample mapping. *)
Lemma liquidity_ratios_ordered_witness :
  exists m, calculate_all_metrics sample_raw_data = Ok m /\
    0 <= ratio m "cash_ratio" /\
    ratio m "cash_ratio" <= ratio m "current_ratio".
Proof.
  destruct (calculate_all_metrics_total sample_raw_data) as [m Hm].
  exists m. split; [exact Hm |].
  apply (liquidity_ratios_ordered sample_raw_data m
           sample_raw_data_nonneg sample_raw_data_ordinary Hm).
Defined.

(** ** Product recommendations *)

Section ListSort.

Context {A : Type}.
Variable before : A -> A -> bool.
Hypothesis before_total : forall a b, before a b = true \/ before b a = true.
Hypothesis before_trans :
  forall a b c, before a b = true -> before b c = true -> before a c = true.

Lemma list_sort_insert_Permutation (x : A) (sorted : list A) :
  list_sort_insert before x sorted ≡ₚ x :: sorted.
Proof.
  induction sorted as [| y rest IH]; cbn [list_sort_insert]; [reflexivity |].
  destruct (before y x); [| reflexivity].
  rewrite IH. apply Permutation_swap.
Qed.

Lemma list_sort_insert_sorted (x : A) (sorted : list A) :
  StronglySorted (fun a b => before a b = true) sorted ->
  StronglySorted (fun a b => before a b = true) (list_sort_insert before x sorted).
Proof.
  induction 1 as [| y rest Hs IH Hy]; cbn [list_sort_insert].
  - repeat constructor.
  - destruct (before y x) eqn:E.
    + constructor; [exact IH |].
      rewrite list_sort_insert_Permutation. constructor; assumption.
    + assert (Hxy : before x y = true)
        by (destruct (before_total x y); congruence).
      constructor; [constructor; assumption |].
      constructor; [exact Hxy |].
      eapply Forall_impl; [exact Hy |]. intros z Hz. exact (before_trans _ _ _ Hxy Hz).
Qed.

Lemma list_sort_spec (l : list A) :
  list_sort before l ≡ₚ l /\
  StronglySorted (fun a b => before a b = true) (list_sort before l).
Proof.
  unfold list_sort.
  assert (H : forall acc,
             StronglySorted (fun a b => before a b = true) acc ->
             fold_left (fun sorted x => list_sort_insert before x sorted) l acc
               ≡ₚ (acc ++ l)%list /\
             StronglySorted (fun a b => before a b = true)
               (fold_left (fun sorted x => list_sort_insert before x sorted) l acc)).
  { induction l as [| x l IH]; intros acc Hacc; cbn [fold_left].
    - rewrite app_nil_r. split; [reflexivity | exact Hacc].
    - destruct (IH (list_sort_insert before x acc)
                  (list_sort_insert_sorted x acc Hacc)) as [Hp Hs].
      split; [| exact Hs].
      rewrite Hp, list_sort_insert_Permutation.
      cbn [app]. apply Permutation_middle. }
  apply (H []). constructor.
Qed.

(** The first [n] elements of the sorted list. *)
Lemma take_list_sort (n : nat) (l : list A) :
  StronglySorted (fun a b => before a b = true) (take n (list_sort before l)) /\
  length (take n (list_sort before l)) = Nat.min n (length l) /\
  (forall h, h ∈ take n (list_sort before l) -> h ∈ l) /\
  (forall h, h ∈ l ->
     h ∈ take n (list_sort before l) \/
     (length (take n (list_sort before l)) = n /\
      forall h', h' ∈ take n (list_sort before l) -> before h' h = true)).
Proof.
  destruct (list_sort_spec l) as [Hp Hs].
  pose proof (take_drop n (list_sort before l)) as Htd.
  rewrite <- Htd in Hs. apply StronglySorted_app in Hs as (Hcross & Hs1 & _).
  split; [exact Hs1 |].
  split; [rewrite length_take, (Permutation_length Hp); reflexivity |].
  split.
  - intros h Hh. rewrite <- Hp, <- Htd. apply elem_of_app. left; exact Hh.
  - intros h Hh. rewrite <- Hp, <- Htd in Hh.
    apply elem_of_app in Hh as [Hh | Hh]; [left; exact Hh | right].
    split.
    + rewrite length_take. apply Nat.min_l.
      destruct (le_lt_dec n (length (list_sort before l))) as [? | Hlt];
        [assumption |].
      rewrite drop_ge in Hh by lia. inversion Hh.
    + intros h' Hh'. exact (Hcross h' h Hh' Hh).
Qed.

(** Taking the first elements of a sorted list with distinct keys. *)
Lemma take_list_sort_NoDup {B : Type} (key : A -> B) (n : nat) (l : list A) :
  NoDup (map key l) -> NoDup (map key (take n (list_sort before l))).
Proof.
  intros Hnd. destruct (list_sort_spec l) as [Hp _].
  assert (Hs : NoDup (map key (list_sort before l)))
    by (rewrite Hp; exact Hnd).
  rewrite <- (take_drop n (list_sort before l)), map_app in Hs.
  apply NoDup_app in Hs as [Hs _]. exact Hs.
Qed.

End ListSort.

Section RecommendProduct.

Variables (health_score revenue debt_ratio cash_runway working_capital : Q).
Variable industry : string.

(** What the loop body does for one product whose revenue threshold can be
    rendered. *)
Lemma recommend_product_spec (item : string * product) :
  (min_revenue (p_requirements item.2) = None -> 0 <= revenue) ->
  exists entry,
    recommend_product health_score revenue debt_ratio cash_runway working_capital
      industry item = Ok entry /\
    match entry with
    | None =>
        health_score < default 0 (min_health_score (p_requirements item.2)) - 10
    | Some r =>
        product_id r = item.1 /\ r_name r = p_name item.2 /\
        r_type r = p_type item.2 /\
        r_providers r = take 3 (p_providers item.2) /\
        (0 <= match_score r <= 100)%Z /\
        ((eligibility r = "Eligible" /\ requirements_gap r = None /\
          meets_requirements health_score revenue debt_ratio (p_requirements item.2) /\
          (75 <= match_score r)%Z) \/
         (eligibility r = "May Qualify" /\ requirements_gap r <> None /\
          ~ meets_requirements health_score revenue debt_ratio
              (p_requirements item.2) /\
          default 0 (min_health_score (p_requirements item.2)) - 10
          <= health_score /\
          (match_score r
           <= 20 + context_bonus cash_runway working_capital industry item)%Z))
    end.
Proof.
  destruct item as [pid p]. cbn [fst snd]. intros Hrev.
  unfold recommend_product, meets_requirements, context_bonus. cbn [fst snd].
  destruct (p_requirements p) as [mh mr md]. cbn [min_health_score min_revenue max_debt_ratio] in *.
  destruct (ltb_cases health_score (default 0 mh)) as [[-> Hh] | [-> Hh]];
  destruct (ltb_cases revenue (default 0 mr)) as [[-> Hr] | [-> Hr]].
  all: destruct mr as [mr |]; cbn [default from_option id] in *;
       try (exfalso; specialize (Hrev eq_refl); lra).
  all: cbn [mbind result_bind].
  all: destruct md as [md |];
       [destruct (gtb_cases debt_ratio md) as [[-> Hd] | [-> Hd]] |].
  all: destruct ((cash_runway <? 90)
                 && contains "Cash flow" (py_str_list (p_best_for p)))%bool;
       destruct ((working_capital <? 0) && contains "working_capital" pid)%bool;
       destruct (String.eqb industry "Manufacturing" && contains "equipment" pid)%bool.
  all: cbv iota beta.
  all: try (destruct (geb_cases health_score (default 0 mh - 10))
              as [[-> Hq] | [-> Hq]]).
  all: eexists; (split; [reflexivity |]); cbn.
  all: try lra.
  all: repeat match goal with |- _ /\ _ => split end; try reflexivity; try lia.
  all: first [ left; repeat split; try reflexivity; try lia; try lra; fail
             | right; repeat split; try reflexivity; try discriminate;
               try lia; try lra; try (intros (? & ? & ?); lra) ].
Qed.

End RecommendProduct.
(** Facts of the table: the product ids are distinct, every product has a
    health-score threshold of at least 35, the context adds at most 50 points
    to a product, and only the last two products have no revenue threshold. *)
Lemma FINANCIAL_PRODUCTS_NoDup : NoDup (map fst FINANCIAL_PRODUCTS).
Proof.
  apply NoDup_ListNoDup. repeat constructor; simpl; intuition discriminate.
Qed.

Lemma FINANCIAL_PRODUCTS_bonus :
  Forall (fun item => forall cash_runway working_capital industry,
            (0 <= context_bonus cash_runway working_capital industry item <= 50)%Z)
         FINANCIAL_PRODUCTS.
Proof.
  unfold FINANCIAL_PRODUCTS.
  repeat (apply List.Forall_cons;
          [intros cr wc ind; unfold context_bonus; cbn [fst snd p_best_for];
           destruct (cr <? 90), (wc <? 0), (String.eqb ind "Manufacturing");
           vm_compute; split; discriminate |]).
  apply List.Forall_nil.
Qed.

Lemma FINANCIAL_PRODUCTS_thresholds :
  Forall (fun item : string * product =>
            exists t, min_health_score (p_requirements item.2) = Some t /\ 35 <= t)
         FINANCIAL_PRODUCTS.
Proof.
  unfold FINANCIAL_PRODUCTS.
  repeat (apply List.Forall_cons;
          [eexists; split; [reflexivity | lra] |]).
  apply List.Forall_nil.
Qed.

Section OMap.

Context {A B : Type}.
Variable f : A -> option B.

Lemma omap_elem_of (l : list A) (y : B) :
  y ∈ omap f l <-> exists x, x ∈ l /\ f x = Some y.
Proof.
  induction l as [| a l IH]; cbn [omap list_omap].
  - split; [intros H; inversion H | intros (x & H & _); inversion H].
  - destruct (f a) as [b |] eqn:E.
    + rewrite elem_of_cons, IH. split.
      * intros [-> | (x & Hx & Hf)]; [exists a | exists x];
          (split; [| assumption]); [left | right; assumption].
      * intros (x & Hx & Hf). apply elem_of_cons in Hx as [-> | Hx].
        -- left. congruence.
        -- right. eauto.
    + rewrite IH. split.
      * intros (x & Hx & Hf). exists x. split; [right |]; assumption.
      * intros (x & Hx & Hf). apply elem_of_cons in Hx as [-> | Hx];
          [congruence | eauto].
Qed.

Lemma omap_keys_NoDup {K : Type} (ka : A -> K) (kb : B -> K) (l : list A) :
  (forall x y, f x = Some y -> kb y = ka x) ->
  NoDup (map ka l) -> NoDup (map kb (omap f l)).
Proof.
  intros Hk. induction l as [| a l IH]; cbn [omap list_omap map]; intros Hnd.
  - constructor.
  - apply NoDup_cons in Hnd as [Ha Hnd].
    destruct (f a) as [b |] eqn:E; [| exact (IH Hnd)].
    cbn [map]. apply NoDup_cons. split; [| exact (IH Hnd)].
    intros Hin. apply Ha.
    apply list_elem_of_fmap in Hin as (y & Hy & Hin).
    apply omap_elem_of in Hin as (x & Hx & Hf).
    apply list_elem_of_fmap. exists x. split; [| exact Hx].
    rewrite <- (Hk a b E), <- (Hk x y Hf). exact Hy.
Qed.

End OMap.

Section RecommendLoop.

Variables (health_score revenue debt_ratio cash_runway working_capital : Q).
Variable industry : string.

(** The loop over products whose revenue thresholds can be rendered appends
    the outcome of each product in turn. *)
Lemma recommend_loop_ok (products : list (string * product)) :
  Forall (fun item : string * product =>
            min_revenue (p_requirements item.2) = None -> 0 <= revenue) products ->
  forall recommendations,
  recommend_loop health_score revenue debt_ratio cash_runway working_capital
    industry products recommendations
  = Ok (recommendations
        ++ omap (product_outcome health_score revenue debt_ratio cash_runway
                   working_capital industry) products)%list.
Proof.
  induction 1 as [| item products Hi _ IH]; intros recs;
    cbn [recommend_loop omap list_omap].
  - rewrite app_nil_r. reflexivity.
  - destruct (recommend_product_spec health_score revenue debt_ratio cash_runway
                working_capital industry item Hi) as (entry & He & _).
    assert (Ho : product_outcome health_score revenue debt_ratio cash_runway
                   working_capital industry item = entry)
      by (unfold product_outcome; rewrite He; reflexivity).
    rewrite He. cbn [mbind result_bind]. rewrite IH, Ho.
    destruct entry as [r |]; [| reflexivity].
    rewrite <- app_assoc. reflexivity.
Qed.

(** The loop raises the error of the first product that raises. *)
Lemma recommend_loop_raises (before_it after_it : list (string * product))
    (item : string * product) (e : exn) :
  Forall (fun item : string * product =>
            min_revenue (p_requirements item.2) = None -> 0 <= revenue) before_it ->
  recommend_product health_score revenue debt_ratio cash_runway working_capital
    industry item = Raise e ->
  forall recommendations,
  recommend_loop health_score revenue debt_ratio cash_runway working_capital
    industry (before_it ++ item :: after_it) recommendations = Raise e.
Proof.
  intros Hb He. induction Hb as [| item' products Hi _ IH]; intros recs;
    cbn [recommend_loop app].
  - rewrite He. reflexivity.
  - destruct (recommend_product_spec health_score revenue debt_ratio cash_runway
                working_capital industry item' Hi) as (entry & He' & _).
    rewrite He'. cbn [mbind result_bind]. apply IH.
Qed.

(** The outcomes of a list of products, one by one. *)
Lemma product_outcomes_spec (products : list (string * product))
    (r : recommendation) :
  Forall (fun item : string * product =>
            min_revenue (p_requirements item.2) = None -> 0 <= revenue) products ->
  r ∈ omap (product_outcome health_score revenue debt_ratio cash_runway
              working_capital industry) products ->
  exists item, item ∈ products /\
    recommend_product health_score revenue debt_ratio cash_runway working_capital
      industry item = Ok (Some r).
Proof.
  intros Hok Hr. apply omap_elem_of in Hr as (item & Hin & Ho).
  exists item. split; [exact Hin |].
  rewrite Forall_forall in Hok.
  destruct (recommend_product_spec health_score revenue debt_ratio cash_runway
              working_capital industry item (Hok item Hin)) as (entry & He & _).
  unfold product_outcome in Ho. rewrite He in Ho. rewrite He, Ho. reflexivity.
Qed.

End RecommendLoop.
Lemma by_match_score_spec (a b : recommendation) :
  by_match_score a b = true <-> (match_score b <= match_score a)%Z.
Proof. unfold by_match_score. apply Z.leb_le. Qed.

Lemma by_match_score_total (a b : recommendation) :
  by_match_score a b = true \/ by_match_score b a = true.
Proof. rewrite !by_match_score_spec. lia. Qed.

Lemma by_match_score_trans (a b c : recommendation) :
  by_match_score a b = true -> by_match_score b c = true ->
  by_match_score a c = true.
Proof. rewrite !by_match_score_spec. lia. Qed.

Section Recommendations.

Variable health_score : Q.
Variable metrics : gmap string Q.
Variable raw_values : option (gmap string Q).
Variable industry : string.

Let revenue := dict_get (default ∅ raw_values) "revenue" 0.
Let debt_ratio := dict_get metrics "debt_ratio" 0.
Let cash_runway := dict_get metrics "cash_runway_days" 365.
Let working_capital := dict_get metrics "working_capital" 0.
Let outcomes :=
  omap (product_outcome health_score revenue debt_ratio cash_runway
          working_capital industry) FINANCIAL_PRODUCTS.

(** With a revenue that is not negative no product raises, and the result
    is the first five of the sorted outcomes. *)
Lemma get_recommendations_ok :
  0 <= revenue ->
  get_recommendations health_score metrics raw_values industry
  = Ok (take 5 (list_sort by_match_score outcomes)).
Proof.
  intros Hrev. unfold get_recommendations.
  fold revenue debt_ratio cash_runway working_capital.
  rewrite recommend_loop_ok
    by (apply Forall_forall; intros item _ _; exact Hrev).
  reflexivity.
Qed.

(** With a negative revenue the product without a revenue threshold makes
    the rendering of the reason raise. *)
Lemma get_recommendations_raises :
  revenue < 0 ->
  get_recommendations health_score metrics raw_values industry = Raise TypeError.
Proof.
  intros Hrev. unfold get_recommendations.
  fold revenue debt_ratio cash_runway working_capital.
  rewrite <- (take_drop 5 FINANCIAL_PRODUCTS).
  let d := eval cbv [drop FINANCIAL_PRODUCTS] in (drop 5 FINANCIAL_PRODUCTS) in
  change (drop 5 FINANCIAL_PRODUCTS) with d.
  rewrite (recommend_loop_raises _ _ _ _ _ _ _ _ _ TypeError); [reflexivity | |].
  - cbv [take FINANCIAL_PRODUCTS].
    repeat (apply List.Forall_cons; [intros H; discriminate H |]).
    apply List.Forall_nil.
  - unfold recommend_product.
    cbn [p_requirements min_health_score min_revenue default from_option id].
    destruct (ltb_cases revenue 0) as [[-> _] | [_ ?]]; [| lra].
    destruct (health_score <? 35); reflexivity.
Qed.

(** What is known of an outcome. *)
Lemma outcomes_spec (r : recommendation) :
  0 <= revenue -> r ∈ outcomes ->
  exists p, (product_id r, p) ∈ FINANCIAL_PRODUCTS /\
    r_name r = p_name p /\ r_type r = p_type p /\
    r_providers r = take 3 (p_providers p) /\
    (0 <= match_score r <= 100)%Z /\
    ((eligibility r = "Eligible" /\ requirements_gap r = None /\
      meets_requirements health_score revenue debt_ratio (p_requirements p) /\
      (75 <= match_score r)%Z) \/
     (eligibility r = "May Qualify" /\ requirements_gap r <> None /\
      ~ meets_requirements health_score revenue debt_ratio (p_requirements p) /\
      default 0 (min_health_score (p_requirements p)) - 10 <= health_score /\
      (match_score r <= 70)%Z)).
Proof.
  intros Hrev Hr.
  destruct (product_outcomes_spec health_score revenue debt_ratio cash_runway
              working_capital industry FINANCIAL_PRODUCTS r) as (item & Hin & He).
  { apply Forall_forall. intros ? _ _. exact Hrev. }
  { exact Hr. }
  destruct (recommend_product_spec health_score revenue debt_ratio cash_runway
              working_capital industry item (fun _ => Hrev)) as (entry & He' & Hs).
  rewrite He in He'. apply Ok_inj in He'. subst entry.
  destruct Hs as (Hid & Hn & Ht & Hp & Hm & Hcases).
  pose proof FINANCIAL_PRODUCTS_bonus as Hb. rewrite Forall_forall in Hb.
  specialize (Hb item Hin cash_runway working_capital industry).
  destruct item as [pid p]. cbn [fst snd] in *.
  exists p. rewrite Hid. split; [exact Hin |].
  repeat (split; [assumption |]).
  destruct Hcases as [H | (H1 & H2 & H3 & H4 & H5)]; [left; exact H | right].
  repeat (split; [assumption |]). lia.
Qed.

(** An outcome exists for every product that meets its requirements or
    whose health-score threshold is missed by at most 10. *)
Lemma outcomes_complete (pid : string) (p : product) :
  0 <= revenue -> (pid, p) ∈ FINANCIAL_PRODUCTS ->
  default 0 (min_health_score (p_requirements p)) - 10 <= health_score ->
  exists r, r ∈ outcomes /\ product_id r = pid /\
    (meets_requirements health_score revenue debt_ratio (p_requirements p) ->
     eligibility r = "Eligible").
Proof.
  intros Hrev Hin Hh.
  destruct (recommend_product_spec health_score revenue debt_ratio cash_runway
              working_capital industry (pid, p) (fun _ => Hrev))
    as (entry & He & Hs).
  destruct entry as [r |]; cbn [fst snd] in Hs; [| lra].
  exists r. split; [| split].
  - apply omap_elem_of. exists (pid, p). split; [exact Hin |].
    unfold product_outcome. rewrite He. reflexivity.
  - apply Hs.
  - intros Hm. destruct Hs as (_ & _ & _ & _ & _ & [(H & _) | (_ & _ & H & _)]);
      [exact H | contradiction].
Qed.

End Recommendations.

(** X23.  The recommendations for a health score, metrics and an industry.
    When the revenue under ["raw_values"] is negative the call raises
    TypeError, whatever the other arguments.  Otherwise it returns at most
    five entries in descending order of match score; they are entries of
    distinct products of the table, with the name and type of the product
    and its first three providers, a match score between 0 and 100 and the
    eligibility "Eligible" or "May Qualify"; and the list is empty exactly
    when the health score is below 25. *)
Theorem recommendations_well_formed
    (health_score : Q) (metrics : gmap string Q)
    (raw_values : option (gmap string Q)) (industry : string) :
  let revenue := dict_get (default ∅ raw_values) "revenue" 0 in
  (revenue < 0 ->
   get_recommendations health_score metrics raw_values industry = Raise TypeError) /\
  (0 <= revenue ->
   exists recommendations,
     get_recommendations health_score metrics raw_values industry
     = Ok recommendations /\
     (length recommendations <= 5)%nat /\
     StronglySorted (fun a b => (match_score b <= match_score a)%Z) recommendations /\
     NoDup (map product_id recommendations) /\
     Forall (fun r =>
               exists p, (product_id r, p) ∈ FINANCIAL_PRODUCTS /\
                 r_name r = p_name p /\ r_type r = p_type p /\
                 r_providers r = take 3 (p_providers p) /\
                 (0 <= match_score r <= 100)%Z /\
                 (eligibility r = "Eligible" \/ eligibility r = "May Qualify"))
            recommendations /\
     (recommendations = [] <-> health_score < 25)).
Proof.
  cbv zeta. split; [apply get_recommendations_raises |].
  intros Hrev. rewrite get_recommendations_ok by exact Hrev.
  eexists. split; [reflexivity |].
  set (revenue := dict_get (default ∅ raw_values) "revenue" 0) in *.
  set (outcomes := omap _ FINANCIAL_PRODUCTS).
  destruct (take_list_sort by_match_score by_match_score_total
              by_match_score_trans 5 outcomes) as (Hs & Hl & Hin & Hout).
  split; [rewrite Hl; lia |].
  split; [eapply StronglySorted_weaken; [| exact Hs];
          intros a b; apply by_match_score_spec |].
  split.
  { apply (take_list_sort_NoDup by_match_score by_match_score_total
             by_match_score_trans).
    apply (omap_keys_NoDup _ fst product_id); [| exact FINANCIAL_PRODUCTS_NoDup].
    intros item r Ho.
    destruct (recommend_product_spec health_score revenue
                (dict_get metrics "debt_ratio" 0)
                (dict_get metrics "cash_runway_days" 365)
                (dict_get metrics "working_capital" 0) industry item
                (fun _ => Hrev)) as (entry & He & Hspec).
    unfold product_outcome in Ho. rewrite He in Ho. subst entry. apply Hspec. }
  split.
  { apply Forall_forall. intros r Hr.
    destruct (outcomes_spec health_score metrics raw_values industry r Hrev
                (Hin r Hr)) as (p & Hp & Hn & Ht & Hpr & Hm & Hc).
    exists p. repeat (split; [assumption |]).
    destruct Hc as [(H & _) | (H & _)]; [left | right]; exact H. }
  split.
  - intros Hnil.
    destruct (Qlt_le_dec health_score 25) as [Hlt | Hge]; [exact Hlt | exfalso].
    destruct (outcomes_complete health_score metrics raw_values industry
                "mudra_loan"
                (mk_product "MUDRA Loan" "Government Scheme"
                   ["All Banks (Govt Scheme)"] "8-12%" "12-60 months"
                   (mk_requirements (Some 35) None None)
                   ["Micro enterprises"; "New businesses"; "Small funding needs"])
                Hrev) as (r & Hr & _).
    { apply list_elem_of_In. simpl. tauto. }
    { cbn. lra. }
    destruct (Hout r Hr) as [H | [H _]].
    + rewrite Hnil in H. inversion H.
    + rewrite Hnil in H. discriminate H.
  - intros Hlt.
    assert (Hnone : outcomes = []).
    { destruct outcomes as [| r rest] eqn:E; [reflexivity | exfalso].
      destruct (outcomes_spec health_score metrics raw_values industry r Hrev)
        as (p & Hp & _ & _ & _ & _ & Hc).
      { fold revenue. unfold outcomes in E. rewrite E. left. }
      pose proof FINANCIAL_PRODUCTS_thresholds as Ht. rewrite Forall_forall in Ht.
      destruct (Ht _ Hp) as (t & Hmin & Hge). cbn [snd] in Hmin.
      destruct Hc as [(_ & _ & (Hh & _) & _) | (_ & _ & _ & Hh & _)];
        rewrite Hmin in Hh; cbn in Hh; lra. }
    rewrite Hnone. reflexivity.
Qed.
(** X24.  Eligible products come first.  In the recommendations for a
    revenue that is not negative an entry is "Eligible" exactly when the
    health score, the revenue and the debt ratio meet the requirements of its
    product; an eligible entry has a match score of at least 75 and any other
    entry one of at most 70, so no entry that may qualify precedes an
    eligible one; and a product that meets its requirements is left out only
    when five eligible products are listed. *)
Theorem eligible_products_come_first
    (health_score : Q) (metrics : gmap string Q)
    (raw_values : option (gmap string Q)) (industry : string)
    (recommendations : list recommendation) :
  let revenue := dict_get (default ∅ raw_values) "revenue" 0 in
  let debt_ratio := dict_get metrics "debt_ratio" 0 in
  0 <= revenue ->
  get_recommendations health_score metrics raw_values industry = Ok recommendations ->
  Forall (fun r =>
            exists p, (product_id r, p) ∈ FINANCIAL_PRODUCTS /\
              ((eligibility r = "Eligible" /\ (75 <= match_score r)%Z /\
                meets_requirements health_score revenue debt_ratio
                  (p_requirements p)) \/
               (eligibility r = "May Qualify" /\ (match_score r <= 70)%Z /\
                ~ meets_requirements health_score revenue debt_ratio
                    (p_requirements p))))
         recommendations /\
  StronglySorted (fun a b => eligibility b = "Eligible" -> eligibility a = "Eligible")
                 recommendations /\
  (forall pid p, (pid, p) ∈ FINANCIAL_PRODUCTS ->
     meets_requirements health_score revenue debt_ratio (p_requirements p) ->
     (exists r, r ∈ recommendations /\ product_id r = pid /\
                eligibility r = "Eligible") \/
     (length recommendations = 5%nat /\
      Forall (fun r => eligibility r = "Eligible") recommendations)).
Proof.
  cbv zeta. intros Hrev Hget.
  rewrite get_recommendations_ok in Hget by exact Hrev.
  apply Ok_inj in Hget. subst recommendations.
  set (revenue := dict_get (default ∅ raw_values) "revenue" 0) in *.
  set (debt_ratio := dict_get metrics "debt_ratio" 0) in *.
  set (outcomes := omap _ FINANCIAL_PRODUCTS).
  destruct (take_list_sort by_match_score by_match_score_total
              by_match_score_trans 5 outcomes) as (Hs & Hl & Hin & Hout).
  assert (Hspec : forall r, r ∈ take 5 (list_sort by_match_score outcomes) ->
            exists p, (product_id r, p) ∈ FINANCIAL_PRODUCTS /\
              ((eligibility r = "Eligible" /\ (75 <= match_score r)%Z /\
                meets_requirements health_score revenue debt_ratio
                  (p_requirements p)) \/
               (eligibility r = "May Qualify" /\ (match_score r <= 70)%Z /\
                ~ meets_requirements health_score revenue debt_ratio
                    (p_requirements p)))).
  { intros r Hr.
    destruct (outcomes_spec health_score metrics raw_values industry r Hrev
                (Hin r Hr)) as (p & Hp & _ & _ & _ & _ & Hc).
    exists p. split; [exact Hp |].
    destruct Hc as [(H1 & _ & H2 & H3) | (H1 & _ & H2 & _ & H3)];
      [left | right]; auto. }
  assert (Hscore : forall r, r ∈ take 5 (list_sort by_match_score outcomes) ->
            (75 <= match_score r)%Z -> eligibility r = "Eligible").
  { intros r Hr Hge. destruct (Hspec r Hr) as (p & _ & [(H & _) | (_ & H & _)]);
      [exact H | lia]. }
  split; [apply Forall_forall; exact Hspec |].
  split.
  - revert Hspec Hscore. generalize (take 5 (list_sort by_match_score outcomes)) Hs.
    induction 1 as [| a l Hsl IH Ha]; intros Hspec Hscore; constructor.
    + apply IH; intros r Hr; [apply Hspec | apply Hscore]; right; exact Hr.
    + rewrite Forall_forall in Ha |- *. intros b Hb Hel.
      apply Hscore; [left |].
      specialize (Ha b Hb). apply by_match_score_spec in Ha.
      destruct (Hspec b ltac:(right; exact Hb))
        as (p & _ & [(_ & H & _) | (H & _)]); [lia |].
      rewrite Hel in H. discriminate H.
  - intros pid p Hp Hmeets.
    destruct (outcomes_complete health_score metrics raw_values industry pid p
                Hrev Hp) as (r & Hr & Hid & Hel).
    { destruct Hmeets as [Hh _]. lra. }
    specialize (Hel Hmeets).
    destruct (Hout r Hr) as [H | [Hlen Hall]].
    + left. exists r. auto.
    + right. split; [exact Hlen |].
      apply Forall_forall. intros r' Hr'. apply Hscore; [exact Hr' |].
      specialize (Hall r' Hr'). apply by_match_score_spec in Hall.
      destruct (outcomes_spec health_score metrics raw_values industry r Hrev Hr)
        as (p' & _ & _ & _ & _ & _ & [(_ & _ & _ & H) | (H & _)]); [lia |].
      rewrite Hel in H. discriminate H.
Qed.

(** The theorem at a health score of 62, a debt ratio of 0.4 and a revenue of
    two million in "Manufacturing". *)
Lemma eligible_products_come_first_witness :
  exists recommendations,
    get_recommendations 62 {[ "debt_ratio" := 0.4 ]}
      (Some {[ "revenue" := 2000000 ]}) "Manufacturing" = Ok recommendations /\
    StronglySorted (fun a b => eligibility b = "Eligible" -> eligibility a = "Eligible")
                   recommendations.
Proof.
  assert (H : exists recommendations,
             get_recommendations 62 {[ "debt_ratio" := 0.4 ]}
               (Some {[ "revenue" := 2000000 ]}) "Manufacturing"
             = Ok recommendations) by (eexists; reflexivity).
  destruct H as [recommendations Hget].
  exists recommendations. split; [exact Hget |].
  assert (Hrev : 0 <= dict_get (default ∅ (Some ({[ "revenue" := 2000000 ]}
                                                  : gmap string Q))) "revenue" 0)
    by (vm_compute; discriminate).
  exact (proj1 (proj2 (eligible_products_come_first 62 _ _ "Manufacturing"
                         recommendations Hrev Hget))).
Defined.
Lemma FINANCIAL_PRODUCTS_revenue :
  Forall (fun item : string * product =>
            (exists t, min_revenue (p_requirements item.2) = Some t /\ 0 < t) \/
            item.1 ∈ ["mudra_loan"; "trade_credit"])
         FINANCIAL_PRODUCTS.
Proof.
  unfold FINANCIAL_PRODUCTS.
  repeat (apply List.Forall_cons;
          [first [ left; eexists; split; [reflexivity | lra]
                 | right; apply list_elem_of_In; simpl; tauto ] |]).
  apply List.Forall_nil.
Qed.

(** X25.  The recommendations of the health-score request never see the
    revenue: the metrics it passes have no raw values, so the revenue counts
    as 0.  The request raises the HTTP error 500 on parsed data without any
    key.  Whenever it returns a response, the data are not empty, the
    recommendations are those for the overall score and the metrics of the
    response with a revenue of 0, and no product with a revenue threshold is
    "Eligible" in them, whatever the data: only the MUDRA loan and the trade
    credit insurance can be. *)
Theorem health_score_recommendations_ignore_revenue
    (now : datetime) (industry : string) (data : raw_data) :
  (is_empty data = true ->
   get_health_score now industry data = Raise (HTTPException 500)) /\
  (forall response,
     get_health_score now industry data = Ok response ->
     is_empty data = false /\
     assessment now data industry
     = Ok (hr_score response, hr_benchmark_data response, hr_forecast_data response) /\
     get_recommendations (overall_score (cs_score (hr_score response)))
       (cs_metrics (hr_score response)) None industry
     = Ok (hr_recommendations response) /\
     Forall (fun r => eligibility r = "Eligible" ->
                      product_id r ∈ ["mudra_loan"; "trade_credit"])
            (hr_recommendations response)).
Proof.
  unfold get_health_score. split; [intros ->; reflexivity |].
  intros response.
  destruct (is_empty data); [discriminate |].
  intros H. apply bind_Ok in H as ([[score_result benchmark_data] forecast_data] & Ha & H).
  apply bind_Ok in H as (recommendations & Hget & H).
  apply Ok_inj in H. subst response.
  cbn [hr_score hr_benchmark_data hr_forecast_data hr_recommendations].
  split; [reflexivity |]. split; [exact Ha |]. split; [exact Hget |].
  assert (Hrev : 0 <= dict_get (default ∅ (@None (gmap string Q))) "revenue" 0)
    by (vm_compute; discriminate).
  rewrite get_recommendations_ok in Hget by exact Hrev.
  apply Ok_inj in Hget. subst recommendations.
  apply Forall_forall. intros r Hr Hel.
  set (outcomes := omap _ FINANCIAL_PRODUCTS) in Hr.
  destruct (take_list_sort by_match_score by_match_score_total
              by_match_score_trans 5 outcomes) as (_ & _ & Hin & _).
  destruct (outcomes_spec _ _ None industry r Hrev (Hin r Hr))
    as (p & Hp & _ & _ & _ & _ & [(_ & _ & (_ & Hm & _) & _) | (H & _)]).
  - pose proof FINANCIAL_PRODUCTS_revenue as Ht. rewrite Forall_forall in Ht.
    destruct (Ht _ Hp) as [(t & Hmin & Hpos) | Hid]; [| exact Hid].
    cbn [snd] in Hmin. rewrite Hmin in Hm.
    change (t <= 0) in Hm. lra.
  - rewrite Hel in H. discriminate H.
Qed.

(** ** Product recommendations by fit score *)

Section FitScore.

Import ProductRecommendation.

Variable health_score : Q.
Variable metrics : gmap string Q.
Variable industry : string.
Variable company_age_years : Z.

(** The fit score of a product whose score range is not empty. *)
Lemma _calculate_fit_score_spec (product : FinancialProduct) :
  (min_score product < max_score product)%Z ->
  exists score reasons,
    _calculate_fit_score product health_score metrics industry company_age_years
    = Ok (score, reasons) /\
    -10 <= score /\ score <= fit_score_cap (fp_type product) /\
    (fp_type product <> GOVERNMENT_SCHEME -> 0 <= score) /\
    (health_score < inject_Z (min_score product) -> score == 0).
Proof.
  intros Hrange. unfold _calculate_fit_score.
  destruct (ltb_cases health_score (inject_Z (min_score product)))
    as [[-> Hlt] | [-> Hge]].
  - eexists _, _. split; [reflexivity |].
    split; [lra |]. split; [destruct (fp_type product); cbn; lra |].
    split; intros; lra.
  - assert (Hd : 0 < inject_Z (max_score product - min_score product)).
    { change 0 with (inject_Z 0). rewrite <- Zlt_Qlt. lia. }
    rewrite py_div_pos by exact Hd. cbn [mbind result_bind].
    assert (Hq : 0 <= (health_score - inject_Z (min_score product))
                      / inject_Z (max_score product - min_score product))
      by (apply Qle_shift_div_l; lra).
    set (q := (health_score - inject_Z (min_score product))
              / inject_Z (max_score product - min_score product)) in *.
    clearbody q.
    assert (Hfit : 0 <= Py.min 100 (q * 100) /\ Py.min 100 (q * 100) <= 100)
      by (unfold Py.min; split_cmp; lra).
    set (score_fit := Py.min 100 (q * 100)) in *. clearbody score_fit.
    set (cash_runway := dict_get metrics "cash_runway_days" 180).
    set (current_ratio := dict_get metrics "current_ratio" 1.5).
    set (receivables_days := dict_get metrics "receivables_days" 30).
    set (net_margin := dict_get metrics "net_margin" 5).
    clearbody cash_runway current_ratio receivables_days net_margin.
    destruct (String.eqb industry "Manufacturing" || String.eqb industry "Retail")%bool;
      destruct (String.eqb industry "E-commerce" || String.eqb industry "Services")%bool;
      destruct (fp_type product); cbv iota beta.
    all: repeat match goal with
                | |- context [if ?c then _ else _] =>
                    match c with
                    | (_ <=? _)%Z => destruct c
                    | (_ && _)%bool => destruct c
                    end
                end.
    all: split_cmp; cbv iota beta; try (exfalso; lra).
    all: eexists _, _; (split; [reflexivity |]).
    all: unfold Py.min; split_cmp; cbn [fit_score_cap]; repeat split; intros;
         try lra; congruence.
Qed.

End FitScore.
Lemma StronglySorted_sublist {A : Type} (R : A -> A -> Prop) (l1 l2 : list A) :
  l1 `sublist_of` l2 -> StronglySorted R l2 -> StronglySorted R l1.
Proof.
  induction 1 as [| x l1 l2 Hsub IH | x l1 l2 Hsub IH]; intros Hs.
  - constructor.
  - apply StronglySorted_inv in Hs as [Hs Hx].
    constructor; [exact (IH Hs) |].
    rewrite Forall_forall in Hx |- *. intros y Hy.
    exact (Hx y (elem_of_sublist _ _ _ Hy Hsub)).
  - apply StronglySorted_inv in Hs as [Hs _]. exact (IH Hs).
Qed.

Lemma PR_FINANCIAL_PRODUCTS_ranges :
  Forall (fun product =>
            (ProductRecommendation.min_score product
             < ProductRecommendation.max_score product)%Z)
         ProductRecommendation.FINANCIAL_PRODUCTS.
Proof.
  unfold ProductRecommendation.FINANCIAL_PRODUCTS.
  repeat (apply List.Forall_cons; [cbn; lia |]). apply List.Forall_nil.
Qed.

Lemma by_fit_score_spec (a b : ProductRecommendation.recommendation) :
  by_fit_score a b = true
  <-> ProductRecommendation.fit_score b <= ProductRecommendation.fit_score a.
Proof.
  unfold by_fit_score. split_cmp; split; intros; try lra; auto; discriminate.
Qed.

Lemma by_fit_score_total (a b : ProductRecommendation.recommendation) :
  by_fit_score a b = true \/ by_fit_score b a = true.
Proof. rewrite !by_fit_score_spec. lra. Qed.

Lemma by_fit_score_trans (a b c : ProductRecommendation.recommendation) :
  by_fit_score a b = true -> by_fit_score b c = true -> by_fit_score a c = true.
Proof. rewrite !by_fit_score_spec. lra. Qed.

Lemma is_highly_recommended_spec (r : ProductRecommendation.recommendation) :
  is_highly_recommended r = true <-> 80 <= ProductRecommendation.fit_score r.
Proof.
  unfold is_highly_recommended. split_cmp; split; intros; try lra; auto; discriminate.
Qed.

Lemma is_good_option_spec (r : ProductRecommendation.recommendation) :
  is_good_option r = true
  <-> 60 <= ProductRecommendation.fit_score r /\ ProductRecommendation.fit_score r < 80.
Proof.
  unfold is_good_option. split_cmp; cbn [andb]; split; intros; try lra; auto;
    try discriminate; split; lra.
Qed.

Lemma is_for_later_spec (r : ProductRecommendation.recommendation) :
  is_for_later r = true
  <-> 40 <= ProductRecommendation.fit_score r /\ ProductRecommendation.fit_score r < 60.
Proof.
  unfold is_for_later. split_cmp; cbn [andb]; split; intros; try lra; auto;
    try discriminate; split; lra.
Qed.

Lemma _get_qualification_status_bands (fit_score : Q) :
  (80 <= fit_score ->
   ProductRecommendation._get_qualification_status fit_score = "highly_likely") /\
  (60 <= fit_score -> fit_score < 80 ->
   ProductRecommendation._get_qualification_status fit_score = "likely") /\
  (40 <= fit_score -> fit_score < 60 ->
   ProductRecommendation._get_qualification_status fit_score = "possible") /\
  (fit_score < 40 ->
   ProductRecommendation._get_qualification_status fit_score = "needs_improvement").
Proof.
  unfold ProductRecommendation._get_qualification_status.
  split_cmp; repeat split; intros; try reflexivity; lra.
Qed.

Section ProductRecommendations.

Import ProductRecommendation.

Variable health_score : Q.
Variable metrics : gmap string Q.
Variable industry : string.
Variable company_age_years : Z.

Lemma PR_recommend_loop_ok (products : list FinancialProduct) :
  Forall (fun product => (min_score product < max_score product)%Z) products ->
  forall recommendations,
  ProductRecommendation.recommend_loop products health_score metrics industry
    company_age_years recommendations
  = Ok (recommendations
        ++ omap (fit_outcome health_score metrics industry company_age_years)
             products)%list.
Proof.
  induction 1 as [| product products Hp _ IH]; intros recs;
    cbn [ProductRecommendation.recommend_loop omap list_omap].
  - rewrite app_nil_r. reflexivity.
  - destruct (_calculate_fit_score_spec health_score metrics industry
                company_age_years product Hp) as (score & reasons & He & _).
    unfold fit_outcome at 1. rewrite He. cbn [mbind result_bind].
    rewrite IH. destruct (score >? 0); [| reflexivity].
    rewrite <- app_assoc. reflexivity.
Qed.

(** What is known of an entry of the loop. *)
Lemma fit_outcomes_spec (r : recommendation) :
  r ∈ omap (fit_outcome health_score metrics industry company_age_years)
        FINANCIAL_PRODUCTS ->
  product r ∈ FINANCIAL_PRODUCTS /\
  0 < fit_score r /\ fit_score r <= fit_score_cap (fp_type (product r)) /\
  qualification_status r = _get_qualification_status (fit_score r) /\
  inject_Z (min_score (product r)) <= health_score.
Proof.
  intros Hr. apply omap_elem_of in Hr as (p & Hin & Ho).
  pose proof PR_FINANCIAL_PRODUCTS_ranges as Hrange.
  rewrite Forall_forall in Hrange.
  destruct (_calculate_fit_score_spec health_score metrics industry
              company_age_years p (Hrange p Hin))
    as (score & reasons & He & _ & Hcap & _ & Hzero).
  unfold fit_outcome in Ho. rewrite He in Ho.
  destruct (gtb_cases score 0) as [[E Hpos] | [E Hle]]; rewrite E in Ho;
    [| discriminate Ho].
  injection Ho as <-. cbn [product fit_score qualification_status].
  split; [exact Hin |]. split; [exact Hpos |]. split; [exact Hcap |].
  split; [reflexivity |].
  destruct (Qlt_le_dec health_score (inject_Z (min_score p))) as [Hlt | Hge];
    [| exact Hge].
  specialize (Hzero Hlt). lra.
Qed.

End ProductRecommendations.

(** X26.  The fit score of every product of the table is computed without
    error, whatever the health score, the metrics, the industry and the age
    of the company.  It is 0 below the product's minimum health score, never
    below -10 and, except for the government schemes, never negative; and it
    never exceeds 30 points for the health score plus the points of the
    rules of the product's type: 70 for a working capital loan, 90 for
    invoice discounting, 50 for an MSME credit line, 55 for a government
    scheme or a term loan, 45 for an overdraft or equipment financing and 30
    for trade finance. *)
Theorem fit_score_by_product_type
    (health_score : Q) (metrics : gmap string Q) (industry : string)
    (company_age_years : Z) :
  Forall (fun product =>
            exists score reasons,
              ProductRecommendation._calculate_fit_score product health_score
                metrics industry company_age_years = Ok (score, reasons) /\
              -10 <= score /\
              score <= fit_score_cap (ProductRecommendation.fp_type product) /\
              (ProductRecommendation.fp_type product
               <> ProductRecommendation.GOVERNMENT_SCHEME -> 0 <= score) /\
              (health_score < inject_Z (ProductRecommendation.min_score product) ->
               score == 0))
         ProductRecommendation.FINANCIAL_PRODUCTS.
Proof.
  eapply Forall_impl; [exact PR_FINANCIAL_PRODUCTS_ranges |].
  intros product Hrange.
  exact (_calculate_fit_score_spec health_score metrics industry
           company_age_years product Hrange).
Qed.

(** X27.  The product recommendations are returned without error, whatever
    the arguments.  The three categories hold at most three, three and two
    entries, each in descending order of fit score, of products of the
    table whose minimum health score is met.  An entry is highly recommended
    only with a fit score of at least 80 and the status highly_likely, and
    only invoice discounting can be; a good option has a fit score from 60
    to below 80 and the status likely, and is invoice discounting or a
    working capital loan; an entry to consider later has a fit score from 40
    to below 60 and the status possible, and is never trade finance.  There
    are at most four next steps. *)
Theorem product_recommendation_categories
    (health_score : Q) (metrics : gmap string Q) (industry : string)
    (company_age_years : Z) :
  exists r,
    ProductRecommendation.get_recommendations health_score metrics industry
      company_age_years = Ok r /\
    ((length (ProductRecommendation.highly_recommended r) <= 3)%nat /\
     (length (ProductRecommendation.good_options r) <= 3)%nat /\
     (length (ProductRecommendation.consider_later r) <= 2)%nat /\
     (length (ProductRecommendation.next_steps r) <= 4)%nat) /\
    Forall (fun category =>
              StronglySorted
                (fun a b => ProductRecommendation.fit_score b
                            <= ProductRecommendation.fit_score a) category /\
              Forall (fun e =>
                        ProductRecommendation.product e
                          ∈ ProductRecommendation.FINANCIAL_PRODUCTS /\
                        inject_Z (ProductRecommendation.min_score
                                    (ProductRecommendation.product e))
                        <= health_score) category)
           [ ProductRecommendation.highly_recommended r;
             ProductRecommendation.good_options r;
             ProductRecommendation.consider_later r ] /\
    Forall (fun e =>
              80 <= ProductRecommendation.fit_score e /\
              ProductRecommendation.qualification_status e = "highly_likely" /\
              ProductRecommendation.fp_type (ProductRecommendation.product e)
              = ProductRecommendation.INVOICE_DISCOUNTING)
           (ProductRecommendation.highly_recommended r) /\
    Forall (fun e =>
              60 <= ProductRecommendation.fit_score e /\
              ProductRecommendation.fit_score e < 80 /\
              ProductRecommendation.qualification_status e = "likely" /\
              (ProductRecommendation.fp_type (ProductRecommendation.product e)
               = ProductRecommendation.INVOICE_DISCOUNTING \/
               ProductRecommendation.fp_type (ProductRecommendation.product e)
               = ProductRecommendation.WORKING_CAPITAL_LOAN))
           (ProductRecommendation.good_options r) /\
    Forall (fun e =>
              40 <= ProductRecommendation.fit_score e /\
              ProductRecommendation.fit_score e < 60 /\
              ProductRecommendation.qualification_status e = "possible" /\
              ProductRecommendation.fp_type (ProductRecommendation.product e)
              <> ProductRecommendation.TRADE_FINANCE)
           (ProductRecommendation.consider_later r).
Proof.
  unfold ProductRecommendation.get_recommendations.
  rewrite PR_recommend_loop_ok by exact PR_FINANCIAL_PRODUCTS_ranges.
  cbn [mbind result_bind app].
  eexists. split; [reflexivity |].
  cbn [ProductRecommendation.highly_recommended ProductRecommendation.good_options
       ProductRecommendation.consider_later ProductRecommendation.next_steps].
  set (outcomes := omap _ ProductRecommendation.FINANCIAL_PRODUCTS).
  change (list_sort _ outcomes) with (list_sort by_fit_score outcomes).
  destruct (list_sort_spec by_fit_score by_fit_score_total by_fit_score_trans outcomes)
    as [Hperm Hsorted].
  set (sorted := list_sort by_fit_score outcomes) in *.
  assert (Hspec : forall e, e ∈ sorted ->
            ProductRecommendation.product e ∈ ProductRecommendation.FINANCIAL_PRODUCTS /\
            0 < ProductRecommendation.fit_score e /\
            ProductRecommendation.fit_score e
            <= fit_score_cap (ProductRecommendation.fp_type
                                (ProductRecommendation.product e)) /\
            ProductRecommendation.qualification_status e
            = ProductRecommendation._get_qualification_status
                (ProductRecommendation.fit_score e) /\
            inject_Z (ProductRecommendation.min_score (ProductRecommendation.product e))
            <= health_score).
  { intros e He. rewrite Hperm in He.
    exact (fit_outcomes_spec health_score metrics industry company_age_years e He). }
  assert (Hcat : forall n (P : ProductRecommendation.recommendation -> bool),
            take n (filter P sorted) `sublist_of` sorted).
  { intros n P. etransitivity; [apply sublist_take | apply sublist_filter]. }
  assert (Hmem : forall n (P : ProductRecommendation.recommendation -> bool) e,
            e ∈ take n (filter P sorted) -> P e = true /\ e ∈ sorted).
  { intros n P e He.
    pose proof (elem_of_sublist _ _ _ He (sublist_take (filter P sorted) n)) as He'.
    apply list_elem_of_filter in He' as [HP He'].
    split; [destruct (P e); [reflexivity | contradiction] | exact He']. }
  change (filter _ sorted) with (filter is_highly_recommended sorted) at 1.
  change (filter (fun r => Is_true ((60 <=? _) && _)) sorted)
    with (filter is_good_option sorted).
  change (filter (fun r => Is_true ((40 <=? _) && _)) sorted)
    with (filter is_for_later sorted).
  split.
  { repeat split; try (rewrite length_take; lia).
    destruct (take 3 sorted) as [| first [| second rest]]; cbn; lia. }
  split.
  { repeat constructor.
    all: try (eapply StronglySorted_sublist; [apply Hcat |];
              eapply StronglySorted_weaken; [| exact Hsorted];
              intros a b; apply by_fit_score_spec).
    all: apply Forall_forall; intros e He; apply Hmem in He as [_ He];
         destruct (Hspec e He) as (H1 & _ & _ & _ & H2); split; assumption. }
  split; [| split].
  - apply Forall_forall. intros e He. apply Hmem in He as [HP He].
    apply is_highly_recommended_spec in HP.
    destruct (Hspec e He) as (_ & Hpos & Hcap & Hst & _).
    destruct (_get_qualification_status_bands (ProductRecommendation.fit_score e))
      as (B1 & _).
    split; [exact HP |]. split; [rewrite Hst; exact (B1 HP) |].
    destruct (ProductRecommendation.fp_type (ProductRecommendation.product e));
      cbn [fit_score_cap] in Hcap; try reflexivity; exfalso; lra.
  - apply Forall_forall. intros e He. apply Hmem in He as [HP He].
    apply is_good_option_spec in HP. destruct HP as [Hlo Hhi].
    destruct (Hspec e He) as (_ & Hpos & Hcap & Hst & _).
    destruct (_get_qualification_status_bands (ProductRecommendation.fit_score e))
      as (_ & B2 & _).
    split; [exact Hlo |]. split; [exact Hhi |].
    split; [rewrite Hst; exact (B2 Hlo Hhi) |].
    destruct (ProductRecommendation.fp_type (ProductRecommendation.product e));
      cbn [fit_score_cap] in Hcap; try (left; reflexivity);
      try (right; reflexivity); exfalso; lra.
  - apply Forall_forall. intros e He. apply Hmem in He as [HP He].
    apply is_for_later_spec in HP. destruct HP as [Hlo Hhi].
    destruct (Hspec e He) as (_ & Hpos & Hcap & Hst & _).
    destruct (_get_qualification_status_bands (ProductRecommendation.fit_score e))
      as (_ & _ & B3 & _).
    split; [exact Hlo |]. split; [exact Hhi |].
    split; [rewrite Hst; exact (B3 Hlo Hhi) |].
    intros Htype. rewrite Htype in Hcap. cbn [fit_score_cap] in Hcap. lra.
Qed.

(** ** Business insights *)

Lemma by_priority_spec (a b : BusinessInsights.alert) :
  by_priority a b = true
  <-> (BusinessInsights.priority a <= BusinessInsights.priority b)%Z.
Proof. unfold by_priority. apply Z.leb_le. Qed.

Lemma by_priority_total (a b : BusinessInsights.alert) :
  by_priority a b = true \/ by_priority b a = true.
Proof. rewrite !by_priority_spec. lia. Qed.

Lemma by_priority_trans (a b c : BusinessInsights.alert) :
  by_priority a b = true -> by_priority b c = true -> by_priority a c = true.
Proof. rewrite !by_priority_spec. lia. Qed.

(** The alerts are the first six of the sorted alerts that fired. *)
Lemma get_risk_alerts_fired (health_score : BusinessInsights.health_score_data) :
  BusinessInsights.get_risk_alerts health_score
  = take 6 (list_sort by_priority (fired_alerts health_score)).
Proof.
  unfold BusinessInsights.get_risk_alerts, fired_alerts, cash_alerts, debt_alerts,
    margin_alerts, liquidity_alerts, cycle_alerts, health_alerts, profit_alerts.
  cbv zeta.
  repeat match goal with
         | |- context [if ?c then _ else _] => destruct c
         end; reflexivity.
Qed.

(** At most six alerts fire: a thin or negative margin and an excellent one
    exclude each other. *)
Lemma fired_alerts_length (health_score : BusinessInsights.health_score_data) :
  (length (fired_alerts health_score) <= 6)%nat.
Proof.
  unfold fired_alerts. cbv zeta. rewrite !length_app.
  set (metrics := default ∅ (BusinessInsights.hs_metrics health_score)).
  assert (H1 : forall x, (length (cash_alerts x) <= 1)%nat)
    by (intros x; unfold cash_alerts; repeat destruct (_ <? _); simpl; lia).
  assert (H2 : forall x, (length (debt_alerts x) <= 1)%nat)
    by (intros x; unfold debt_alerts; repeat destruct (_ >? _); simpl; lia).
  assert (H4 : forall x, (length (liquidity_alerts x) <= 1)%nat)
    by (intros x; unfold liquidity_alerts; repeat destruct (_ <? _); simpl; lia).
  assert (H5 : forall x, (length (cycle_alerts x) <= 1)%nat)
    by (intros x; unfold cycle_alerts; destruct (_ >? _); simpl; lia).
  assert (H6 : forall x, (length (health_alerts x) <= 1)%nat)
    by (intros x; unfold health_alerts; destruct (_ >=? _); simpl; lia).
  assert (H37 : forall x, (length (margin_alerts x) + length (profit_alerts x) <= 1)%nat).
  { intros x. unfold margin_alerts, profit_alerts. split_cmp; simpl; try lia; lra. }
  specialize (H1 (dict_get metrics "cash_runway_days" 180)).
  specialize (H2 (dict_get metrics "debt_to_equity" 0)).
  specialize (H4 (dict_get metrics "current_ratio" 1)).
  specialize (H5 (dict_get metrics "working_capital_cycle" 0)).
  specialize (H6 (default 50 (BusinessInsights.hs_overall_score health_score))).
  specialize (H37 (dict_get metrics "net_margin" 0)).
  lia.
Qed.

(** So the cut to six alerts removes nothing. *)
Lemma get_risk_alerts_sorted (health_score : BusinessInsights.health_score_data) :
  BusinessInsights.get_risk_alerts health_score
  = list_sort by_priority (fired_alerts health_score).
Proof.
  rewrite get_risk_alerts_fired. apply take_ge.
  destruct (list_sort_spec by_priority by_priority_total by_priority_trans
              (fired_alerts health_score)) as [Hp _].
  rewrite (Permutation_length Hp). apply fired_alerts_length.
Qed.
Section AlertGroups.

Local Ltac group_titles :=
  intros; split;
  [ intros Hin; apply list_elem_of_In in Hin; simpl in Hin;
    intuition (subst; try discriminate; try lra; auto)
  | intros Hin; apply list_elem_of_In; simpl;
    intuition (subst; try discriminate; try lra; auto) ].

Lemma cash_alerts_titles (x : Q) (t : string) :
  t ∈ map BusinessInsights.title (cash_alerts x)
  <-> (t = "Cash Runway Critical" /\ x < 90) \/
      (t = "Cash Runway Low" /\ 90 <= x /\ x < 180).
Proof. unfold cash_alerts. split_cmp; group_titles. Qed.

Lemma debt_alerts_titles (x : Q) (t : string) :
  t ∈ map BusinessInsights.title (debt_alerts x)
  <-> (t = "High Debt Burden" /\ 2 < x) \/
      (t = "Elevated Debt Levels" /\ 1 < x /\ x <= 2).
Proof. unfold debt_alerts. split_cmp; group_titles. Qed.

Lemma margin_alerts_titles (x : Q) (t : string) :
  t ∈ map BusinessInsights.title (margin_alerts x)
  <-> (t = "Operating at Loss" /\ x < 0) \/
      (t = "Thin Profit Margins" /\ 0 <= x /\ x < 5).
Proof. unfold margin_alerts. split_cmp; group_titles. Qed.

Lemma liquidity_alerts_titles (x : Q) (t : string) :
  t ∈ map BusinessInsights.title (liquidity_alerts x)
  <-> (t = "Liquidity Crisis" /\ x < 1) \/
      (t = "Tight Liquidity" /\ 1 <= x /\ x < 1.5).
Proof. unfold liquidity_alerts. split_cmp; group_titles. Qed.

Lemma cycle_alerts_titles (x : Q) (t : string) :
  t ∈ map BusinessInsights.title (cycle_alerts x)
  <-> t = "Long Cash Conversion Cycle" /\ 90 < x.
Proof. unfold cycle_alerts. split_cmp; group_titles. Qed.

Lemma health_alerts_titles (x : Q) (t : string) :
  t ∈ map BusinessInsights.title (health_alerts x)
  <-> t = "Strong Financial Health" /\ 75 <= x.
Proof. unfold health_alerts. split_cmp; group_titles. Qed.

Lemma profit_alerts_titles (x : Q) (t : string) :
  t ∈ map BusinessInsights.title (profit_alerts x)
  <-> t = "Excellent Profitability" /\ 15 < x.
Proof. unfold profit_alerts. split_cmp; group_titles. Qed.

End AlertGroups.

(** The titles of the alerts: an alert is reported exactly when its rule
    fires. *)
Lemma alert_titles_spec (health_score : BusinessInsights.health_score_data)
    (t : string) :
  let metrics := default ∅ (BusinessInsights.hs_metrics health_score) in
  let cash_runway := dict_get metrics "cash_runway_days" 180 in
  let debt_to_equity := dict_get metrics "debt_to_equity" 0 in
  let net_margin := dict_get metrics "net_margin" 0 in
  let current_ratio := dict_get metrics "current_ratio" 1 in
  let wc_cycle := dict_get metrics "working_capital_cycle" 0 in
  let overall_score := default 50 (BusinessInsights.hs_overall_score health_score) in
  t ∈ alert_titles health_score
  <-> ((t = "Cash Runway Critical" /\ cash_runway < 90) \/
       (t = "Cash Runway Low" /\ 90 <= cash_runway /\ cash_runway < 180)) \/
      ((t = "High Debt Burden" /\ 2 < debt_to_equity) \/
       (t = "Elevated Debt Levels" /\ 1 < debt_to_equity /\ debt_to_equity <= 2)) \/
      ((t = "Operating at Loss" /\ net_margin < 0) \/
       (t = "Thin Profit Margins" /\ 0 <= net_margin /\ net_margin < 5)) \/
      ((t = "Liquidity Crisis" /\ current_ratio < 1) \/
       (t = "Tight Liquidity" /\ 1 <= current_ratio /\ current_ratio < 1.5)) \/
      (t = "Long Cash Conversion Cycle" /\ 90 < wc_cycle) \/
      (t = "Strong Financial Health" /\ 75 <= overall_score) \/
      (t = "Excellent Profitability" /\ 15 < net_margin).
Proof.
  cbv zeta. unfold alert_titles. rewrite get_risk_alerts_sorted.
  destruct (list_sort_spec by_priority by_priority_total by_priority_trans
              (fired_alerts health_score)) as [Hp _].
  rewrite Hp. unfold fired_alerts. cbv zeta.
  rewrite !map_app, !elem_of_app.
  rewrite cash_alerts_titles, debt_alerts_titles, margin_alerts_titles,
    liquidity_alerts_titles, cycle_alerts_titles, health_alerts_titles,
    profit_alerts_titles.
  reflexivity.
Qed.

Lemma fired_alerts_titles_NoDup (health_score : BusinessInsights.health_score_data) :
  NoDup (map BusinessInsights.title (fired_alerts health_score)).
Proof.
  apply (sublist_NoDup _
           [ "Cash Runway Critical"; "Cash Runway Low"; "High Debt Burden";
             "Elevated Debt Levels"; "Operating at Loss"; "Thin Profit Margins";
             "Liquidity Crisis"; "Tight Liquidity"; "Long Cash Conversion Cycle";
             "Strong Financial Health"; "Excellent Profitability" ]).
  - apply NoDup_ListNoDup. repeat constructor; simpl; intuition discriminate.
  - unfold fired_alerts. cbv zeta. rewrite !map_app.
    change [ "Cash Runway Critical"; "Cash Runway Low"; "High Debt Burden";
             "Elevated Debt Levels"; "Operating at Loss"; "Thin Profit Margins";
             "Liquidity Crisis"; "Tight Liquidity"; "Long Cash Conversion Cycle";
             "Strong Financial Health"; "Excellent Profitability" ]
      with ([ "Cash Runway Critical"; "Cash Runway Low" ]
            ++ [ "High Debt Burden"; "Elevated Debt Levels" ]
            ++ [ "Operating at Loss"; "Thin Profit Margins" ]
            ++ [ "Liquidity Crisis"; "Tight Liquidity" ]
            ++ [ "Long Cash Conversion Cycle" ]
            ++ [ "Strong Financial Health" ]
            ++ [ "Excellent Profitability" ])%list.
    repeat apply sublist_app.
    all: unfold cash_alerts, debt_alerts, margin_alerts, liquidity_alerts,
           cycle_alerts, health_alerts, profit_alerts.
    all: repeat match goal with
                | |- context [if ?c then _ else _] => destruct c
                end; cbn [map BusinessInsights.title].
    all: repeat first [ apply sublist_nil | apply sublist_skip | apply sublist_cons ].
Qed.

Lemma fired_alerts_critical (health_score : BusinessInsights.health_score_data) :
  Forall (fun a => (BusinessInsights.alert_type a = "critical"
                    <-> BusinessInsights.priority a = 1%Z) /\
                   BusinessInsights.alert_type a
                     ∈ ["critical"; "warning"; "success"])
         (fired_alerts health_score).
Proof.
  unfold fired_alerts. cbv zeta. rewrite !Forall_app.
  unfold cash_alerts, debt_alerts, margin_alerts, liquidity_alerts,
    cycle_alerts, health_alerts, profit_alerts.
  repeat split.
  all: repeat match goal with
              | |- context [if ?c then _ else _] => destruct c
              end.
  all: repeat (apply List.Forall_cons;
               [cbn; split;
                [split; intros H; first [reflexivity | discriminate H]
                | apply list_elem_of_In; simpl; tauto] |]).
  all: apply List.Forall_nil.
Qed.

(** When each alert is reported. *)
Lemma alert_conditions (health_score : BusinessInsights.health_score_data) :
  let metrics := default ∅ (BusinessInsights.hs_metrics health_score) in
  let cash_runway := dict_get metrics "cash_runway_days" 180 in
  let debt_to_equity := dict_get metrics "debt_to_equity" 0 in
  let net_margin := dict_get metrics "net_margin" 0 in
  let current_ratio := dict_get metrics "current_ratio" 1 in
  let wc_cycle := dict_get metrics "working_capital_cycle" 0 in
  let overall_score := default 50 (BusinessInsights.hs_overall_score health_score) in
  ("Cash Runway Critical" ∈ alert_titles health_score <-> cash_runway < 90) /\
  ("Cash Runway Low" ∈ alert_titles health_score
   <-> 90 <= cash_runway /\ cash_runway < 180) /\
  ("High Debt Burden" ∈ alert_titles health_score <-> 2 < debt_to_equity) /\
  ("Elevated Debt Levels" ∈ alert_titles health_score
   <-> 1 < debt_to_equity /\ debt_to_equity <= 2) /\
  ("Operating at Loss" ∈ alert_titles health_score <-> net_margin < 0) /\
  ("Thin Profit Margins" ∈ alert_titles health_score
   <-> 0 <= net_margin /\ net_margin < 5) /\
  ("Liquidity Crisis" ∈ alert_titles health_score <-> current_ratio < 1) /\
  ("Tight Liquidity" ∈ alert_titles health_score
   <-> 1 <= current_ratio /\ current_ratio < 1.5) /\
  ("Long Cash Conversion Cycle" ∈ alert_titles health_score <-> 90 < wc_cycle) /\
  ("Strong Financial Health" ∈ alert_titles health_score <-> 75 <= overall_score) /\
  ("Excellent Profitability" ∈ alert_titles health_score <-> 15 < net_margin).
Proof.
  cbv zeta.
  pose proof (alert_titles_spec health_score) as Ht. cbv zeta in Ht.
  rewrite !Ht.
  repeat match goal with |- _ /\ _ => split end;
    split; intros H; intuition (try discriminate; try lra; auto).
Qed.

(** X28.  Every risk alert whose rule fires is reported: at most six rules
    can fire together, since the alerts for a thin and for an excellent
    margin exclude each other, so the cut to six alerts removes nothing.  The
    alerts are in ascending order of priority and have distinct titles; an
    alert is critical exactly when its priority is 1; and the four critical
    alerts are reported exactly for a cash runway below 90 days, a
    debt-to-equity ratio above 2, a negative net margin and a current ratio
    below 1 (a missing metric counts as 180, 0, 0 and 1). *)
Theorem risk_alerts_never_cut (health_score : BusinessInsights.health_score_data) :
  let metrics := default ∅ (BusinessInsights.hs_metrics health_score) in
  let alerts := BusinessInsights.get_risk_alerts health_score in
  alerts ≡ₚ fired_alerts health_score /\
  (length alerts <= 6)%nat /\
  StronglySorted (fun a b => (BusinessInsights.priority a
                              <= BusinessInsights.priority b)%Z) alerts /\
  NoDup (alert_titles health_score) /\
  Forall (fun a => (BusinessInsights.alert_type a = "critical"
                    <-> BusinessInsights.priority a = 1%Z) /\
                   BusinessInsights.alert_type a
                     ∈ ["critical"; "warning"; "success"]) alerts /\
  ("Cash Runway Critical" ∈ alert_titles health_score
   <-> dict_get metrics "cash_runway_days" 180 < 90) /\
  ("High Debt Burden" ∈ alert_titles health_score
   <-> 2 < dict_get metrics "debt_to_equity" 0) /\
  ("Operating at Loss" ∈ alert_titles health_score
   <-> dict_get metrics "net_margin" 0 < 0) /\
  ("Liquidity Crisis" ∈ alert_titles health_score
   <-> dict_get metrics "current_ratio" 1 < 1).
Proof.
  cbv zeta.
  destruct (alert_conditions health_score)
    as (M1 & _ & M3 & _ & M5 & _ & M7 & _).
  cbv zeta in M1, M3, M5, M7.
  split; [| split; [| split; [| split; [| split]]]].
  6: { repeat split; first [apply M1 | apply M3 | apply M5 | apply M7]. }
  all: unfold alert_titles; rewrite get_risk_alerts_sorted.
  all: destruct (list_sort_spec by_priority by_priority_total by_priority_trans
                   (fired_alerts health_score)) as [Hp Hs].
  - exact Hp.
  - rewrite (Permutation_length Hp). apply fired_alerts_length.
  - eapply StronglySorted_weaken; [| exact Hs]. intros a b. apply by_priority_spec.
  - rewrite Hp. apply fired_alerts_titles_NoDup.
  - rewrite Hp. apply fired_alerts_critical.
Qed.
(** The colours of the five metric insights. *)
Lemma insight_colors (health_score : BusinessInsights.health_score_data) :
  let metrics := default ∅ (BusinessInsights.hs_metrics health_score) in
  let cash_runway := dict_get metrics "cash_runway_days" 180 in
  let debt_to_equity := dict_get metrics "debt_to_equity" 0 in
  let net_margin := dict_get metrics "net_margin" 0 in
  let current_ratio := dict_get metrics "current_ratio" 1 in
  let wc_cycle := dict_get metrics "working_capital_cycle" 0 in
  insight_color health_score "Overall Health"
  = Some (BusinessInsights._get_score_color
            (default 50 (BusinessInsights.hs_overall_score health_score))) /\
  insight_color health_score "Cash Position"
  = Some (if cash_runway >? 180 then "success"
          else if cash_runway >? 90 then "warning" else "danger") /\
  insight_color health_score "Debt Health"
  = Some (if debt_to_equity <? 0.5 then "success"
          else if debt_to_equity <? 1.5 then "warning" else "danger") /\
  insight_color health_score "Profitability"
  = Some (if net_margin >? 10 then "success"
          else if net_margin >? 0 then "warning" else "danger") /\
  insight_color health_score "Bill Paying Ability"
  = Some (if current_ratio >? 2 then "success"
          else if current_ratio >? 1 then "warning" else "danger") /\
  insight_color health_score "Cash Efficiency"
  = Some (if wc_cycle <? 60 then "success"
          else if wc_cycle <? 90 then "warning" else "danger").
Proof. cbv zeta. repeat split; reflexivity. Qed.

(** X29.  The risk alerts and the colours of the insights never contradict
    each other.  Whenever a critical alert is reported for the cash runway,
    the debt, the net margin or the current ratio, or the warning for the
    working capital cycle, the insight of that metric is coloured danger;
    whenever an insight is coloured success, neither the critical alert nor
    the warning of its metric is reported (an alert of a strength, such as
    that of an excellent profitability, may well accompany it); and an
    overall health insight coloured success goes with the alert of a strong
    financial health. *)
Theorem alerts_agree_with_insights
    (health_score : BusinessInsights.health_score_data) :
  (("Cash Runway Critical" ∈ alert_titles health_score ->
    insight_color health_score "Cash Position" = Some "danger") /\
   ("High Debt Burden" ∈ alert_titles health_score ->
    insight_color health_score "Debt Health" = Some "danger") /\
   ("Operating at Loss" ∈ alert_titles health_score ->
    insight_color health_score "Profitability" = Some "danger") /\
   ("Liquidity Crisis" ∈ alert_titles health_score ->
    insight_color health_score "Bill Paying Ability" = Some "danger") /\
   ("Long Cash Conversion Cycle" ∈ alert_titles health_score ->
    insight_color health_score "Cash Efficiency" = Some "danger")) /\
  ((insight_color health_score "Cash Position" = Some "success" ->
    ("Cash Runway Critical" ∉ alert_titles health_score) /\
    "Cash Runway Low" ∉ alert_titles health_score) /\
   (insight_color health_score "Debt Health" = Some "success" ->
    ("High Debt Burden" ∉ alert_titles health_score) /\
    "Elevated Debt Levels" ∉ alert_titles health_score) /\
   (insight_color health_score "Profitability" = Some "success" ->
    ("Operating at Loss" ∉ alert_titles health_score) /\
    "Thin Profit Margins" ∉ alert_titles health_score) /\
   (insight_color health_score "Bill Paying Ability" = Some "success" ->
    ("Liquidity Crisis" ∉ alert_titles health_score) /\
    "Tight Liquidity" ∉ alert_titles health_score) /\
   (insight_color health_score "Cash Efficiency" = Some "success" ->
    "Long Cash Conversion Cycle" ∉ alert_titles health_score)) /\
  (insight_color health_score "Overall Health" = Some "success" ->
   "Strong Financial Health" ∈ alert_titles health_score).
Proof.
  destruct (alert_conditions health_score)
    as (M1 & M2 & M3 & M4 & M5 & M6 & M7 & M8 & M9 & M10 & _).
  cbv zeta in M1, M2, M3, M4, M5, M6, M7, M8, M9, M10.
  destruct (insight_colors health_score) as (C0 & C1 & C2 & C3 & C4 & C5).
  cbv zeta in C1, C2, C3, C4, C5.
  rewrite C0, C1, C2, C3, C4, C5, M1, M2, M3, M4, M5, M6, M7, M8, M9, M10.
  clear C0 C1 C2 C3 C4 C5 M1 M2 M3 M4 M5 M6 M7 M8 M9 M10.
  unfold BusinessInsights._get_score_color.
  set (metrics := default ∅ (BusinessInsights.hs_metrics health_score)).
  set (cash_runway := dict_get metrics "cash_runway_days" 180).
  set (debt_to_equity := dict_get metrics "debt_to_equity" 0).
  set (net_margin := dict_get metrics "net_margin" 0).
  set (current_ratio := dict_get metrics "current_ratio" 1).
  set (wc_cycle := dict_get metrics "working_capital_cycle" 0).
  set (overall_score := default 50 (BusinessInsights.hs_overall_score health_score)).
  clearbody cash_runway debt_to_equity net_margin current_ratio wc_cycle
    overall_score.
  repeat match goal with |- _ /\ _ => split end.
  all: split_cmp; intros; try reflexivity; try discriminate;
       repeat match goal with |- _ /\ _ => split end; try lra;
       try (intros ?; lra).
Qed.


(** ** The summary of the health score *)

(** The band of a score rounded to one place, against the band of the
    score. *)
Lemma rounded_score_band (x : Q) :
  let y := Py.round x 1 in
  _calculate_risk_level y = _calculate_risk_level x \/
  ((y == 75 \/ y == 55 \/ y == 35) /\ x < y /\
   risk_rank (_calculate_risk_level y) = S (risk_rank (_calculate_risk_level x))).
Proof.
  cbv zeta.
  assert (Hup : forall b : Z, inject_Z b <= x -> inject_Z b <= Py.round x 1)
    by (intros b; apply round_ge_Z).
  assert (Hdn : forall b : Z, x <= inject_Z b -> Py.round x 1 <= inject_Z b)
    by (intros b; apply round_le_Z).
  pose proof (Hup 75%Z) as U75. pose proof (Hup 55%Z) as U55.
  pose proof (Hup 35%Z) as U35.
  pose proof (Hdn 75%Z) as D75. pose proof (Hdn 55%Z) as D55.
  pose proof (Hdn 35%Z) as D35.
  change (inject_Z 75) with 75 in *. change (inject_Z 55) with 55 in *.
  change (inject_Z 35) with 35 in *. clear Hup Hdn.
  set (y := Py.round x 1) in *. clearbody y.
  unfold _calculate_risk_level.
  destruct (geb_cases x 75) as [[-> ?] | [-> ?]];
    [| destruct (geb_cases x 55) as [[-> ?] | [-> ?]];
       [| destruct (geb_cases x 35) as [[-> ?] | [-> ?]]]];
  (destruct (geb_cases y 75) as [[-> ?] | [-> ?]];
    [| destruct (geb_cases y 55) as [[-> ?] | [-> ?]];
       [| destruct (geb_cases y 35) as [[-> ?] | [-> ?]]]]).
  all: try (left; reflexivity).
  all: try (exfalso; lra).
  all: right; split; [| split; [lra | reflexivity]].
  all: first [ left; lra | right; left; lra | right; right; lra ].
Qed.

(** X30.  The summary of a health score quotes the grade of the result, and
    the condition it names is the risk band of the rounded overall score.
    The risk level of the result is the band of the score before rounding:
    the two agree unless the score is rounded up to exactly 75, 55 or 35, in
    which case the summary names the condition one band better than the risk
    level. *)
Theorem summary_follows_rounded_score (metrics : gmap string Q) (industry : string) :
  let result := calculate_health_score metrics industry in
  let summary := _generate_summary result in
  quoted_grade summary = grade result /\
  risk_of_condition (condition summary) = _calculate_risk_level (overall_score result) /\
  (risk_of_condition (condition summary) = risk_level result \/
   ((overall_score result == 75 \/ overall_score result == 55 \/
     overall_score result == 35) /\
    risk_rank (risk_of_condition (condition summary))
    = S (risk_rank (risk_level result)))).
Proof.
  cbv zeta.
  assert (Hc : forall r, risk_of_condition (condition (_generate_summary r))
                         = _calculate_risk_level (overall_score r)).
  { intros r. unfold _generate_summary, _calculate_risk_level.
    cbn [condition]. split_cmp; reflexivity. }
  split; [reflexivity |]. split; [apply Hc |].
  rewrite Hc. unfold calculate_health_score. cbn [overall_score risk_level].
  match goal with
  | |- context [Py.round ?x 1] => destruct (rounded_score_band x) as [H | (H1 & _ & H2)]
  end; [left; exact H | right; split; assumption].
Qed.
